(* ===== verification/_CoqProject ===== *)
-Q . S2P
Prelude.v
Numeric.v
SqueezeExcite.v
Labels.v
Keras.v
Network.v
Forward.v
Inference.v
Preprocess.v
Sampling.v
Backend.v
Metrics.v
Pipeline.v
Training.v
Pairing.v
Evaluation.v
Failures.v
Invariants.v
Session.v
GraphBackend.v
TrainingLoop.v
TrainedModel.v
