(* ===== verification/Prelude.v ===== *)
(** * CATT-Net: a verification development for src/model.py

    The program is one Python class, [HybridLSTMTransformerModel]
    (src/model.py), a classification pipeline: labels are encoded, classes
    are balanced by over-sampling, the samples are split into a training and
    a validation part, the features are standardised, reduced by PCA and
    recalibrated by a squeeze-and-excitation block written in numpy, and a
    Keras model (LSTM, transformer block, additive attention, LSTM, dense
    head) is built and trained on them.  [predict] runs the fitted scaler
    and reducer, the recalibration and the model, and decodes the arg-max of
    its output; [evaluate] and the two plot methods report on predictions.

    ** The model

    Python code is embedded shallowly.  A method that may raise returns a
    [result]; a method that also mutates the object or draws random numbers
    is a program of the monad [stateE S], a function from the state before
    to an outcome and the state after; the state reached when an exception
    is raised is kept, as Python keeps it.  Each file models one part:

    - [Prelude] (this file): the exceptions [exn], the monads [result] and
      [stateE] with their laws, the lens [zoom] for a method call on an
      attribute, the program logic ([returns] for total correctness, [hoare]
      with a postcondition for the raising outcome, [frames] for invariants
      that hold whatever the outcome, [readonly]), rectangular nested lists,
      the hint databases [catt] and [catt_len], the tactics [inv_result] and
      [len_solve].
    - [Numeric]: arrays of rank 2 and 3 ([ndarray2], [ndarray3]) with every
      numpy call the class makes: [reshape_to3] and [reshape_to2]
      (lines 106, 125), [np_mean_axis1] (109), [np_dot], [relu], [sigmoid]
      (116, 120), [np_mul] (123), [np_random_normal] on the generator [rng]
      of [np.random] (115, 119) with the order [advanced] between two states
      of the generator, [newaxis_last] (284-285, 336), [np_unique]
      in [Labels] (288), [np_eye], [take_rows], [one_hot] (289-290) and
      [np_argmax_axis1] (342).
    - [SqueezeExcite]: [squeeze_and_excitation] (lines 89-125) statement by
      statement, and its row-wise specification [se_spec].
    - [Labels]: scikit-learn's [LabelEncoder]: [label_encoder_fit_transform],
      [label_encoder_transform], [label_encoder_inverse_transform]; the
      position of a label among the sorted classes, [label_position], is
      monotone, which carries orders and counts from labels to indices.
    - [Keras]: the functional API: the imported layer classes [layer]
      (lines 18-21), symbolic tensors, the shape rule of each layer
      [layer_output_shape], and [call_layer], which appends a node to the
      graph under construction or raises; the logic [builds] for builders.
    - [Network]: [transformer_block] (127-156), [additive_attention]
      (158-181) and [build_model] (183-228) over the hyper-parameters
      [hyperparams] stored by [__init__] (53-58).
    - [Forward]: the values computed by the four layers of
      [additive_attention], [additive_attention_forward] (177-181).
    - [Inference]: the values the network computes for one sample at
      inference: the layers ([layer_values]), the transformer block
      ([transformer_values], 141-156), the body of [build_model] as a
      function of the weights ([model_forward], 205-219), and the
      interpreter [graph_values] of the graph that [build_model]
      constructs; the cells of [LSTM] and [MultiHeadAttention] are the
      interface [LayerValues].
    - [Preprocess]: [StandardScaler] and [PCA]: [scaler_fit_transform],
      [scaler_transform], [pca_fit_transform], [pca_transform]; the
      eigen-solver is the interface [PCASolver].
    - [Sampling]: [RandomOverSampler.fit_resample] and [train_test_split] as
      the selection of row indices, [fit_resample_indices] and
      [train_test_split_indices]; the seeded random choices are the
      interface [RandomOracle].
    - [Backend]: [Model.fit] and [Model.predict] as [fit] and [predict]
      call them (300-305, 339), [model_fit] and [model_predict], with the
      checks they make in the order Keras makes them (samples against
      targets, then the shapes against the model unless there is no epoch
      to run) and the default [batch_size_or_default] that replaces a
      batch size of zero; the [History] with the
      lookup [history_item] of [plot_training_history] (399-408); training
      and the forward pass are the interface [KerasBackend].
    - [Metrics]: [confusion_matrix], [accuracy_score] and the per-class and
      averaged rows of [classification_report], over exact rationals;
      [trace] and [diagonal] state what a matrix says of the predictions.
    - [Pipeline]: the object [HybridLSTMTransformerModel] with the
      attributes of [__init__] (33-63), and the methods [apply_pca] (65-87),
      [fit] (230-307, in the blocks [fit_data], [fit_features],
      [fit_targets], [fit_model]), [predict] (309-347), [evaluate]
      (349-382), [plot_training_history] (384-415) and
      [plot_confusion_matrix] (417-446), as programs over [world], the
      object together with the generator of [np.random]; sequences of
      method calls as the relation [reachable] and as the fold [run_calls]
      over a list of [call]s; the usage example (453-480) as the program
      [usage_example] on the object [usage_model].
    - [GraphBackend]: the implementation of [KerasBackend] whose forward
      pass is the interpreter of [Inference], for any initial weights and
      any optimiser; its weights are the [variables] of the model, the
      weights of the layers and the step counter of the optimiser.
    - [TrainingLoop]: the training call as the loop of [Model.fit]:
      [epochs_loop] over the epochs, [train_epoch] over the [batches] of
      the shuffled samples, one step of the [Optimizer] per batch, and
      [test_metrics] on the validation data after each epoch;
      [loop_backend] is [GraphBackend] with this loop.
    - [TrainedModel]: what holds of the model in every state the object
      reaches with [loop_backend].
    - [Training]: what [apply_pca], [fit], [predict] and the history plot
      compute when their arguments are admissible.
    - [Pairing]: which rows and labels reach training and validation.
    - [Evaluation]: what [evaluate] and [plot_confusion_matrix] report.
    - [Failures]: the state a [fit] that raises leaves behind.
    - [Invariants]: what the methods preserve.
    - [Session]: the usage example from construction to the last plot.

    ** The theorems

    - Channel recalibration ([SqueezeExcite]): the code refines [se_spec]
      and returns an array of the input's shape; the squeeze is the
      identity; every entry is scaled by a factor in (0, 1); rows are
      recalibrated independently; the number of draws; the error for a zero
      ratio; two calls on the same input can differ.
    - Architecture ([Network], [Forward], [Inference]): [build_model]
      returns a well-formed graph with the requested input shape and one
      output per class exactly when the hyper-parameters are admissible;
      the graph in closed form ([model_graph]); the additive attention
      returns its value argument for all weights, so the class scores of
      the model are those of the network without the attention block
      ([network_values]) and do not depend on the query, key, score and
      weight layers: weights that agree on the other layers are related by
      the equivalence [same_off_attention], which [network_values]
      respects; every tensor of the graph has a value of the shape
      recorded for it; the scores of a sample are positive and add up to
      one.  With inference by the graph ([GraphBackend]) the labels
      [predict] returns do not depend on those layers either, and this
      holds in every state the object reaches ([TrainedModel]).
    - Data preparation ([Sampling], [Preprocess], [Training], [Pairing]):
      the over-sampler equalises the class counts and keeps the given
      samples in front; the split partitions the samples; the scaler gives
      every column mean zero and variance one, a constant column variance
      zero; [apply_pca] replaces the reducer by one fitted on the training
      array, and the components it returns for that array have mean zero
      for any axes, as the rows are centred before they are projected.
      Rows and targets are selected by the same positions, so every
      row stays paired with its label; the training part of a balanced set
      need not be balanced, and a sample can reach the training and the
      validation part at once.
    - The pipeline ([Training]): a [fit] that its arguments allow returns
      normally and makes [predict] return one seen label per row; the guards
      of [predict] and [plot_training_history]; the curves of the history
      plot have one point per epoch.
    - Training ([TrainingLoop], [TrainedModel]): termination with the
      number of steps: [fit] returns after [epochs] times
      [ceil(n / batch_size)] further steps of the optimiser on the [n]
      training rows, every sample being in one batch of each epoch, with
      weights that still fit the layers; the validation accuracies of the
      history are fractions; after any sequence of calls the model is one
      [build_model] returns for the hyper-parameters of the constructor,
      with weights that fit its layers.
    - Failing calls ([Failures]): the state [fit] leaves behind when it
      raises (single class, a validation fraction outside (0, 1), too many
      components, another number of classes), and that such a [fit] makes
      a [predict] raise that returned before; a batch size of zero is the
      default batch size, and a [fit] of no epoch returns with a history
      that [plot_training_history] cannot draw.
    - Reports ([Evaluation]): [evaluate] accounts for every sample, its
      accuracy is the trace of its matrix over the number of rows and the
      weighted-average recall of its report, and on the labels [predict]
      returns the matrix is diagonal; for seen labels the matrices of
      [evaluate] and [plot_confusion_matrix] agree, for an unseen label
      the first raises and the second returns.
    - Invariants ([Invariants]): every reachable object is [consistent];
      [fit] never replaces a model; [predict] changes no attribute; no
      sequence of calls reseeds or rewinds the generator of [np.random].
    - The session ([Session]): on data that [fit] accepts the usage example
      runs through its five calls without raising, with the sizes of every
      result.
    - Encoding ([Labels], [Numeric]): labels and class indices survive
      encoding and decoding; one-hot rows and arg-max are inverse.

    ** Assumptions and bounds

    - Python floats are idealised as real numbers ([R]); rates and
      fractions that are only stored and compared are rationals ([Q]).
      Sizes, indices and seeds are natural numbers, so negative arguments
      are outside the model.  No definition uses fuel: the source has no
      loop, and every definition is structurally recursive or a composition
      of list combinators, except [batches] of the training loop, which is
      defined by well-founded recursion on the length of the list it cuts
      and is therefore total as well.
    - Entries of arrays are real-number terms: shapes, indices, labels,
      counts, graphs and errors evaluate by computation, real-valued
      entries are reasoned about with [lra] and the lemmas of [Numeric].
    - The interfaces state what the pipeline relies on: [PCASolver]
      returns [k] axes of the width of the data, [RandomOracle] returns
      choices from the population and a permutation, [KerasBackend] records
      one history entry per epoch and returns one row of class scores per
      sample, [LayerValues] returns states of [units] entries from a
      recurrent layer, one per step or the last one alone, and a value of
      the shape of its query from the attention, [Optimizer] shuffles by a
      permutation and returns weights of the kinds and widths it was
      given.  Theorems hold for every implementation; the instances
      [coordinate_solver], [reference_oracle], [counting_backend],
      [summing_cells] and [rotating_optimizer] show that the interfaces
      can be met and run the examples.
    - [Model.fit] is modelled as the pipeline calls it: with the default
      [shuffle=True], without callbacks, sample weights or a validation
      frequency.  The validation data of the pipeline have the columns and
      the classes of the training data, so the point at which Keras would
      reject them is never reached; [model_fit] checks them with the
      training data.  The theorems of [TrainedModel] assume initial
      weights that fit the layers of the model they are made for, as
      those of Keras do; [default_weights] is such a choice.
    - The forward pass of [Inference] is the pass at inference, where
      [Dropout] returns its input.  The pipeline reaches the model through
      [KerasBackend], whose [forward] is not assumed to be this pass; the
      theorems of [GraphBackend] and [TrainingLoop] are about the
      implementations for which it is.

    ** Not modelled

    - The cells of [LSTM] and [MultiHeadAttention], entered through
      [LayerValues], and what a training step does to the weights
      (back-propagation, the moment estimates of Adam, the dropout masks),
      entered through [Optimizer]: they are the Keras library, and the
      theorems need of them only what the interfaces state.
    - The eigen-decomposition of PCA, entered through [PCASolver], and the
      pseudo-random streams of numpy, entered through [RandomOracle] and
      the tape of [rng].
    - The rendering of figures by matplotlib and seaborn: the plot methods
      are modelled up to the [figure] they return, which records every
      argument they hand over.
    - Of the usage example (lines 448-481, a string literal that is never
      run): reading the CSV file, the selection of columns with pandas and
      the printing of the accuracy.  The example never defines its test
      set; [usage_example] takes it as a parameter. *)

From Stdlib Require Import QArith.
From stdpp Require Export base tactics option list strings.

#[local] Set Warnings "-clear-no-such-hyp".

(** ** Exceptions

    The exception classes that can leave the methods of
    [HybridLSTMTransformerModel].  [ValueError] carries the message, as the
    only exception the source raises itself is told apart from library
    errors of the same class by its text. *)

Inductive exn : Type :=
| ValueError (msg : string)
| NotFittedError (who : string)
| AttributeError (msg : string)
| IndexError (msg : string)
| KeyError (key : string)
| ZeroDivisionError.

#[export] Instance exn_eq_dec : EqDecision exn.
Proof. solve_decision. Defined.

(** ** The error monad *)

Inductive result (A : Type) : Type :=
| Ok (a : A)
| Raise (e : exn).
Arguments Ok {A} a.
Arguments Raise {A} e.

#[export] Instance result_ret : MRet result := fun A x => Ok x.
#[export] Instance result_bind : MBind result := fun A B f m =>
  match m with Ok a => f a | Raise e => Raise e end.
#[export] Instance result_fmap : FMap result := fun A B f m =>
  match m with Ok a => Ok (f a) | Raise e => Raise e end.

Definition is_Ok {A} (m : result A) : Prop := ∃ a, m = Ok a.

Definition is_Okb {A} (m : result A) : bool :=
  match m with Ok _ => true | Raise _ => false end.

#[export] Instance is_Ok_dec {A} (m : result A) : Decision (is_Ok m).
Proof.
  refine (match m with Ok a => left _ | Raise e => right _ end);
    unfold is_Ok; [eauto | intros [? ?]; discriminate].
Defined.

(** [guard_or e b] is Python's [if not b: raise e]. *)
Definition guard_or (e : exn) (b : bool) : result unit :=
  if b then Ok tt else Raise e.

Section result_lemmas.
Context {A B : Type}.
Implicit Types (m : result A) (f : A → result B).

Lemma bind_Ok m f b : m ≫= f = Ok b ↔ ∃ a, m = Ok a ∧ f a = Ok b.
Proof. destruct m; simpl; naive_solver. Qed.

Lemma bind_Raise m f e :
  m ≫= f = Raise e ↔ m = Raise e ∨ ∃ a, m = Ok a ∧ f a = Raise e.
Proof. destruct m; simpl; naive_solver. Qed.

Lemma fmap_Ok (g : A → B) m b : g <$> m = Ok b ↔ ∃ a, m = Ok a ∧ b = g a.
Proof. destruct m; simpl; naive_solver. Qed.

Lemma is_Ok_bind m f : is_Ok (m ≫= f) ↔ ∃ a, m = Ok a ∧ is_Ok (f a).
Proof. unfold is_Ok. setoid_rewrite bind_Ok. naive_solver. Qed.

Lemma is_Ok_Ok (a : A) : is_Ok (Ok a).
Proof. by exists a. Qed.

Lemma is_Okb_spec m : is_Okb m = true ↔ is_Ok m.
Proof. destruct m; unfold is_Ok; simpl; naive_solver. Qed.

Lemma guard_or_Ok e b u : guard_or e b = Ok u ↔ b = true.
Proof. destruct b, u; simpl; naive_solver. Qed.

Lemma guard_or_Raise e b e' : guard_or e b = Raise e' ↔ b = false ∧ e' = e.
Proof. destruct b; simpl; naive_solver. Qed.

Lemma guard_or_pass e b : b = true → guard_or e b = Ok tt.
Proof. by intros ->. Qed.

Lemma guard_or_fail e b : b = false → guard_or e b = Raise e.
Proof. by intros ->. Qed.

Lemma guard_decide_pass e (P : Prop) `{!Decision P} :
  P → guard_or e (bool_decide P) = Ok tt.
Proof. intros. by apply guard_or_pass, bool_decide_eq_true. Qed.

Lemma guard_decide_fail e (P : Prop) `{!Decision P} :
  ¬ P → guard_or e (bool_decide P) = Raise e.
Proof. intros. by apply guard_or_fail, bool_decide_eq_false. Qed.

End result_lemmas.

Section mapM_lemmas.
Context {A B : Type}.

Lemma mapM_Ok_Forall2 (f : A → result B) l k :
  mapM f l = Ok k ↔ Forall2 (fun x y => f x = Ok y) l k.
Proof.
  revert k. induction l as [|x l IH]; intros k; simpl.
  - split; [intros [= <-]; constructor | by inversion 1].
  - split.
    + intros H. apply bind_Ok in H as (y & Hy & H).
      apply bind_Ok in H as (k' & Hk & [= <-]).
      constructor; [done | by apply IH].
    + inversion 1 as [|? y ? k' Hy Hk]; subst.
      rewrite Hy. simpl. apply IH in Hk. by rewrite Hk.
Qed.

Lemma mapM_Ok_length (f : A → result B) l k :
  mapM f l = Ok k → length k = length l.
Proof. intros H. apply mapM_Ok_Forall2, Forall2_length in H. done. Qed.

Lemma mapM_is_Ok (f : A → result B) l :
  Forall (fun x => is_Ok (f x)) l → is_Ok (mapM f l).
Proof.
  induction 1 as [|x l [y Hy] _ [k Hk]]; [by eexists|].
  exists (y :: k). simpl. by rewrite Hy, Hk.
Qed.

Lemma mapM_Ok_post (f : A → result B) (Q : B → Prop) l :
  Forall (fun x => ∃ y, f x = Ok y ∧ Q y) l →
  ∃ k, mapM f l = Ok k ∧ length k = length l ∧ Forall Q k.
Proof.
  induction 1 as [|x l (y & Hy & HQ) _ (k & Hk & Hlen & HQs)]; [by exists []|].
  exists (y :: k). simpl. rewrite Hy, Hk. simpl. by rewrite Hlen; auto.
Qed.

Lemma mapM_Raise_inv (f : A → result B) l e :
  mapM f l = Raise e → ∃ x, x ∈ l ∧ f x = Raise e.
Proof.
  induction l as [|x l IH]; simpl; [done|].
  intros H. apply bind_Raise in H as [H | (y & Hy & H)].
  - exists x. split; [left|done].
  - apply bind_Raise in H as [H | (k & Hk & H)]; [|done].
    destruct (IH H) as (x' & Hin & Hx'). exists x'. split; [by right|done].
Qed.

End mapM_lemmas.

(** ** Rational constants

    The float arguments the program passes around unchanged (rates,
    fractions, step sizes) are rationals; they are only compared. *)

#[export] Instance Q_eq_dec : EqDecision Q.
Proof. solve_decision. Defined.

Definition Qlt_b (a b : Q) : bool := negb (Qle_bool b a).

Lemma Qlt_b_spec a b : Qlt_b a b = true ↔ (a < b)%Q.
Proof.
  unfold Qlt_b. rewrite negb_true_iff, <- not_true_iff_false, Qle_bool_iff.
  split; [apply Qnot_le_lt | apply Qlt_not_le].
Qed.

(** ** The state-and-error monad

    Python code that mutates an object or draws random numbers and may raise
    is a function from the state before to an outcome and the state after.
    The state reached when an exception is raised is kept: Python does not
    roll mutations back. *)

Definition stateE (S A : Type) : Type := S → result A * S.

Section stateE.
Context {S : Type}.

#[export] Instance stateE_ret : MRet (stateE S) := fun A x s => (Ok x, s).
#[export] Instance stateE_bind : MBind (stateE S) := fun A B f m s =>
  match m s with
  | (Ok a, s') => f a s'
  | (Raise e, s') => (Raise e, s')
  end.

Definition get : stateE S S := fun s => (Ok s, s).
Definition put (s : S) : stateE S unit := fun _ => (Ok tt, s).
Definition modify (f : S → S) : stateE S unit := fun s => (Ok tt, f s).
Definition raise {A} (e : exn) : stateE S A := fun s => (Raise e, s).
Definition lift_result {A} (m : result A) : stateE S A := fun s => (m, s).

Lemma stateE_bind_Ok {A B} (m : stateE S A) (f : A → stateE S B) s b s2 :
  (m ≫= f) s = (Ok b, s2) ↔ ∃ a s1, m s = (Ok a, s1) ∧ f a s1 = (Ok b, s2).
Proof.
  unfold mbind, stateE_bind. destruct (m s) as [[a|e] s1]; naive_solver.
Qed.

Lemma stateE_bind_Raise {A B} (m : stateE S A) (f : A → stateE S B) s e s2 :
  (m ≫= f) s = (Raise e, s2) ↔
  m s = (Raise e, s2) ∨ ∃ a s1, m s = (Ok a, s1) ∧ f a s1 = (Raise e, s2).
Proof.
  unfold mbind, stateE_bind. destruct (m s) as [[a|e'] s1]; naive_solver.
Qed.

Lemma stateE_bind_run {A B} (m : stateE S A) (f : A → stateE S B) s a s1 :
  m s = (Ok a, s1) → (m ≫= f) s = f a s1.
Proof. intros Hm. unfold mbind, stateE_bind. by rewrite Hm. Qed.

Lemma stateE_bind_fail {A B} (m : stateE S A) (f : A → stateE S B) s e s1 :
  m s = (Raise e, s1) → (m ≫= f) s = (Raise e, s1).
Proof. intros Hm. unfold mbind, stateE_bind. by rewrite Hm. Qed.

End stateE.

(** [zoom] runs a computation over a part of the state, given how to read
    and write that part. *)
Definition zoom {S T A} (rd : S → T) (wr : T → S → S) (m : stateE T A) :
    stateE S A :=
  fun s => let '(r, t) := m (rd s) in (r, wr t s).

Lemma zoom_run {S T A} (rd : S → T) (wr : T → S → S) (m : stateE T A) s r t :
  m (rd s) = (r, t) → zoom rd wr m s = (r, wr t s).
Proof. intros Hm. unfold zoom. by rewrite Hm. Qed.

Lemma zoom_state {S T A} (rd : S → T) (wr : T → S → S) (m : stateE T A) s :
  (zoom rd wr m s).2 = wr (m (rd s)).2 s.
Proof. unfold zoom. by destruct (m (rd s)). Qed.

(** ** Specifications of stateful programs

    [returns P m Q]: from a state in [P] the program returns normally, with
    a value and a state in [Q].  [hoare P m Q E]: from a state in [P] the
    program ends in [Q] when it returns and in [E] when it raises.
    [frames I m]: whatever the outcome, a state in [I] stays in [I]. *)

Definition returns {S A} (P : S → Prop) (m : stateE S A)
    (Q : A → S → Prop) : Prop :=
  ∀ s, P s → ∃ a s', m s = (Ok a, s') ∧ Q a s'.

Definition hoare {S A} (P : S → Prop) (m : stateE S A)
    (Q : A → S → Prop) (E : S → Prop) : Prop :=
  ∀ s, P s → match m s with
             | (Ok a, s') => Q a s'
             | (Raise _, s') => E s'
             end.

Definition frames {S A} (I : S → Prop) (m : stateE S A) : Prop :=
  hoare I m (fun _ => I) I.

Section specifications.
Context {S : Type}.
Implicit Types (P E : S → Prop).

Lemma returns_ret {A} (Q : A → S → Prop) a : returns (Q a) (mret a) Q.
Proof. intros s Hs. by exists a, s. Qed.

Lemma returns_bind {A B} P (m : stateE S A) Q (f : A → stateE S B) R :
  returns P m Q → (∀ a, returns (Q a) (f a) R) → returns P (m ≫= f) R.
Proof.
  intros Hm Hf s Hs. destruct (Hm s Hs) as (a & s1 & Hrun & Ha).
  rewrite (stateE_bind_run _ _ _ _ _ Hrun). by apply Hf.
Qed.

Lemma returns_conseq {A} P P' (m : stateE S A) (Q Q' : A → S → Prop) :
  returns P m Q → (∀ s, P' s → P s) → (∀ a s, Q a s → Q' a s) →
  returns P' m Q'.
Proof.
  intros Hm HP HQ s Hs. destruct (Hm s (HP s Hs)) as (a & s' & ? & ?).
  exists a, s'. auto.
Qed.

Lemma returns_pure {A} (φ : Prop) P (m : stateE S A) Q :
  (φ → returns P m Q) → returns (fun s => φ ∧ P s) m Q.
Proof. intros Hm s [Hφ Hs]. by apply Hm. Qed.

Lemma returns_lift {A} P (r : result A) a :
  r = Ok a → returns P (lift_result r) (fun a' s => a' = a ∧ P s).
Proof. intros -> s Hs. by exists a, s. Qed.

Lemma returns_get P : returns P get (fun a s => a = s ∧ P s).
Proof. intros s Hs. by exists s, s. Qed.

Lemma hoare_ret {A} (Q : A → S → Prop) E a : hoare (Q a) (mret a) Q E.
Proof. by intros s Hs. Qed.

Lemma hoare_bind {A B} P (m : stateE S A) Q (f : A → stateE S B) R E :
  hoare P m Q E → (∀ a, hoare (Q a) (f a) R E) → hoare P (m ≫= f) R E.
Proof.
  intros Hm Hf s Hs. specialize (Hm s Hs). unfold mbind, stateE_bind.
  destruct (m s) as [[a|e] s1]; [by apply Hf | done].
Qed.

Lemma hoare_conseq {A} P P' (m : stateE S A) (Q Q' : A → S → Prop) E E' :
  hoare P m Q E → (∀ s, P' s → P s) → (∀ a s, Q a s → Q' a s) →
  (∀ s, E s → E' s) → hoare P' m Q' E'.
Proof.
  intros Hm HP HQ HE s Hs. specialize (Hm s (HP s Hs)).
  destruct (m s) as [[a|e] s1]; auto.
Qed.

Lemma hoare_lift {A} P (r : result A) : hoare P (lift_result r) (fun _ => P) P.
Proof. intros s Hs. unfold lift_result. by destruct r. Qed.

Lemma hoare_raise {A} P (Q : A → S → Prop) e : hoare P (raise e) Q P.
Proof. by intros s Hs. Qed.

Lemma hoare_get P : hoare P get (fun a s => a = s ∧ P s) P.
Proof. by intros s Hs. Qed.

Lemma hoare_put P (Q : unit → S → Prop) E s' :
  (∀ s, P s → Q tt s') → hoare P (put s') Q E.
Proof. intros HQ s Hs. by apply (HQ s). Qed.

Lemma hoare_modify P (Q : unit → S → Prop) E (f : S → S) :
  (∀ s, P s → Q tt (f s)) → hoare P (modify f) Q E.
Proof. intros HQ s Hs. by apply HQ. Qed.

Lemma hoare_frames {A} (I : S → Prop) (m : stateE S A) :
  frames I m → hoare I m (fun _ => I) I.
Proof. done. Qed.

Lemma hoare_weaken {A} P (m : stateE S A) (Q : A → S → Prop) E E' :
  hoare P m Q E → (∀ s, E s → E' s) → hoare P m Q E'.
Proof. intros Hm HE. eapply hoare_conseq; eauto. Qed.

Lemma frames_bind {A B} (I : S → Prop) (m : stateE S A) (f : A → stateE S B) :
  frames I m → (∀ a, frames I (f a)) → frames I (m ≫= f).
Proof. intros Hm Hf. by eapply hoare_bind. Qed.

Lemma frames_ret {A} (I : S → Prop) (a : A) : frames I (mret a).
Proof. by intros s Hs. Qed.

Lemma frames_lift {A} (I : S → Prop) (r : result A) : frames I (lift_result r).
Proof. apply hoare_lift. Qed.

Lemma frames_state {A} (I : S → Prop) (m : stateE S A) :
  frames I m ↔ ∀ s, I s → I (m s).2.
Proof.
  split; intros Hm s Hs; specialize (Hm s Hs);
    by destruct (m s) as [[a|e] s1].
Qed.

Lemma frames_after {A} (I : S → Prop) (m : stateE S A) s :
  frames I m → I s → I (m s).2.
Proof. intros Hm. by apply frames_state. Qed.

End specifications.

(** [readonly m]: the program never changes the state. *)
Definition readonly {S A} (m : stateE S A) : Prop := ∀ s, (m s).2 = s.

Lemma readonly_ret {S A} (a : A) : readonly (mret a : stateE S A).
Proof. done. Qed.

Lemma readonly_lift {S A} (r : result A) : readonly (lift_result r : stateE S A).
Proof. done. Qed.

Lemma readonly_raise {S A} e : readonly (raise e : stateE S A).
Proof. done. Qed.

Lemma readonly_get {S} : readonly (get : stateE S S).
Proof. done. Qed.

Lemma readonly_bind {S A B} (m : stateE S A) (f : A → stateE S B) :
  readonly m → (∀ a, readonly (f a)) → readonly (m ≫= f).
Proof.
  intros Hm Hf s. specialize (Hm s). unfold mbind, stateE_bind.
  destruct (m s) as [[a|e] s1]; simpl in Hm; subst s1; [apply Hf | done].
Qed.

Lemma readonly_zoom {S T A} (rd : S → T) (wr : T → S → S) (m : stateE T A) :
  (∀ s, wr (rd s) s = s) → readonly m → readonly (zoom rd wr m).
Proof. intros Hwr Hm s. by rewrite zoom_state, Hm. Qed.

Lemma frames_readonly {S A} (I : S → Prop) (m : stateE S A) :
  readonly m → frames I m.
Proof. intros Hm. apply frames_state. intros s Hs. by rewrite Hm. Qed.

(** A program over a part of the state frames every property that does not
    depend on that part. *)
Lemma frames_zoom {S T A} (rd : S → T) (wr : T → S → S) (m : stateE T A)
    (I : S → Prop) :
  (∀ s t, I s → I (wr t s)) → frames I (zoom rd wr m).
Proof. intros HI. apply frames_state. intros s Hs. rewrite zoom_state. auto. Qed.

(** ... and a property of that part which the program frames. *)
Lemma frames_zoom_in {S T A} (rd : S → T) (wr : T → S → S) (m : stateE T A)
    (I : T → Prop) :
  (∀ s t, rd (wr t s) = t) → frames I m →
  frames (fun s => I (rd s)) (zoom rd wr m).
Proof.
  intros Hrd Hm. apply frames_state. intros s Hs.
  rewrite zoom_state, Hrd. by apply frames_after.
Qed.

Lemma returns_zoom {S T A} (rd : S → T) (wr : T → S → S) (m : stateE T A)
    (P : T → Prop) (Q : A → T → Prop) (P' : S → Prop) (R : A → S → Prop) :
  returns P m Q → (∀ s, P' s → P (rd s)) →
  (∀ s a t, P' s → Q a t → R a (wr t s)) →
  returns P' (zoom rd wr m) R.
Proof.
  intros Hm HP HR s Hs. destruct (Hm (rd s) (HP s Hs)) as (a & t & Hrun & Ha).
  exists a, (wr t s). split; [by apply zoom_run | by apply HR].
Qed.

(** ** Automation *)

Create HintDb catt discriminated.
Create Rewrite HintDb catt_len.

#[export] Hint Resolve is_Ok_Ok : catt.
#[export] Hint Resolve readonly_ret readonly_lift readonly_raise readonly_get
  frames_ret frames_lift : catt.
#[export] Hint Rewrite @length_fmap @length_zip_with @length_replicate
  @length_seq @length_app @length_take @length_drop : catt_len.

(** [inv_result] turns hypotheses about the outcome of a monadic
    computation into facts about its steps. *)
Ltac inv_result :=
  repeat match goal with
  | H : Ok _ = Ok _ |- _ => injection H as H; try subst
  | H : Raise _ = Raise _ |- _ => injection H as H; try subst
  | H : Ok _ = Raise _ |- _ => discriminate H
  | H : Raise _ = Ok _ |- _ => discriminate H
  | H : mret _ = Ok _ |- _ => injection H as H; try subst
  | H : _ ≫= _ = Ok _ |- _ => apply bind_Ok in H as (? & ? & H)
  | H : _ <$> _ = Ok _ |- _ => apply fmap_Ok in H as (? & ? & H)
  | H : guard_or _ _ = Ok _ |- _ => apply guard_or_Ok in H
  | H : guard_or _ _ = Raise _ |- _ => apply guard_or_Raise in H as [? H]
  | H : is_Ok (Raise _) |- _ => destruct H as [? H]; discriminate H
  end.

(** [len_solve] closes goals about lengths of lists built with the list
    combinators. *)
Ltac len_solve := autorewrite with catt_len in *; try done; try lia.

(** ** Rectangular nested lists

    A two-dimensional array is a list of rows; [rect c ll] says that every
    row has [c] entries. *)

Definition rect {A} (c : nat) (ll : list (list A)) : Prop :=
  Forall (fun r => length r = c) ll.

#[export] Instance rect_dec {A} c (ll : list (list A)) : Decision (rect c ll).
Proof. unfold rect. apply _. Defined.

Section rect_lemmas.
Context {A B : Type}.
Implicit Types (ll : list (list A)).

Lemma rect_nil c : rect c (@nil (list A)).
Proof. constructor. Qed.

Lemma rect_cons c r ll : rect c (r :: ll) ↔ length r = c ∧ rect c ll.
Proof. exact (Forall_cons _ r ll). Qed.

Lemma rect_singleton c (r : list A) : length r = c → rect c [r].
Proof. intros. apply rect_cons. split; [done|constructor]. Qed.

Lemma rect_app c (l1 l2 : list (list A)) : rect c (l1 ++ l2) ↔ rect c l1 ∧ rect c l2.
Proof. exact (Forall_app _ l1 l2). Qed.

Lemma rect_lookup c ll i r : rect c ll → ll !! i = Some r → length r = c.
Proof. intros Hr Hi. exact (Forall_lookup_1 _ _ _ _ Hr Hi). Qed.

Lemma rect_fmap c c' (f : list A → list B) ll :
  (∀ r, length r = c → length (f r) = c') → rect c ll → rect c' (f <$> ll).
Proof.
  intros Hf Hr. apply Forall_fmap. eapply Forall_impl; [exact Hr|].
  intros r Hlen. by apply Hf.
Qed.

Lemma rect_replicate c n (r : list A) : length r = c → rect c (replicate n r).
Proof. intros. by apply Forall_replicate. Qed.

End rect_lemmas.

#[export] Hint Resolve rect_nil rect_singleton : catt.
