(* ===== verification/Numeric.v ===== *)
(** * Numeric: the numpy arrays and operations the program uses

    Arrays of rank 2 and 3 over the reals, as a shape and nested rows in
    row-major order, with the numpy calls of
    [HybridLSTMTransformerModel.squeeze_and_excitation], [fit] and [predict]:
    [reshape], [np.mean(axis=1, keepdims=True)], [np.dot], [np.maximum(0, .)],
    the logistic function, element-wise product, [np.random.normal],
    [x[..., np.newaxis]], [np.eye(n)[y]] and [np.argmax(axis=1)].

    Python floats are idealised as real numbers ([R] of the Standard
    Library).  Shapes, lengths and indices are computed; array entries are
    real-number terms. *)

From Stdlib Require Import Reals Lra.
From S2P Require Import Prelude.

#[local] Set Warnings "-clear-no-such-hyp".
#[local] Open Scope R_scope.

(** ** Scalars and vectors *)

(** [np.maximum(0, x)] *)
Definition relu (x : R) : R := Rmax 0 x.

(** [1 / (1 + np.exp(-x))] *)
Definition sigmoid (x : R) : R := 1 / (1 + exp (- x)).

Definition Rsum (v : list R) : R := foldr Rplus 0 v.

(** inner product of two vectors, as [np.dot] sums it *)
Definition dot (u v : list R) : R := Rsum (zip_with Rmult u v).

(** ** Arrays *)

Record ndarray2 : Type := Arr2 {
  rows2 : nat;
  cols2 : nat;
  data2 : list (list R)
}.

Record ndarray3 : Type := Arr3 {
  dim0 : nat;
  dim1 : nat;
  dim2 : nat;
  data3 : list (list (list R))
}.

(** The buffer agrees with the shape. *)
Definition wf2 (a : ndarray2) : Prop :=
  length (data2 a) = rows2 a ∧ rect (cols2 a) (data2 a).

Definition wf3 (a : ndarray3) : Prop :=
  length (data3 a) = dim0 a ∧
  Forall (fun m => length m = dim1 a ∧ rect (dim2 a) m) (data3 a).

#[export] Instance wf2_dec a : Decision (wf2 a).
Proof. unfold wf2. apply _. Defined.

#[export] Instance wf3_dec a : Decision (wf3 a).
Proof. unfold wf3. apply _. Defined.

(** *** reshape

    [a.reshape(...)] reads the row-major buffer of [a] and cuts it to the
    new shape; it raises [ValueError] when the sizes differ. *)

Definition cut2 (n c : nat) (flat : list R) : list (list R) :=
  (fun i => take c (drop (i * c) flat)) <$> seq 0 n.

Definition cut3 (d0 d1 d2 : nat) (flat : list R) : list (list (list R)) :=
  (fun i => cut2 d1 d2 (take (d1 * d2) (drop (i * (d1 * d2)) flat)))
    <$> seq 0 d0.

Definition ravel2 (a : ndarray2) : list R := concat (data2 a).
Definition ravel3 (a : ndarray3) : list R := concat (concat (data3 a)).

Definition reshape_error : exn :=
  ValueError "cannot reshape array into the requested shape".

Definition reshape_to3 (d0 d1 d2 : nat) (flat : list R) : result ndarray3 :=
  if decide (length flat = (d0 * d1 * d2)%nat)
  then Ok (Arr3 d0 d1 d2 (cut3 d0 d1 d2 flat))
  else Raise reshape_error.

Definition reshape_to2 (n c : nat) (flat : list R) : result ndarray2 :=
  if decide (length flat = (n * c)%nat)
  then Ok (Arr2 n c (cut2 n c flat))
  else Raise reshape_error.

(** *** Reductions and products *)

Definition lmap2 {A B} (f : A → B) (m : list (list A)) : list (list B) :=
  (fun r : list A => f <$> r) <$> m.

Definition lmap3 {A B} (f : A → B) (t : list (list (list A))) :
    list (list (list B)) :=
  (fun m : list (list A) => lmap2 f m) <$> t.

Definition column (j : nat) (m : list (list R)) : list R :=
  (fun r => nth j r 0) <$> m.

(** [np.mean(a, axis=1, keepdims=True)] on a rank-3 array: the mean over
    the middle axis, which is kept with length 1. *)
Definition np_mean_axis1 (a : ndarray3) : ndarray3 :=
  Arr3 (dim0 a) 1 (dim2 a)
    ((fun m => [ (fun j => Rsum (column j m) / INR (dim1 a)) <$> seq 0 (dim2 a) ])
       <$> data3 a).

(** A row vector times a matrix. *)
Definition vecmat (v : list R) (w : ndarray2) : list R :=
  (fun q => dot v (column q (data2 w))) <$> seq 0 (cols2 w).

Definition dot_error : exn := ValueError "shapes not aligned".

(** [np.dot(a, w)] for a rank-3 [a] and a rank-2 [w]: the sum of products
    over the last axis of [a] and the first axis of [w]. *)
Definition np_dot (a : ndarray3) (w : ndarray2) : result ndarray3 :=
  if decide (dim2 a = rows2 w)
  then Ok (Arr3 (dim0 a) (dim1 a) (cols2 w)
             (lmap2 (fun v => vecmat v w) (data3 a)))
  else Raise dot_error.

Definition map3 (f : R → R) (a : ndarray3) : ndarray3 :=
  Arr3 (dim0 a) (dim1 a) (dim2 a) (lmap3 f (data3 a)).

Definition broadcast_error : exn :=
  ValueError "operands could not be broadcast together".

(** [a * b] for two rank-3 arrays of the same shape (the only case the
    program reaches; other shapes are reported as numpy's broadcast
    failure). *)
Definition np_mul (a b : ndarray3) : result ndarray3 :=
  if decide ((dim0 a, dim1 a, dim2 a) = (dim0 b, dim1 b, dim2 b))
  then Ok (Arr3 (dim0 a) (dim1 a) (dim2 a)
             (zip_with (zip_with (zip_with Rmult)) (data3 a) (data3 b)))
  else Raise broadcast_error.

(** [x[..., np.newaxis]]: a new last axis of length 1. *)
Definition newaxis_last (a : ndarray2) : ndarray3 :=
  Arr3 (rows2 a) (cols2 a) 1 (lmap2 (fun x => [x]) (data2 a)).

(** *** The global random generator

    [np.random] keeps one generator for the process.  Its stream of
    standard-normal draws is [tape]; [pos] counts the draws made so far. *)

Record rng : Type := Rng {
  tape : nat → R;
  pos : nat
}.

(** [np.random.normal(size=(r, c))] *)
Definition np_random_normal (r c : nat) : stateE rng ndarray2 :=
  fun g =>
    (Ok (Arr2 r c (cut2 r c (tape g <$> seq (pos g) (r * c)))),
     Rng (tape g) (pos g + r * c)).

(** The generator [g] is [g0] after some draws: the same stream, read
    further. *)
Definition advanced (g0 g : rng) : Prop :=
  tape g = tape g0 ∧ (pos g0 ≤ pos g)%nat.

(** *** Indexing

    [a[idx]] with an integer array [idx]: the rows of [a] at the positions
    [idx]; a position past the last row raises [IndexError]. *)

Definition index_error : exn := IndexError "index is out of bounds for axis 0".

Definition take_rows (a : ndarray2) (idx : list nat) : result ndarray2 :=
  rows ← mapM (fun i => match data2 a !! i with
                        | Some r => Ok r
                        | None => Raise index_error
                        end) idx;
  Ok (Arr2 (length idx) (cols2 a) rows).

(** [np.eye(n)] *)
Definition np_eye (n : nat) : ndarray2 :=
  Arr2 n n
    ((fun i => (fun j => if decide (i = j) then 1 else 0) <$> seq 0 n)
       <$> seq 0 n).

(** [np.eye(num_classes)[y]]: one row of the identity per index. *)
Definition one_hot (num_classes : nat) (y : list nat) : result ndarray2 :=
  take_rows (np_eye num_classes) y.

(** The position of the first maximum of [x :: l], given the best position
    and value so far and the position [i] of the head of [l]. *)
Fixpoint argmax_from (best_i : nat) (best : R) (i : nat) (l : list R) : nat :=
  match l with
  | [] => best_i
  | x :: l' =>
      if Rlt_dec best x then argmax_from i x (S i) l'
      else argmax_from best_i best (S i) l'
  end.

Definition argmax_error : exn :=
  ValueError "attempt to get argmax of an empty sequence".

Definition argmax (l : list R) : result nat :=
  match l with
  | [] => Raise argmax_error
  | x :: l' => Ok (argmax_from 0 x 1 l')
  end.

(** [np.argmax(a, axis=1)] *)
Definition np_argmax_axis1 (a : ndarray2) : result (list nat) :=
  mapM argmax (data2 a).

(** The row [k] of the identity of size [n]. *)
Definition unit_vector (n k : nat) : list R :=
  (fun j => if decide (k = j) then 1 else 0) <$> seq 0 n.

(** Every entry as a row of its own: the rows of an (n, 1, c) array made
    from the rows of an (n, c) array. *)
Definition unsqueeze_rows {A} (ll : list A) : list (list A) :=
  (fun r => [r]) <$> ll.

(** ** Lemmas *)

(** *** Scalars *)

Lemma relu_nonneg x : 0 <= relu x.
Proof. apply Rmax_l. Qed.

Lemma relu_pos x : 0 <= x → relu x = x.
Proof. intros. unfold relu. by apply Rmax_right. Qed.

Lemma relu_neg x : x <= 0 → relu x = 0.
Proof. intros. unfold relu. by apply Rmax_left. Qed.

Lemma sigmoid_bounds x : 0 < sigmoid x < 1.
Proof.
  unfold sigmoid. pose proof (exp_pos (- x)) as He.
  assert (Hd : 0 < 1 + exp (- x)) by lra.
  split; [apply Rdiv_lt_0_compat; lra|].
  apply (Rmult_lt_reg_r (1 + exp (- x))); [done|].
  unfold Rdiv. rewrite Rmult_assoc, Rinv_l by lra. lra.
Qed.

Lemma sigmoid_0 : sigmoid 0 = 1 / 2.
Proof. unfold sigmoid. rewrite Ropp_0, exp_0. lra. Qed.

Lemma Rsum_cons x v : Rsum (x :: v) = x + Rsum v.
Proof. done. Qed.

Lemma Rsum_app u v : Rsum (u ++ v) = Rsum u + Rsum v.
Proof. induction u as [|x u IH]; simpl; [lra | rewrite IH; lra]. Qed.

Lemma Rsum_singleton x : Rsum [x] = x.
Proof. simpl. lra. Qed.

Lemma Rsum_scale c v : Rsum ((fun x => x / c) <$> v) = Rsum v / c.
Proof.
  induction v as [|x v IH]; [simpl; lra|].
  rewrite fmap_cons, !Rsum_cons, IH. lra.
Qed.

Lemma Rsum_fmap_shift c v :
  Rsum ((fun x => x - c) <$> v) = Rsum v - INR (length v) * c.
Proof.
  induction v as [|x v IH]; [unfold Rsum; simpl; lra|].
  rewrite fmap_cons, !Rsum_cons, IH.
  change (length (x :: v)) with (S (length v)). rewrite S_INR. lra.
Qed.

Lemma Rsum_fmap_ext (f g : R → R) v :
  (∀ x, x ∈ v → f x = g x) → Rsum (f <$> v) = Rsum (g <$> v).
Proof.
  intros Hfg. f_equal. apply list_fmap_ext. intros i x Hx. apply Hfg.
  by eapply list_elem_of_lookup_2.
Qed.

Lemma Rsum_squares_nonneg (f : R → R) v :
  0 <= Rsum ((fun x => f x * f x) <$> v).
Proof.
  induction v as [|x v IH]; [unfold Rsum; simpl; lra|].
  rewrite fmap_cons, Rsum_cons. nra.
Qed.

Lemma column_length j (m : list (list R)) : length (column j m) = length m.
Proof. unfold column. by rewrite length_fmap. Qed.

Lemma dot_nil_r u : dot u [] = 0.
Proof. by destruct u. Qed.

Lemma dot_cons x u y v : dot (x :: u) (y :: v) = x * y + dot u v.
Proof. done. Qed.

(** The inner product is linear in its first argument. *)
Lemma dot_minus u m w :
  length u = length m → dot (zip_with Rminus u m) w = dot u w - dot m w.
Proof.
  revert m w. induction u as [|x u IH]; intros [|y m] [|z w] Hl;
    simplify_eq/=; rewrite ?dot_nil_r, ?dot_cons; try (unfold dot; simpl; lra).
  rewrite (IH m w) by done. lra.
Qed.

Lemma dot_plus u v w :
  length u = length v → dot (zip_with Rplus u v) w = dot u w + dot v w.
Proof.
  revert v w. induction u as [|x u IH]; intros [|y v] [|z w] Hl;
    simplify_eq/=; rewrite ?dot_nil_r, ?dot_cons; try (unfold dot; simpl; lra).
  rewrite (IH v w) by done. lra.
Qed.

Lemma dot_scale c u w : dot ((fun x => x / c) <$> u) w = dot u w / c.
Proof.
  revert w. induction u as [|x u IH]; intros [|z w];
    rewrite ?fmap_cons, ?dot_nil_r, ?dot_cons; try (unfold dot; simpl; lra).
  rewrite IH. lra.
Qed.

Lemma dot_zero n w : dot (replicate n 0) w = 0.
Proof.
  revert w. induction n as [|n IH]; intros [|z w]; try done.
  cbn [replicate]. rewrite dot_cons, IH. lra.
Qed.

(** The sums of the columns of [c] columns. *)
Definition column_sums (c : nat) (rows : list (list R)) : list R :=
  (fun j => Rsum (column j rows)) <$> seq 0 c.

Lemma column_sums_nil c : column_sums c [] = replicate c 0.
Proof.
  unfold column_sums. apply list_eq. intros j.
  rewrite list_lookup_fmap. destruct (decide (j < c)%nat).
  - by rewrite lookup_seq_lt, lookup_replicate_2.
  - rewrite lookup_seq_ge by lia. symmetry. apply lookup_replicate_None. lia.
Qed.

Lemma column_sums_cons c row rows :
  length row = c →
  column_sums c (row :: rows) = zip_with Rplus row (column_sums c rows).
Proof.
  intros Hrow. unfold column_sums. apply list_eq. intros j.
  rewrite lookup_zip_with, !list_lookup_fmap. destruct (decide (j < c)%nat).
  - rewrite lookup_seq_lt by done.
    destruct (lookup_lt_is_Some_2 row j ltac:(lia)) as [x Hx].
    rewrite Hx. cbn. by rewrite (nth_lookup_Some _ _ _ _ Hx).
  - rewrite lookup_seq_ge by lia. by rewrite lookup_ge_None_2 by lia.
Qed.

(** Summing the inner products of the rows with [w] is the inner product
    of the column sums with [w]. *)
Lemma Rsum_dot_rows c rows w :
  rect c rows →
  Rsum ((fun row => dot row w) <$> rows) = dot (column_sums c rows) w.
Proof.
  induction rows as [|row rows IH]; intros Hr.
  - by rewrite column_sums_nil, dot_zero.
  - apply rect_cons in Hr as [Hrow Hr].
    rewrite fmap_cons, Rsum_cons, IH, column_sums_cons, dot_plus; try done.
    unfold column_sums. by rewrite length_fmap, length_seq.
Qed.

(** *** Cutting a buffer into rows *)

Lemma cut2_S n c flat :
  cut2 (S n) c flat = take c flat :: cut2 n c (drop c flat).
Proof.
  unfold cut2. simpl. f_equal.
  rewrite <- fmap_S_seq, <- list_fmap_compose.
  apply list_fmap_ext. intros _ i _. simpl.
  by rewrite drop_drop.
Qed.

Lemma cut2_length n c flat : length (cut2 n c flat) = n.
Proof. unfold cut2. by rewrite length_fmap, length_seq. Qed.

Lemma cut2_rect n c flat : length flat = (n * c)%nat → rect c (cut2 n c flat).
Proof.
  revert flat. induction n as [|n IH]; intros flat Hlen; [constructor|].
  rewrite cut2_S. apply rect_cons. split.
  - rewrite length_take. lia.
  - apply IH. rewrite length_drop. lia.
Qed.

Lemma cut2_concat n c (ll : list (list R)) :
  length ll = n → rect c ll → cut2 n c (concat ll) = ll.
Proof.
  revert n. induction ll as [|r ll IH]; intros n Hn Hr; subst n; [done|].
  apply rect_cons in Hr as [Hlen Hr]. simpl. rewrite cut2_S.
  rewrite <- Hlen at 1 3. rewrite take_app_length, drop_app_length.
  by rewrite IH.
Qed.

Lemma concat_length_rect {A} c (ll : list (list A)) :
  rect c ll → length (concat ll) = (length ll * c)%nat.
Proof.
  induction 1 as [|r ll Hlen _ IH]; [done|].
  simpl. rewrite length_app, IH. lia.
Qed.

Lemma cut3_S d0 d1 d2 flat :
  cut3 (S d0) d1 d2 flat =
  cut2 d1 d2 (take (d1 * d2) flat) :: cut3 d0 d1 d2 (drop (d1 * d2) flat).
Proof.
  unfold cut3. simpl. f_equal.
  rewrite <- fmap_S_seq, <- list_fmap_compose.
  apply list_fmap_ext. intros _ i _. simpl.
  by rewrite drop_drop.
Qed.

Lemma cut3_length d0 d1 d2 flat : length (cut3 d0 d1 d2 flat) = d0.
Proof. unfold cut3. by rewrite length_fmap, length_seq. Qed.

Lemma cut3_concat d0 d1 d2 (t : list (list (list R))) :
  length t = d0 →
  Forall (fun m => length m = d1 ∧ rect d2 m) t →
  cut3 d0 d1 d2 (concat (concat t)) = t.
Proof.
  revert d0. induction t as [|m t IH]; intros d0 Hn Ht; subst d0; [done|].
  apply Forall_cons in Ht as [[Hm Hr] Ht]. simpl.
  rewrite cut3_S, concat_app.
  assert (Hlen : length (concat m) = (d1 * d2)%nat)
    by (rewrite (concat_length_rect d2) by done; lia).
  rewrite <- Hlen at 1 2. rewrite take_app_length, drop_app_length.
  by rewrite cut2_concat, IH.
Qed.

Lemma concat_singletons {A} (ll : list A) :
  concat ((fun r => [r]) <$> ll) = ll.
Proof. induction ll as [|r ll IH]; simpl; by f_equal. Qed.

Lemma fmap_nth_seq (r : list R) : (fun j => nth j r 0) <$> seq 0 (length r) = r.
Proof.
  induction r as [|x r IH]; [done|].
  simpl. f_equal. rewrite <- fmap_S_seq, <- list_fmap_compose. exact IH.
Qed.

(** *** Shapes are preserved *)

Lemma wf3_intro d0 d1 d2 t :
  length t = d0 → Forall (fun m => length m = d1 ∧ rect d2 m) t →
  wf3 (Arr3 d0 d1 d2 t).
Proof. by split. Qed.

Lemma wf2_intro n c ll : length ll = n → rect c ll → wf2 (Arr2 n c ll).
Proof. by split. Qed.

Lemma lmap2_length {A B} (f : A → B) m : length (lmap2 f m) = length m.
Proof. unfold lmap2. by rewrite length_fmap. Qed.

Lemma lmap2_rect {A B} (f : A → B) c m : rect c m → rect c (lmap2 f m).
Proof.
  intros Hr. unfold lmap2. eapply rect_fmap; [|exact Hr].
  intros r Hlen. by rewrite length_fmap.
Qed.

Lemma lmap2_rect_by {A B} (f : list A → list B) c c' (m : list (list A)) :
  (∀ r, length r = c → length (f r) = c') → rect c m → rect c' (f <$> m).
Proof. apply rect_fmap. Qed.

Lemma vecmat_length v w : length (vecmat v w) = cols2 w.
Proof. unfold vecmat. by rewrite length_fmap, length_seq. Qed.

Lemma wf3_map3 f a : wf3 a → wf3 (map3 f a).
Proof.
  intros [Hn Ha]. apply wf3_intro; unfold lmap3.
  - by rewrite length_fmap.
  - apply Forall_fmap. eapply Forall_impl; [exact Ha|].
    intros m [Hm Hr]. simpl. split; [by rewrite lmap2_length|by apply lmap2_rect].
Qed.

Lemma np_dot_Ok a w :
  dim2 a = rows2 w →
  np_dot a w = Ok (Arr3 (dim0 a) (dim1 a) (cols2 w)
                     (lmap2 (fun v => vecmat v w) (data3 a))).
Proof. intros Hd. unfold np_dot. by rewrite decide_True. Qed.

Lemma wf3_np_dot a w b : wf3 a → np_dot a w = Ok b → wf3 b.
Proof.
  intros [Hn Ha]. unfold np_dot. case_decide; [|done]. intros; inv_result.
  apply wf3_intro; unfold lmap2 at 1.
  - by rewrite length_fmap.
  - apply Forall_fmap. eapply Forall_impl; [exact Ha|].
    intros m [Hm Hr]. simpl. split; [by rewrite length_fmap|].
    eapply rect_fmap; [|exact Hr]. intros. apply vecmat_length.
Qed.

Lemma wf3_np_mean_axis1 a : length (data3 a) = dim0 a → wf3 (np_mean_axis1 a).
Proof.
  intros Hn. apply wf3_intro; [by rewrite length_fmap|].
  apply Forall_fmap, Forall_forall. intros m _. simpl. split; [done|].
  apply rect_cons. split; [|constructor]. by rewrite length_fmap, length_seq.
Qed.

Lemma wf3_np_mul a b c : wf3 a → wf3 b → np_mul a b = Ok c → wf3 c.
Proof.
  intros [Hn Ha] [Hn' Hb]. unfold np_mul. case_decide as Hs; [|done].
  intros; inv_result. injection Hs as H0 H1 H2. rewrite <- H1, <- H2 in Hb.
  apply wf3_intro; [rewrite length_zip_with; lia|].
  clear Hn Hn' H0 H1 H2. revert Ha Hb. generalize (data3 b) as t'.
  induction (data3 a) as [|m t IH]; intros [|m' t'] Ha Hb; simpl; try constructor.
  - apply Forall_cons in Ha as [[Hm Hr] Ha], Hb as [[Hm' Hr'] Hb].
    split; [rewrite length_zip_with; lia|].
    clear Hm Hm'. revert m' Hr'.
    induction Hr as [|r m Hl _ IHm]; intros [|r' m'] Hr'; simpl; try constructor.
    + apply rect_cons in Hr' as [Hl' _]. rewrite length_zip_with. lia.
    + apply rect_cons in Hr' as [_ Hr']. by apply IHm.
  - apply Forall_cons in Ha as [_ Ha], Hb as [_ Hb]. by apply IH.
Qed.

Lemma wf3_newaxis_last a : wf2 a → wf3 (newaxis_last a).
Proof.
  intros [Hn Hr]. apply wf3_intro; [by rewrite lmap2_length|].
  unfold lmap2. apply Forall_fmap. eapply Forall_impl; [exact Hr|].
  intros r Hlen. simpl. split; [by rewrite length_fmap|].
  apply Forall_fmap, Forall_forall. by intros.
Qed.

(** *** Reshaping between (n, c) and (n, 1, c) *)

Lemma concat_unsqueeze_rows {A} (l : list A) : concat (unsqueeze_rows l) = l.
Proof. apply concat_singletons. Qed.

Lemma lmap2_unsqueeze_rows {A B} (f : A → B) (l : list A) :
  lmap2 f (unsqueeze_rows l) = unsqueeze_rows (f <$> l).
Proof.
  unfold lmap2, unsqueeze_rows. rewrite <- !list_fmap_compose.
  by apply list_fmap_ext.
Qed.

Lemma lmap3_unsqueeze_rows {A B} (f : A → B) (ll : list (list A)) :
  lmap3 f (unsqueeze_rows ll) = unsqueeze_rows (lmap2 f ll).
Proof.
  unfold lmap3, lmap2, unsqueeze_rows. rewrite <- !list_fmap_compose.
  by apply list_fmap_ext.
Qed.

Lemma zip_with_unsqueeze_rows {A B C} (f : A → B → C) l1 l2 :
  zip_with (zip_with f) (unsqueeze_rows l1) (unsqueeze_rows l2) =
  unsqueeze_rows (zip_with f l1 l2).
Proof.
  revert l2. induction l1 as [|x l1 IH]; intros [|y l2]; simpl; try done.
  f_equal. apply IH.
Qed.

Lemma zip_with_fmap_same {A B C} (f : A → B → C) (g : A → B) (l : list A) :
  zip_with f l (g <$> l) = (fun x => f x (g x)) <$> l.
Proof. induction l as [|x l IH]; simpl; by f_equal. Qed.

Lemma reshape_to3_rows a :
  wf2 a →
  reshape_to3 (rows2 a) 1 (cols2 a) (ravel2 a) =
  Ok (Arr3 (rows2 a) 1 (cols2 a) (unsqueeze_rows (data2 a))).
Proof.
  intros [Hn Hr]. unfold reshape_to3, ravel2.
  rewrite decide_True by (rewrite (concat_length_rect _ _ Hr); lia).
  do 2 f_equal. rewrite <- (concat_singletons (data2 a)) at 1.
  apply cut3_concat; unfold unsqueeze_rows; [by rewrite length_fmap|].
  apply Forall_fmap. eapply Forall_impl; [exact Hr|].
  intros r Hlen. simpl. split; [done|]. apply rect_cons. split; [done|constructor].
Qed.

Lemma reshape_to2_rows a :
  wf3 a → dim1 a = 1%nat →
  reshape_to2 (dim0 a) (dim2 a) (ravel3 a) =
  Ok (Arr2 (dim0 a) (dim2 a) (concat (data3 a))).
Proof.
  intros [Hn Ha] H1. unfold reshape_to2, ravel3.
  assert (Hr : rect (dim2 a) (concat (data3 a))).
  { apply Forall_concat. eapply Forall_impl; [exact Ha|]. by intros m [_ ?]. }
  assert (Hl : length (concat (data3 a)) = dim0 a).
  { rewrite (concat_length_rect 1); [lia|].
    eapply Forall_impl; [exact Ha|]. intros m [? _]. simpl. lia. }
  rewrite decide_True by (rewrite (concat_length_rect _ _ Hr); lia).
  by rewrite cut2_concat.
Qed.

(** *** Mean over an axis of length one *)

Lemma mean_row_singleton (r : list R) :
  (fun j => Rsum (column j [r]) / INR 1) <$> seq 0 (length r) = r.
Proof.
  rewrite <- (fmap_nth_seq r) at 2. apply list_fmap_ext.
  intros _ j _. simpl. lra.
Qed.

Lemma np_mean_axis1_singleton a : wf3 a → dim1 a = 1%nat → np_mean_axis1 a = a.
Proof.
  destruct a as [d0 d1 d2 t]. intros [Hn Ha] H1. simpl in *. subst d1.
  unfold np_mean_axis1. simpl. f_equal.
  rewrite <- (list_fmap_id t) at 2. apply Forall_fmap_ext_1.
  eapply Forall_impl; [exact Ha|]. intros m [Hm Hr]. simpl.
  destruct m as [|r [|??]]; try done. apply rect_cons in Hr as [<- _].
  by rewrite mean_row_singleton.
Qed.

(** *** Random draws *)

Lemma np_random_normal_run r c g :
  np_random_normal r c g =
  (Ok (Arr2 r c (cut2 r c (tape g <$> seq (pos g) (r * c)))),
   Rng (tape g) (pos g + r * c)).
Proof. done. Qed.

#[export] Instance advanced_preorder : PreOrder advanced.
Proof.
  split; [by split|]. intros g1 g2 g3 [Ht1 Hp1] [Ht2 Hp2].
  split; [congruence | lia].
Qed.

Lemma np_random_normal_advanced g0 r c :
  frames (advanced g0) (np_random_normal r c).
Proof.
  apply frames_state. intros g Hg. rewrite np_random_normal_run. simpl.
  etrans; [exact Hg|]. split; simpl; [done|lia].
Qed.

Lemma wf2_np_random_normal r c g w g' :
  np_random_normal r c g = (Ok w, g') → wf2 w ∧ rows2 w = r ∧ cols2 w = c.
Proof.
  intros [= <- <-]. split; [|done].
  apply wf2_intro; [apply cut2_length|].
  apply cut2_rect. by rewrite length_fmap, length_seq.
Qed.

Lemma wf3_unsqueeze_rows a :
  wf2 a → wf3 (Arr3 (rows2 a) 1 (cols2 a) (unsqueeze_rows (data2 a))).
Proof.
  intros [Hn Hr]. apply wf3_intro; unfold unsqueeze_rows.
  - by rewrite length_fmap.
  - apply Forall_fmap. eapply Forall_impl; [exact Hr|]. intros r Hl; simpl.
    split; [done|]. by apply rect_singleton.
Qed.

Lemma np_mul_Ok a b :
  (dim0 a, dim1 a, dim2 a) = (dim0 b, dim1 b, dim2 b) →
  np_mul a b = Ok (Arr3 (dim0 a) (dim1 a) (dim2 a)
             (zip_with (zip_with (zip_with Rmult)) (data3 a) (data3 b))).
Proof. intros. unfold np_mul. by rewrite decide_True. Qed.

Lemma reshape_to2_unsqueeze_rows n c (ll : list (list R)) :
  length ll = n → rect c ll →
  reshape_to2 n c (ravel3 (Arr3 n 1 c (unsqueeze_rows ll))) = Ok (Arr2 n c ll).
Proof.
  intros Hn Hr. unfold reshape_to2, ravel3. simpl.
  rewrite concat_unsqueeze_rows.
  rewrite decide_True by (rewrite (concat_length_rect _ _ Hr); lia).
  by rewrite cut2_concat.
Qed.

Lemma sigmoid_1_ne_half : sigmoid 1 ≠ 1 / 2.
Proof.
  unfold sigmoid. intros H.
  pose proof (exp_increasing (- (1)) 0 ltac:(lra)) as He. rewrite exp_0 in He.
  pose proof (exp_pos (- (1))) as Hp. revert H He Hp.
  generalize (exp (- (1))) as e. intros e H He Hp.
  assert (Hx : 1 / (1 + e) * (1 + e) = 1) by (field; lra).
  rewrite H in Hx. lra.
Qed.

(** *** Arg-max, indexing and one-hot rows *)

Lemma argmax_from_spec l : ∀ pre bi b,
  pre !! bi = Some b →
  (∀ j x, pre !! j = Some x → x <= b) →
  (∀ j x, pre !! j = Some x → (j < bi)%nat → x < b) →
  ∃ m, (pre ++ l) !! argmax_from bi b (length pre) l = Some m ∧
       (∀ j x, (pre ++ l) !! j = Some x → x <= m) ∧
       (∀ j x, (pre ++ l) !! j = Some x →
               (j < argmax_from bi b (length pre) l)%nat → x < m).
Proof.
  induction l as [|x l IH]; intros pre bi b Hb Hle Hlt.
  - simpl. rewrite app_nil_r. eauto.
  - simpl. replace (S (length pre)) with (length (pre ++ [x]))
      by (rewrite length_app; simpl; lia).
    rewrite (cons_middle x pre l), (assoc_L (++)).
    destruct (Rlt_dec b x) as [Hbx|Hbx]; apply IH.
    + by rewrite lookup_app_r, Nat.sub_diag by lia.
    + intros j y [Hy|[_ Hy]]%lookup_app_Some.
      * apply Hle in Hy. lra.
      * apply list_lookup_singleton_Some in Hy as [_ <-]. lra.
    + intros j y [Hy|[Hge _]]%lookup_app_Some Hj; [|lia].
      apply Hle in Hy. lra.
    + by apply lookup_app_l_Some.
    + intros j y [Hy|[_ Hy]]%lookup_app_Some.
      * by apply Hle in Hy.
      * apply list_lookup_singleton_Some in Hy as [_ <-]. lra.
    + intros j y [Hy|[Hge _]]%lookup_app_Some Hj; [by eapply Hlt|].
      apply lookup_lt_Some in Hb. lia.
Qed.

Lemma argmax_spec l k :
  argmax l = Ok k →
  ∃ m, l !! k = Some m ∧ (∀ j x, l !! j = Some x → x <= m) ∧
       (∀ j x, l !! j = Some x → (j < k)%nat → x < m).
Proof.
  destruct l as [|x l]; [done|]. intros [= <-].
  apply (argmax_from_spec l [x] 0%nat x); [done|..].
  - intros [|j] y; [intros [= <-]; lra | done].
  - intros j y _ Hj. lia.
Qed.

Lemma argmax_lt l k : argmax l = Ok k → (k < length l)%nat.
Proof.
  intros (m & Hm & _)%argmax_spec. by eapply lookup_lt_Some.
Qed.

Lemma argmax_is_Ok l : l ≠ [] → is_Ok (argmax l).
Proof. destruct l; [done|]. intros _. by eexists. Qed.

Lemma np_argmax_axis1_Ok a :
  wf2 a → (0 < cols2 a)%nat →
  ∃ idx, np_argmax_axis1 a = Ok idx ∧ length idx = rows2 a ∧
         Forall (fun i => (i < cols2 a)%nat) idx.
Proof.
  intros [Hn Hr] Hc. unfold np_argmax_axis1. rewrite <- Hn.
  apply mapM_Ok_post. eapply Forall_impl; [exact Hr|]. intros r Hlen. simpl in Hlen.
  destruct (argmax_is_Ok r) as [k Hk]; [by intros ->; simpl in Hlen; lia|].
  exists k. split; [done|]. rewrite <- Hlen. by apply argmax_lt.
Qed.

Lemma argmax_unique l k m :
  l !! k = Some m →
  (∀ j x, l !! j = Some x → j ≠ k → x < m) →
  argmax l = Ok k.
Proof.
  intros Hk Hlt. destruct (argmax_is_Ok l) as [k' Hk'].
  { intros ->. done. }
  rewrite Hk'. f_equal. destruct (decide (k' = k)) as [|Hne]; [done|].
  apply argmax_spec in Hk' as (m' & Hm' & Hle & _).
  pose proof (Hlt k' m' Hm' Hne). pose proof (Hle k m Hk). lra.
Qed.

Lemma take_rows_Ok a idx :
  wf2 a → Forall (fun i => (i < rows2 a)%nat) idx →
  ∃ b, take_rows a idx = Ok b ∧ wf2 b ∧
       rows2 b = length idx ∧ cols2 b = cols2 a ∧
       ∀ k i, idx !! k = Some i → data2 b !! k = data2 a !! i.
Proof.
  intros [Hn Hr] Hidx. unfold take_rows.
  destruct (mapM_is_Ok (fun i => match data2 a !! i with
                                 | Some r => Ok r
                                 | None => Raise index_error
                                 end) idx) as [rows Hrows].
  { eapply Forall_impl; [exact Hidx|]. intros i Hi. simpl in Hi.
    rewrite <- Hn in Hi. apply lookup_lt_is_Some_2 in Hi as [r ->]. by eexists. }
  rewrite Hrows. simpl. eexists. split; [done|].
  pose proof (mapM_Ok_length _ _ _ Hrows) as Hlen.
  apply mapM_Ok_Forall2 in Hrows.
  assert (Hk : ∀ k i, idx !! k = Some i → rows !! k = data2 a !! i).
  { intros k i Hi. destruct (Forall2_lookup_l _ _ _ _ _ Hrows Hi) as (r & -> & Hr').
    by destruct (data2 a !! i); inv_result. }
  split; [|done]. apply wf2_intro; [done|].
  apply Forall_lookup_2. intros k r Hkr.
  destruct (lookup_lt_is_Some_2 idx k) as [i Hi].
  { apply lookup_lt_Some in Hkr. lia. }
  rewrite (Hk k i Hi) in Hkr. by eapply rect_lookup.
Qed.

Lemma take_rows_Raise a idx i :
  length (data2 a) = rows2 a → i ∈ idx → (rows2 a <= i)%nat →
  take_rows a idx = Raise index_error.
Proof.
  intros Hn Hi Hge. unfold take_rows.
  destruct (mapM _ idx) as [rows|e] eqn:Hm; simpl.
  - apply mapM_Ok_Forall2 in Hm. apply list_elem_of_lookup in Hi as [k Hk].
    destruct (Forall2_lookup_l _ _ _ _ _ Hm Hk) as (r & _ & Hr).
    by rewrite lookup_ge_None_2 in Hr by lia.
  - apply mapM_Raise_inv in Hm as (j & _ & Hj).
    by destruct (data2 a !! j); inv_result.
Qed.

Lemma wf2_np_eye n : wf2 (np_eye n).
Proof.
  apply wf2_intro; [by rewrite length_fmap, length_seq|].
  apply Forall_fmap, Forall_forall. intros i _. simpl.
  by rewrite length_fmap, length_seq.
Qed.

Lemma np_eye_lookup n k : (k < n)%nat → data2 (np_eye n) !! k = Some (unit_vector n k).
Proof.
  intros Hk. simpl. rewrite list_lookup_fmap, lookup_seq_lt by done. done.
Qed.

Lemma unit_vector_lookup n k j :
  (j < n)%nat → unit_vector n k !! j = Some (if decide (k = j) then 1 else 0).
Proof.
  intros Hj. unfold unit_vector. by rewrite list_lookup_fmap, lookup_seq_lt.
Qed.

Lemma unit_vector_length n k : length (unit_vector n k) = n.
Proof. unfold unit_vector. by rewrite length_fmap, length_seq. Qed.

Lemma argmax_unit_vector n k : (k < n)%nat → argmax (unit_vector n k) = Ok k.
Proof.
  intros Hk. apply (argmax_unique _ k 1).
  - rewrite unit_vector_lookup by done. by rewrite decide_True.
  - intros j x Hj Hne. pose proof (lookup_lt_Some _ _ _ Hj) as Hlt.
    rewrite unit_vector_length in Hlt. rewrite unit_vector_lookup in Hj by done.
    rewrite decide_False in Hj by done. injection Hj as <-. lra.
Qed.

Lemma one_hot_Ok n y :
  Forall (fun i => (i < n)%nat) y →
  ∃ b, one_hot n y = Ok b ∧ wf2 b ∧ rows2 b = length y ∧ cols2 b = n ∧
       data2 b = unit_vector n <$> y.
Proof.
  intros Hy. destruct (take_rows_Ok (np_eye n) y (wf2_np_eye n) Hy)
    as (b & Hb & Hwf & Hrows & Hcols & Hk).
  exists b. split; [done|]. split; [done|]. split; [done|]. split; [done|].
  apply list_eq. intros k. rewrite list_lookup_fmap.
  destruct (y !! k) as [i|] eqn:Hi; simpl.
  - rewrite (Hk k i Hi). apply np_eye_lookup.
    by eapply (Forall_lookup_1 _ _ _ _ Hy).
  - apply lookup_ge_None. destruct Hwf as [-> _]. rewrite Hrows.
    by apply lookup_ge_None.
Qed.

(** The class indices survive the targets' encoding: for indices below
    the number of classes, [np.eye(n)[y]] succeeds with one row per index,
    and the arg-max of its rows gives the indices back. *)
Lemma argmax_one_hot n y :
  Forall (fun i => (i < n)%nat) y →
  ∃ b, one_hot n y = Ok b ∧ rows2 b = length y ∧ cols2 b = n ∧
       np_argmax_axis1 b = Ok y.
Proof.
  intros Hy. destruct (one_hot_Ok n y Hy) as (b & Hb & _ & Hr & Hc & Hd).
  exists b. split_and!; try done.
  unfold np_argmax_axis1. rewrite Hd. apply mapM_Ok_Forall2.
  apply Forall2_fmap_l, Forall_Forall2_diag.
  eapply Forall_impl; [exact Hy|]. intros i Hi. by apply argmax_unit_vector.
Qed.

Lemma argmax_one_hot_witness :
  ∃ b, one_hot 3 [2; 0; 1]%nat = Ok b ∧ rows2 b = 3%nat ∧ cols2 b = 3%nat ∧
       np_argmax_axis1 b = Ok [2; 0; 1]%nat.
Proof. apply (argmax_one_hot 3 [2; 0; 1]%nat). repeat constructor. Defined.
