(* ===== verification/SqueezeExcite.v ===== *)
(** * SqueezeExcite: the channel recalibration block

    [HybridLSTMTransformerModel.squeeze_and_excitation] (src/model.py,
    lines 89-125), statement by statement over the arrays of [Numeric], in
    the state-and-error monad over the global random generator.

    The abstract specification [se_spec] says what the block computes: each
    row of the input is multiplied, entry by entry, by a gate in (0, 1) that
    depends on that row alone and on two weight matrices drawn afresh from
    the generator at every call.  The theorems show that the code implements
    [se_spec], never raises on a well-formed input, preserves the shape,
    shrinks every entry, and advances the generator by the number of weights
    drawn. *)

From Stdlib Require Import Reals Lra.
From S2P Require Import Prelude Numeric.

#[local] Set Warnings "-clear-no-such-hyp".
#[local] Open Scope R_scope.

(** ** The code *)

(** [max(1, se_input.shape[2] // ratio)]; [//] by zero raises. *)
Definition reduced_dim (channels ratio : nat) : result nat :=
  if decide (ratio = 0%nat) then Raise ZeroDivisionError
  else Ok (Nat.max 1 (channels / ratio)).

Definition squeeze_and_excitation (features : ndarray2) (ratio : nat) :
    stateE rng ndarray2 :=
  se_input ← lift_result
    (reshape_to3 (rows2 features) 1 (cols2 features) (ravel2 features));
  let squeeze := np_mean_axis1 se_input in
  reduced ← lift_result (reduced_dim (dim2 se_input) ratio);
  w1 ← np_random_normal (dim2 se_input) reduced;
  excitation ← lift_result (map3 relu <$> np_dot squeeze w1);
  w2 ← np_random_normal reduced (dim2 se_input);
  excitation ← lift_result (map3 sigmoid <$> np_dot excitation w2);
  scaled ← lift_result (np_mul se_input excitation);
  lift_result
    (reshape_to2 (rows2 features) (cols2 features) (ravel3 scaled)).

(** The default of the [ratio] parameter, which every call in the program
    uses. *)
Definition default_ratio : nat := 16.

(** ** The specification *)

(** The gate of one row [x]: bottleneck, rectifier, expansion, logistic. *)
Definition se_gate (w1 w2 : ndarray2) (x : list R) : list R :=
  sigmoid <$> vecmat (relu <$> vecmat x w1) w2.

Definition se_row (w1 w2 : ndarray2) (x : list R) : list R :=
  zip_with Rmult x (se_gate w1 w2 x).

(** The weights a call draws when the generator is [g]. *)
Definition se_w1 (c r : nat) (g : rng) : ndarray2 :=
  Arr2 c r (cut2 c r (tape g <$> seq (pos g) (c * r))).

Definition se_w2 (c r : nat) (g : rng) : ndarray2 :=
  Arr2 r c (cut2 r c (tape g <$> seq (pos g + c * r) (r * c))).

Definition se_spec (features : ndarray2) (ratio : nat) (g : rng) :
    result ndarray2 * rng :=
  let c := cols2 features in
  let r := Nat.max 1 (c / ratio) in
  (Ok (Arr2 (rows2 features) c
         (se_row (se_w1 c r g) (se_w2 c r g) <$> data2 features)),
   Rng (tape g) (pos g + c * r + r * c)).

(** ** Example inputs

    A 2 x 3 batch, a 1 x 3 batch that shares its second row, a 1 x 1 batch,
    a generator whose stream is 0, 1, 2, ... and a stream that steps from 0
    to 1 after two draws. *)

Definition demo_features : ndarray2 := Arr2 2 3 [[1; 2; 3]; [-1; 0; 4]].
Definition demo_features2 : ndarray2 := Arr2 1 3 [[-1; 0; 4]].
Definition unit_features : ndarray2 := Arr2 1 1 [[1]].
Definition demo_rng : rng := Rng INR 0.

Definition step_tape (i : nat) : R :=
  match i with 0%nat | 1%nat => 0 | _ => 1 end.

(** ** Lemmas on the parts *)

Lemma demo_features_wf : wf2 demo_features.
Proof. by apply (bool_decide_unpack (wf2 demo_features)). Defined.

Lemma reduced_dim_Ok c ratio :
  ratio ≠ 0%nat → reduced_dim c ratio = Ok (Nat.max 1 (c / ratio)).
Proof. intros. unfold reduced_dim. by rewrite decide_False. Qed.

Lemma reduced_dim_zero c : reduced_dim c 0 = Raise ZeroDivisionError.
Proof. done. Qed.

Lemma se_gate_length w1 w2 x : length (se_gate w1 w2 x) = cols2 w2.
Proof. unfold se_gate. by rewrite length_fmap, vecmat_length. Qed.

Lemma se_row_length w1 w2 x :
  length x = cols2 w2 → length (se_row w1 w2 x) = length x.
Proof.
  intros Hx. unfold se_row. rewrite length_zip_with, se_gate_length. lia.
Qed.

Lemma se_rows_unfold w1 w2 (ll : list (list R)) :
  zip_with (zip_with Rmult) ll
    (lmap2 sigmoid
       ((fun v => vecmat v w2) <$> lmap2 relu ((fun v => vecmat v w1) <$> ll)))
  = se_row w1 w2 <$> ll.
Proof.
  unfold lmap2. rewrite <- !list_fmap_compose. apply zip_with_fmap_same.
Qed.

Lemma se_gate_lookup w1 w2 x j :
  (j < cols2 w2)%nat → ∃ s, se_gate w1 w2 x !! j = Some s ∧ 0 < s < 1.
Proof.
  intros Hj. unfold se_gate.
  destruct (lookup_lt_is_Some_2 (vecmat (relu <$> vecmat x w1) w2) j) as [z Hz];
    [by rewrite vecmat_length|].
  exists (sigmoid z). split; [|apply sigmoid_bounds].
  by rewrite list_lookup_fmap, Hz.
Qed.

Lemma se_row_lookup w1 w2 row j x :
  length row = cols2 w2 → row !! j = Some x →
  ∃ s, se_row w1 w2 row !! j = Some (x * s) ∧ 0 < s < 1.
Proof.
  intros Hlen Hx. apply lookup_lt_Some in Hx as Hj.
  destruct (se_gate_lookup w1 w2 row j) as (s & Hs & Hb); [lia|].
  exists s. split; [|done]. unfold se_row.
  by rewrite lookup_zip_with, Hx, Hs.
Qed.

(** ** The block implements its specification *)

Lemma se_run features ratio g :
  wf2 features → ratio ≠ 0%nat →
  squeeze_and_excitation features ratio g = se_spec features ratio g.
Proof.
  intros Hwf Hratio. pose proof Hwf as [Hn Hr].
  unfold squeeze_and_excitation, se_spec.
  unfold mbind, stateE_bind, lift_result.
  rewrite reshape_to3_rows by done. simpl.
  rewrite reduced_dim_Ok by done.
  rewrite np_mean_axis1_singleton by (done || by apply wf3_unsqueeze_rows).
  rewrite np_dot_Ok by done. simpl.
  rewrite np_dot_Ok by done. simpl.
  rewrite np_mul_Ok by done. simpl.
  rewrite !lmap2_unsqueeze_rows, !lmap3_unsqueeze_rows, lmap2_unsqueeze_rows,
    lmap3_unsqueeze_rows, zip_with_unsqueeze_rows, se_rows_unfold.
  rewrite reshape_to2_unsqueeze_rows; [done|by rewrite length_fmap|].
  eapply rect_fmap; [|exact Hr]. intros r Hl. rewrite se_row_length; done.
Qed.

(** C9: the squeeze step is the identity: the mean is taken over the
    inserted axis of length one, so no pooling over samples or channels
    happens. *)
Theorem squeeze_is_identity features se_input :
  wf2 features →
  reshape_to3 (rows2 features) 1 (cols2 features) (ravel2 features)
    = Ok se_input →
  np_mean_axis1 se_input = se_input.
Proof.
  intros Hwf. rewrite reshape_to3_rows by done. intros [= <-].
  apply np_mean_axis1_singleton; [by apply wf3_unsqueeze_rows|done].
Qed.

Lemma squeeze_is_identity_witness :
  np_mean_axis1 (Arr3 2 1 3 (unsqueeze_rows (data2 demo_features))) =
  Arr3 2 1 3 (unsqueeze_rows (data2 demo_features)).
Proof.
  apply (squeeze_is_identity demo_features); [exact demo_features_wf|].
  by rewrite reshape_to3_rows by exact demo_features_wf.
Defined.

(** ** Consequences of the specification *)

Lemma se_spec_wf features ratio :
  wf2 features →
  ∀ g out g', se_spec features ratio g = (Ok out, g') →
  wf2 out ∧ rows2 out = rows2 features ∧ cols2 out = cols2 features.
Proof.
  intros [Hn Hr] g out g' [= <- _]. split; [|done].
  apply wf2_intro; [by rewrite length_fmap|].
  eapply rect_fmap; [|exact Hr]. intros r Hl. by rewrite se_row_length.
Qed.

Lemma se_run_shape features ratio g :
  wf2 features → ratio ≠ 0%nat →
  ∃ out g', squeeze_and_excitation features ratio g = (Ok out, g') ∧
            wf2 out ∧ rows2 out = rows2 features ∧ cols2 out = cols2 features ∧
            tape g' = tape g ∧ (pos g <= pos g')%nat.
Proof.
  intros Hwf Hratio. rewrite se_run by done.
  eexists _, _. split; [reflexivity|].
  destruct (se_spec_wf features ratio Hwf g _ _ eq_refl) as (? & ? & ?).
  split_and!; [done..|simpl; lia].
Qed.

(** C2: on a well-formed array and a non-zero ratio,
    [squeeze_and_excitation] returns normally what [se_spec] describes: the
    input rows multiplied by their gates, in an array that is well formed
    and has the shape of the input, with the generator advanced past the
    two weight matrices. *)
Theorem se_refines_spec features ratio g :
  wf2 features → ratio ≠ 0%nat →
  squeeze_and_excitation features ratio g = se_spec features ratio g ∧
  ∃ out g', se_spec features ratio g = (Ok out, g') ∧
            wf2 out ∧ rows2 out = rows2 features ∧ cols2 out = cols2 features.
Proof.
  intros Hwf Hratio. split; [by apply se_run|].
  eexists _, _. split; [reflexivity|]. by eapply se_spec_wf.
Qed.

Lemma se_refines_spec_witness :
  squeeze_and_excitation demo_features default_ratio demo_rng
  = se_spec demo_features default_ratio demo_rng ∧
  ∃ out g', se_spec demo_features default_ratio demo_rng = (Ok out, g') ∧
            wf2 out ∧ rows2 out = 2%nat ∧ cols2 out = 3%nat.
Proof. apply se_refines_spec; [exact demo_features_wf | discriminate]. Defined.

(** Whether it returns or raises, a call only advances the generator. *)
Lemma se_advanced g0 features ratio :
  frames (advanced g0) (squeeze_and_excitation features ratio).
Proof.
  unfold squeeze_and_excitation.
  apply frames_bind; [apply frames_lift | intros se_input]. cbv zeta.
  apply frames_bind; [apply frames_lift | intros reduced].
  apply frames_bind; [apply np_random_normal_advanced | intros w1].
  apply frames_bind; [apply frames_lift | intros excitation].
  apply frames_bind; [apply np_random_normal_advanced | intros w2].
  repeat (apply frames_bind; [apply frames_lift | intros ?]).
  apply frames_lift.
Qed.

(** C39: a ratio of zero makes the floor division raise
    [ZeroDivisionError] before any random number is drawn. *)
Theorem se_ratio_zero_raises features g :
  wf2 features →
  squeeze_and_excitation features 0 g = (Raise ZeroDivisionError, g).
Proof.
  intros Hwf. unfold squeeze_and_excitation, mbind, stateE_bind, lift_result.
  by rewrite reshape_to3_rows.
Qed.

Lemma se_ratio_zero_raises_witness :
  squeeze_and_excitation demo_features 0 demo_rng
  = (Raise ZeroDivisionError, demo_rng).
Proof. apply se_ratio_zero_raises. exact demo_features_wf. Defined.

(** C38: every entry of the result is the corresponding entry of the input
    multiplied by a factor strictly between 0 and 1. *)
Theorem se_entries_gated features ratio g out g' i j row x :
  wf2 features → ratio ≠ 0%nat →
  squeeze_and_excitation features ratio g = (Ok out, g') →
  data2 features !! i = Some row → row !! j = Some x →
  ∃ row' s, data2 out !! i = Some row' ∧ row' !! j = Some (x * s) ∧ 0 < s < 1.
Proof.
  intros Hwf Hratio. rewrite se_run by done. intros [= <- _] Hrow Hx.
  destruct Hwf as [_ Hr]. pose proof (rect_lookup _ _ _ _ Hr Hrow) as Hlen.
  simpl. set (r := Nat.max 1 (cols2 features / ratio)).
  destruct (se_row_lookup (se_w1 (cols2 features) r g)
              (se_w2 (cols2 features) r g) row j x Hlen Hx) as (s & Hs & Hb).
  eexists _, s. rewrite list_lookup_fmap, Hrow. simpl.
  split; [reflexivity|]. split; [exact Hs|exact Hb].
Qed.

Lemma se_entries_gated_witness :
  ∃ out g' row' s,
    squeeze_and_excitation demo_features default_ratio demo_rng = (Ok out, g') ∧
    data2 out !! 0%nat = Some row' ∧ row' !! 1%nat = Some (2 * s) ∧ 0 < s < 1.
Proof.
  destruct (se_run_shape demo_features default_ratio demo_rng)
    as (out & g' & Hrun & _); [exact demo_features_wf | discriminate |].
  destruct (se_entries_gated demo_features default_ratio demo_rng out g'
              0 1 [1; 2; 3] 2 demo_features_wf ltac:(discriminate) Hrun
              eq_refl eq_refl) as (row' & s & H1 & H2 & H3).
  by exists out, g', row', s.
Defined.

(** A call draws [2 * c * r] numbers, [c] the number of channels and
    [r] the bottleneck width, and leaves the stream itself unchanged. *)
Lemma se_advances_rng features ratio g out g' :
  wf2 features → ratio ≠ 0%nat →
  squeeze_and_excitation features ratio g = (Ok out, g') →
  tape g' = tape g ∧
  pos g' = (pos g + 2 * (cols2 features * Nat.max 1 (cols2 features / ratio)))%nat.
Proof.
  intros Hwf Hratio. rewrite se_run by done. intros [= _ <-].
  simpl. split; [done|lia].
Qed.

Lemma se_advances_rng_witness :
  ∃ out g', squeeze_and_excitation demo_features default_ratio demo_rng
              = (Ok out, g') ∧ pos g' = 6%nat.
Proof.
  destruct (se_run_shape demo_features default_ratio demo_rng)
    as (out & g' & Hrun & _); [exact demo_features_wf | discriminate |].
  exists out, g'. split; [exact Hrun|].
  exact (proj2 (se_advances_rng demo_features default_ratio demo_rng out g'
                  demo_features_wf ltac:(discriminate) Hrun)).
Defined.

(** The bottleneck is one unit wide whenever there are fewer than
    twice [ratio] channels; with the defaults (20 components, ratio 16) the
    excitation goes through a single hidden unit. *)
Lemma reduced_dim_narrow channels ratio :
  ratio ≠ 0%nat → (channels < 2 * ratio)%nat →
  reduced_dim channels ratio = Ok 1%nat.
Proof.
  intros Hr Hc. rewrite reduced_dim_Ok by done. f_equal.
  assert (channels / ratio < 2)%nat by (apply Nat.Div0.div_lt_upper_bound; lia).
  lia.
Qed.

Lemma reduced_dim_narrow_witness : reduced_dim 20 default_ratio = Ok 1%nat.
Proof. apply reduced_dim_narrow; unfold default_ratio; lia. Defined.

(** With the generator in the same state, the recalibrated row of a
    sample depends on that sample's row alone (and on the number of
    channels), not on the other rows of the batch. *)
Lemma se_row_local X X' ratio g out out' g1 g1' i i' row :
  wf2 X → wf2 X' → cols2 X = cols2 X' → ratio ≠ 0%nat →
  squeeze_and_excitation X ratio g = (Ok out, g1) →
  squeeze_and_excitation X' ratio g = (Ok out', g1') →
  data2 X !! i = Some row → data2 X' !! i' = Some row →
  data2 out !! i = data2 out' !! i'.
Proof.
  intros Hwf Hwf' Hc Hratio. rewrite !se_run by done.
  unfold se_spec. rewrite Hc. intros [= <- _] [= <- _] Hrow Hrow'. simpl.
  by rewrite !list_lookup_fmap, Hrow, Hrow'.
Qed.

Lemma se_row_local_witness :
  ∃ out out' g1 g1',
    squeeze_and_excitation demo_features default_ratio demo_rng = (Ok out, g1) ∧
    squeeze_and_excitation demo_features2 default_ratio demo_rng = (Ok out', g1') ∧
    data2 out !! 1%nat = data2 out' !! 0%nat.
Proof.
  assert (Hwf2 : wf2 demo_features2)
    by (by apply (bool_decide_unpack (wf2 demo_features2))).
  destruct (se_run_shape demo_features default_ratio demo_rng)
    as (out & g1 & Hrun & _); [exact demo_features_wf | discriminate |].
  destruct (se_run_shape demo_features2 default_ratio demo_rng)
    as (out' & g1' & Hrun' & _); [exact Hwf2 | discriminate |].
  exists out, out', g1, g1'. split; [exact Hrun|]. split; [exact Hrun'|].
  exact (se_row_local demo_features demo_features2 default_ratio demo_rng
           out out' g1 g1' 1 0 [-1; 0; 4] demo_features_wf Hwf2 eq_refl
           ltac:(discriminate) Hrun Hrun' eq_refl eq_refl).
Defined.

(** ** The weights are redrawn at every call *)

Lemma unit_features_wf : wf2 unit_features.
Proof. by apply (bool_decide_unpack (wf2 unit_features)). Qed.

(** C28: two successive calls on the same array can return different
    arrays: the weights are drawn from the process-wide generator at each
    call and are not part of the fitted state. *)
Theorem se_not_reproducible :
  ∃ features g out1 g1 out2 g2,
    wf2 features ∧
    squeeze_and_excitation features default_ratio g = (Ok out1, g1) ∧
    squeeze_and_excitation features default_ratio g1 = (Ok out2, g2) ∧
    out1 ≠ out2.
Proof.
  exists unit_features, (Rng step_tape 0).
  eexists _, _, _, _. split; [exact unit_features_wf|].
  split; [by rewrite se_run by (exact unit_features_wf || done)|].
  split; [by rewrite se_run by (exact unit_features_wf || done)|].
  simpl. unfold se_row, se_gate, vecmat, dot, column, cut2. simpl.
  intros [= H]. apply sigmoid_1_ne_half.
  replace (relu (1 * 0 + 0) * 0 + 0) with 0 in H by lra.
  replace (1 * 1 + 0) with 1 in H by lra.
  rewrite relu_pos, sigmoid_0 in H by lra.
  replace (1 * 1 + 0) with 1 in H by lra. lra.
Qed.
