(* ===== verification/Labels.v ===== *)
(** * Labels: the label encoder

    The [sklearn.preprocessing.LabelEncoder] held in
    [self.label_encoder]: [np.unique], [fit_transform], [transform] and
    [inverse_transform], over any label type with decidable equality and a
    decidable order.  The encoder is an object with an optional fitted
    attribute [classes_]; its methods run in the state-and-error monad over
    that object.

    The lemmas give the round trips between labels and indices, the bounds
    on the indices, the errors on unfitted encoders and unseen labels, and
    the monotonicity of the encoding on totally ordered labels. *)

From stdpp Require Import sorting sets.
From S2P Require Import Prelude.

#[local] Set Warnings "-clear-no-such-hyp".

Definition unseen_labels_error : exn :=
  ValueError "y contains previously unseen labels".

Definition not_fitted_error (who : string) : exn := NotFittedError who.

Section label_encoder.
Context {L : Type} `{EqDecision L}.
Context (le : relation L) `{!RelDecision le}.

(** [np.unique(y)]: the distinct values of [y] in increasing order. *)
Definition np_unique (y : list L) : list L := merge_sort le (remove_dups y).

(** The encoder object; [classes_] is absent until it is fitted. *)
Record LabelEncoder : Type := MkLabelEncoder {
  classes_ : option (list L)
}.

(** [LabelEncoder()] *)
Definition LabelEncoder_new : LabelEncoder := MkLabelEncoder None.

(** The position of a label in the classes; unseen labels raise. *)
Definition label_index (classes : list L) (x : L) : result nat :=
  match list_find (x =.) classes with
  | Some (i, _) => Ok i
  | None => Raise unseen_labels_error
  end.

(** The position of a label among the classes as a number: the index that
    [transform] returns for a label that was seen. *)
Definition label_position (classes : list L) (x : L) : nat :=
  match label_index classes x with
  | Ok i => i
  | Raise _ => 0
  end.

Definition encode_labels (classes : list L) (y : list L) : result (list nat) :=
  mapM (label_index classes) y.

(** [classes_[i]], after the check that [i] is an index of [classes_]. *)
Definition decode_label (classes : list L) (i : nat) : result L :=
  match classes !! i with
  | Some x => Ok x
  | None => Raise unseen_labels_error
  end.

Definition decode_labels (classes : list L) (idx : list nat) : result (list L) :=
  mapM (decode_label classes) idx.

(** [self.label_encoder.fit_transform(y)] *)
Definition label_encoder_fit_transform (y : list L) :
    stateE LabelEncoder (list nat) :=
  fun _ =>
    let classes := np_unique y in
    (encode_labels classes y, MkLabelEncoder (Some classes)).

(** [self.label_encoder.transform(y)] *)
Definition label_encoder_transform (y : list L) :
    stateE LabelEncoder (list nat) :=
  fun enc =>
    match classes_ enc with
    | None => (Raise (not_fitted_error "LabelEncoder"), enc)
    | Some classes => (encode_labels classes y, enc)
    end.

(** [self.label_encoder.inverse_transform(idx)] *)
Definition label_encoder_inverse_transform (idx : list nat) :
    stateE LabelEncoder (list L) :=
  fun enc =>
    match classes_ enc with
    | None => (Raise (not_fitted_error "LabelEncoder"), enc)
    | Some classes => (decode_labels classes idx, enc)
    end.

(** ** Lemmas *)

Lemma np_unique_NoDup y : NoDup (np_unique y).
Proof.
  unfold np_unique. rewrite merge_sort_Permutation. apply NoDup_remove_dups.
Qed.

Lemma np_unique_elem_of y x : x ∈ np_unique y ↔ x ∈ y.
Proof.
  unfold np_unique. rewrite merge_sort_Permutation. apply elem_of_remove_dups.
Qed.

Lemma np_unique_sorted `{!Transitive le, !Total le} y :
  StronglySorted le (np_unique y).
Proof. unfold np_unique. by apply StronglySorted_merge_sort. Qed.

Lemma label_index_Ok classes x i :
  label_index classes x = Ok i → classes !! i = Some x.
Proof.
  unfold label_index. destruct (list_find _ _) as [[j y]|] eqn:Hf; [|done].
  intros [= <-]. apply list_find_Some in Hf as (Hj & <- & _). done.
Qed.

Lemma label_index_lt classes x i :
  label_index classes x = Ok i → i < length classes.
Proof. intros Hi. apply label_index_Ok in Hi. by eapply lookup_lt_Some. Qed.

Lemma label_index_elem_of classes x :
  x ∈ classes → is_Ok (label_index classes x).
Proof.
  intros Hin. unfold label_index.
  destruct (list_find _ _) as [[j y]|] eqn:Hf; [by eexists|].
  apply list_find_None in Hf. rewrite Forall_forall in Hf.
  by destruct (Hf x Hin).
Qed.

Lemma label_index_unseen classes x :
  x ∉ classes → label_index classes x = Raise unseen_labels_error.
Proof.
  intros Hin. unfold label_index.
  destruct (list_find _ _) as [[j y]|] eqn:Hf; [|done].
  apply list_find_Some in Hf as (Hj & <- & _).
  destruct Hin. by eapply list_elem_of_lookup_2.
Qed.

Lemma label_index_lookup classes x i :
  NoDup classes → classes !! i = Some x → label_index classes x = Ok i.
Proof.
  intros Hnd Hi.
  destruct (label_index_elem_of classes x) as [j Hj];
    [by eapply list_elem_of_lookup_2|].
  rewrite Hj. f_equal. apply label_index_Ok in Hj.
  by eapply NoDup_lookup.
Qed.

Lemma decode_label_Ok classes i x :
  decode_label classes i = Ok x ↔ classes !! i = Some x.
Proof. unfold decode_label. destruct (classes !! i); naive_solver. Qed.

Lemma decode_label_lt classes i :
  i < length classes → is_Ok (decode_label classes i).
Proof.
  intros Hi. apply lookup_lt_is_Some_2 in Hi as [x Hx].
  exists x. by apply decode_label_Ok.
Qed.

Lemma decode_label_ge classes i :
  length classes ≤ i → decode_label classes i = Raise unseen_labels_error.
Proof. intros Hi. unfold decode_label. by rewrite lookup_ge_None_2. Qed.

Lemma encode_decode classes y idx :
  encode_labels classes y = Ok idx → decode_labels classes idx = Ok y.
Proof.
  unfold encode_labels, decode_labels. rewrite !mapM_Ok_Forall2.
  intros Hf. apply Forall2_flip. eapply Forall2_impl; [exact Hf|].
  intros x i Hi. simpl. by apply decode_label_Ok, label_index_Ok.
Qed.

Lemma decode_encode classes idx y :
  NoDup classes →
  decode_labels classes idx = Ok y → encode_labels classes y = Ok idx.
Proof.
  intros Hnd. unfold encode_labels, decode_labels. rewrite !mapM_Ok_Forall2.
  intros Hf. apply Forall2_flip. eapply Forall2_impl; [exact Hf|].
  intros i x Hi. simpl. by apply label_index_lookup, decode_label_Ok.
Qed.

Lemma encode_labels_bounded classes y idx :
  encode_labels classes y = Ok idx →
  length idx = length y ∧ Forall (fun i => i < length classes) idx.
Proof.
  intros He. split; [by eapply mapM_Ok_length|].
  apply mapM_Ok_Forall2 in He. induction He as [|x i y idx Hi _ IH]; [done|].
  constructor; [by eapply label_index_lt | done].
Qed.

Lemma encode_labels_seen classes y :
  y ⊆ classes → is_Ok (encode_labels classes y).
Proof.
  intros Hsub. apply mapM_is_Ok, Forall_forall. intros x Hx.
  by apply label_index_elem_of, Hsub.
Qed.

Lemma encode_labels_unseen classes y x :
  x ∈ y → x ∉ classes → encode_labels classes y = Raise unseen_labels_error.
Proof.
  intros Hx Hn. destruct (encode_labels classes y) as [idx|e] eqn:He.
  - apply mapM_Ok_Forall2 in He. apply list_elem_of_lookup in Hx as [j Hj].
    destruct (Forall2_lookup_l _ _ _ j x He Hj) as (i & _ & Hi).
    by rewrite label_index_unseen in Hi.
  - apply mapM_Raise_inv in He as (x' & _ & Hx'). unfold label_index in Hx'.
    by destruct (list_find _ _) as [[??]|]; inv_result.
Qed.

Lemma encode_labels_Ok_subseteq classes y idx :
  encode_labels classes y = Ok idx → y ⊆ classes.
Proof.
  intros He x Hx. destruct (decide (x ∈ classes)) as [|Hn]; [done|].
  by rewrite (encode_labels_unseen _ _ _ Hx Hn) in He.
Qed.

Lemma decode_labels_bounded classes idx :
  Forall (fun i => i < length classes) idx → is_Ok (decode_labels classes idx).
Proof.
  intros Hb. apply mapM_is_Ok. eapply Forall_impl; [exact Hb|].
  intros i. apply decode_label_lt.
Qed.

Lemma decode_labels_elem_of classes idx y :
  decode_labels classes idx = Ok y → Forall (fun x => x ∈ classes) y.
Proof.
  intros Hd. apply mapM_Ok_Forall2 in Hd.
  induction Hd as [|i x idx y Hi _ IH]; [done|]. constructor; [|done].
  apply decode_label_Ok in Hi. by eapply list_elem_of_lookup_2.
Qed.

Lemma fit_transform_run y enc :
  ∃ idx, label_encoder_fit_transform y enc
         = (Ok idx, MkLabelEncoder (Some (np_unique y))) ∧
         encode_labels (np_unique y) y = Ok idx.
Proof.
  destruct (encode_labels_seen (np_unique y) y) as [idx Hidx].
  { intros x. by rewrite np_unique_elem_of. }
  exists idx. unfold label_encoder_fit_transform. by rewrite Hidx.
Qed.

Lemma label_encoder_transform_readonly y :
  readonly (label_encoder_transform y).
Proof. intros enc. unfold label_encoder_transform. by destruct (classes_ enc). Qed.

Lemma label_encoder_inverse_transform_readonly idx :
  readonly (label_encoder_inverse_transform idx).
Proof.
  intros enc. unfold label_encoder_inverse_transform. by destruct (classes_ enc).
Qed.

End label_encoder.

Arguments LabelEncoder L : clear implicits.
Arguments LabelEncoder_new {L}.
Arguments classes_ {L} _.

(** ** The encoded labels

    The indices produced for the labels of [y] are exactly the positions of
    the classes of [y]: there are as many distinct indices as classes. *)

Section encoded_labels.
Context {L : Type} `{EqDecision L}.
Context (le : relation L) `{!RelDecision le}.
Implicit Types (classes : list L).

Lemma np_unique_length_same {M} `{EqDecision M} (le' : relation M)
    `{!RelDecision le'} (l : list L) (k : list M) (f : L → M) :
  (∀ x y, x ∈ l → y ∈ l → f x = f y → x = y) →
  (∀ z, z ∈ k ↔ ∃ x, x ∈ l ∧ z = f x) →
  length (np_unique le' k) = length (np_unique le l).
Proof.
  intros Hinj Hk. unfold np_unique. rewrite !merge_sort_Permutation.
  rewrite <- (length_fmap f (remove_dups l)). apply Permutation_length.
  apply NoDup_Permutation.
  - apply NoDup_remove_dups.
  - apply NoDup_fmap_2_strong; [|apply NoDup_remove_dups].
    intros x y Hx Hy. rewrite elem_of_remove_dups in Hx, Hy. by apply Hinj.
  - intros z. rewrite elem_of_remove_dups, Hk, list_elem_of_fmap.
    setoid_rewrite elem_of_remove_dups. naive_solver.
Qed.

Lemma encode_labels_elem_of (classes y : list L) idx i :
  encode_labels classes y = Ok idx →
  i ∈ idx ↔ ∃ x, x ∈ y ∧ label_index classes x = Ok i.
Proof.
  unfold encode_labels. rewrite mapM_Ok_Forall2. intros Hf.
  rewrite list_elem_of_lookup. split.
  - intros [j Hj]. destruct (Forall2_lookup_r _ _ _ _ _ Hf Hj) as (x & Hx & Hi).
    exists x. split; [by eapply list_elem_of_lookup_2 | done].
  - intros (x & [j Hj]%list_elem_of_lookup & Hi).
    destruct (Forall2_lookup_l _ _ _ _ _ Hf Hj) as (i' & Hi' & Hxi).
    exists j. congruence.
Qed.

Lemma encode_labels_unique_length y idx :
  encode_labels (np_unique le y) y = Ok idx →
  length (np_unique Nat.le idx) = length (np_unique le y).
Proof.
  intros He.
  assert (∀ x, x ∈ y → ∃ i, label_index (np_unique le y) x = Ok i) as Hidx.
  { intros x Hx. apply label_index_elem_of. by apply np_unique_elem_of. }
  apply (np_unique_length_same Nat.le y idx
           (fun x => match label_index (np_unique le y) x with
                     | Ok i => i | Raise _ => 0 end)).
  - intros x x' Hx Hx'. destruct (Hidx x Hx) as [i Hi], (Hidx x' Hx') as [i' Hi'].
    rewrite Hi, Hi'. intros ->. apply label_index_Ok in Hi, Hi'. congruence.
  - intros i. rewrite (encode_labels_elem_of _ _ _ _ He). split.
    + intros (x & Hx & Hi). exists x. by rewrite Hi.
    + intros (x & Hx & ->). exists x. split; [done|].
      by destruct (Hidx x Hx) as [i ->].
Qed.

(** *** Positions

    On sorted classes the position of a label is strictly monotone, so the
    class indices are ordered as the labels are. *)

Lemma label_position_index classes x :
  x ∈ classes → label_index classes x = Ok (label_position classes x).
Proof.
  intros [i Hi]%label_index_elem_of. unfold label_position. by rewrite Hi.
Qed.

Lemma label_position_lookup classes x :
  x ∈ classes → classes !! label_position classes x = Some x.
Proof. intros Hx. by apply label_index_Ok, label_position_index. Qed.

Lemma label_position_inj classes x x' :
  x ∈ classes → x' ∈ classes →
  label_position classes x = label_position classes x' → x = x'.
Proof.
  intros Hx%label_position_lookup Hx'%label_position_lookup Heq.
  rewrite Heq in Hx. congruence.
Qed.

Lemma encode_labels_positions classes y :
  y ⊆ classes → encode_labels classes y = Ok (label_position classes <$> y).
Proof.
  intros Hsub. apply mapM_Ok_Forall2, Forall2_fmap_r, Forall_Forall2_diag.
  apply Forall_forall. intros x Hx. by apply label_position_index, Hsub.
Qed.

Lemma StronglySorted_lookup_le (R : relation L) l i j x x' :
  StronglySorted R l → l !! i = Some x → l !! j = Some x' → i < j → R x x'.
Proof.
  intros Hs. revert i j. induction Hs as [|a l Hs IH Ha]; [done|].
  intros [|i] [|j] Hi Hj Hlt; try lia; simpl in *.
  - injection Hi as <-. eapply Forall_forall in Ha; [done|].
    by eapply list_elem_of_lookup_2.
  - eapply (IH i j); [done..|lia].
Qed.

Lemma label_position_mono `{!AntiSymm (=) le} classes x x' :
  StronglySorted le classes → x ∈ classes → x' ∈ classes → le x x' →
  label_position classes x ≤ label_position classes x'.
Proof.
  intros Hs Hx Hx' Hle.
  destruct (decide (label_position classes x ≤ label_position classes x'))
    as [|Hgt]; [done|].
  pose proof (StronglySorted_lookup_le le classes _ _ _ _ Hs
    (label_position_lookup _ _ Hx') (label_position_lookup _ _ Hx)
    ltac:(lia)) as Hle'.
  by rewrite (anti_symm le x x' Hle Hle').
Qed.

Lemma StronglySorted_fmap_mono (f : L → nat) l :
  (∀ x x', x ∈ l → x' ∈ l → le x x' → f x ≤ f x') →
  StronglySorted le l → StronglySorted Nat.le (f <$> l).
Proof.
  intros Hf Hs. induction Hs as [|a l Hs IH Ha]; [constructor|].
  csimpl. constructor.
  - apply IH. intros x x' Hx Hx'. apply Hf; by right.
  - apply Forall_fmap, Forall_forall. intros x Hx. simpl.
    apply Hf; [by left | by right |]. by eapply Forall_forall in Ha.
Qed.

Lemma np_unique_fmap `{!Transitive le, !Total le} (f : L → nat) l :
  (∀ x x', x ∈ l → x' ∈ l → f x = f x' → x = x') →
  (∀ x x', x ∈ l → x' ∈ l → le x x' → f x ≤ f x') →
  np_unique Nat.le (f <$> l) = f <$> np_unique le l.
Proof.
  intros Hinj Hmono. apply (StronglySorted_unique Nat.le).
  - apply np_unique_sorted; apply _.
  - apply StronglySorted_fmap_mono; [|by apply np_unique_sorted].
    intros x x'. rewrite !np_unique_elem_of. apply Hmono.
  - apply NoDup_Permutation.
    + apply np_unique_NoDup.
    + apply NoDup_fmap_2_strong; [|apply np_unique_NoDup].
      intros x x'. rewrite !np_unique_elem_of. apply Hinj.
    + intros i. rewrite np_unique_elem_of, !list_elem_of_fmap.
      by setoid_rewrite np_unique_elem_of.
Qed.

(** C32: labels survive encoding and decoding: [fit_transform] on any
    labels returns one index per label, each below the number of classes
    and as many distinct ones as there are classes; on the fitted encoder
    [inverse_transform] gives the labels back from the indices and
    [transform] gives the same indices again, and neither changes the
    encoder. *)
Theorem label_round_trip y enc :
  ∃ idx enc',
    label_encoder_fit_transform le y enc = (Ok idx, enc') ∧
    classes_ enc' = Some (np_unique le y) ∧
    length idx = length y ∧
    Forall (fun i => i < length (np_unique le y)) idx ∧
    length (np_unique Nat.le idx) = length (np_unique le y) ∧
    label_encoder_inverse_transform idx enc' = (Ok y, enc') ∧
    label_encoder_transform y enc' = (Ok idx, enc').
Proof.
  destruct (fit_transform_run le y enc) as (idx & Hrun & Henc).
  destruct (encode_labels_bounded _ _ _ Henc) as [Hlen Hlt].
  eexists idx, _. split; [exact Hrun|]. split_and!; try done.
  - by apply encode_labels_unique_length.
  - unfold label_encoder_inverse_transform. simpl.
    by rewrite (encode_decode _ _ _ Henc).
Qed.

End encoded_labels.
