(* ===== verification/Keras.v ===== *)
(** * Keras: the functional API as the program uses it

    A model is built by calling layer objects on symbolic tensors; each call
    checks the shapes of its inputs, adds a node to the graph under
    construction and returns a symbolic tensor with the output shape.  This
    file has the layers [build_model] uses, their shape rules (the batch
    axis is left out of every shape), the graph, and the call of a layer in
    the state-and-error monad over the graph.

    The lemmas are the shape rules in the cases the program reaches, and
    the invariant that a graph built by calls is topologically ordered. *)

From Stdlib Require Import QArith.
From S2P Require Import Prelude.

#[local] Set Warnings "-clear-no-such-hyp".

Inductive activation : Type := Linear | Relu | Tanh | Softmax.

#[export] Instance activation_eq_dec : EqDecision activation.
Proof. solve_decision. Defined.

(** The layer classes imported by the program, with the constructor
    arguments it passes. *)
Inductive layer : Type :=
| Input (shape : list nat)
| LSTM (units : nat) (return_sequences : bool)
| MultiHeadAttention (num_heads key_dim : nat)
| Dropout (rate : Q)
| Add
| Concatenate
| Multiply
| LayerNormalization (epsilon : Q)
| Dense (units : nat) (act : activation).

#[export] Instance layer_eq_dec : EqDecision layer.
Proof. solve_decision. Defined.

(** A symbolic tensor: the node that produces it and its shape. *)
Record ktensor : Type := KT {
  kt_id : nat;
  kt_shape : list nat
}.

Record node : Type := Node {
  node_layer : layer;
  node_inputs : list nat;
  node_shape : list nat
}.

#[export] Instance node_eq_dec : EqDecision node.
Proof. solve_decision. Defined.

(** Nodes in creation order: the node at position [i] produces tensor [i]. *)
Abbreviation graph := (list node).

Definition keras_error (msg : string) : exn := ValueError msg.

(** [tensor.shape[-1]] *)
Definition last_dim (s : list nat) : result nat :=
  match last s with
  | Some d => Ok d
  | None => Raise (IndexError "tuple index out of range")
  end.

(** The shape of an element-wise merge of two shapes, aligned at the last
    axis: equal sizes, or a size of one, which is stretched. *)
Fixpoint broadcast_rev (s1 s2 : list nat) : result (list nat) :=
  match s1, s2 with
  | [], s => Ok s
  | s, [] => Ok s
  | i :: s1', j :: s2' =>
      r ← broadcast_rev s1' s2';
      if decide (i = 1) then Ok (j :: r)
      else if decide (j = 1) then Ok (i :: r)
      else if decide (i = j) then Ok (i :: r)
      else Raise (keras_error "Inputs have incompatible shapes")
  end.

Definition broadcast_shapes (s1 s2 : list nat) : result (list nat) :=
  reverse <$> broadcast_rev (reverse s1) (reverse s2).

Fixpoint merge_shapes (acc : list nat) (rest : list (list nat)) :
    result (list nat) :=
  match rest with
  | [] => Ok acc
  | s :: rest' => acc' ← broadcast_shapes acc s; merge_shapes acc' rest'
  end.

(** [Concatenate()] joins along the last axis; the other axes agree. *)
Fixpoint concat_shapes (lead : list nat) (width : nat)
    (rest : list (list nat)) : result (list nat) :=
  match rest with
  | [] => Ok (lead ++ [width])
  | s :: rest' =>
      d ← last_dim s;
      if decide (removelast s = lead) then concat_shapes lead (width + d) rest'
      else Raise (keras_error
        "A Concatenate layer requires inputs with matching shapes except for the concatenation axis")
  end.

Definition positive_or (what : string) (n : nat) : result unit :=
  guard_or (keras_error what) (bool_decide (0 < n)).

(** The shape a layer returns when called on tensors of the given shapes,
    or the error of the call. *)
Definition layer_output_shape (l : layer) (ins : list (list nat)) :
    result (list nat) :=
  match l, ins with
  | Input shape, [] => Ok shape
  | LSTM units return_sequences, [[t; _]] =>
      _ ← positive_or "units must be a positive integer" units;
      Ok (if return_sequences then [t; units] else [units])
  | MultiHeadAttention num_heads key_dim, [[tq; dq]; [_; _]] =>
      _ ← positive_or "num_heads must be a positive integer" num_heads;
      _ ← positive_or "key_dim must be a positive integer" key_dim;
      Ok [tq; dq]
  | Dropout rate, [s] =>
      _ ← guard_or (keras_error "rate must be a scalar in the range [0, 1]")
            (Qle_bool 0 rate && Qle_bool rate 1);
      Ok s
  | Add, s :: rest => merge_shapes s rest
  | Multiply, s :: rest => merge_shapes s rest
  | Concatenate, s :: rest =>
      d ← last_dim s; concat_shapes (removelast s) d rest
  | LayerNormalization _, [s] => _ ← last_dim s; Ok s
  | Dense units _, [s] =>
      _ ← positive_or "units must be a positive integer" units;
      _ ← last_dim s;
      Ok (removelast s ++ [units])
  | _, _ => Raise (keras_error "layer called on inputs of an unsupported rank or number")
  end.

(** [layer(inputs)]: the call of a freshly constructed layer object. *)
Definition call_layer (l : layer) (ins : list ktensor) : stateE graph ktensor :=
  fun g =>
    match layer_output_shape l (kt_shape <$> ins) with
    | Ok s => (Ok (KT (length g) s), g ++ [Node l (kt_id <$> ins) s])
    | Raise e => (Raise e, g)
    end.

(** Every node reads tensors produced before it. *)
Definition topo (g : graph) : Prop :=
  ∀ i n, g !! i = Some n → Forall (fun j => j < i) (node_inputs n).

(** The shapes of the tensors a node reads, as recorded in the graph. *)
Definition input_shapes (g : graph) (n : node) : option (list (list nat)) :=
  mapM (fun j => node_shape <$> g !! j) (node_inputs n).

(** A node is consistent: it reads earlier tensors, and its shape is what
    its layer returns on the shapes it reads. *)
Definition node_ok (g : graph) (i : nat) (n : node) : Prop :=
  Forall (fun j => j < i) (node_inputs n) ∧
  ∃ ss, input_shapes g n = Some ss ∧
        layer_output_shape (node_layer n) ss = Ok (node_shape n).

Definition wf_graph (g : graph) : Prop :=
  ∀ i n, g !! i = Some n → node_ok g i n.

(** A tensor of the graph: its node exists and has its shape. *)
Definition tensor_of (g : graph) (t : ktensor) : Prop :=
  ∃ n, g !! kt_id t = Some n ∧ node_shape n = kt_shape t.

(** The graph is consistent and the tensors [live] belong to it. *)
Definition graph_ok (g : graph) (live : list ktensor) : Prop :=
  wf_graph g ∧ Forall (tensor_of g) live.

(** [builds m live s]: from any consistent graph holding the tensors
    [live], the program [m] returns a tensor of shape [s] without raising,
    and leaves a consistent graph that holds the new tensor and [live]. *)
Definition builds (m : stateE graph ktensor) (live : list ktensor)
    (s : list nat) : Prop :=
  ∀ g, graph_ok g live →
    ∃ t g', m g = (Ok t, g') ∧ kt_shape t = s ∧ graph_ok g' (t :: live).

(** ** Lemmas *)

Lemma last_dim_app s d : last_dim (s ++ [d]) = Ok d.
Proof. unfold last_dim. by rewrite last_snoc. Qed.

Lemma last_dim_pair t d : last_dim [t; d] = Ok d.
Proof. done. Qed.

Lemma positive_or_Ok what n : 0 < n → positive_or what n = Ok tt.
Proof. intros. unfold positive_or. by rewrite bool_decide_true. Qed.

Lemma positive_or_zero what : positive_or what 0 = Raise (keras_error what).
Proof. done. Qed.

Lemma broadcast_rev_same s : broadcast_rev s s = Ok s.
Proof.
  induction s as [|i s IH]; [done|]. simpl. rewrite IH. simpl.
  repeat case_decide; congruence.
Qed.

Lemma broadcast_shapes_same s : broadcast_shapes s s = Ok s.
Proof.
  unfold broadcast_shapes. rewrite broadcast_rev_same. simpl.
  by rewrite reverse_involutive.
Qed.

Lemma broadcast_shapes_stretch t d : broadcast_shapes [t; 1] [t; d] = Ok [t; d].
Proof.
  unfold broadcast_shapes. change (reverse [t; 1]) with [1; t].
  change (reverse [t; d]) with [d; t].
  change (broadcast_rev [1; t] [d; t]) with
    (r ← broadcast_rev [t] [t];
     if decide (1 = 1) then Ok (d :: r) else Raise (keras_error "unreachable")).
  by rewrite broadcast_rev_same.
Qed.

Lemma call_layer_Ok l ins s g :
  layer_output_shape l (kt_shape <$> ins) = Ok s →
  call_layer l ins g = (Ok (KT (length g) s), g ++ [Node l (kt_id <$> ins) s]).
Proof. intros Hs. unfold call_layer. by rewrite Hs. Qed.

Lemma call_layer_Raise l ins e g :
  layer_output_shape l (kt_shape <$> ins) = Raise e →
  call_layer l ins g = (Raise e, g).
Proof. intros Hs. unfold call_layer. by rewrite Hs. Qed.

Lemma call_layer_inv l ins g t g' :
  call_layer l ins g = (Ok t, g') →
  layer_output_shape l (kt_shape <$> ins) = Ok (kt_shape t) ∧
  kt_id t = length g ∧
  g' = g ++ [Node l (kt_id <$> ins) (kt_shape t)].
Proof.
  unfold call_layer. destruct (layer_output_shape _ _) as [s|e]; [|done].
  by intros [= <- <-].
Qed.

Lemma tensor_of_mono g n t : tensor_of g t → tensor_of (g ++ [n]) t.
Proof.
  intros (m & Hm & Hs). exists m. split; [|done]. by apply lookup_app_l_Some.
Qed.

Lemma tensor_of_lt g t : tensor_of g t → kt_id t < length g.
Proof. intros (m & Hm & _). by eapply lookup_lt_Some. Qed.

Lemma topo_nil : topo [].
Proof. by intros i n. Qed.

Lemma topo_snoc g n :
  topo g → Forall (fun j => j < length g) (node_inputs n) → topo (g ++ [n]).
Proof.
  intros Hg Hn i m Hi. apply lookup_app_Some in Hi as [Hi | [Hge Hi]].
  - by eapply Hg.
  - apply list_lookup_singleton_Some in Hi as [Hi <-].
    eapply Forall_impl; [exact Hn|]. simpl. lia.
Qed.

(** A call on tensors of the graph keeps the graph ordered and returns a
    tensor of the extended graph. *)
Lemma call_layer_topo l ins g t g' :
  topo g → Forall (tensor_of g) ins →
  call_layer l ins g = (Ok t, g') →
  topo g' ∧ tensor_of g' t ∧ ∀ t', tensor_of g t' → tensor_of g' t'.
Proof.
  intros Hg Hins Hc. apply call_layer_inv in Hc as (Hs & Hid & ->).
  split; [|split].
  - apply topo_snoc; [done|]. simpl. apply Forall_fmap.
    eapply Forall_impl; [exact Hins|]. intros t'. apply tensor_of_lt.
  - eexists. split; [rewrite Hid; by apply list_lookup_middle | done].
  - intros t'. apply tensor_of_mono.
Qed.

(** *** Consistency is preserved by calls *)

Lemma wf_graph_topo g : wf_graph g → topo g.
Proof. intros Hg i n Hi. by destruct (Hg i n Hi). Qed.

Lemma wf_graph_nil : wf_graph [].
Proof. by intros i n. Qed.

Lemma input_shapes_snoc g n' i n :
  Forall (fun j => j < i) (node_inputs n) → i ≤ length g →
  input_shapes (g ++ [n']) n = input_shapes g n.
Proof.
  intros Hlt Hi. unfold input_shapes. apply Forall_mapM_ext.
  eapply Forall_impl; [exact Hlt|]. intros j Hj. cbv beta in *.
  by rewrite lookup_app_l by lia.
Qed.

Lemma input_shapes_tensors g l ins s :
  Forall (tensor_of g) ins →
  input_shapes g (Node l (kt_id <$> ins) s) = Some (kt_shape <$> ins).
Proof.
  intros Hins. unfold input_shapes. simpl. apply mapM_Some_2.
  apply Forall2_fmap. induction Hins as [|t ins (n & Hn & Hs) _ IH];
    constructor; [|done].
  by rewrite Hn; simpl; rewrite Hs.
Qed.

Lemma wf_graph_snoc g n :
  wf_graph g → node_ok g (length g) n → wf_graph (g ++ [n]).
Proof.
  intros Hg Hn i m Hi. apply lookup_app_Some in Hi as [Hi | [Hge Hi]].
  - destruct (Hg i m Hi) as (Hlt & ss & Hss & Hsh). split; [done|].
    exists ss. split; [|done]. rewrite (input_shapes_snoc _ _ i); [done..|].
    apply lookup_lt_Some in Hi. lia.
  - apply list_lookup_singleton_Some in Hi as [Hi <-].
    assert (i = length g) as -> by lia.
    destruct Hn as (Hlt & ss & Hss & Hsh). split; [done|].
    exists ss. split; [|done]. by rewrite (input_shapes_snoc _ _ (length g)).
Qed.

Lemma graph_ok_nil : graph_ok [] [].
Proof. split; [apply wf_graph_nil | constructor]. Qed.

Lemma graph_ok_weaken g live live' :
  live' ⊆ live → graph_ok g live → graph_ok g live'.
Proof.
  intros Hsub [Hg Hl]. split; [done|]. rewrite Forall_forall in Hl |- *.
  intros t Ht. by apply Hl, Hsub.
Qed.

(** The rule of a call: the inputs are live and the layer accepts their
    shapes. *)
Lemma builds_call l ins live s :
  ins ⊆ live → layer_output_shape l (kt_shape <$> ins) = Ok s →
  builds (call_layer l ins) live s.
Proof.
  intros Hsub Hs g [Hg Hl]. rewrite (call_layer_Ok _ _ _ _ Hs).
  assert (Hins : Forall (tensor_of g) ins).
  { rewrite Forall_forall in Hl |- *. intros t Ht. by apply Hl, Hsub. }
  eexists _, _. split; [done|]. split; [done|]. split.
  - apply wf_graph_snoc; [done|]. split.
    + simpl. apply Forall_fmap. eapply Forall_impl; [exact Hins|].
      intros t. apply tensor_of_lt.
    + exists (kt_shape <$> ins). split; [|done]. by apply input_shapes_tensors.
  - constructor.
    + eexists. split; [by apply list_lookup_middle | done].
    + eapply Forall_impl; [exact Hl|]. intros t. apply tensor_of_mono.
Qed.

(** The rule of sequencing. *)
Lemma builds_bind m (f : ktensor → stateE graph ktensor) live s s' :
  builds m live s →
  (∀ t, kt_shape t = s → builds (f t) (t :: live) s') →
  builds (m ≫= f) live s'.
Proof.
  intros Hm Hf g Hg. destruct (Hm g Hg) as (t & g1 & Hrun & Hs & Hg1).
  destruct (Hf t Hs g1 Hg1) as (t' & g2 & Hrun' & Hs' & Hg2).
  exists t', g2. split; [by rewrite (stateE_bind_run _ _ _ _ _ Hrun)|].
  split; [done|]. eapply graph_ok_weaken; [|exact Hg2].
  intros x [->|Hx]%elem_of_cons; [left | by do 2 right].
Qed.

Lemma builds_lift {A} (r : result A) (a : A) (f : A → stateE graph ktensor)
    live s :
  r = Ok a → builds (f a) live s → builds (lift_result r ≫= f) live s.
Proof.
  intros -> Hf g Hg. destruct (Hf g Hg) as (t & g' & Hrun & Hs & Hg').
  by exists t, g'.
Qed.

(** *** What a successful call tells about the layer *)

Lemma positive_or_inv what n u : positive_or what n = Ok u → 0 < n.
Proof.
  unfold positive_or. intros Hg%guard_or_Ok. by apply bool_decide_eq_true in Hg.
Qed.

Lemma lstm_shape_inv u rs ins s :
  layer_output_shape (LSTM u rs) ins = Ok s →
  0 < u ∧ ∃ t f, ins = [[t; f]] ∧ s = if rs then [t; u] else [u].
Proof.
  destruct ins as [|[|t [|f [|??]]] [|??]]; try done. simpl. intros Hs.
  inv_result. split; [by eapply positive_or_inv | by exists t, f].
Qed.

Lemma mha_shape_inv h k ins s :
  layer_output_shape (MultiHeadAttention h k) ins = Ok s →
  0 < h ∧ 0 < k ∧ ∃ tq dq tv dv, ins = [[tq; dq]; [tv; dv]] ∧ s = [tq; dq].
Proof.
  destruct ins as [|[|tq [|dq [|??]]] [|[|tv [|dv [|??]]] [|??]]]; try done.
  simpl. intros Hs. inv_result.
  split; [by eapply positive_or_inv|]. split; [by eapply positive_or_inv|].
  by exists tq, dq, tv, dv.
Qed.

Lemma dropout_shape_inv r ins s :
  layer_output_shape (Dropout r) ins = Ok s →
  Qle_bool 0 r && Qle_bool r 1 = true ∧ ins = [s].
Proof.
  destruct ins as [|s' [|??]]; try done. simpl. intros Hs. by inv_result.
Qed.

Lemma dense_shape_inv u act ins s :
  layer_output_shape (Dense u act) ins = Ok s →
  0 < u ∧ ∃ s' d, ins = [s'] ∧ last_dim s' = Ok d ∧ s = removelast s' ++ [u].
Proof.
  destruct ins as [|s' [|??]]; try done. simpl. intros Hs. inv_result.
  split; [by eapply positive_or_inv | eauto].
Qed.

Lemma layer_norm_shape_inv e ins s :
  layer_output_shape (LayerNormalization e) ins = Ok s → ins = [s].
Proof.
  destruct ins as [|s' [|??]]; try done. simpl. intros Hs. by inv_result.
Qed.

Lemma call_layer_shape_inv l ins g t g' :
  call_layer l ins g = (Ok t, g') →
  layer_output_shape l (kt_shape <$> ins) = Ok (kt_shape t).
Proof. intros H. by apply call_layer_inv in H as (? & _). Qed.
