(* ===== verification/Network.v ===== *)
(** * Network: the architecture built by [build_model]

    [HybridLSTMTransformerModel.transformer_block], [additive_attention]
    and [build_model] (src/model.py, lines 127-228) as programs that call
    Keras layers on symbolic tensors, with the hyper-parameters set by
    [__init__] (lines 33-58).

    The theorems give the shape of every intermediate tensor, show that the
    model is built without error exactly when the hyper-parameters are
    admissible, that its output has one entry per class, that the graph is
    topologically ordered, and that the attention weights of
    [additive_attention] have a last axis of length one. *)

From Stdlib Require Import QArith.
From stdpp Require Import sets.
From S2P Require Import Prelude Keras.

#[local] Set Warnings "-clear-no-such-hyp".

(** ** Hyper-parameters *)

(** The constructor arguments stored by [__init__]. *)
Record hyperparams : Type := HyperParams {
  n_components : nat;
  lstm_units : nat;
  num_heads : nat;
  ff_dim : nat;
  dropout_rate : Q;
  random_state : nat
}.

(** The defaults of [__init__]. *)
Definition default_hyperparams : hyperparams :=
  HyperParams 20 64 4 128 0.2 42.

(** ** The code *)

Section architecture.
Context (self : hyperparams).

Definition transformer_block (inputs : ktensor) : stateE graph ktensor :=
  key_dim ← lift_result (last_dim (kt_shape inputs));
  attention_output ←
    call_layer (MultiHeadAttention (num_heads self) key_dim) [inputs; inputs];
  attention_output ← call_layer (Dropout (dropout_rate self)) [attention_output];
  attention_output ← call_layer Add [inputs; attention_output];
  attention_output ← call_layer (LayerNormalization 1e-6) [attention_output];
  ff_output ← call_layer (Dense (ff_dim self) Relu) [attention_output];
  ff_output ← call_layer (Dropout (dropout_rate self)) [ff_output];
  width ← lift_result (last_dim (kt_shape inputs));
  ff_output ← call_layer (Dense width Linear) [ff_output];
  ff_output ← call_layer Add [attention_output; ff_output];
  call_layer (LayerNormalization 1e-6) [ff_output].

Definition additive_attention (query key value : ktensor) :
    stateE graph ktensor :=
  joined ← call_layer Concatenate [query; key];
  score ← call_layer (Dense 32 Tanh) [joined];
  attention_weights ← call_layer (Dense 1 Softmax) [score];
  call_layer Multiply [attention_weights; value].

(** The layers between the input tensor and the output tensor. *)
Definition model_body (inputs : ktensor) (num_classes : nat) :
    stateE graph ktensor :=
  x ← call_layer (LSTM (lstm_units self) true) [inputs];
  transformer_output ← transformer_block x;
  query ← call_layer (Dense (lstm_units self) Linear) [transformer_output];
  key ← call_layer (Dense (lstm_units self) Linear) [transformer_output];
  let value := transformer_output in
  attention_output ← additive_attention query key value;
  x ← call_layer (LSTM (lstm_units self) false) [attention_output];
  x ← call_layer (Dense 128 Relu) [x];
  x ← call_layer (Dropout (dropout_rate self)) [x];
  call_layer (Dense num_classes Softmax) [x].

(** The body of [build_model] up to the call of [Model]: the input tensor
    and the output tensor. *)
Definition build_graph (input_shape : list nat) (num_classes : nat) :
    stateE graph (ktensor * ktensor) :=
  inputs ← call_layer (Input input_shape) [];
  x ← model_body inputs num_classes;
  mret (inputs, x).

End architecture.

(** [Adam(learning_rate=...)] *)
Record optimizer : Type := Adam {
  learning_rate : Q
}.

(** A compiled [Model]: the graph between its input and output tensors, and
    the arguments of [compile]. *)
Record keras_model : Type := KerasModel {
  km_graph : graph;
  km_inputs : ktensor;
  km_outputs : ktensor;
  km_optimizer : optimizer;
  km_loss : string;
  km_metrics : list string
}.

Definition build_model (self : hyperparams) (input_shape : list nat)
    (num_classes : nat) : result keras_model :=
  match build_graph self input_shape num_classes [] with
  | (Ok (inputs, x), g) =>
      Ok (KerasModel g inputs x (Adam 0.001) "categorical_crossentropy"
            ["accuracy"])
  | (Raise e, _) => Raise e
  end.

(** The graph of the network in closed form: the nodes [build_graph] adds
    for an input of [t] steps of [f] features and [nc] classes, numbered in
    creation order. *)
Definition model_graph (self : hyperparams) (t f nc : nat) : graph :=
  let u := lstm_units self in
  [ Node (Input [t; f]) [] [t; f];
    Node (LSTM u true) [0] [t; u];
    Node (MultiHeadAttention (num_heads self) u) [1; 1] [t; u];
    Node (Dropout (dropout_rate self)) [2] [t; u];
    Node Add [1; 3] [t; u];
    Node (LayerNormalization 1e-6) [4] [t; u];
    Node (Dense (ff_dim self) Relu) [5] [t; ff_dim self];
    Node (Dropout (dropout_rate self)) [6] [t; ff_dim self];
    Node (Dense u Linear) [7] [t; u];
    Node Add [5; 8] [t; u];
    Node (LayerNormalization 1e-6) [9] [t; u];
    Node (Dense u Linear) [10] [t; u];
    Node (Dense u Linear) [10] [t; u];
    Node Concatenate [11; 12] [t; u + u];
    Node (Dense 32 Tanh) [13] [t; 32];
    Node (Dense 1 Softmax) [14] [t; 1];
    Node Multiply [15; 10] [t; u];
    Node (LSTM u false) [16] [u];
    Node (Dense 128 Relu) [17] [128];
    Node (Dropout (dropout_rate self)) [18] [128];
    Node (Dense nc Softmax) [19] [nc] ].

(** ** Admissible hyper-parameters *)

Definition valid_rate (q : Q) : Prop := Qle_bool 0 q && Qle_bool q 1 = true.

Definition admissible (self : hyperparams) : Prop :=
  0 < lstm_units self ∧ 0 < num_heads self ∧ 0 < ff_dim self ∧
  valid_rate (dropout_rate self).

#[export] Instance admissible_dec self : Decision (admissible self).
Proof. unfold admissible, valid_rate. apply _. Defined.

(** ** Automation for builders *)

(** [shape_rule] evaluates the shape rule of a call from the shapes and the
    admissibility facts in the context. *)
Ltac shape_rule :=
  simpl;
  repeat match goal with H : kt_shape _ = _ |- _ => rewrite H end;
  simpl; rewrite ?positive_or_Ok by lia;
  repeat match goal with
         | H : valid_rate _ |- _ => unfold valid_rate in H; rewrite H
         end;
  simpl; rewrite ?broadcast_shapes_same, ?broadcast_shapes_stretch; simpl;
  rewrite ?decide_True by done; simpl;
  try reflexivity.

Ltac build_call := apply builds_call; [set_solver | shape_rule].
Ltac build_step := eapply builds_bind; [build_call | intros ? ?].

(** [run_inv] splits a successful run into the shape rules of its calls;
    [layer_facts] reads the constraints on the constructor arguments off
    them. *)
Ltac run_inv :=
  repeat match goal with
  | H : (_ ≫= _) _ = (Ok _, _) |- _ =>
      apply stateE_bind_Ok in H as (? & ? & ? & H)
  | H : lift_result _ _ = (Ok _, _) |- _ => clear H
  | H : call_layer _ _ _ = (Ok _, _) |- _ => apply call_layer_shape_inv in H
  end.

Ltac layer_facts :=
  repeat match goal with
  | H : layer_output_shape (LSTM _ _) _ = Ok _ |- _ =>
      apply lstm_shape_inv in H as [? _]
  | H : layer_output_shape (MultiHeadAttention _ _) _ = Ok _ |- _ =>
      apply mha_shape_inv in H as (? & _)
  | H : layer_output_shape (Dropout _) _ = Ok _ |- _ =>
      apply dropout_shape_inv in H as [? _]
  | H : layer_output_shape (Dense _ _) _ = Ok _ |- _ =>
      apply dense_shape_inv in H as [? _]
  end.

(** ** The blocks *)

Lemma default_hyperparams_admissible : admissible default_hyperparams.
Proof. by apply (bool_decide_unpack (admissible default_hyperparams)). Defined.

Lemma transformer_block_builds self x t d live :
  admissible self → 0 < d → x ∈ live → kt_shape x = [t; d] →
  builds (transformer_block self x) live [t; d].
Proof.
  intros (Hu & Hh & Hf & Hr) Hd Hx Hs. unfold transformer_block. rewrite Hs.
  eapply builds_lift; [reflexivity|].
  do 6 build_step.
  eapply builds_lift; [reflexivity|].
  do 2 build_step. build_call.
Qed.

(** On a sequence tensor of positive width, the transformer block
    adds nine nodes (attention over the input itself, dropout, residual sum,
    normalisation, the two feed-forward layers with dropout between them,
    residual sum, normalisation) and returns a tensor of the shape of its
    input. *)
Lemma transformer_block_run self x t d g :
  admissible self → 0 < d → kt_shape x = [t; d] →
  transformer_block self x g =
  (Ok (KT (length g + 8) [t; d]),
   g ++ [Node (MultiHeadAttention (num_heads self) d) [kt_id x; kt_id x] [t; d];
         Node (Dropout (dropout_rate self)) [length g] [t; d];
         Node Add [kt_id x; length g + 1] [t; d];
         Node (LayerNormalization 1e-6) [length g + 2] [t; d];
         Node (Dense (ff_dim self) Relu) [length g + 3] [t; ff_dim self];
         Node (Dropout (dropout_rate self)) [length g + 4] [t; ff_dim self];
         Node (Dense d Linear) [length g + 5] [t; d];
         Node Add [length g + 3; length g + 6] [t; d];
         Node (LayerNormalization 1e-6) [length g + 7] [t; d]]).
Proof.
  intros (Hu & Hh & Hf & Hr) Hd Hs. unfold transformer_block. rewrite Hs.
  erewrite stateE_bind_run by reflexivity.
  do 6 (erewrite stateE_bind_run by (apply call_layer_Ok; shape_rule)).
  erewrite stateE_bind_run by reflexivity.
  do 2 (erewrite stateE_bind_run by (apply call_layer_Ok; shape_rule)).
  erewrite call_layer_Ok by shape_rule.
  rewrite !length_app. simpl. rewrite <- !(assoc_L (++)). simpl.
  repeat match goal with
         | |- context [length g + 1 + 1] =>
             replace (length g + 1 + 1) with (length g + 2) by lia
         | |- context [length g + ?n + 1] =>
             let m := eval compute in (n + 1) in
             replace (length g + n + 1) with (length g + m) by lia
         end.
  done.
Qed.

Lemma transformer_block_run_witness :
  ∃ g, transformer_block default_hyperparams (KT 0 [20; 64])
         [Node (Input [20; 64]) [] [20; 64]] = (Ok (KT 9 [20; 64]), g) ∧
       length g = 10.
Proof.
  eexists. split; [|shelve].
  exact (transformer_block_run default_hyperparams (KT 0 [20; 64]) 20 64
           [Node (Input [20; 64]) [] [20; 64]]
           default_hyperparams_admissible ltac:(lia) eq_refl).
  Unshelve. reflexivity.
Defined.

Lemma additive_attention_builds q k v t a b u live :
  q ∈ live → k ∈ live → v ∈ live →
  kt_shape q = [t; a] → kt_shape k = [t; b] → kt_shape v = [t; u] →
  builds (additive_attention q k v) live [t; u].
Proof.
  intros Hq Hk Hv Hsq Hsk Hsv. unfold additive_attention.
  do 3 build_step. build_call.
Qed.

(** [additive_attention] adds four nodes: the concatenation of query
    and key, the 32-unit tanh layer, a one-unit softmax layer whose output
    has a last axis of length one, and the product of that output with the
    value, which has the shape of the value. *)
Lemma additive_attention_run q k v t a b u g :
  kt_shape q = [t; a] → kt_shape k = [t; b] → kt_shape v = [t; u] →
  additive_attention q k v g =
  (Ok (KT (length g + 3) [t; u]),
   g ++ [Node Concatenate [kt_id q; kt_id k] [t; a + b];
         Node (Dense 32 Tanh) [length g] [t; 32];
         Node (Dense 1 Softmax) [length g + 1] [t; 1];
         Node Multiply [length g + 2; kt_id v] [t; u]]).
Proof.
  intros Hq Hk Hv. unfold additive_attention.
  erewrite stateE_bind_run by (apply call_layer_Ok; shape_rule).
  erewrite stateE_bind_run by (apply call_layer_Ok; shape_rule).
  erewrite stateE_bind_run by (apply call_layer_Ok; shape_rule).
  erewrite call_layer_Ok by shape_rule.
  rewrite !length_app. simpl. rewrite <- !(assoc_L (++)). simpl.
  replace (length g + 1 + 1 + 1) with (length g + 3) by lia.
  by replace (length g + 1 + 1) with (length g + 2) by lia.
Qed.

Lemma additive_attention_run_witness :
  additive_attention (KT 0 [20; 64]) (KT 1 [20; 64]) (KT 2 [20; 64]) [] =
  (Ok (KT 3 [20; 64]),
   [Node Concatenate [0; 1] [20; 128];
    Node (Dense 32 Tanh) [0] [20; 32];
    Node (Dense 1 Softmax) [1] [20; 1];
    Node Multiply [2; 2] [20; 64]]).
Proof.
  exact (additive_attention_run (KT 0 [20; 64]) (KT 1 [20; 64])
           (KT 2 [20; 64]) 20 64 64 64 [] eq_refl eq_refl eq_refl).
Defined.

Lemma model_body_builds self inputs t f nc live :
  admissible self → 0 < nc → inputs ∈ live → kt_shape inputs = [t; f] →
  builds (model_body self inputs nc) live [nc].
Proof.
  intros Hadm Hnc Hin Hs. pose proof Hadm as (Hu & Hh & Hf & Hr).
  unfold model_body. build_step.
  eapply builds_bind;
    [apply (transformer_block_builds self _ t (lstm_units self));
       [done | done | set_solver | done]|].
  intros tr Htr. do 2 build_step.
  eapply builds_bind;
    [apply (additive_attention_builds _ _ _ t (lstm_units self)
              (lstm_units self) (lstm_units self));
       [set_solver..|done|done|done]|].
  intros att Hatt. do 3 build_step. build_call.
Qed.

(** ** The model *)

(** The graph [build_model] constructs, node by node. *)
Lemma model_body_run self t f nc :
  admissible self → 0 < nc →
  model_body self (KT 0 [t; f]) nc [Node (Input [t; f]) [] [t; f]]
  = (Ok (KT 20 [nc]), model_graph self t f nc).
Proof.
  intros (Hu & Hh & Hf & Hr) Hnc. unfold model_body.
  erewrite stateE_bind_run by (apply call_layer_Ok; shape_rule).
  erewrite stateE_bind_run
    by (by apply (transformer_block_run self _ t (lstm_units self))).
  do 2 (erewrite stateE_bind_run by (apply call_layer_Ok; shape_rule)).
  erewrite stateE_bind_run
    by (by apply (additive_attention_run _ _ _ t (lstm_units self)
                    (lstm_units self) (lstm_units self))).
  do 3 (erewrite stateE_bind_run by (apply call_layer_Ok; shape_rule)).
  erewrite call_layer_Ok by shape_rule. reflexivity.
Qed.

Lemma build_model_graph self t f nc :
  admissible self → 0 < nc →
  build_model self [t; f] nc
  = Ok (KerasModel (model_graph self t f nc) (KT 0 [t; f]) (KT 20 [nc])
          (Adam 0.001) "categorical_crossentropy" ["accuracy"]).
Proof.
  intros Hadm Hnc. unfold build_model, build_graph.
  erewrite stateE_bind_run by (by apply call_layer_Ok).
  erewrite stateE_bind_run by (by apply model_body_run). reflexivity.
Qed.

Lemma build_model_run self t f nc :
  admissible self → 0 < nc →
  ∃ m, build_model self [t; f] nc = Ok m ∧
       kt_shape (km_inputs m) = [t; f] ∧ kt_shape (km_outputs m) = [nc] ∧
       graph_ok (km_graph m) [km_outputs m; km_inputs m].
Proof.
  intros Hadm Hnc.
  destruct (builds_call (Input [t; f]) [] [] [t; f] ltac:(done) eq_refl []
              graph_ok_nil) as (inp & g1 & Hrun1 & Hs1 & Hg1).
  destruct (model_body_builds self inp t f nc [inp] Hadm Hnc ltac:(set_solver)
              Hs1 g1 Hg1) as (out & g2 & Hrun2 & Hs2 & Hg2).
  eexists. unfold build_model, build_graph.
  rewrite (stateE_bind_run _ _ _ _ _ Hrun1), (stateE_bind_run _ _ _ _ _ Hrun2).
  simpl. eauto.
Qed.

Lemma build_model_compile self input_shape nc m :
  build_model self input_shape nc = Ok m →
  km_optimizer m = Adam 0.001 ∧ km_loss m = "categorical_crossentropy" ∧
  km_metrics m = ["accuracy"].
Proof.
  unfold build_model. destruct (build_graph _ _ _ _) as [[[??]|?] ?]; [|done].
  by intros [= <-].
Qed.

(** C5: with admissible hyper-parameters and at least one class,
    [build_model] returns a model whose input has the requested shape,
    whose output has one entry per class, whose graph is consistent (every
    layer reads earlier tensors of the shapes it accepts), and which is
    compiled with Adam at step size 0.001, categorical cross-entropy and
    the accuracy metric. *)
Theorem build_model_ok self t f nc :
  admissible self → 0 < nc →
  ∃ m, build_model self [t; f] nc = Ok m ∧
       kt_shape (km_inputs m) = [t; f] ∧ kt_shape (km_outputs m) = [nc] ∧
       graph_ok (km_graph m) [km_outputs m; km_inputs m] ∧
       topo (km_graph m) ∧
       km_optimizer m = Adam 0.001 ∧ km_loss m = "categorical_crossentropy" ∧
       km_metrics m = ["accuracy"].
Proof.
  intros Hadm Hnc.
  destruct (build_model_run self t f nc Hadm Hnc) as (m & Hm & Hi & Ho & Hg).
  destruct (build_model_compile _ _ _ _ Hm) as (Hopt & Hloss & Hmet).
  exists m. split_and!; try done. by apply wf_graph_topo, Hg.
Qed.

Lemma build_model_ok_witness :
  ∃ m, build_model default_hyperparams [20; 1] 3 = Ok m ∧
       kt_shape (km_inputs m) = [20; 1] ∧ kt_shape (km_outputs m) = [3] ∧
       graph_ok (km_graph m) [km_outputs m; km_inputs m] ∧
       topo (km_graph m) ∧
       km_optimizer m = Adam 0.001 ∧ km_loss m = "categorical_crossentropy" ∧
       km_metrics m = ["accuracy"].
Proof.
  apply build_model_ok; [exact default_hyperparams_admissible | lia].
Defined.

(** [build_model] returns a model only if the hyper-parameters are
    admissible and there is at least one class: otherwise one of the layer
    constructors raises. *)
Lemma build_model_requires self input_shape nc m :
  build_model self input_shape nc = Ok m → admissible self ∧ 0 < nc.
Proof.
  unfold build_model.
  destruct (build_graph _ _ _ _) as [[[inp out]|e] g] eqn:Hrun; [|done].
  intros _. unfold build_graph, model_body, transformer_block in Hrun.
  run_inv. layer_facts. by repeat split.
Qed.

Lemma build_model_requires_witness : admissible default_hyperparams ∧ 0 < 3.
Proof.
  eapply (build_model_requires default_hyperparams [20; 1] 3).
  vm_compute. reflexivity.
Defined.
