(* ===== verification/Forward.v ===== *)
(** * Forward: the values computed by the additive attention block

    The layers that [additive_attention] calls (src/model.py, lines
    177-179), applied to the values of one sample: [Concatenate] on the last
    axis, [Dense] with its kernel, bias and activation, the softmax over
    the last axis, and [Multiply] with a factor whose last axis has length
    one.  A tensor of one sample is a list of time steps, each a list of
    features.

    The theorem shows that the block returns its [value] argument
    unchanged, whatever the weights: the softmax is taken over the single
    output of a one-unit layer, so every attention weight is one. *)

From Stdlib Require Import Reals Lra.
From S2P Require Import Prelude Numeric.

#[local] Set Warnings "-clear-no-such-hyp".
#[local] Open Scope R_scope.

(** ** Layers *)

(** [softmax] over a vector. *)
Definition softmax (v : list R) : list R :=
  (fun x => exp x / Rsum (exp <$> v)) <$> v.

(** The weights of a [Dense] layer. *)
Record dense_weights : Type := DenseWeights {
  kernel : ndarray2;
  bias : list R
}.

(** [Dense(units, activation)] applied to every time step. *)
Definition dense_forward (w : dense_weights) (activation : list R → list R)
    (x : list (list R)) : list (list R) :=
  (fun row => activation (zip_with Rplus (vecmat row (kernel w)) (bias w)))
    <$> x.

(** [Concatenate()] of two tensors along the last axis. *)
Definition concatenate_forward (a b : list (list R)) : list (list R) :=
  zip_with app a b.

(** [Multiply()] of two tensors with the same time steps; a last axis of
    length one in the first is stretched. *)
Definition multiply_forward (a b : list (list R)) : list (list R) :=
  zip_with (fun u v => match u with
                       | [s] => Rmult s <$> v
                       | _ => zip_with Rmult u v
                       end) a b.

(** ** The block *)

Definition additive_attention_forward (w_score w_weights : dense_weights)
    (query key value : list (list R)) : list (list R) :=
  let score :=
    dense_forward w_score (fmap tanh) (concatenate_forward query key) in
  let attention_weights := dense_forward w_weights softmax score in
  let context_vector := multiply_forward attention_weights value in
  context_vector.

(** ** Lemmas *)

Lemma Rsum_exp_pos v : v ≠ [] → 0 < Rsum (exp <$> v).
Proof.
  destruct v as [|x v]; [done|]. intros _. rewrite fmap_cons, Rsum_cons.
  assert (0 <= Rsum (exp <$> v)).
  { induction v as [|y v IH]; [simpl; lra|]. rewrite fmap_cons, Rsum_cons.
    pose proof (exp_pos y). lra. }
  pose proof (exp_pos x). lra.
Qed.

Lemma softmax_length v : length (softmax v) = length v.
Proof. unfold softmax. by rewrite length_fmap. Qed.

Lemma softmax_pos v x : x ∈ softmax v → 0 < x.
Proof.
  unfold softmax. intros (y & -> & Hy)%list_elem_of_fmap.
  apply Rdiv_lt_0_compat; [apply exp_pos|].
  apply Rsum_exp_pos. intros ->. by apply elem_of_nil in Hy.
Qed.

Lemma softmax_sum v : v ≠ [] → Rsum (softmax v) = 1.
Proof.
  intros Hv. pose proof (Rsum_exp_pos v Hv) as Hpos. unfold softmax.
  change (Rsum ((fun e => e / Rsum (exp <$> v)) ∘ exp <$> v) = 1).
  rewrite list_fmap_compose, Rsum_scale. field. lra.
Qed.

Lemma softmax_singleton x : softmax [x] = [1].
Proof.
  unfold softmax. simpl. f_equal. pose proof (exp_pos x). field. lra.
Qed.

Lemma one_unit_row (w : dense_weights) row :
  cols2 (kernel w) = 1%nat → length (bias w) = 1%nat →
  ∃ z, zip_with Rplus (vecmat row (kernel w)) (bias w) = [z].
Proof.
  intros Hk Hb. pose proof (vecmat_length row (kernel w)) as Hl.
  rewrite Hk in Hl.
  destruct (vecmat row (kernel w)) as [|a [|??]]; simplify_eq/=.
  destruct (bias w) as [|b [|??]]; simplify_eq/=. by eexists.
Qed.

Lemma dense_softmax_one_unit (w : dense_weights) x :
  cols2 (kernel w) = 1%nat → length (bias w) = 1%nat →
  dense_forward w softmax x = replicate (length x) [1].
Proof.
  intros Hk Hb. unfold dense_forward.
  induction x as [|row x IH]; [done|].
  rewrite fmap_cons, IH. cbn [length replicate]. f_equal.
  destruct (one_unit_row w row Hk Hb) as [z ->]. apply softmax_singleton.
Qed.

Lemma multiply_ones value n :
  n = length value → multiply_forward (replicate n [1]) value = value.
Proof.
  intros ->. unfold multiply_forward.
  induction value as [|v value IH]; [done|].
  cbn [length replicate zip_with]. rewrite IH. f_equal.
  induction v as [|x v IHv]; [done|]. rewrite fmap_cons, IHv. f_equal. lra.
Qed.

(** Weights computed by a one-unit softmax layer leave a value with as
    many time steps unchanged. *)
Lemma multiply_softmax_one_unit (w : dense_weights) score value :
  cols2 (kernel w) = 1%nat → length (bias w) = 1%nat →
  length score = length value →
  multiply_forward (dense_forward w softmax score) value = value.
Proof.
  intros Hk Hb Hlen. rewrite dense_softmax_one_unit by done.
  by apply multiply_ones.
Qed.

Lemma dense_forward_length (w : dense_weights) act x :
  length (dense_forward w act x) = length x.
Proof. unfold dense_forward. by rewrite length_fmap. Qed.

Lemma concatenate_forward_length a b :
  length (concatenate_forward a b) = (length a `min` length b)%nat.
Proof. unfold concatenate_forward. by rewrite length_zip_with. Qed.

(** ** The block is the identity on its value *)

(** C8: whatever the weights of its two layers, [additive_attention]
    returns its [value] argument unchanged: the attention weights are the
    softmax of a single number and so are all equal to one. *)
Theorem additive_attention_is_identity w_score w_weights query key value :
  cols2 (kernel w_weights) = 1%nat → length (bias w_weights) = 1%nat →
  length query = length value → length key = length value →
  additive_attention_forward w_score w_weights query key value = value.
Proof.
  intros Hk Hb Hq Hkey. unfold additive_attention_forward.
  apply multiply_softmax_one_unit; [done..|].
  rewrite dense_forward_length, concatenate_forward_length. lia.
Qed.

Lemma additive_attention_is_identity_witness :
  additive_attention_forward
    (DenseWeights (Arr2 2 1 [[1]; [1]]) [0])
    (DenseWeights (Arr2 1 1 [[2]]) [3])
    [[1]; [2]] [[3]; [4]] [[5; 6]; [7; 8]]
  = [[5; 6]; [7; 8]].
Proof. by apply additive_attention_is_identity. Defined.
