(* ===== verification/Inference.v ===== *)
(** * Inference: the values the network computes

    The forward pass of the graph that [build_model] constructs
    (src/model.py, lines 127-228), for one sample: every node of the graph
    is given the value its layer computes from the values of the nodes it
    reads, in creation order.  [Dense], [Add], [Multiply], [Concatenate],
    [LayerNormalization] and [Dropout] (which passes its input through at
    inference) are written out; the cells of [LSTM] and
    [MultiHeadAttention] are supplied by an implementation of the interface
    [LayerValues].

    The theorems show that the class scores of the network do not depend
    on the four [Dense] layers of the additive attention (query, key, score
    and weights): the network computes what the network without the
    attention block computes, [network_values]; that every tensor has a
    value of the shape the graph records for it; and that the scores of a
    sample are a probability distribution over the classes. *)

From Stdlib Require Import Reals Lra QArith Qreals Lia.
From stdpp Require Import sets.
From S2P Require Import Prelude Numeric Keras Network Forward.

#[local] Set Warnings "-clear-no-such-hyp".
#[local] Open Scope R_scope.

(** ** Values and weights *)

(** The value of a tensor for one sample: a list of time steps, each a
    list of features; a tensor without a time axis has one step. *)
Abbreviation tensor := (list (list R)).

(** The trainable weights of a layer object. *)
Inductive layer_weights : Type :=
| NoWeights
| CellWeights (p : list R)
| NormWeights (gamma beta : list R)
| DenseWeightsOf (w : dense_weights).

(** The last axis of a shape. *)
Definition width (s : list nat) : nat := default 0%nat (last s).

(** The weights have the kind and the width the layer was built with, for
    a layer whose output has shape [s]. *)
Definition layer_weights_ok (l : layer) (s : list nat) (w : layer_weights) :
    Prop :=
  match l, w with
  | (Input _ | Dropout _ | Add | Concatenate | Multiply), NoWeights => True
  | (LSTM _ _ | MultiHeadAttention _ _), CellWeights _ => True
  | LayerNormalization _, NormWeights gamma beta =>
      length gamma = width s ∧ length beta = width s
  | Dense units _, DenseWeightsOf w =>
      cols2 (kernel w) = units ∧ length (bias w) = units
  | _, _ => False
  end.

(** One weight object per node of the graph. *)
Definition weights_ok (g : graph) (ws : list layer_weights) : Prop :=
  Forall2 (fun n w => layer_weights_ok (node_layer n) (node_shape n) w) g ws.

(** A value of [t] time steps of [d] features, and a value of a shape of
    the graph: a shape without a time axis is one step. *)
Definition shaped (t d : nat) (v : tensor) : Prop := length v = t ∧ rect d v.

Definition has_shape (s : list nat) (v : tensor) : Prop :=
  match s with
  | [t; d] => shaped t d v
  | [d] => shaped 1 d v
  | _ => False
  end.

(** ** The interface of the recurrent and attention cells *)

Class LayerValues : Type := {
  (** [LSTM(units, return_sequences)] on a sequence *)
  lstm_values : nat → bool → list R → tensor → tensor;
  (** [MultiHeadAttention(num_heads, key_dim)] on a query and a value *)
  mha_values : nat → nat → list R → tensor → tensor → tensor;
  (** without [return_sequences] the cell returns its last state only,
      with it one state per time step; a state has [units] entries *)
  lstm_last_state units p x :
    length (lstm_values units false p x) = 1%nat;
  lstm_all_states units p x :
    length (lstm_values units true p x) = length x;
  lstm_state_width units return_sequences p x :
    rect units (lstm_values units return_sequences p x);
  (** the attention returns a value of the shape of its query *)
  mha_values_shaped num_heads key_dim p q v t d :
    shaped t d q → shaped t d (mha_values num_heads key_dim p q v)
}.

(** A small implementation: every unit of the recurrent cell sums its
    input, and the attention returns its query. *)
Definition summing_lstm (units : nat) (return_sequences : bool) (p : list R)
    (x : tensor) : tensor :=
  if return_sequences then (fun row => replicate units (Rsum row)) <$> x
  else [replicate units (Rsum (Rsum <$> x))].

Lemma summing_lstm_steps units p x :
  length (summing_lstm units true p x) = length x.
Proof. unfold summing_lstm. by rewrite length_fmap. Qed.

Lemma summing_lstm_width units return_sequences p x :
  rect units (summing_lstm units return_sequences p x).
Proof.
  unfold summing_lstm. destruct return_sequences.
  - apply Forall_fmap, Forall_forall. intros row _. apply length_replicate.
  - apply rect_singleton, length_replicate.
Qed.

#[export] Instance summing_cells : LayerValues := {
  lstm_values := summing_lstm;
  mha_values _ _ _ q _ := q;
  lstm_last_state _ _ _ := eq_refl;
  lstm_all_states := summing_lstm_steps;
  lstm_state_width := summing_lstm_width;
  mha_values_shaped _ _ _ _ _ _ _ Hq := Hq
}.

(** ** The layers *)

Definition activation_values (a : activation) : list R → list R :=
  match a with
  | Linear => fun v => v
  | Relu => fmap relu
  | Tanh => fmap tanh
  | Softmax => softmax
  end.

(** [Add()] of two tensors of the same shape. *)
Definition add_forward (a b : tensor) : tensor := zip_with (zip_with Rplus) a b.

(** [LayerNormalization(epsilon)] of one time step: the features are
    centred, divided by the root of their variance plus [epsilon], scaled by
    [gamma] and shifted by [beta]. *)
Definition layer_norm (epsilon : Q) (gamma beta : list R) (v : list R) :
    list R :=
  let n := INR (length v) in
  let mean := Rsum v / n in
  let var := Rsum ((fun x => (x - mean) * (x - mean)) <$> v) / n in
  zip_with Rplus
    (zip_with Rmult gamma
       ((fun x => (x - mean) / sqrt (var + Q2R epsilon)) <$> v))
    beta.

Section values.
Context `{LayerValues}.

(** The value a layer returns at inference on the values [ins] of its
    inputs; [x] is the sample fed to the input layer. *)
Definition layer_values (l : layer) (w : layer_weights) (x : tensor)
    (ins : list tensor) : option tensor :=
  match l, w, ins with
  | Input _, NoWeights, [] => Some x
  | LSTM units return_sequences, CellWeights p, [a] =>
      Some (lstm_values units return_sequences p a)
  | MultiHeadAttention num_heads key_dim, CellWeights p, [q; v] =>
      Some (mha_values num_heads key_dim p q v)
  | Dropout _, NoWeights, [a] => Some a
  | Add, NoWeights, [a; b] => Some (add_forward a b)
  | Concatenate, NoWeights, [a; b] => Some (concatenate_forward a b)
  | Multiply, NoWeights, [a; b] => Some (multiply_forward a b)
  | LayerNormalization epsilon, NormWeights gamma beta, [a] =>
      Some (layer_norm epsilon gamma beta <$> a)
  | Dense _ act, DenseWeightsOf dw, [a] =>
      Some (dense_forward dw (activation_values act) a)
  | _, _, _ => None
  end.

(** The values of the nodes of a graph in creation order: [env] holds the
    values of the nodes before [g]. *)
Fixpoint graph_values (g : graph) (ws : list layer_weights) (x : tensor)
    (env : list tensor) : option (list tensor) :=
  match g, ws with
  | [], _ => Some env
  | n :: g', w :: ws' =>
      ins ← mapM (fun j => env !! j) (node_inputs n);
      v ← layer_values (node_layer n) w x ins;
      graph_values g' ws' x (env ++ [v])
  | _ :: _, [] => None
  end.

(** The value of the output tensor of a model on one sample. *)
Definition model_values (m : keras_model) (ws : list layer_weights)
    (x : tensor) : option tensor :=
  env ← graph_values (km_graph m) ws x [];
  env !! kt_id (km_outputs m).

(** ** The network as [build_model] composes it *)

Definition cell_at (ws : list layer_weights) (i : nat) : list R :=
  match ws !! i with Some (CellWeights p) => p | _ => [] end.

Definition norm_at (epsilon : Q) (ws : list layer_weights) (i : nat)
    (a : tensor) : tensor :=
  match ws !! i with
  | Some (NormWeights gamma beta) => layer_norm epsilon gamma beta <$> a
  | _ => []
  end.

Definition dense_weights_at (ws : list layer_weights) (i : nat) :
    dense_weights :=
  match ws !! i with
  | Some (DenseWeightsOf dw) => dw
  | _ => DenseWeights (Arr2 0 0 []) []
  end.

Definition dense_at (ws : list layer_weights) (i : nat) (act : activation)
    (a : tensor) : tensor :=
  dense_forward (dense_weights_at ws i) (activation_values act) a.

(** The transformer block on the value [x] of its input, with the weights
    of the nodes [i], [i + 3], [i + 4], [i + 6] and [i + 8]. *)
Definition transformer_values (self : hyperparams) (ws : list layer_weights)
    (i : nat) (x : tensor) : tensor :=
  let attention_output :=
    mha_values (num_heads self) (lstm_units self) (cell_at ws i) x x in
  let attention_output := add_forward x attention_output in
  let attention_output := norm_at 1e-6 ws (i + 3) attention_output in
  let ff_output := dense_at ws (i + 4) Relu attention_output in
  let ff_output := dense_at ws (i + 6) Linear ff_output in
  let ff_output := add_forward attention_output ff_output in
  norm_at 1e-6 ws (i + 8) ff_output.

(** The body of [build_model] on the value [x] of the input tensor, with
    the weights of the nodes in creation order: the nodes 2 to 10 are the
    transformer block, 11 and 12 the query and key projections, 13 to 16
    the additive attention. *)
Definition model_forward (self : hyperparams) (ws : list layer_weights)
    (x : tensor) : tensor :=
  let x := lstm_values (lstm_units self) true (cell_at ws 1) x in
  let transformer_output := transformer_values self ws 2 x in
  let query := dense_at ws 11 Linear transformer_output in
  let key := dense_at ws 12 Linear transformer_output in
  let value := transformer_output in
  let attention_output :=
    additive_attention_forward (dense_weights_at ws 14)
      (dense_weights_at ws 15) query key value in
  let x := lstm_values (lstm_units self) false (cell_at ws 17)
             attention_output in
  let x := dense_at ws 18 Relu x in
  dense_at ws 20 Softmax x.

(** ** The network without the attention block *)

(** The recurrent layer, the transformer block, the second recurrent layer
    and the dense head: the weights of the nodes 11 to 16 do not occur. *)
Definition network_values (self : hyperparams) (ws : list layer_weights)
    (x : tensor) : tensor :=
  let x := lstm_values (lstm_units self) true (cell_at ws 1) x in
  let transformer_output := transformer_values self ws 2 x in
  let x := lstm_values (lstm_units self) false (cell_at ws 17)
             transformer_output in
  let x := dense_at ws 18 Relu x in
  dense_at ws 20 Softmax x.

(** The layers of the additive attention that have weights: the query and
    key projections, the score layer and the weight layer. *)
Definition attention_layers : list nat := [11; 12; 14; 15]%nat.

(** Weights that are the same in every layer but those of the attention. *)
Definition same_off_attention : relation (list layer_weights) :=
  fun ws ws' => ∀ i, i ∉ attention_layers → ws !! i = ws' !! i.

End values.

(** ** Lemmas *)

(** [weights_inv] splits the weights of a graph given node by node into
    one weight object per node, of the kind of its layer. *)
Ltac weights_inv H :=
  repeat (apply Forall2_cons_inv_l in H as (? & ? & ? & H & ->));
  apply Forall2_nil_inv_l in H as ->;
  repeat match goal with
         | Hw : layer_weights_ok _ _ ?w |- _ =>
             simpl in Hw; destruct w; try done
         end;
  repeat match goal with Hw : True |- _ => clear Hw end.

(** *** The shapes of the values of the layers *)

Create HintDb shapes discriminated.

Lemma activation_values_length act v :
  length (activation_values act v) = length v.
Proof.
  destruct act; simpl; [done|apply length_fmap..|apply softmax_length].
Qed.

Lemma dense_forward_shaped (w : dense_weights) act t d units x :
  shaped t d x → cols2 (kernel w) = units → length (bias w) = units →
  shaped t units (dense_forward w (activation_values act) x).
Proof.
  intros [Hlen _] Hk Hb. split; [by rewrite dense_forward_length|].
  apply Forall_fmap, Forall_forall. intros row _. simpl.
  rewrite activation_values_length, length_zip_with, vecmat_length. lia.
Qed.

(** Two tensors of the same number of steps merged step by step. *)
Lemma zip_with_shaped (f : list R → list R → list R) t a b d x y :
  (∀ u v, length u = a → length v = b → length (f u v) = d) →
  shaped t a x → shaped t b y → shaped t d (zip_with f x y).
Proof.
  intros Hf [Hlx Hx] [Hly Hy]. split; [rewrite length_zip_with; lia|].
  clear Hlx Hly. revert y Hy.
  induction Hx as [|u x Hu _ IH]; intros [|v y] Hy; try constructor.
  - apply rect_cons in Hy as [Hv _]. by apply Hf.
  - apply rect_cons in Hy as [_ Hy]. by apply IH.
Qed.

Lemma add_forward_shaped t d a b :
  shaped t d a → shaped t d b → shaped t d (add_forward a b).
Proof.
  apply zip_with_shaped. intros u v Hu Hv. rewrite length_zip_with. lia.
Qed.

Lemma layer_norm_shaped epsilon gamma beta t d a :
  shaped t d a → length gamma = d → length beta = d →
  shaped t d (layer_norm epsilon gamma beta <$> a).
Proof.
  intros [Hlen Ha] Hg Hb. split; [by rewrite length_fmap|].
  eapply rect_fmap; [|exact Ha]. intros r Hr. unfold layer_norm.
  rewrite !length_zip_with, length_fmap. lia.
Qed.

Lemma concatenate_forward_shaped t a b x y :
  shaped t a x → shaped t b y →
  shaped t (a + b) (concatenate_forward x y).
Proof.
  apply zip_with_shaped. intros u v Hu Hv. rewrite length_app. lia.
Qed.

Lemma multiply_forward_shaped t u a b :
  shaped t 1 a → shaped t u b → shaped t u (multiply_forward a b).
Proof.
  apply zip_with_shaped. intros [|s [|??]] v Hs Hv; simplify_eq/=.
  by rewrite length_fmap.
Qed.

#[export] Hint Resolve dense_forward_shaped add_forward_shaped
  layer_norm_shaped concatenate_forward_shaped multiply_forward_shaped
  : shapes.

Section inference.
Context `{LayerValues}.

Lemma lstm_values_shaped units p t d x :
  shaped t d x → shaped t units (lstm_values units true p x).
Proof.
  intros [Hlen _]. split; [by rewrite lstm_all_states|].
  apply lstm_state_width.
Qed.

Lemma lstm_values_last units p x :
  shaped 1 units (lstm_values units false p x).
Proof. split; [apply lstm_last_state|apply lstm_state_width]. Qed.

Hint Resolve lstm_values_shaped lstm_values_last mha_values_shaped : shapes.

Lemma weights_ok_length g ws : weights_ok g ws → length ws = length g.
Proof. intros Hws. symmetry. by eapply Forall2_length. Qed.

(** The values of the graph of [build_model] are those of its body read
    as a function. *)
Lemma model_graph_values self t f nc ws x :
  weights_ok (model_graph self t f nc) ws →
  graph_values (model_graph self t f nc) ws x [] ≫= (.!! 20%nat)
  = Some (model_forward self ws x).
Proof.
  intros Hws. unfold weights_ok, model_graph in Hws. by weights_inv Hws.
Qed.

(** The weights of a [Dense] node. *)
Lemma weights_ok_dense g ws i n units act :
  weights_ok g ws → g !! i = Some n → node_layer n = Dense units act →
  cols2 (kernel (dense_weights_at ws i)) = units ∧
  length (bias (dense_weights_at ws i)) = units.
Proof.
  intros Hws Hi Hl. unfold dense_weights_at.
  destruct (Forall2_lookup_l _ _ _ _ _ Hws Hi) as (w & -> & Hok).
  rewrite Hl in Hok. by destruct w.
Qed.

(** The product with the attention weights returns the output of the
    transformer block, so the second recurrent layer reads what it would
    read without the attention block. *)
Lemma model_forward_plain self t f nc ws x :
  weights_ok (model_graph self t f nc) ws →
  model_forward self ws x = network_values self ws x.
Proof.
  intros Hws. unfold model_forward, network_values.
  destruct (weights_ok_dense _ ws 15 _ 1 Softmax Hws eq_refl eq_refl)
    as [Hk Hb].
  unfold additive_attention_forward.
  rewrite multiply_softmax_one_unit; [done..|]. unfold dense_at.
  rewrite !dense_forward_length, concatenate_forward_length,
    !dense_forward_length. lia.
Qed.

(** The network without the attention block reads no weight of the
    attention layers. *)
#[export] Instance same_off_attention_equiv : Equivalence same_off_attention.
Proof.
  split; [by intros ws i | by intros ws ws' Hs i Hi; rewrite Hs |].
  intros ws1 ws2 ws3 H12 H23 i Hi. by rewrite H12, H23.
Qed.

#[export] Instance network_values_proper self :
  Proper (same_off_attention ==> eq ==> eq) (network_values self).
Proof.
  intros ws ws' Hagree x ? <-.
  unfold network_values, transformer_values, dense_at, norm_at, cell_at.
  unfold dense_weights_at. cbn [Nat.add].
  by rewrite !Hagree by (unfold attention_layers; set_solver).
Qed.

(** The values of the graph do not depend on the weights of the attention
    layers. *)
Lemma model_graph_values_ext self t f nc ws ws' x :
  weights_ok (model_graph self t f nc) ws →
  weights_ok (model_graph self t f nc) ws' →
  same_off_attention ws ws' →
  graph_values (model_graph self t f nc) ws x [] ≫= (.!! 20%nat)
  = graph_values (model_graph self t f nc) ws' x [] ≫= (.!! 20%nat).
Proof.
  intros Hws Hws' Hagree. rewrite !model_graph_values by done.
  rewrite (model_forward_plain _ _ _ _ ws), (model_forward_plain _ _ _ _ ws')
    by done.
  by rewrite Hagree.
Qed.

(** The output layer returns one vector of positive scores that add up to
    one. *)
Lemma dense_softmax_distribution (w : dense_weights) units row :
  (0 < units)%nat → cols2 (kernel w) = units → length (bias w) = units →
  ∃ scores,
    dense_forward w softmax [row] = [scores] ∧ length scores = units ∧
    Forall (fun s => 0 < s) scores ∧ Rsum scores = 1.
Proof.
  intros Hu Hk Hb. eexists. split; [reflexivity|].
  set (v := zip_with Rplus (vecmat row (kernel w)) (bias w)).
  assert (length v = units) as Hv
    by (unfold v; rewrite length_zip_with, vecmat_length; lia).
  split; [by rewrite softmax_length|].
  split; [apply Forall_forall; intros s; apply softmax_pos|].
  apply softmax_sum. intros Hnil. rewrite Hnil in Hv. simpl in Hv. lia.
Qed.

(** The head of the network on the last state of the recurrent layer. *)
Lemma network_values_scores self t f nc ws x :
  (0 < nc)%nat → weights_ok (model_graph self t f nc) ws →
  ∃ scores,
    network_values self ws x = [scores] ∧ length scores = nc ∧
    Forall (fun s => 0 < s) scores ∧ Rsum scores = 1.
Proof.
  intros Hnc Hws. unfold network_values.
  destruct (weights_ok_dense _ ws 20 _ nc Softmax Hws eq_refl eq_refl)
    as [Hk Hb].
  unfold dense_at.
  pose proof (lstm_last_state (lstm_units self) (cell_at ws 17)
                (transformer_values self ws 2
                   (lstm_values (lstm_units self) true (cell_at ws 1) x)))
    as Hlast.
  destruct (lstm_values _ false _ _) as [|z [|??]]; simplify_eq/=.
  by apply dense_softmax_distribution.
Qed.

(** ** Theorems *)

(** C6: the class scores of the network [build_model] constructs do not
    depend on the additive attention: for weights that fit the layers, the
    output of the model is the value of the body of [build_model], which
    is the value of the network without the attention block, and two sets
    of weights that differ only in the query, key, score and weight layers
    of the attention give the same scores. *)
Theorem attention_layers_unused self t f nc :
  admissible self → (0 < nc)%nat →
  ∃ m, build_model self [t; f] nc = Ok m ∧
    (∀ ws x, weights_ok (km_graph m) ws →
       model_values m ws x = Some (model_forward self ws x) ∧
       model_forward self ws x = network_values self ws x) ∧
    (∀ ws ws' x,
       weights_ok (km_graph m) ws → weights_ok (km_graph m) ws' →
       same_off_attention ws ws' →
       model_values m ws x = model_values m ws' x).
Proof.
  intros Hadm Hnc. eexists. split; [by apply build_model_graph|].
  unfold model_values. cbn [km_graph km_outputs kt_id].
  split; intros ws.
  - intros x Hws. split; [by apply model_graph_values|].
    by eapply model_forward_plain.
  - intros ws' x Hws Hws' Hagree. by apply model_graph_values_ext.
Qed.

(** C35: every tensor of the network has, at inference, a value of the
    shape that the graph records for it: for weights that fit the layers
    and a sample of the input shape, the interpreter returns a value for
    each of the nodes of the graph [build_model] constructs, of as many
    time steps and features as the shape rule of its layer gave. *)
Theorem tensor_values_have_shapes self t f nc :
  admissible self → (0 < nc)%nat →
  ∃ m, build_model self [t; f] nc = Ok m ∧
    ∀ ws x, weights_ok (km_graph m) ws → has_shape [t; f] x →
      ∃ env,
        graph_values (km_graph m) ws x [] = Some env ∧
        Forall2 (fun n v => has_shape (node_shape n) v) (km_graph m) env.
Proof.
  intros Hadm Hnc. eexists. split; [by apply build_model_graph|].
  cbn [km_graph]. intros ws x Hws Hx. unfold weights_ok, model_graph in Hws.
  weights_inv Hws. destruct_and!.
  repeat match goal with Hw : _ = width _ |- _ => simpl in Hw end.
  eexists. split; [cbn -[activation_values]; reflexivity|].
  repeat match goal with |- Forall2 _ _ _ => constructor end;
    cbn [has_shape node_shape] in *; eauto 200 with shapes.
Qed.

(** C36: the class scores of a sample are a probability distribution: for
    weights that fit the layers, the model returns one vector with one
    positive score per class, and the scores add up to one. *)
Theorem class_scores_distribution self t f nc :
  admissible self → (0 < nc)%nat →
  ∃ m, build_model self [t; f] nc = Ok m ∧
    ∀ ws x, weights_ok (km_graph m) ws →
      ∃ scores,
        model_values m ws x = Some [scores] ∧ length scores = nc ∧
        Forall (fun s => 0 < s) scores ∧ Rsum scores = 1.
Proof.
  intros Hadm Hnc. eexists. split; [by apply build_model_graph|].
  unfold model_values. cbn [km_graph km_outputs kt_id]. intros ws x Hws.
  destruct (network_values_scores self t f nc ws x Hnc Hws)
    as (scores & Hscores & Hlen & Hpos & Hsum).
  exists scores.
  by rewrite model_graph_values, (model_forward_plain _ t f nc), Hscores.
Qed.

End inference.

(** ** The example: the default network on two classes *)

(** Weights that fit the layers: kernels and biases of zeros of the widths
    of the layers, and unit scales in the normalisations. *)
Definition zeros_dense (inputs units : nat) : layer_weights :=
  DenseWeightsOf (DenseWeights
                    (Arr2 inputs units (replicate inputs (replicate units 0)))
                    (replicate units 0)).

Definition unit_norm (units : nat) : layer_weights :=
  NormWeights (replicate units 1) (replicate units 0).

Definition demo_weights : list layer_weights :=
  [ NoWeights; CellWeights []; CellWeights []; NoWeights; NoWeights;
    unit_norm 64; zeros_dense 64 128; NoWeights; zeros_dense 128 64;
    NoWeights; unit_norm 64; zeros_dense 64 64; zeros_dense 64 64;
    NoWeights; zeros_dense 128 32; zeros_dense 32 1; NoWeights;
    CellWeights []; zeros_dense 64 128; NoWeights; zeros_dense 128 2 ].

Lemma demo_weights_ok :
  weights_ok (model_graph default_hyperparams 20 1 2) demo_weights.
Proof. repeat constructor. Qed.

Lemma attention_layers_unused_witness :
  ∃ m, build_model default_hyperparams [20; 1]%nat 2 = Ok m ∧
    (∀ ws x, weights_ok (km_graph m) ws →
       model_values m ws x = Some (model_forward default_hyperparams ws x) ∧
       model_forward default_hyperparams ws x
       = network_values default_hyperparams ws x) ∧
    (∀ ws ws' x,
       weights_ok (km_graph m) ws → weights_ok (km_graph m) ws' →
       same_off_attention ws ws' →
       model_values m ws x = model_values m ws' x).
Proof.
  exact (attention_layers_unused default_hyperparams 20 1 2
           default_hyperparams_admissible (Nat.lt_0_succ 1)).
Defined.

Lemma tensor_values_have_shapes_witness :
  ∃ m env,
    build_model default_hyperparams [20; 1]%nat 2 = Ok m ∧
    graph_values (km_graph m) demo_weights ((fun i => [INR i]) <$> seq 0 20) []
    = Some env ∧
    Forall2 (fun n v => has_shape (node_shape n) v) (km_graph m) env.
Proof.
  destruct (tensor_values_have_shapes default_hyperparams 20 1 2
              default_hyperparams_admissible (Nat.lt_0_succ 1))
    as (m & Hm & Hshapes).
  assert (weights_ok (km_graph m) demo_weights) as Hok.
  { rewrite build_model_graph in Hm
      by (exact default_hyperparams_admissible || exact (Nat.lt_0_succ 1)).
    injection Hm as <-. exact demo_weights_ok. }
  destruct (Hshapes demo_weights ((fun i => [INR i]) <$> seq 0 20) Hok)
    as (env & Hrun & Henv); [by repeat constructor|].
  exists m, env. split; [exact Hm|]. split; [exact Hrun|exact Henv].
Defined.

Lemma class_scores_distribution_witness :
  ∃ m scores,
    build_model default_hyperparams [20; 1]%nat 2 = Ok m ∧
    weights_ok (km_graph m) demo_weights ∧
    model_values m demo_weights ((fun i => [INR i]) <$> seq 0 20)
    = Some [scores] ∧
    length scores = 2%nat ∧ Forall (fun s => 0 < s) scores ∧ Rsum scores = 1.
Proof.
  destruct (class_scores_distribution default_hyperparams 20 1 2
              default_hyperparams_admissible (Nat.lt_0_succ 1))
    as (m & Hm & Hscores).
  assert (weights_ok (km_graph m) demo_weights) as Hok.
  { rewrite build_model_graph in Hm
      by (exact default_hyperparams_admissible || exact (Nat.lt_0_succ 1)).
    injection Hm as <-. exact demo_weights_ok. }
  destruct (Hscores demo_weights ((fun i => [INR i]) <$> seq 0 20) Hok)
    as (scores & Hrun & Hlen & Hpos & Hsum).
  exists m, scores. split; [exact Hm|]. split; [exact Hok|].
  split; [exact Hrun|]. split; [exact Hlen|]. split; [exact Hpos|exact Hsum].
Defined.
