(* ===== verification/Preprocess.v ===== *)
(** * Preprocess: the scaler and the dimensionality reducer

    The [sklearn.preprocessing.StandardScaler] held in [self.scaler] and the
    [sklearn.decomposition.PCA] held in [self.pca], as objects with optional
    fitted attributes and methods in the state-and-error monad.

    The scaler is modelled in full: column means, population standard
    deviations (a zero deviation is replaced by one), and the affine map
    applied by [transform].  The reducer is modelled up to its solver: the
    principal axes are supplied by an implementation of the interface
    [PCASolver], which promises their shape; centring, projection and every
    check of the methods are written out.

    The lemmas give the shapes of the results, the errors of unfitted
    objects and of arrays with the wrong number of columns, the column
    means and variances of a standardised training set, and that the
    components of the array the reducer is fitted on have mean zero. *)

From Stdlib Require Import Reals Lra Lia.
From S2P Require Import Prelude Numeric.

#[local] Set Warnings "-clear-no-such-hyp".
#[local] Open Scope R_scope.

(** ** Column statistics *)

Definition column_mean (a : ndarray2) (j : nat) : R :=
  Rsum (column j (data2 a)) / INR (rows2 a).

Definition column_var (a : ndarray2) (j : nat) : R :=
  Rsum ((fun x => (x - column_mean a j) * (x - column_mean a j))
          <$> column j (data2 a)) / INR (rows2 a).

(** The scale of a column: its standard deviation, or one when that is
    zero. *)
Definition scale_of (var : R) : R :=
  if Req_dec_T var 0 then 1 else sqrt var.

Definition column_means (a : ndarray2) : list R :=
  column_mean a <$> seq 0 (cols2 a).

Definition column_scales (a : ndarray2) : list R :=
  (fun j => scale_of (column_var a j)) <$> seq 0 (cols2 a).

(** [(row - mean) / scale], entry by entry *)
Definition standardize_row (mean scale row : list R) : list R :=
  zip_with Rdiv (zip_with Rminus row mean) scale.

Definition center_row (mean row : list R) : list R := zip_with Rminus row mean.

(** ** The scaler *)

Record StandardScaler : Type := MkStandardScaler {
  scaler_fitted : option (list R * list R)
}.

(** [StandardScaler()] *)
Definition StandardScaler_new : StandardScaler := MkStandardScaler None.

Definition empty_array_error : exn :=
  ValueError "Found array with 0 sample(s) or 0 feature(s) while a minimum of 1 is required".

Definition feature_mismatch_error : exn :=
  ValueError "X has a different number of features than the estimator was fitted with".

(** The validation every estimator applies to its input array. *)
Definition check_array (X : ndarray2) : result unit :=
  guard_or empty_array_error
    (bool_decide (0 < rows2 X)%nat && bool_decide (0 < cols2 X)%nat).

(** [self.scaler.fit(X)]: the fitted attributes are reset first, so a
    failed fit leaves the scaler unfitted. *)
Definition scaler_fit (X : ndarray2) : stateE StandardScaler unit :=
  fun _ =>
    match check_array X with
    | Ok _ => (Ok tt, MkStandardScaler (Some (column_means X, column_scales X)))
    | Raise e => (Raise e, MkStandardScaler None)
    end.

(** [self.scaler.transform(X)] *)
Definition scaler_transform (X : ndarray2) : stateE StandardScaler ndarray2 :=
  fun sc =>
    match scaler_fitted sc with
    | None => (Raise (NotFittedError "StandardScaler"), sc)
    | Some (mean, scale) =>
        (_ ← check_array X;
         _ ← guard_or feature_mismatch_error
               (bool_decide (cols2 X = length mean));
         Ok (Arr2 (rows2 X) (cols2 X)
               (standardize_row mean scale <$> data2 X)),
         sc)
    end.

(** [self.scaler.fit_transform(X)] *)
Definition scaler_fit_transform (X : ndarray2) : stateE StandardScaler ndarray2 :=
  _ ← scaler_fit X; scaler_transform X.

(** ** The reducer *)

(** What the program needs of the eigen-solver behind [PCA]: for [k]
    admissible, [k] axes of the width of the data. *)
Class PCASolver : Type := {
  principal_axes : nat → nat → ndarray2 → ndarray2;
  principal_axes_wf k seed X :
    wf2 X → (k <= Nat.min (rows2 X) (cols2 X))%nat →
    wf2 (principal_axes k seed X) ∧
    rows2 (principal_axes k seed X) = k ∧
    cols2 (principal_axes k seed X) = cols2 X
}.

(** The reference solver returns the first [k] coordinate axes. *)
Definition coordinate_axes (k seed : nat) (X : ndarray2) : ndarray2 :=
  Arr2 k (cols2 X) (unit_vector (cols2 X) <$> seq 0 k).

Record PCA : Type := MkPCA {
  pca_n_components : nat;
  pca_random_state : nat;
  pca_fitted : option (list R * ndarray2)
}.

(** [PCA(n_components=..., random_state=...)] *)
Definition PCA_new (n_components random_state : nat) : PCA :=
  MkPCA n_components random_state None.

Definition n_components_error : exn :=
  ValueError "n_components must be between 0 and min(n_samples, n_features)".

(** [X . W^T] for centred rows: the coordinates along the axes. *)
Definition project_rows (W : ndarray2) (rows : list (list R)) : list (list R) :=
  (fun row => (fun w => dot row w) <$> data2 W) <$> rows.

Definition pca_project (mean : list R) (W : ndarray2) (X : ndarray2) : ndarray2 :=
  Arr2 (rows2 X) (rows2 W) (project_rows W (center_row mean <$> data2 X)).

Section pca.
Context `{PCASolver}.

(** [self.pca.fit_transform(X)] *)
Definition pca_fit_transform (X : ndarray2) : stateE PCA ndarray2 :=
  fun p =>
    match
      _ ← check_array X;
      guard_or n_components_error
        (bool_decide (pca_n_components p <= Nat.min (rows2 X) (cols2 X))%nat)
    with
    | Ok _ =>
        let mean := column_means X in
        let centred := Arr2 (rows2 X) (cols2 X) (center_row mean <$> data2 X) in
        let W := principal_axes (pca_n_components p) (pca_random_state p) centred in
        (Ok (pca_project mean W X),
         MkPCA (pca_n_components p) (pca_random_state p) (Some (mean, W)))
    | Raise e => (Raise e, p)
    end.

(** [self.pca.transform(X)] *)
Definition pca_transform (X : ndarray2) : stateE PCA ndarray2 :=
  fun p =>
    match pca_fitted p with
    | None => (Raise (NotFittedError "PCA"), p)
    | Some (mean, W) =>
        (_ ← check_array X;
         _ ← guard_or feature_mismatch_error
               (bool_decide (cols2 X = length mean));
         Ok (pca_project mean W X),
         p)
    end.

End pca.

(** A fitted scaler or reducer whose attributes have the width [f] (and,
    for the reducer, [k] axes). *)
Definition scaler_fitted_for (f : nat) (sc : StandardScaler) : Prop :=
  ∃ mean scale, scaler_fitted sc = Some (mean, scale) ∧
                length mean = f ∧ length scale = f.

Definition pca_fitted_for (f k : nat) (p : PCA) : Prop :=
  ∃ mean W, pca_fitted p = Some (mean, W) ∧ length mean = f ∧
            wf2 W ∧ rows2 W = k ∧ cols2 W = f.

(** ** Lemmas *)

Lemma check_array_Ok X :
  (0 < rows2 X)%nat → (0 < cols2 X)%nat → check_array X = Ok tt.
Proof. intros. unfold check_array. by rewrite !bool_decide_true. Qed.

Lemma check_array_inv X u :
  check_array X = Ok u → (0 < rows2 X)%nat ∧ (0 < cols2 X)%nat.
Proof.
  unfold check_array. intros Hg%guard_or_Ok.
  apply andb_true_iff in Hg as [H1 H2].
  split; by eapply bool_decide_eq_true.
Qed.

Lemma check_array_Raise X e : check_array X = Raise e → e = empty_array_error.
Proof. unfold check_array. by intros [_ ->]%guard_or_Raise. Qed.

Lemma column_means_length X : length (column_means X) = cols2 X.
Proof. unfold column_means. by rewrite length_fmap, length_seq. Qed.

Lemma column_scales_length X : length (column_scales X) = cols2 X.
Proof. unfold column_scales. by rewrite length_fmap, length_seq. Qed.

Lemma standardize_row_length mean scale row f :
  length mean = f → length scale = f → length row = f →
  length (standardize_row mean scale row) = f.
Proof. intros. unfold standardize_row. rewrite !length_zip_with. lia. Qed.

Lemma center_row_length mean row f :
  length mean = f → length row = f → length (center_row mean row) = f.
Proof. intros. unfold center_row. rewrite length_zip_with. lia. Qed.

(** *** The scaler *)

Lemma scaler_fit_Ok X sc :
  (0 < rows2 X)%nat → (0 < cols2 X)%nat →
  scaler_fit X sc =
  (Ok tt, MkStandardScaler (Some (column_means X, column_scales X))).
Proof. intros. unfold scaler_fit. by rewrite check_array_Ok. Qed.

Lemma scaler_fit_Raise X sc :
  rows2 X = 0%nat ∨ cols2 X = 0%nat →
  scaler_fit X sc = (Raise empty_array_error, StandardScaler_new).
Proof.
  intros Hz. unfold scaler_fit, check_array.
  by destruct Hz as [-> | ->]; rewrite ?andb_false_r.
Qed.

Lemma scaler_fit_fitted_for X sc u sc' :
  scaler_fit X sc = (Ok u, sc') → scaler_fitted_for (cols2 X) sc'.
Proof.
  unfold scaler_fit. destruct (check_array X); [|done]. intros [= _ <-].
  eexists _, _. split; [done|].
  by rewrite column_means_length, column_scales_length.
Qed.

Lemma scaler_transform_state X sc : (scaler_transform X sc).2 = sc.
Proof. unfold scaler_transform. by destruct (scaler_fitted sc) as [[??]|]. Qed.

Lemma scaler_transform_readonly X : readonly (scaler_transform X).
Proof. intros sc. apply scaler_transform_state. Qed.

Lemma scaler_transform_unfitted X :
  scaler_transform X StandardScaler_new
  = (Raise (NotFittedError "StandardScaler"), StandardScaler_new).
Proof. done. Qed.

Lemma scaler_transform_Ok f X sc :
  scaler_fitted_for f sc → wf2 X →
  (0 < rows2 X)%nat → (0 < f)%nat → cols2 X = f →
  ∃ Y, scaler_transform X sc = (Ok Y, sc) ∧
       wf2 Y ∧ rows2 Y = rows2 X ∧ cols2 Y = f.
Proof.
  intros (mean & scale & Hfit & Hm & Hs) [Hn Hr] Hrows Hf Hc.
  unfold scaler_transform. rewrite Hfit, check_array_Ok by lia. simpl.
  rewrite bool_decide_true by lia. simpl.
  eexists. split; [done|]. split; [|by simpl].
  apply wf2_intro; [by rewrite length_fmap|]. rewrite Hc.
  eapply rect_fmap; [|exact Hr]. intros r Hl.
  apply standardize_row_length; lia.
Qed.

Lemma scaler_transform_mismatch f X sc :
  scaler_fitted_for f sc → (0 < rows2 X)%nat → (0 < cols2 X)%nat →
  cols2 X ≠ f →
  scaler_transform X sc = (Raise feature_mismatch_error, sc).
Proof.
  intros (mean & scale & Hfit & Hm & Hs) Hrows Hcols Hc.
  unfold scaler_transform. rewrite Hfit, check_array_Ok by lia. simpl.
  by rewrite bool_decide_false by lia.
Qed.

Lemma scaler_fit_transform_Ok X sc :
  wf2 X → (0 < rows2 X)%nat → (0 < cols2 X)%nat →
  ∃ Y sc', scaler_fit_transform X sc = (Ok Y, sc') ∧
           scaler_fitted_for (cols2 X) sc' ∧
           wf2 Y ∧ rows2 Y = rows2 X ∧ cols2 Y = cols2 X.
Proof.
  intros Hwf Hrows Hcols. unfold scaler_fit_transform.
  rewrite (stateE_bind_run _ _ _ _ _ (scaler_fit_Ok X sc Hrows Hcols)).
  assert (Hfit : scaler_fitted_for (cols2 X)
            (MkStandardScaler (Some (column_means X, column_scales X)))).
  { eexists _, _. split; [done|].
    by rewrite column_means_length, column_scales_length. }
  destruct (scaler_transform_Ok (cols2 X) X _ Hfit Hwf Hrows Hcols eq_refl)
    as (Y & HY & ?). eauto 10.
Qed.

(** *** Standardisation *)

Lemma column_standardize j mean scale μ s c rows :
  rect c rows → length mean = c → length scale = c →
  mean !! j = Some μ → scale !! j = Some s →
  column j (standardize_row mean scale <$> rows)
  = (fun x => (x - μ) / s) <$> column j rows.
Proof.
  intros Hr Hm Hs Hμ Hsj. unfold column. rewrite <- !list_fmap_compose.
  apply list_fmap_ext. intros i row Hrow. simpl.
  eapply Forall_lookup_1 in Hr; [|exact Hrow].
  assert (j < c)%nat as Hj by (rewrite <- Hm; by eapply lookup_lt_Some).
  destruct (lookup_lt_is_Some_2 row j ltac:(lia)) as [x Hx].
  rewrite (nth_lookup_Some _ _ _ _ Hx).
  apply nth_lookup_Some. unfold standardize_row.
  rewrite lookup_zip_with, lookup_zip_with, Hx, Hμ. simpl. by rewrite Hsj.
Qed.

Lemma column_var_nonneg X j : (0 < rows2 X)%nat → 0 <= column_var X j.
Proof.
  intros Hn%lt_0_INR. unfold column_var, Rdiv. apply Rmult_le_pos.
  - apply (Rsum_squares_nonneg (fun x => x - column_mean X j)).
  - left. by apply Rinv_0_lt_compat.
Qed.

Lemma scale_of_pos var : 0 <= var → 0 < scale_of var.
Proof.
  intros Hv. unfold scale_of. destruct (Req_dec_T var 0); [lra|].
  apply sqrt_lt_R0. lra.
Qed.

Lemma scale_of_sqr var :
  0 <= var → var ≠ 0 → scale_of var * scale_of var = var.
Proof.
  intros Hv Hne. unfold scale_of. destruct (Req_dec_T var 0); [done|].
  by apply sqrt_sqrt.
Qed.

Lemma scaler_fit_transform_run X sc :
  (0 < rows2 X)%nat → (0 < cols2 X)%nat →
  scaler_fit_transform X sc
  = (Ok (Arr2 (rows2 X) (cols2 X)
           (standardize_row (column_means X) (column_scales X) <$> data2 X)),
     MkStandardScaler (Some (column_means X, column_scales X))).
Proof.
  intros Hr Hc. unfold scaler_fit_transform.
  rewrite (stateE_bind_run _ _ _ _ _ (scaler_fit_Ok X sc Hr Hc)).
  unfold scaler_transform. cbn [scaler_fitted].
  rewrite check_array_Ok by done.
  by rewrite guard_decide_pass by by rewrite column_means_length.
Qed.

Lemma scaler_fit_transform_inv X sc Y sc' :
  scaler_fit_transform X sc = (Ok Y, sc') →
  (0 < rows2 X)%nat ∧ (0 < cols2 X)%nat.
Proof.
  unfold scaler_fit_transform, scaler_fit, mbind, stateE_bind.
  destruct (check_array X) as [[]|] eqn:Hc; [|done]. intros _.
  by apply check_array_inv in Hc.
Qed.

Lemma standardized_column X j :
  wf2 X → (j < cols2 X)%nat →
  column j (standardize_row (column_means X) (column_scales X) <$> data2 X)
  = (fun x => (x - column_mean X j) / scale_of (column_var X j))
      <$> column j (data2 X).
Proof.
  intros [_ Hrect] Hj.
  apply (column_standardize j _ _ _ _ (cols2 X));
    [done | apply column_means_length | apply column_scales_length | |].
  - unfold column_means. rewrite list_lookup_fmap, lookup_seq_lt by done. done.
  - unfold column_scales. rewrite list_lookup_fmap, lookup_seq_lt by done. done.
Qed.

(** C33: [fit_transform] of the scaler standardises the columns of a
    well-formed array: every column of the result has mean zero, and
    variance one, except that a column that is constant in the input is
    left with variance zero (its scale is taken to be one). *)
Theorem scaler_standardizes X sc Y sc' j :
  wf2 X → scaler_fit_transform X sc = (Ok Y, sc') → (j < cols2 X)%nat →
  column_mean Y j = 0 ∧
  (column_var X j ≠ 0 → column_var Y j = 1) ∧
  (column_var X j = 0 → column_var Y j = 0).
Proof.
  intros HX Hrun Hj.
  destruct (scaler_fit_transform_inv _ _ _ _ Hrun) as [Hr Hc].
  rewrite scaler_fit_transform_run in Hrun by done. injection Hrun as <- <-.
  pose proof (lt_0_INR _ Hr) as Hn.
  pose proof (column_var_nonneg X j Hr) as Hv.
  pose proof (scale_of_pos _ Hv) as Hs.
  set (Y := Arr2 _ _ _).
  set (μ := column_mean X j) in *. set (s := scale_of (column_var X j)) in *.
  assert (column j (data2 Y)
          = (fun x => (x - μ) / s) <$> column j (data2 X)) as Hcol
    by by apply standardized_column.
  assert (INR (length (column j (data2 X))) = INR (rows2 X)) as Hlen
    by (rewrite column_length; by destruct HX as [-> _]).
  assert (column_mean Y j = 0) as Hmean.
  { unfold column_mean. rewrite Hcol. cbn [rows2 Y].
    rewrite (list_fmap_compose (fun x => x - μ) (fun x => x / s)).
    rewrite Rsum_scale, Rsum_fmap_shift, Hlen. unfold μ, column_mean.
    field. lra. }
  split; [done|].
  assert (column_var Y j = column_var X j / (s * s)) as Hvar.
  { unfold column_var at 1. rewrite Hmean, Hcol. cbn [rows2 Y].
    rewrite <- list_fmap_compose.
    rewrite (Rsum_fmap_ext _ ((fun x => x / (s * s))
                              ∘ (fun x => (x - μ) * (x - μ)))).
    - rewrite list_fmap_compose, Rsum_scale. unfold column_var. fold μ.
      field. lra.
    - intros x _. simpl. field. lra. }
  rewrite Hvar. split; intros Hcase.
  - unfold s. rewrite scale_of_sqr by done. by field.
  - rewrite Hcase. lra.
Qed.

(** *** The reducer *)

Section pca_lemmas.
Context `{PCASolver}.

Lemma project_rows_rect W rows : rect (rows2 W) (project_rows W rows) ↔
  rows = [] ∨ length (data2 W) = rows2 W.
Proof.
  unfold project_rows. destruct rows as [|r rows]; [split; [by left|constructor]|].
  split.
  - intros [Hl _]%rect_cons. right. by rewrite length_fmap in Hl.
  - intros [?|Hl]; [done|]. apply Forall_fmap, Forall_forall. intros r' _.
    simpl. by rewrite length_fmap.
Qed.

Lemma wf2_pca_project mean W X :
  wf2 W → length (data2 X) = rows2 X → wf2 (pca_project mean W X).
Proof.
  intros [HW _] Hn. apply wf2_intro.
  - unfold project_rows. by rewrite !length_fmap.
  - apply project_rows_rect. by right.
Qed.

Lemma pca_transform_state X p : (pca_transform X p).2 = p.
Proof. unfold pca_transform. by destruct (pca_fitted p) as [[??]|]. Qed.

Lemma pca_transform_readonly X : readonly (pca_transform X).
Proof. intros p. apply pca_transform_state. Qed.

Lemma pca_transform_unfitted X k seed :
  pca_transform X (PCA_new k seed) = (Raise (NotFittedError "PCA"), PCA_new k seed).
Proof. done. Qed.

Lemma pca_transform_Ok f k X p :
  pca_fitted_for f k p → wf2 X →
  (0 < rows2 X)%nat → (0 < f)%nat → cols2 X = f →
  ∃ Y, pca_transform X p = (Ok Y, p) ∧
       wf2 Y ∧ rows2 Y = rows2 X ∧ cols2 Y = k.
Proof.
  intros (mean & W & Hfit & Hm & HW & Hk & Hc') [Hn Hr] Hrows Hf Hc.
  unfold pca_transform. rewrite Hfit, check_array_Ok by lia. simpl.
  rewrite bool_decide_true by lia. simpl.
  eexists. split; [done|]. split; [by apply wf2_pca_project|by simpl].
Qed.

Lemma pca_fit_transform_Ok X p :
  wf2 X → (0 < rows2 X)%nat → (0 < cols2 X)%nat →
  (pca_n_components p <= Nat.min (rows2 X) (cols2 X))%nat →
  ∃ Y p', pca_fit_transform X p = (Ok Y, p') ∧
          pca_fitted_for (cols2 X) (pca_n_components p) p' ∧
          pca_n_components p' = pca_n_components p ∧
          wf2 Y ∧ rows2 Y = rows2 X ∧ cols2 Y = pca_n_components p.
Proof.
  intros [Hn Hr] Hrows Hcols Hk. unfold pca_fit_transform.
  rewrite check_array_Ok by done. simpl. rewrite bool_decide_true by done.
  simpl.
  set (centred := Arr2 (rows2 X) (cols2 X) (center_row (column_means X) <$> data2 X)).
  assert (Hc : wf2 centred).
  { apply wf2_intro; [by rewrite length_fmap|].
    eapply rect_fmap; [|exact Hr]. intros r Hl.
    apply center_row_length; [apply column_means_length | done]. }
  destruct (principal_axes_wf (pca_n_components p) (pca_random_state p) centred
              Hc Hk) as (HW & HWr & HWc).
  eexists _, _. split; [done|]. split; [|split; [done|]].
  - eexists _, _. split; [done|]. by rewrite column_means_length.
  - split; [by apply wf2_pca_project|]. by simpl.
Qed.

Lemma pca_fit_transform_too_many X p :
  (0 < rows2 X)%nat → (0 < cols2 X)%nat →
  (Nat.min (rows2 X) (cols2 X) < pca_n_components p)%nat →
  pca_fit_transform X p = (Raise n_components_error, p).
Proof.
  intros Hrows Hcols Hk. unfold pca_fit_transform.
  rewrite check_array_Ok by done. simpl. by rewrite bool_decide_false by lia.
Qed.

Lemma pca_fit_transform_inv X p Y p' :
  pca_fit_transform X p = (Ok Y, p') →
  (pca_n_components p <= Nat.min (rows2 X) (cols2 X))%nat ∧
  (0 < rows2 X)%nat ∧ (0 < cols2 X)%nat.
Proof.
  unfold pca_fit_transform.
  destruct (check_array X) as [[]|] eqn:Hc; simpl; [|done].
  apply check_array_inv in Hc. case_bool_decide; [|done]. by intros _.
Qed.

(** The column [j] of the projections holds the inner products of the
    rows with the axis [j]. *)
Lemma column_project_rows W rows j w :
  data2 W !! j = Some w →
  column j (project_rows W rows) = (fun row => dot row w) <$> rows.
Proof.
  intros Hw. unfold column, project_rows. rewrite <- list_fmap_compose.
  apply list_fmap_ext. intros i row _. simpl.
  apply nth_lookup_Some. by rewrite list_lookup_fmap, Hw.
Qed.

Lemma column_means_sums X :
  column_means X
  = (fun x => x / INR (rows2 X)) <$> column_sums (cols2 X) (data2 X).
Proof.
  unfold column_means, column_sums. by rewrite <- list_fmap_compose.
Qed.

(** The inner products of the centred rows with any vector add up to
    zero. *)
Lemma centred_dot_sum X w :
  wf2 X → (0 < rows2 X)%nat →
  Rsum ((fun row => dot (center_row (column_means X) row) w) <$> data2 X) = 0.
Proof.
  intros [Hn Hr] Hrows%lt_0_INR.
  rewrite (list_fmap_ext _
             ((fun x => x - dot (column_means X) w) ∘ (fun row => dot row w))
             (data2 X)).
  - rewrite list_fmap_compose, Rsum_fmap_shift, length_fmap, Hn.
    rewrite (Rsum_dot_rows (cols2 X)), column_means_sums, dot_scale by done.
    field. lra.
  - intros i row Hrow. simpl. apply dot_minus.
    rewrite column_means_length. by eapply Forall_lookup_1 in Hr.
Qed.

(** The components of the training data have mean zero: the data are
    centred before they are projected, whatever the axes. *)
Lemma pca_fit_transform_centred X p Y p' j :
  wf2 X → pca_fit_transform X p = (Ok Y, p') →
  (j < pca_n_components p)%nat → column_mean Y j = 0.
Proof.
  intros HX Hrun Hj.
  destruct (pca_fit_transform_inv _ _ _ _ Hrun) as (Hk & Hr & Hc).
  destruct (pca_fit_transform_Ok X p HX Hr Hc Hk)
    as (Y' & q & Hrun' & (mean & W & _ & _ & [HW _] & HWk & _) & _).
  unfold pca_fit_transform in Hrun, Hrun'.
  rewrite check_array_Ok in Hrun, Hrun' by done. simpl in Hrun, Hrun'.
  rewrite bool_decide_true in Hrun, Hrun' by done. simpl in Hrun, Hrun'.
  injection Hrun as <- _. clear Hrun'.
  set (W0 := principal_axes _ _ _).
  destruct (lookup_lt_is_Some_2 (data2 W0) j) as [w Hw].
  { destruct (principal_axes_wf (pca_n_components p) (pca_random_state p)
                (Arr2 (rows2 X) (cols2 X)
                   (center_row (column_means X) <$> data2 X)))
      as ([Hlen _] & Hrows & _); [|done|unfold W0; lia].
    destruct HX as [Hn Hrect]. apply wf2_intro; [by rewrite length_fmap|].
    eapply rect_fmap; [|exact Hrect]. intros r Hl.
    apply center_row_length; [apply column_means_length | done]. }
  unfold column_mean, pca_project. cbn [data2 rows2].
  rewrite (column_project_rows _ _ _ _ Hw), <- list_fmap_compose.
  change (_ ∘ _) with (fun row => dot (center_row (column_means X) row) w).
  rewrite centred_dot_sum by done. unfold Rdiv. lra.
Qed.

End pca_lemmas.

(** ** The reference solver satisfies the interface *)

Lemma coordinate_axes_wf k seed X :
  wf2 X → (k <= Nat.min (rows2 X) (cols2 X))%nat →
  wf2 (coordinate_axes k seed X) ∧
  rows2 (coordinate_axes k seed X) = k ∧
  cols2 (coordinate_axes k seed X) = cols2 X.
Proof.
  intros _ _. split; [|done]. apply wf2_intro; simpl.
  - by rewrite length_fmap, length_seq.
  - apply Forall_fmap, Forall_forall. intros i _. apply unit_vector_length.
Qed.

#[export] Instance coordinate_solver : PCASolver := {|
  principal_axes := coordinate_axes;
  principal_axes_wf := coordinate_axes_wf
|}.

(** ** Example *)

Lemma scaler_standardizes_witness :
  let X := Arr2 2 1 [[1]; [3]] in
  ∃ Y sc, scaler_fit_transform X StandardScaler_new = (Ok Y, sc) ∧
          column_mean Y 0 = 0.
Proof.
  intros X.
  pose proof (scaler_fit_transform_run X StandardScaler_new
                ltac:(simpl; lia) ltac:(simpl; lia)) as Hrun.
  eexists _, _. split; [exact Hrun|].
  exact (proj1 (scaler_standardizes X StandardScaler_new _ _ 0%nat
                  (bool_decide_unpack (wf2 X) I) Hrun ltac:(simpl; lia))).
Defined.
