(* ===== verification/Sampling.v ===== *)
(** * Sampling: class balancing and the train/validation split

    [imblearn.over_sampling.RandomOverSampler.fit_resample] and
    [sklearn.model_selection.train_test_split] as [fit] calls them, over
    encoded labels.  Both draw from a generator seeded with
    [self.random_state]; what they draw is supplied by an implementation of
    the interface [RandomOracle], which promises only what every generator
    guarantees: a choice has the requested size and comes from the
    population, a permutation is a permutation, and the number of
    validation rows lies between one and the number of rows.

    The lemmas show that balancing keeps the original rows in place and
    brings every class to the size of the largest one, that the split
    partitions the rows, and how selections by position compose. *)

From Stdlib Require Import QArith.
From Stdlib Require Import Lia.
From stdpp Require Import sorting sets.
From S2P Require Import Prelude Labels.

#[local] Set Warnings "-clear-no-such-hyp".

(** ** The random source *)

Class RandomOracle : Type := {
  (** [RandomState(seed).choice(population, size=n, replace=True)], for the
      [k]-th call on the generator *)
  choice : nat → nat → list nat → nat → list nat;
  choice_length seed k pop n : pop ≠ [] → length (choice seed k pop n) = n;
  choice_elem seed k pop n x : x ∈ choice seed k pop n → x ∈ pop;
  (** [RandomState(seed).permutation(n)] *)
  permutation : nat → nat → list nat;
  permutation_perm seed n : permutation seed n ≡ₚ seq 0 n;
  (** [ceil(test_size * n)] as computed on floats *)
  float_ceil_mul : Q → nat → nat;
  float_ceil_mul_bounds q n :
    (0 < q)%Q → (q < 1)%Q → 0 < n →
    0 < float_ceil_mul q n ∧ float_ceil_mul q n ≤ n
}.

(** ** Counting classes *)

Definition count_label (c : nat) (y : list nat) : nat :=
  length (filter (c =.) y).

(** [np.flatnonzero(y == c)] *)
Definition indices_of (c : nat) (y : list nat) : list nat :=
  filter (fun i => y !! i = Some c) (seq 0 (length y)).

(** The classes of [y] in increasing order, each with its count. *)
Definition class_counts (y : list nat) : list (nat * nat) :=
  (fun c => (c, count_label c y)) <$> np_unique le y.

Definition n_sample_majority (y : list nat) : nat :=
  max_list (snd <$> class_counts y).

(** The first class that reaches the largest count. *)
Definition class_majority (y : list nat) : option nat :=
  (fun ip => fst (snd ip)) <$>
    list_find (fun p => snd p = n_sample_majority y) (class_counts y).

(** How many rows to add to each class but the majority class. *)
Definition sampling_strategy (y : list nat) : list (nat * nat) :=
  omap (fun p => if decide (Some (fst p) = class_majority y) then None
                 else Some (fst p, n_sample_majority y - snd p))
       (class_counts y).

(** Entries by position, as [y[idx]] on a vector of labels or on the rows
    of an array. *)
Definition take_labels {A} (y : list A) (idx : list nat) : list A :=
  omap (fun i => y !! i) idx.

(** The rows a class gains from one entry of the sampling strategy. *)
Definition gain (c : nat) (p : nat * nat) : nat :=
  if decide (fst p = c) then snd p else 0.

(** A reference implementation of the random source: choices walk through
    the population in a cycle, permutations are rotations, and the ceiling
    is exact. *)
Definition cyclic_choice (seed k : nat) (pop : list nat) (n : nat) : list nat :=
  take_labels pop ((fun i => (seed + k + i) mod length pop) <$> seq 0 n).

Definition exact_ceil_mul (q : Q) (n : nat) : nat :=
  Z.to_nat ((Qnum q * Z.of_nat n + Zpos (Qden q) - 1) / Zpos (Qden q)).

Section sampling.
Context `{RandomOracle}.

(** The positions selected by the over-sampler: every row, then the rows
    drawn for each minority class in turn. *)
Definition oversample_indices (seed : nat) (y : list nat) : list nat :=
  seq 0 (length y) ++
  concat (imap (fun k p => choice seed k (indices_of (fst p) y) (snd p))
               (sampling_strategy y)).

Definition single_class_error : exn :=
  ValueError "The target 'y' needs to have more than 1 class".

Definition inconsistent_length_error : exn :=
  ValueError "Found input variables with inconsistent numbers of samples".

(** [RandomOverSampler(random_state=seed).fit_resample(X, y)] on the row
    positions: the positions of the resampled rows in the original data. *)
Definition fit_resample_indices (seed : nat) (n_rows : nat) (y : list nat) :
    result (list nat) :=
  _ ← guard_or inconsistent_length_error (bool_decide (n_rows = length y));
  _ ← guard_or single_class_error (bool_decide (1 < length (np_unique le y)));
  Ok (oversample_indices seed y).

Definition test_size_error : exn :=
  ValueError "test_size should be a float in the (0, 1) range".

Definition empty_train_error : exn :=
  ValueError "the resulting train set will be empty".

(** [train_test_split(..., test_size=q, random_state=seed, shuffle=True)]
    on the row positions: the positions of the training rows and of the
    validation rows. *)
Definition train_test_split_indices (seed : nat) (test_size : Q)
    (n_rows : nat) (n_labels : nat) : result (list nat * list nat) :=
  _ ← guard_or inconsistent_length_error (bool_decide (n_rows = n_labels));
  _ ← guard_or test_size_error
        (Qlt_b 0 test_size && Qlt_b test_size 1);
  _ ← guard_or empty_train_error (bool_decide (0 < n_rows));
  let n_test := float_ceil_mul test_size n_rows in
  let n_train := n_rows - n_test in
  _ ← guard_or empty_train_error (bool_decide (0 < n_train));
  let perm := permutation seed n_rows in
  Ok (take n_train (drop n_test perm), take n_test perm).

End sampling.

(** ** Counting and selection lemmas *)

Lemma count_label_app c l1 l2 :
  count_label c (l1 ++ l2) = count_label c l1 + count_label c l2.
Proof. unfold count_label. by rewrite filter_app, length_app. Qed.

Lemma count_label_replicate c c' n :
  count_label c (replicate n c') = if decide (c' = c) then n else 0.
Proof.
  unfold count_label. induction n as [|n IH]; simpl; [by case_decide|].
  rewrite filter_cons. repeat case_decide; simplify_eq/=; lia.
Qed.

Lemma count_label_elem_of c y : c ∈ y ↔ 0 < count_label c y.
Proof.
  unfold count_label. split.
  - intros Hc. assert (c ∈ filter (c =.) y) as Hin by by apply list_elem_of_filter.
    destruct (filter _ y); [by apply elem_of_nil in Hin | simpl; lia].
  - intros Hlen. destruct (filter (c =.) y) as [|x l] eqn:Hf; [simpl in Hlen; lia|].
    assert (x ∈ filter (c =.) y) as Hx by (rewrite Hf; left).
    apply list_elem_of_filter in Hx as [-> Hx]. done.
Qed.

Lemma take_labels_cons {A} (y : list A) i idx :
  take_labels y (i :: idx)
  = match y !! i with
    | Some x => x :: take_labels y idx
    | None => take_labels y idx
    end.
Proof. done. Qed.

Lemma take_labels_app {A} (y : list A) i1 i2 :
  take_labels y (i1 ++ i2) = take_labels y i1 ++ take_labels y i2.
Proof. apply omap_app. Qed.

Lemma take_labels_concat {A} (y : list A) ll :
  take_labels y (concat ll) = concat (take_labels y <$> ll).
Proof.
  induction ll as [|l ll IH]; [done|]. simpl.
  by rewrite take_labels_app, IH.
Qed.

Lemma take_labels_seq_from {A} (y : list A) pre :
  take_labels (pre ++ y) (seq (length pre) (length y)) = y.
Proof.
  revert pre. induction y as [|x y IH]; intros pre; [done|]. cbn [length seq].
  rewrite take_labels_cons, list_lookup_middle by done. f_equal.
  specialize (IH (pre ++ [x])). rewrite length_app, <- app_assoc in IH.
  simpl in IH. by rewrite Nat.add_1_r in IH.
Qed.

Lemma take_labels_seq {A} (y : list A) : take_labels y (seq 0 (length y)) = y.
Proof. apply (take_labels_seq_from y []). Qed.

Lemma take_labels_const {A} (y : list A) c idx :
  Forall (fun i => y !! i = Some c) idx →
  take_labels y idx = replicate (length idx) c.
Proof.
  induction 1 as [|i idx Hi _ IH]; [done|].
  rewrite take_labels_cons, Hi, IH. done.
Qed.

Lemma take_labels_length {A} (y : list A) idx :
  Forall (fun i => i < length y) idx → length (take_labels y idx) = length idx.
Proof.
  induction 1 as [|i idx Hi _ IH]; [done|]. rewrite take_labels_cons.
  apply lookup_lt_is_Some_2 in Hi as [x ->]. simpl. by rewrite IH.
Qed.

Lemma indices_of_lookup c y i : i ∈ indices_of c y ↔ y !! i = Some c.
Proof.
  unfold indices_of. rewrite list_elem_of_filter, elem_of_seq.
  split; [by intros [? _]|]. intros Hi. split; [done|].
  apply lookup_lt_Some in Hi. lia.
Qed.

Lemma indices_of_nonempty c y : c ∈ y → indices_of c y ≠ [].
Proof.
  intros [i Hi]%list_elem_of_lookup Hnil.
  apply indices_of_lookup in Hi. rewrite Hnil in Hi. by apply elem_of_nil in Hi.
Qed.

Lemma count_label_concat_replicate c (strat : list (nat * nat)) :
  count_label c (concat ((fun p => replicate (snd p) (fst p)) <$> strat))
  = sum_list (gain c <$> strat).
Proof.
  induction strat as [|p strat IH]; [done|]. rewrite !fmap_cons. cbn [concat sum_list_with].
  by rewrite count_label_app, count_label_replicate, IH.
Qed.

Lemma class_counts_elem_of p y :
  p ∈ class_counts y ↔ fst p ∈ y ∧ snd p = count_label (fst p) y.
Proof.
  unfold class_counts. rewrite list_elem_of_fmap. split.
  - intros (c & -> & Hc). by apply np_unique_elem_of in Hc.
  - destruct p as [c n]. simpl. intros [Hc ->]. exists c.
    by rewrite np_unique_elem_of.
Qed.

Lemma count_le_majority c y : c ∈ y → count_label c y ≤ n_sample_majority y.
Proof.
  intros Hc. apply max_list_elem_of_le, list_elem_of_fmap.
  exists (c, count_label c y). by rewrite class_counts_elem_of.
Qed.

Lemma class_majority_spec y :
  y ≠ [] →
  ∃ m, class_majority y = Some m ∧ m ∈ y ∧ count_label m y = n_sample_majority y.
Proof.
  intros Hy. unfold class_majority.
  assert (snd <$> class_counts y ≠ []) as Hne.
  { destruct y as [|x y]; [done|]. intros Hnil%fmap_nil_inv.
    assert ((x, count_label x (x :: y)) ∈ class_counts (x :: y)) as Hin
      by (rewrite class_counts_elem_of; simpl; split; [left|done]).
    rewrite Hnil in Hin. by apply elem_of_nil in Hin. }
  apply max_list_elem_of, list_elem_of_fmap in Hne as (p & Hp & Hin).
  destruct (list_find_elem_of (fun p => snd p = n_sample_majority y)
              (class_counts y) p Hin) as [[i q] Hq]; [done|].
  rewrite Hq. apply list_find_Some in Hq as (Hi & Hmax & _).
  apply list_elem_of_lookup_2, class_counts_elem_of in Hi as [Hq1 Hq2].
  exists (fst q). simpl. split_and!; [done..|]. by rewrite <- Hq2.
Qed.

Lemma strategy_gain (m : option nat) (M : nat) (g : nat → nat) l c :
  NoDup l →
  sum_list (gain c <$>
    omap (fun p => if decide (Some (fst p) = m) then None
                   else Some (fst p, M - snd p))
         ((fun c => (c, g c)) <$> l))
  = if decide (c ∈ l ∧ Some c ≠ m) then M - g c else 0.
Proof.
  induction 1 as [|x l Hx _ IH]; [by case_decide as Hd; [destruct Hd as [?%elem_of_nil _]|]|].
  rewrite fmap_cons.
  change (omap ?f (?x :: ?l))
    with (match f x with Some y => y :: omap f l | None => omap f l end).
  cbn beta. cbn [fst snd].
  destruct (decide (Some x = m)) as [Hm|Hm];
    [|rewrite fmap_cons; change (sum_list (?a :: ?l)) with (a + sum_list l)];
    rewrite IH; unfold gain; cbn [fst snd]; repeat case_decide; set_solver by lia.
Qed.

Lemma sampling_strategy_gain c y :
  c ∈ y →
  sum_list (gain c <$> sampling_strategy y)
  = n_sample_majority y - count_label c y.
Proof.
  intros Hc. unfold sampling_strategy, class_counts.
  rewrite strategy_gain by apply np_unique_NoDup.
  destruct (class_majority_spec y) as (m & Hm & _ & Hmax);
    [by intros ->; apply elem_of_nil in Hc|].
  rewrite Hm. case_decide as Hd; [done|].
  rewrite np_unique_elem_of in Hd.
  destruct (decide (c = m)) as [->|]; [lia | naive_solver].
Qed.

Lemma sampling_strategy_elem_of p y : p ∈ sampling_strategy y → fst p ∈ y.
Proof.
  unfold sampling_strategy. rewrite list_elem_of_omap.
  intros (q & Hq & Hp). apply class_counts_elem_of in Hq as [Hq _].
  case_decide; simplify_eq. done.
Qed.

Lemma np_unique_length_elem_of (l k : list nat) :
  (∀ x, x ∈ l ↔ x ∈ k) → length (np_unique Nat.le l) = length (np_unique Nat.le k).
Proof.
  intros Hlk. apply (np_unique_length_same Nat.le Nat.le k l id).
  - by intros x y _ _.
  - intros z. rewrite Hlk. naive_solver.
Qed.

Lemma take_labels_Permutation {A} (y : list A) idx idx' :
  idx ≡ₚ idx' → take_labels y idx ≡ₚ take_labels y idx'.
Proof. intros Hp. unfold take_labels. by rewrite Hp. Qed.

(** ** The reference random source satisfies the interface *)

Lemma take_labels_elem_of {A} (y : list A) idx x : x ∈ take_labels y idx → x ∈ y.
Proof.
  unfold take_labels. rewrite list_elem_of_omap. intros (i & _ & Hi).
  by eapply list_elem_of_lookup_2.
Qed.

(** Selections of selections, and of encoded labels. *)

Lemma take_labels_lookup {A} (y : list A) idx k i :
  Forall (fun i => i < length y) idx → idx !! k = Some i →
  take_labels y idx !! k = y !! i.
Proof.
  intros Hb. revert k. induction Hb as [|j idx Hj _ IH]; intros [|k] Hk;
    try done; rewrite take_labels_cons;
    apply lookup_lt_is_Some_2 in Hj as [x Hx]; rewrite Hx; simpl in *.
  - by injection Hk as <-.
  - by apply IH.
Qed.

Lemma take_labels_compose {A} (y : list A) idx idx' :
  Forall (fun i => i < length y) idx →
  take_labels (take_labels y idx) idx' = take_labels y (take_labels idx idx').
Proof.
  intros Hb. induction idx' as [|i idx' IH]; [done|].
  rewrite !take_labels_cons, IH. destruct (idx !! i) as [j|] eqn:Hi.
  - rewrite (take_labels_lookup y idx i j Hb Hi), take_labels_cons.
    by destruct (y !! j).
  - apply lookup_ge_None in Hi. rewrite lookup_ge_None_2; [done|].
    by rewrite take_labels_length.
Qed.

Lemma take_labels_bounded (idx idx' : list nat) n :
  Forall (fun i => i < n) idx → Forall (fun i => i < n) (take_labels idx idx').
Proof.
  intros Hb. apply Forall_forall. intros i Hi%take_labels_elem_of.
  by eapply Forall_forall in Hb.
Qed.

Lemma Forall2_take_labels {A B} (R : A → B → Prop) (y : list A) (z : list B)
    idx :
  Forall2 R y z → Forall2 R (take_labels y idx) (take_labels z idx).
Proof.
  intros Hyz. induction idx as [|i idx IH]; [constructor|].
  rewrite !take_labels_cons. destruct (y !! i) as [x|] eqn:Hx.
  - destruct (Forall2_lookup_l _ _ _ _ _ Hyz Hx) as (c & -> & Hc).
    by constructor.
  - apply lookup_ge_None in Hx. rewrite lookup_ge_None_2; [done|].
    by rewrite <- (Forall2_length _ _ _ Hyz).
Qed.

Lemma encode_labels_take_labels {L} `{EqDecision L} (classes y : list L)
    y_enc idx :
  encode_labels classes y = Ok y_enc →
  encode_labels classes (take_labels y idx) = Ok (take_labels y_enc idx).
Proof.
  unfold encode_labels. rewrite !mapM_Ok_Forall2. apply Forall2_take_labels.
Qed.

Lemma cyclic_choice_length seed k pop n :
  pop ≠ [] → length (cyclic_choice seed k pop n) = n.
Proof.
  intros Hpop. unfold cyclic_choice. rewrite take_labels_length.
  - by rewrite length_fmap, length_seq.
  - apply Forall_fmap, Forall_forall. intros i _. simpl.
    apply Nat.mod_upper_bound. by destruct pop.
Qed.

Lemma rotate_seq_perm seed n : rotate seed (seq 0 n) ≡ₚ seq 0 n.
Proof.
  unfold rotate. rewrite Permutation_app_comm. by rewrite take_drop.
Qed.

Lemma exact_ceil_mul_bounds q n :
  (0 < q)%Q → (q < 1)%Q → 0 < n →
  0 < exact_ceil_mul q n ∧ exact_ceil_mul q n ≤ n.
Proof.
  unfold exact_ceil_mul, Qlt. destruct q as [a d]. simpl. intros Ha Hd Hn.
  assert (1 ≤ (a * Z.of_nat n + Z.pos d - 1) / Z.pos d)%Z
    by (apply Z.div_le_lower_bound; nia).
  assert ((a * Z.of_nat n + Z.pos d - 1) / Z.pos d < Z.of_nat n + 1)%Z
    by (apply Z.div_lt_upper_bound; nia).
  lia.
Qed.

Lemma exact_ceil_mul_upper q n :
  (0 <= Qnum q)%Z →
  (Z.pos (Qden q) * Z.of_nat (exact_ceil_mul q n)
   <= Qnum q * Z.of_nat n + Z.pos (Qden q) - 1)%Z.
Proof.
  intros Hq. unfold exact_ceil_mul.
  set (a := (Qnum q * Z.of_nat n + Z.pos (Qden q) - 1)%Z).
  assert (0 <= a)%Z by (unfold a; nia).
  rewrite Z2Nat.id by (apply Z.div_pos; lia). apply Z.mul_div_le. lia.
Qed.

#[export] Instance reference_oracle : RandomOracle := {|
  choice := cyclic_choice;
  choice_length := cyclic_choice_length;
  choice_elem seed k pop n x := take_labels_elem_of pop _ x;
  permutation seed n := rotate seed (seq 0 n);
  permutation_perm := rotate_seq_perm;
  float_ceil_mul := exact_ceil_mul;
  float_ceil_mul_bounds := exact_ceil_mul_bounds
|}.

(** ** Balancing and splitting, for any random source *)

Section sampling_lemmas.
Context `{RandomOracle}.

Lemma take_labels_choice seed k y p :
  fst p ∈ y →
  take_labels y (choice seed k (indices_of (fst p) y) (snd p))
  = replicate (snd p) (fst p).
Proof.
  intros Hp. rewrite (take_labels_const y (fst p)).
  - by rewrite choice_length by by apply indices_of_nonempty.
  - apply Forall_forall. intros i Hi%choice_elem. by apply indices_of_lookup.
Qed.

Lemma oversample_labels seed y :
  take_labels y (oversample_indices seed y)
  = y ++ concat ((fun p => replicate (snd p) (fst p)) <$> sampling_strategy y).
Proof.
  unfold oversample_indices.
  rewrite take_labels_app, take_labels_seq, take_labels_concat, fmap_imap.
  do 2 f_equal. rewrite <- imap_const. apply imap_ext. intros k p Hp. simpl.
  by apply take_labels_choice, sampling_strategy_elem_of, list_elem_of_lookup_2 with k.
Qed.

Lemma oversample_take_labels {A} seed y (z : list A) :
  length z = length y →
  take (length y) (take_labels z (oversample_indices seed y)) = z.
Proof.
  intros Hl. unfold oversample_indices.
  rewrite take_labels_app, <- Hl, take_labels_seq. by rewrite take_app_length.
Qed.

Lemma oversample_count seed y c :
  c ∈ y →
  count_label c (take_labels y (oversample_indices seed y)) = n_sample_majority y.
Proof.
  intros Hc. rewrite oversample_labels, count_label_app,
    count_label_concat_replicate, sampling_strategy_gain by done.
  pose proof (count_le_majority c y Hc). lia.
Qed.

Lemma oversample_take seed y :
  take (length y) (oversample_indices seed y) = seq 0 (length y).
Proof.
  unfold oversample_indices. by rewrite take_app_length' by by rewrite length_seq.
Qed.

Lemma oversample_bounded seed y :
  Forall (fun i => i < length y) (oversample_indices seed y).
Proof.
  unfold oversample_indices. apply Forall_app. split.
  - apply Forall_forall. intros i Hi%elem_of_seq. lia.
  - apply Forall_concat, Forall_forall. intros l Hl.
    apply list_elem_of_lookup in Hl as [k Hk].
    rewrite list_lookup_imap in Hk.
    destruct (sampling_strategy y !! k) as [p|]; [|done]. simpl in Hk.
    injection Hk as <-. apply Forall_forall.
    intros i Hi%choice_elem%indices_of_lookup. by eapply lookup_lt_Some.
Qed.

Lemma fit_resample_Ok seed y :
  1 < length (np_unique le y) →
  fit_resample_indices seed (length y) y = Ok (oversample_indices seed y).
Proof.
  intros Hy. unfold fit_resample_indices.
  by rewrite !guard_decide_pass by (done || lia).
Qed.

Lemma fit_resample_single_class seed y :
  length (np_unique le y) ≤ 1 →
  fit_resample_indices seed (length y) y = Raise single_class_error.
Proof.
  intros Hy. unfold fit_resample_indices.
  rewrite guard_decide_fail by lia. by rewrite guard_decide_pass.
Qed.

Lemma train_test_split_Ok seed q n :
  (0 < q)%Q → (q < 1)%Q → float_ceil_mul q n < n →
  train_test_split_indices seed q n n
  = Ok (drop (float_ceil_mul q n) (permutation seed n),
        take (float_ceil_mul q n) (permutation seed n)).
Proof.
  intros Hq0 Hq1 Hn. unfold train_test_split_indices.
  rewrite (guard_or_pass _ (_ && _)) by by rewrite andb_true_iff, !Qlt_b_spec.
  rewrite !guard_decide_pass by (done || lia).
  simpl. do 2 f_equal. apply take_ge.
    rewrite length_drop, (Permutation_length (permutation_perm seed n)), length_seq. lia.
Qed.

Lemma train_test_split_inv seed q n m train test :
  train_test_split_indices seed q n m = Ok (train, test) →
  m = n ∧ (0 < q)%Q ∧ (q < 1)%Q ∧ float_ceil_mul q n < n ∧
  train = drop (float_ceil_mul q n) (permutation seed n) ∧
  test = take (float_ceil_mul q n) (permutation seed n).
Proof.
  intros Hs. pose proof Hs as Hg. unfold train_test_split_indices in Hg.
  inv_result.
  repeat match goal with
         | H : bool_decide _ = true |- _ => apply bool_decide_eq_true in H
         | H : _ && _ = true |- _ => apply andb_true_iff in H as [??]
         | H : Qlt_b _ _ = true |- _ => apply Qlt_b_spec in H
         end.
  subst m. rewrite train_test_split_Ok in Hs by (done || lia).
  simplify_eq. split_and!; (done || lia).
Qed.

Lemma train_test_split_partition seed q n train test :
  train_test_split_indices seed q n n = Ok (train, test) →
  test ++ train ≡ₚ seq 0 n ∧ length test = float_ceil_mul q n ∧
  0 < length test ∧ 0 < length train.
Proof.
  intros (_ & Hq0 & Hq1 & Hn & -> & ->)%train_test_split_inv.
  pose proof (Permutation_length (permutation_perm seed n)) as Hlen.
  rewrite length_seq in Hlen.
  destruct (float_ceil_mul_bounds q n Hq0 Hq1) as [Hpos _]; [lia|].
  rewrite take_drop, length_take, length_drop, Hlen.
  split_and!; [apply permutation_perm | lia..].
Qed.
Lemma permutation_length seed n : length (permutation seed n) = n.
Proof. by rewrite (Permutation_length (permutation_perm seed n)), length_seq. Qed.

Lemma permutation_bounded seed n : Forall (fun i => i < n) (permutation seed n).
Proof.
  apply Forall_forall. intros i Hi. rewrite permutation_perm in Hi.
  apply elem_of_seq in Hi. lia.
Qed.

Lemma oversample_elem_of seed y c :
  c ∈ take_labels y (oversample_indices seed y) ↔ c ∈ y.
Proof.
  split; [apply take_labels_elem_of|]. rewrite oversample_labels, elem_of_app. auto.
Qed.

Lemma oversample_length seed y :
  length (take_labels y (oversample_indices seed y))
  = length (oversample_indices seed y) ∧
  length y ≤ length (oversample_indices seed y).
Proof.
  split; [apply take_labels_length, oversample_bounded|].
  unfold oversample_indices. rewrite length_app, length_seq. lia.
Qed.

End sampling_lemmas.
