(* ===== verification/Backend.v ===== *)
(** * Backend: training and inference of a compiled model

    [Model.fit] and [Model.predict] of Keras as [fit] and [predict] of the
    pipeline call them (src/model.py, lines 300-305 and 339).  Training
    and the forward pass of the layers are supplied by an implementation
    of the interface [KerasBackend], which promises what the pipeline
    relies on: one history entry per epoch, and one row of [output_units]
    entries per sample from the forward pass.  The checks the two methods
    make on their arguments are written out: the number of samples and
    targets, and the shapes; so are the default that replaces a batch size
    of zero and the dictionary of the [History], which has a key only once
    an epoch has ended.

    [counting_backend] is a small implementation of the interface, used to
    run the pipeline on concrete data. *)

From Stdlib Require Import Reals.
From S2P Require Import Prelude Numeric Keras Network.

#[local] Set Warnings "-clear-no-such-hyp".

(** ** Training history *)

(** The [History] object returned by [Model.fit]: the lists under the keys
    ['loss'], ['accuracy'], ['val_loss'] and ['val_accuracy'], one entry per
    epoch. *)
Record History : Type := MkHistory {
  loss : list R;
  accuracy : list R;
  val_loss : list R;
  val_accuracy : list R
}.

Definition epochs_recorded (h : History) (epochs : nat) : Prop :=
  length (loss h) = epochs ∧ length (accuracy h) = epochs ∧
  length (val_loss h) = epochs ∧ length (val_accuracy h) = epochs.

(** The history of a training of no epoch: Keras creates the keys of
    [History.history] when the first epoch ends. *)
Definition empty_history : History := MkHistory [] [] [] [].

(** [history.history[key]]: a key is in the dictionary once an epoch has
    recorded a value under it, and [KeyError] is raised for any other. *)
Definition history_item (key : string) (h : History) : result (list R) :=
  match list_find (fun kv => kv.1 = key)
          [("loss", loss h); ("accuracy", accuracy h);
           ("val_loss", val_loss h); ("val_accuracy", val_accuracy h)] with
  | Some (_, (_, (_ :: _) as curve)) => Ok curve
  | _ => Raise (KeyError key)
  end.

(** The batch size [Model.fit] works with: one that is not given, or is
    zero, is replaced by 32 ([if not batch_size: batch_size = 32]). *)
Definition batch_size_or_default (batch_size : nat) : nat :=
  if decide (batch_size = 0) then 32 else batch_size.

(** The number of batches of an epoch over [n] samples,
    [int(math.ceil(n / batch_size))]. *)
Definition steps_per_epoch (n batch_size : nat) : nat :=
  (n + batch_size - 1) / batch_size.

(** The width of the output layer. *)
Definition output_units (m : keras_model) : nat :=
  match last_dim (kt_shape (km_outputs m)) with
  | Ok n => n
  | Raise _ => 0
  end.

(** ** The interface *)

Class KerasBackend : Type := {
  weights : Type;
  (** the weights a model has when it is constructed *)
  initial_weights : keras_model → weights;
  (** the weights and the history after [epochs] epochs on the training
      data, in batches of [batch_size], validated on the validation data *)
  train : keras_model → weights → ndarray3 * ndarray2 → nat → nat →
          ndarray3 * ndarray2 → weights * History;
  train_history m w d epochs batch_size v :
    epochs_recorded (train m w d epochs batch_size v).2 epochs;
  (** the forward pass *)
  forward : keras_model → weights → ndarray3 → ndarray2;
  forward_wf m w x :
    wf3 x →
    wf2 (forward m w x) ∧ rows2 (forward m w x) = dim0 x ∧
    cols2 (forward m w x) = output_units m
}.

(** The reference backend counts the epochs it has trained for; its forward
    pass puts all the mass on the class numbered by that count. *)
Definition counting_train (m : keras_model) (w : nat)
    (d : ndarray3 * ndarray2) (epochs batch_size : nat)
    (v : ndarray3 * ndarray2) : nat * History :=
  let flat := replicate epochs 0%R in
  (w + epochs, MkHistory flat flat flat flat).

Definition counting_forward (m : keras_model) (w : nat) (x : ndarray3) :
    ndarray2 :=
  Arr2 (dim0 x) (output_units m)
    ((fun _ => unit_vector (output_units m) (w mod output_units m))
       <$> data3 x).

Section model.
Context `{KerasBackend}.

(** ** The model object *)

(** A [Model] after [compile]: what was compiled and the current weights. *)
Record Model : Type := MkModel {
  compiled : keras_model;
  model_weights : weights
}.

Definition Model_new (m : keras_model) : Model := MkModel m (initial_weights m).

Definition input_error : exn :=
  ValueError "Input 0 of layer is incompatible with the layer".

Definition cardinality_error : exn :=
  ValueError "Data cardinality is ambiguous".

Definition target_error : exn := ValueError "Shapes are incompatible".

(** The samples must have the shape the input tensor was declared with. *)
Definition check_input (m : keras_model) (x : ndarray3) : result unit :=
  guard_or input_error
    (bool_decide (kt_shape (km_inputs m) = [dim1 x; dim2 x])).

(** Samples and targets must agree in number. *)
Definition check_cardinality (x : ndarray3) (y : ndarray2) : result unit :=
  guard_or cardinality_error (bool_decide (dim0 x = rows2 y)).

(** The samples must have the shape of the input tensor and the targets
    must be as wide as the output layer. *)
Definition check_shapes (m : keras_model) (x : ndarray3) (y : ndarray2) :
    result unit :=
  _ ← check_input m x;
  guard_or target_error (bool_decide (cols2 y = output_units m)).

Definition check_data (m : keras_model) (x : ndarray3) (y : ndarray2) :
    result unit :=
  _ ← check_cardinality x y; check_shapes m x y.

(** [model.fit(x, y, epochs=..., batch_size=..., validation_data=(vx, vy))]:
    the weights are updated in place and the history is returned.  The
    training data are paired and cut into batches when the call starts;
    their shapes are compared with the model by the first training step, so
    a training of no epoch returns the empty history whatever the shapes.
    The validation data of the pipeline have the shapes of the training
    data; they are checked with them. *)
Definition model_fit (x : ndarray3) (y : ndarray2) (epochs batch_size : nat)
    (vx : ndarray3) (vy : ndarray2) : stateE Model History :=
  fun mdl =>
    match check_cardinality x y with
    | Raise e => (Raise e, mdl)
    | Ok _ =>
        if decide (epochs = 0) then (Ok empty_history, mdl)
        else
          match _ ← check_shapes (compiled mdl) x y;
                check_data (compiled mdl) vx vy with
          | Ok _ =>
              let r := train (compiled mdl) (model_weights mdl) (x, y) epochs
                             (batch_size_or_default batch_size) (vx, vy) in
              (Ok r.2, MkModel (compiled mdl) r.1)
          | Raise e => (Raise e, mdl)
          end
    end.

(** [model.predict(x)] *)
Definition model_predict (x : ndarray3) : stateE Model ndarray2 :=
  fun mdl =>
    (_ ← check_input (compiled mdl) x;
     Ok (forward (compiled mdl) (model_weights mdl) x),
     mdl).

(** ** Lemmas *)

Lemma check_input_Ok m x :
  kt_shape (km_inputs m) = [dim1 x; dim2 x] → check_input m x = Ok tt.
Proof. intros. unfold check_input. by rewrite guard_decide_pass. Qed.

Lemma check_input_Raise m x :
  kt_shape (km_inputs m) ≠ [dim1 x; dim2 x] →
  check_input m x = Raise input_error.
Proof. intros. unfold check_input. by rewrite guard_decide_fail. Qed.

Lemma check_data_Ok m x y :
  kt_shape (km_inputs m) = [dim1 x; dim2 x] → dim0 x = rows2 y →
  cols2 y = output_units m → check_data m x y = Ok tt.
Proof.
  intros. unfold check_data, check_cardinality, check_shapes.
  rewrite check_input_Ok by done. by rewrite !guard_decide_pass.
Qed.

Lemma check_data_inv m x y :
  check_data m x y = Ok tt →
  check_cardinality x y = Ok tt ∧ check_shapes m x y = Ok tt.
Proof.
  unfold check_data. destruct (check_cardinality x y) as [[]|]; [|done].
  destruct (check_shapes m x y) as [[]|]; done.
Qed.

Lemma check_shapes_target m x y :
  kt_shape (km_inputs m) = [dim1 x; dim2 x] →
  cols2 y ≠ output_units m → check_shapes m x y = Raise target_error.
Proof.
  intros. unfold check_shapes. rewrite check_input_Ok by done.
  by rewrite guard_decide_fail.
Qed.

Lemma batch_size_or_default_pos batch_size :
  0 < batch_size_or_default batch_size.
Proof. unfold batch_size_or_default. case_decide; lia. Qed.

Lemma batch_size_or_default_id batch_size :
  0 < batch_size → batch_size_or_default batch_size = batch_size.
Proof. intros. unfold batch_size_or_default. case_decide; [lia|done]. Qed.

Lemma check_cardinality_Ok x y :
  dim0 x = rows2 y → check_cardinality x y = Ok tt.
Proof. intros. unfold check_cardinality. by rewrite guard_decide_pass. Qed.

Lemma epochs_recorded_zero h : epochs_recorded h 0 ↔ h = empty_history.
Proof.
  split; [|by intros ->].
  destruct h as [l a vl va]. unfold epochs_recorded. simpl.
  by intros (->%nil_length_inv & ->%nil_length_inv & ->%nil_length_inv
             & ->%nil_length_inv).
Qed.

(** What a training that passes the checks returns and leaves: nothing
    for no epoch, and what the backend makes of the weights otherwise. *)
Lemma model_fit_run x y epochs batch_size vx vy mdl :
  check_data (compiled mdl) x y = Ok tt →
  check_data (compiled mdl) vx vy = Ok tt →
  ∃ r, model_fit x y epochs batch_size vx vy mdl
       = (Ok r.2, MkModel (compiled mdl) r.1) ∧
       (epochs = 0 → r = (model_weights mdl, empty_history)) ∧
       (0 < epochs → r = train (compiled mdl) (model_weights mdl) (x, y)
                           epochs (batch_size_or_default batch_size)
                           (vx, vy)) ∧
       epochs_recorded r.2 epochs.
Proof.
  intros [Hc Hs]%check_data_inv Hv. unfold model_fit. rewrite Hc.
  case_decide as He.
  - subst. exists (model_weights mdl, empty_history).
    split_and!; [by destruct mdl | done | lia | done].
  - rewrite Hs. cbn [mbind result_bind]. rewrite Hv.
    eexists. split_and!; [done | lia | done | apply train_history].
Qed.

Lemma model_fit_Ok x y epochs batch_size vx vy mdl :
  check_data (compiled mdl) x y = Ok tt →
  check_data (compiled mdl) vx vy = Ok tt →
  ∃ h w, model_fit x y epochs batch_size vx vy mdl
         = (Ok h, MkModel (compiled mdl) w) ∧
         epochs_recorded h epochs.
Proof.
  intros Hd Hv.
  destruct (model_fit_run x y epochs batch_size vx vy mdl Hd Hv)
    as ([w h] & Hrun & _ & _ & Hh).
  by exists h, w.
Qed.

Lemma model_fit_compiled x y epochs batch_size vx vy mdl :
  compiled (model_fit x y epochs batch_size vx vy mdl).2 = compiled mdl.
Proof.
  unfold model_fit. destruct (check_cardinality x y); [|done].
  case_decide; [done|]. destruct (_ ≫= _); reflexivity.
Qed.

Lemma model_fit_target x y epochs batch_size vx vy mdl :
  kt_shape (km_inputs (compiled mdl)) = [dim1 x; dim2 x] → dim0 x = rows2 y →
  cols2 y ≠ output_units (compiled mdl) →
  0 < epochs →
  model_fit x y epochs batch_size vx vy mdl = (Raise target_error, mdl).
Proof.
  intros. unfold model_fit. rewrite check_cardinality_Ok by done.
  case_decide; [lia|]. by rewrite check_shapes_target.
Qed.

(** A batch size of zero is the default batch size. *)
Lemma model_fit_default_batch x y epochs vx vy :
  model_fit x y epochs 0 vx vy = model_fit x y epochs 32 vx vy.
Proof. done. Qed.

(** A training of no epoch changes nothing and returns the empty history. *)
Lemma model_fit_no_epoch x y batch_size vx vy mdl :
  dim0 x = rows2 y →
  model_fit x y 0 batch_size vx vy mdl = (Ok empty_history, mdl).
Proof. intros. unfold model_fit. by rewrite check_cardinality_Ok. Qed.

Lemma history_item_Ok h epochs :
  epochs_recorded h epochs → 0 < epochs →
  history_item "loss" h = Ok (loss h) ∧
  history_item "accuracy" h = Ok (accuracy h) ∧
  history_item "val_loss" h = Ok (val_loss h) ∧
  history_item "val_accuracy" h = Ok (val_accuracy h).
Proof.
  destruct h as [[|? ?] [|? ?] [|? ?] [|? ?]]; unfold epochs_recorded; simpl;
    intros (? & ? & ? & ?) ?; try lia. done.
Qed.

Lemma history_item_empty key : history_item key empty_history = Raise (KeyError key).
Proof.
  unfold history_item. destruct (list_find _ _) as [[? [? [|? ?]]]|] eqn:Hf;
    try done.
  apply list_find_Some in Hf as (Hl & _). exfalso.
  repeat (destruct n as [|n]; simplify_eq/=).
Qed.

Lemma model_predict_readonly x : readonly (model_predict x).
Proof. done. Qed.

Lemma model_predict_Ok x mdl :
  wf3 x → kt_shape (km_inputs (compiled mdl)) = [dim1 x; dim2 x] →
  ∃ p, model_predict x mdl = (Ok p, mdl) ∧
       wf2 p ∧ rows2 p = dim0 x ∧ cols2 p = output_units (compiled mdl).
Proof.
  intros Hx Hs. unfold model_predict. rewrite check_input_Ok by done.
  eexists. split; [done|]. by apply forward_wf.
Qed.

End model.

(** ** The reference backend satisfies the interface *)

Lemma counting_train_history m w d epochs batch_size v :
  epochs_recorded (counting_train m w d epochs batch_size v).2 epochs.
Proof. unfold epochs_recorded. simpl. by rewrite length_replicate. Qed.

Lemma counting_forward_wf m w x :
  wf3 x →
  wf2 (counting_forward m w x) ∧ rows2 (counting_forward m w x) = dim0 x ∧
  cols2 (counting_forward m w x) = output_units m.
Proof.
  intros [Hn _]. split; [|done]. apply wf2_intro; simpl.
  - by rewrite length_fmap.
  - apply Forall_fmap, Forall_forall. intros ? _. apply unit_vector_length.
Qed.

#[export] Instance counting_backend : KerasBackend := {|
  weights := nat;
  initial_weights _ := 0;
  train := counting_train;
  train_history := counting_train_history;
  forward := counting_forward;
  forward_wf := counting_forward_wf
|}.
