(* ===== verification/Metrics.v ===== *)
(** * Metrics: accuracy, confusion matrix and classification report

    [sklearn.metrics.confusion_matrix] and [classification_report] as
    [evaluate] and [plot_confusion_matrix] call them (src/model.py, lines
    372, 375 and 437), over any label type with decidable equality and a
    decidable order.  Counts are natural numbers and the scores are exact
    rationals; a score with a zero denominator is zero, as the library
    reports it.

    The lemmas show that the confusion matrix is square over the labels
    that occur, that its entries add up to the number of samples, that its
    trace is the number of correct predictions, that perfect predictions
    give accuracy one and a diagonal matrix, that the weighted-average
    recall of the report is the accuracy, and that encoding the labels by
    their position among the classes does not change the matrix. *)

From Stdlib Require Import QArith Lia.
From stdpp Require Import sorting sets.
From S2P Require Import Prelude Labels Sampling.

#[local] Set Warnings "-clear-no-such-hyp".

(** [a / b] on counts, zero when [b] is zero. *)
Definition ratio (a b : nat) : Q :=
  if decide (b = 0) then 0%Q else (Z.of_nat a # Pos.of_nat b).

(** One row of the classification report. *)
Record class_row : Type := ClassRow {
  precision : Q;
  recall : Q;
  f1_score : Q;
  support : nat
}.

(** The averages of the report.  [Qsum] adds up a column of scores; the
    macro average is the plain mean over the rows and the weighted average
    weighs every row by its support.  An average over nothing is zero. *)
Definition Qsum (qs : list Q) : Q := foldr Qplus 0%Q qs.

Definition Qnat (n : nat) : Q := inject_Z (Z.of_nat n).

Definition average (weights : list nat) (scores : list Q) : Q :=
  if decide (sum_list weights = 0) then 0%Q
  else (Qsum (zip_with (fun w q => Qnat w * q) weights scores)
        / Qnat (sum_list weights))%Q.

Definition macro_avg (rows : list class_row) : class_row :=
  let weights := (fun _ => 1) <$> rows in
  ClassRow (average weights (precision <$> rows))
           (average weights (recall <$> rows))
           (average weights (f1_score <$> rows))
           (sum_list (support <$> rows)).

Definition weighted_avg (rows : list class_row) : class_row :=
  let weights := support <$> rows in
  ClassRow (average weights (precision <$> rows))
           (average weights (recall <$> rows))
           (average weights (f1_score <$> rows))
           (sum_list weights).

(** A matrix with zeros off the diagonal, and the sum of the diagonal of a
    matrix. *)
Definition diagonal (cm : list (list nat)) : Prop :=
  ∀ i j row n, cm !! i = Some row → row !! j = Some n → i ≠ j → n = 0.

Definition trace (cm : list (list nat)) : nat :=
  sum_list (imap (fun i row => default 0 (row !! i)) cm).

Section metrics.
Context {L : Type} `{EqDecision L}.
Context (le : relation L) `{!RelDecision le}.

(** The labels of the matrix and the report: those that occur in the true
    or in the predicted labels, in increasing order. *)
Definition unique_labels (y_true y_pred : list L) : list L :=
  np_unique le (y_true ++ y_pred).

(** How often [a] was predicted as [b]. *)
Definition count_pairs (a b : L) (pairs : list (L * L)) : nat :=
  length (filter ((a, b) =.) pairs).

Definition count_of (a : L) (y : list L) : nat := length (filter (a =.) y).

(** [confusion_matrix(y_true, y_pred)] *)
Definition confusion_matrix (y_true y_pred : list L) :
    result (list (list nat)) :=
  _ ← guard_or inconsistent_length_error
        (bool_decide (length y_true = length y_pred));
  let labels := unique_labels y_true y_pred in
  Ok ((fun a => (fun b => count_pairs a b (zip y_true y_pred)) <$> labels)
        <$> labels).

Definition n_correct (y_true y_pred : list L) : nat :=
  length (filter (fun p => fst p = snd p) (zip y_true y_pred)).

Definition accuracy_score (y_true y_pred : list L) : Q :=
  ratio (n_correct y_true y_pred) (length y_true).

Definition class_report (y_true y_pred : list L) (a : L) : class_row :=
  let tp := count_pairs a a (zip y_true y_pred) in
  ClassRow (ratio tp (count_of a y_pred)) (ratio tp (count_of a y_true))
           (ratio (2 * tp) (count_of a y_pred + count_of a y_true))
           (count_of a y_true).

(** The dictionary returned by [classification_report(..., output_dict=True)]:
    a row per label and the entries ['accuracy'], ['macro avg'] and
    ['weighted avg']. *)
Record Report : Type := MkReport {
  report_rows : list (L * class_row);
  report_accuracy : Q;
  report_macro_avg : class_row;
  report_weighted_avg : class_row
}.

Definition classification_report (y_true y_pred : list L) : result Report :=
  _ ← guard_or inconsistent_length_error
        (bool_decide (length y_true = length y_pred));
  let labels := unique_labels y_true y_pred in
  let rows := class_report y_true y_pred <$> labels in
  Ok (MkReport (zip labels rows) (accuracy_score y_true y_pred)
               (macro_avg rows) (weighted_avg rows)).

(** ** Lemmas *)

Lemma sum_list_fmap_add {K} (f g : K → nat) ks :
  sum_list ((fun k => f k + g k) <$> ks)
  = sum_list (f <$> ks) + sum_list (g <$> ks).
Proof. induction ks as [|k ks IH]; csimpl; lia. Qed.

Lemma sum_list_indicator {K} `{EqDecision K} (x : K) ks :
  NoDup ks → x ∈ ks →
  sum_list ((fun k => if decide (k = x) then 1 else 0) <$> ks) = 1.
Proof.
  induction 1 as [|k ks Hk Hnd IH]; [by intros ?%elem_of_nil|]. csimpl.
  intros [->|Hx]%elem_of_cons.
  - rewrite decide_True by done. f_equal. clear IH Hnd.
    induction ks as [|k' ks IH]; [done|]. csimpl.
    apply not_elem_of_cons in Hk as [??]. rewrite decide_False by done.
    by apply IH.
  - rewrite decide_False by (by intros ->). by apply IH.
Qed.

Lemma sum_count_by {A K} `{EqDecision K} (f : A → K) (ks : list K) (xs : list A) :
  NoDup ks → Forall (fun x => f x ∈ ks) xs →
  sum_list ((fun k => length (filter (fun x => k = f x) xs)) <$> ks) = length xs.
Proof.
  intros Hnd. induction 1 as [|x xs Hx _ IH].
  { clear Hnd. induction ks as [|k ks IHk]; [done|].
    rewrite fmap_cons. cbn [sum_list_with]. by rewrite IHk. }
  change (length (x :: xs)) with (1 + length xs).
  rewrite <- IH, <- (sum_list_indicator (f x) ks Hnd Hx).
  rewrite <- sum_list_fmap_add. f_equal. apply list_fmap_ext. intros _ k _.
  rewrite filter_cons. by case_decide.
Qed.

Lemma unique_labels_elem_of y_true y_pred x :
  x ∈ unique_labels y_true y_pred ↔ x ∈ y_true ∨ x ∈ y_pred.
Proof. unfold unique_labels. by rewrite np_unique_elem_of, elem_of_app. Qed.

Lemma zip_elem_of (y_true y_pred : list L) p :
  p ∈ zip y_true y_pred → fst p ∈ y_true ∧ snd p ∈ y_pred.
Proof.
  destruct p as [a b]. intros Hp. split.
  - by eapply elem_of_zip_l.
  - by eapply elem_of_zip_r.
Qed.

Lemma count_pairs_row a labels pairs :
  NoDup labels → Forall (fun p => snd p ∈ labels) pairs →
  sum_list ((fun b => count_pairs a b pairs) <$> labels)
  = length (filter (fun p => a = fst p) pairs).
Proof.
  intros Hnd Hin.
  rewrite <- (sum_count_by snd labels (filter (fun p => a = fst p) pairs) Hnd).
  - f_equal. apply list_fmap_ext. intros _ b _. unfold count_pairs. f_equal.
    rewrite list_filter_filter. apply list_filter_iff. intros [x y]. simpl.
    naive_solver.
  - apply Forall_forall. intros p [_ Hp]%list_elem_of_filter.
    by eapply Forall_forall in Hin.
Qed.

Lemma confusion_matrix_Ok y_true y_pred :
  length y_true = length y_pred →
  confusion_matrix y_true y_pred
  = Ok ((fun a => (fun b => count_pairs a b (zip y_true y_pred))
                    <$> unique_labels y_true y_pred)
          <$> unique_labels y_true y_pred).
Proof. intros. unfold confusion_matrix. by rewrite guard_decide_pass. Qed.

Lemma confusion_matrix_lengths y_true y_pred :
  length y_true ≠ length y_pred →
  confusion_matrix y_true y_pred = Raise inconsistent_length_error.
Proof. intros. unfold confusion_matrix. by rewrite guard_decide_fail. Qed.

Lemma confusion_matrix_square y_true y_pred cm :
  confusion_matrix y_true y_pred = Ok cm →
  length cm = length (unique_labels y_true y_pred) ∧
  rect (length (unique_labels y_true y_pred)) cm.
Proof.
  unfold confusion_matrix. intros Hc. inv_result. split.
  - by rewrite length_fmap.
  - apply Forall_fmap, Forall_forall. intros a _. simpl. by rewrite length_fmap.
Qed.

Lemma confusion_matrix_total y_true y_pred cm :
  confusion_matrix y_true y_pred = Ok cm →
  sum_list (sum_list <$> cm) = length y_true.
Proof.
  intros Hc. destruct (decide (length y_true = length y_pred)) as [Hlen|Hlen];
    [|by rewrite confusion_matrix_lengths in Hc].
  rewrite confusion_matrix_Ok in Hc by done. injection Hc as <-.
  rewrite <- list_fmap_compose.
  rewrite <- (length_zip_with_l_eq pair y_true y_pred) by done.
  rewrite <- (sum_count_by fst (unique_labels y_true y_pred) (zip y_true y_pred)).
  - f_equal. apply list_fmap_ext. intros _ a _. simpl.
    apply count_pairs_row; [apply np_unique_NoDup|].
    apply Forall_forall. intros p [_ Hp]%zip_elem_of.
    apply unique_labels_elem_of. by right.
  - apply np_unique_NoDup.
  - apply Forall_forall. intros p [Hp _]%zip_elem_of.
    apply unique_labels_elem_of. by left.
Qed.

Lemma zip_diag_filter (y : list L) a b :
  a ≠ b → filter ((a, b) =.) (zip y y) = [].
Proof.
  intros Hne. induction y as [|x y IH]; [done|]. simpl.
  rewrite filter_cons, decide_False by naive_solver. done.
Qed.

Lemma n_correct_diag (y : list L) : n_correct y y = length y.
Proof.
  unfold n_correct. induction y as [|x y IH]; [done|]. simpl.
  rewrite filter_cons, decide_True by done. simpl. by rewrite IH.
Qed.

Lemma ratio_same n : 0 < n → (ratio n n == 1)%Q.
Proof.
  intros Hn. unfold ratio. rewrite decide_False by lia.
  destruct n as [|n]; [lia|]. unfold Qeq. cbn [Qnum Qden].
  assert (Z.pos (Pos.of_nat (S n)) = Z.of_nat (S n)) as ->
    by (rewrite <- Pos.of_nat_succ, Zpos_P_of_succ_nat; lia).
  lia.
Qed.

Lemma classification_report_Ok y_true y_pred :
  length y_true = length y_pred →
  ∃ report,
    classification_report y_true y_pred = Ok report ∧
    report_accuracy report = accuracy_score y_true y_pred ∧
    (report_rows report).*1 = unique_labels y_true y_pred.
Proof.
  intros Hlen. unfold classification_report. rewrite guard_decide_pass by done.
  eexists. split; [done|]. split; [done|]. cbn [report_rows].
  by rewrite fst_zip by (by rewrite length_fmap).
Qed.

Lemma Zpos_of_nat n : 0 < n → Z.pos (Pos.of_nat n) = Z.of_nat n.
Proof.
  destruct n as [|n]; [lia|]. intros _.
  rewrite <- Pos.of_nat_succ, Zpos_P_of_succ_nat. lia.
Qed.

Lemma ratio_div a b : b ≠ 0 → (ratio a b == Qnat a / Qnat b)%Q.
Proof.
  intros Hb. unfold ratio, Qnat. rewrite decide_False by done.
  rewrite (Qmake_Qdiv (Z.of_nat a)), Zpos_of_nat by lia. reflexivity.
Qed.

Lemma Qnat_ratio t n : t ≤ n → (Qnat n * ratio t n == Qnat t)%Q.
Proof.
  intros Hle. destruct (decide (n = 0)) as [->|Hn].
  { assert (t = 0) as -> by lia. done. }
  rewrite ratio_div by done. field. unfold Qnat.
  intros Hz. apply Hn. unfold Qeq in Hz. simpl in Hz. lia.
Qed.

Lemma Qnat_add m n : (Qnat (m + n) == Qnat m + Qnat n)%Q.
Proof. unfold Qnat. by rewrite Nat2Z.inj_add, inject_Z_plus. Qed.

(** *** The diagonal *)

Lemma confusion_matrix_lookup y_true y_pred cm i j row n :
  confusion_matrix y_true y_pred = Ok cm →
  cm !! i = Some row → row !! j = Some n →
  ∃ a b, unique_labels y_true y_pred !! i = Some a ∧
         unique_labels y_true y_pred !! j = Some b ∧
         n = count_pairs a b (zip y_true y_pred).
Proof.
  unfold confusion_matrix. intros Hc Hi Hj. inv_result.
  apply list_lookup_fmap_Some in Hi as (a & -> & Ha).
  apply list_lookup_fmap_Some in Hj as (b & -> & Hb). by exists a, b.
Qed.

Lemma confusion_matrix_diagonal y cm :
  confusion_matrix y y = Ok cm → diagonal cm.
Proof.
  intros Hc i j row n Hi Hj Hne.
  destruct (confusion_matrix_lookup _ _ _ _ _ _ _ Hc Hi Hj)
    as (a & b & Ha & Hb & ->).
  unfold count_pairs. rewrite zip_diag_filter; [done|]. intros ->.
  apply Hne. eapply NoDup_lookup; [apply (np_unique_NoDup le)|done..].
Qed.

Lemma trace_fmap (c : L → L → nat) labels :
  trace ((fun a => c a <$> labels) <$> labels)
  = sum_list ((fun a => c a a) <$> labels).
Proof.
  unfold trace. f_equal. apply list_eq. intros i.
  rewrite list_lookup_imap, !list_lookup_fmap.
  destruct (labels !! i) as [a|] eqn:Ha; [|done]. simpl.
  by rewrite list_lookup_fmap, Ha.
Qed.

Lemma n_correct_sum labels (y_true y_pred : list L) :
  NoDup labels → y_true ⊆ labels →
  sum_list ((fun a => count_pairs a a (zip y_true y_pred)) <$> labels)
  = n_correct y_true y_pred.
Proof.
  intros Hnd Hsub. unfold n_correct.
  rewrite <- (sum_count_by fst labels
                (filter (fun p => p.1 = p.2) (zip y_true y_pred)) Hnd).
  - f_equal. apply list_fmap_ext. intros _ a _. unfold count_pairs. f_equal.
    rewrite list_filter_filter. apply list_filter_iff. intros [x x']. simpl.
    naive_solver.
  - apply Forall_forall. intros p [_ [Hp _]%zip_elem_of]%list_elem_of_filter.
    by apply Hsub.
Qed.

Lemma confusion_matrix_trace y_true y_pred cm :
  confusion_matrix y_true y_pred = Ok cm →
  trace cm = n_correct y_true y_pred.
Proof.
  unfold confusion_matrix. intros Hc. inv_result.
  rewrite (trace_fmap (fun a b => count_pairs a b (zip y_true y_pred))).
  apply n_correct_sum; [apply np_unique_NoDup|].
  intros z Hz. apply unique_labels_elem_of. by left.
Qed.

(** *** The averaged rows *)

Lemma count_pairs_le a (y_true y_pred : list L) :
  count_pairs a a (zip y_true y_pred) ≤ count_of a y_true.
Proof.
  unfold count_pairs, count_of. revert y_pred.
  induction y_true as [|x y IH]; intros [|x' y']; simpl; try lia.
  rewrite !filter_cons. specialize (IH y').
  repeat case_decide; simplify_eq/=; lia.
Qed.

Lemma support_total labels (y_true y_pred : list L) :
  NoDup labels → y_true ⊆ labels →
  sum_list (support <$> (class_report y_true y_pred <$> labels))
  = length y_true.
Proof.
  intros Hnd Hsub. rewrite <- list_fmap_compose.
  rewrite <- (sum_count_by id labels y_true Hnd) by (by apply Forall_forall).
  done.
Qed.

Lemma weighted_recall_sum labels (y_true y_pred : list L) :
  (Qsum (zip_with (fun w q => Qnat w * q)
           (support <$> (class_report y_true y_pred <$> labels))
           (recall <$> (class_report y_true y_pred <$> labels)))
   == Qnat (sum_list ((fun a => count_pairs a a (zip y_true y_pred))
                        <$> labels)))%Q.
Proof.
  induction labels as [|a labels IH]; [done|]. csimpl. rewrite IH.
  rewrite Qnat_ratio by apply count_pairs_le. symmetry. apply Qnat_add.
Qed.

Lemma weighted_recall_accuracy labels (y_true y_pred : list L) :
  NoDup labels → y_true ⊆ labels →
  (recall (weighted_avg (class_report y_true y_pred <$> labels))
   == accuracy_score y_true y_pred)%Q.
Proof.
  intros Hnd Hsub. unfold weighted_avg, average, accuracy_score.
  cbn [recall]. rewrite support_total by done. case_decide as Hn.
  { unfold ratio. by rewrite decide_True. }
  rewrite weighted_recall_sum, n_correct_sum by done.
  symmetry. by apply ratio_div.
Qed.

Lemma classification_report_averages y_true y_pred report :
  classification_report y_true y_pred = Ok report →
  (recall (report_weighted_avg report) == report_accuracy report)%Q ∧
  support (report_weighted_avg report) = length y_true ∧
  support (report_macro_avg report) = length y_true.
Proof.
  unfold classification_report. intros Hrep. inv_result.
  assert (NoDup (unique_labels y_true y_pred)) as Hnd
    by apply np_unique_NoDup.
  assert (y_true ⊆ unique_labels y_true y_pred) as Hsub
    by (intros z Hz; apply unique_labels_elem_of; by left).
  cbn [report_weighted_avg report_macro_avg report_accuracy].
  split; [by apply weighted_recall_accuracy|].
  cbn [weighted_avg macro_avg support]. by rewrite support_total.
Qed.

End metrics.

(** ** Encoded labels

    A strictly monotone renaming of the labels, such as the encoding by a
    fitted encoder, does not change the matrix. *)

Section encoded_metrics.
Context {L : Type} `{EqDecision L}.
Context (le : relation L) `{!RelDecision le}.

Lemma count_pairs_fmap (f : L → nat) a b (y_true y_pred : list L) :
  (∀ x, x ∈ y_true → f a = f x → a = x) →
  (∀ x, x ∈ y_pred → f b = f x → b = x) →
  count_pairs (f a) (f b) (zip (f <$> y_true) (f <$> y_pred))
  = count_pairs a b (zip y_true y_pred).
Proof.
  unfold count_pairs. revert y_pred.
  induction y_true as [|x y_true IH]; intros [|x' y_pred] Ha Hb; try done.
  csimpl. rewrite !filter_cons.
  specialize (IH y_pred ltac:(intros; apply Ha; by try right)
                ltac:(intros; apply Hb; by try right)).
  destruct (decide ((a, b) = (x, x'))) as [[= -> ->]|Hne].
  - rewrite decide_True by done. simpl. by rewrite IH.
  - rewrite decide_False; [done|]. intros [= Hfa Hfb]. destruct Hne.
    f_equal; [apply Ha | apply Hb]; by try left.
Qed.

Lemma confusion_matrix_fmap `{!Transitive le, !Total le} (f : L → nat)
    (y_true y_pred : list L) :
  (∀ x x', x ∈ y_true ++ y_pred → x' ∈ y_true ++ y_pred → f x = f x' → x = x') →
  (∀ x x', x ∈ y_true ++ y_pred → x' ∈ y_true ++ y_pred → le x x' → f x ≤ f x') →
  confusion_matrix Nat.le (f <$> y_true) (f <$> y_pred)
  = confusion_matrix le y_true y_pred.
Proof.
  intros Hinj Hmono. unfold confusion_matrix. rewrite !length_fmap.
  destruct (guard_or _ _); [|done]. simpl. f_equal.
  unfold unique_labels. rewrite <- fmap_app, (np_unique_fmap le f) by done.
  rewrite <- list_fmap_compose. apply list_fmap_ext. intros ? c Hc. simpl.
  rewrite <- list_fmap_compose. apply list_fmap_ext. intros ? d Hd. simpl.
  apply list_elem_of_lookup_2, np_unique_elem_of in Hc, Hd.
  apply count_pairs_fmap; intros x Hx; apply Hinj; set_solver.
Qed.

(** The matrix of the class indices is the matrix of the labels. *)
Lemma confusion_matrix_encoded `{!PartialOrder le, !Total le} classes
    (y_true y_pred : list L) y_enc p_enc :
  StronglySorted le classes →
  encode_labels classes y_true = Ok y_enc →
  encode_labels classes y_pred = Ok p_enc →
  confusion_matrix Nat.le y_enc p_enc = confusion_matrix le y_true y_pred.
Proof.
  intros Hs Ht Hp.
  pose proof (encode_labels_Ok_subseteq _ _ _ Ht) as Hst.
  pose proof (encode_labels_Ok_subseteq _ _ _ Hp) as Hsp.
  rewrite encode_labels_positions in Ht, Hp by done.
  injection Ht as <-. injection Hp as <-.
  apply confusion_matrix_fmap.
  - intros x x' Hx Hx'. apply label_position_inj; set_solver.
  - intros x x' Hx Hx' Hle.
    apply (label_position_mono le); [done|set_solver..|done].
Qed.

(** The correct predictions among the class indices are those among the
    labels. *)
Lemma n_correct_fmap (f : L → nat) (y_true y_pred : list L) :
  (∀ x x', x ∈ y_true → x' ∈ y_pred → f x = f x' → x = x') →
  n_correct (f <$> y_true) (f <$> y_pred) = n_correct y_true y_pred.
Proof.
  unfold n_correct. revert y_pred.
  induction y_true as [|x y_true IH]; intros [|x' y_pred] Hinj; try done.
  csimpl. rewrite !filter_cons. cbn [fst snd].
  specialize (IH y_pred ltac:(intros; apply Hinj; by try right)).
  destruct (decide (x = x')) as [->|Hne].
  - rewrite decide_True by done. simpl. by rewrite IH.
  - rewrite decide_False; [done|]. intros Hf. apply Hne, Hinj; by try left.
Qed.

Lemma n_correct_encoded classes (y_true y_pred : list L) y_enc p_enc :
  encode_labels classes y_true = Ok y_enc →
  encode_labels classes y_pred = Ok p_enc →
  n_correct y_enc p_enc = n_correct y_true y_pred.
Proof.
  intros Ht Hp.
  pose proof (encode_labels_Ok_subseteq _ _ _ Ht) as Hst.
  pose proof (encode_labels_Ok_subseteq _ _ _ Hp) as Hsp.
  rewrite encode_labels_positions in Ht, Hp by done.
  injection Ht as <-. injection Hp as <-.
  apply n_correct_fmap. intros x x' Hx Hx'. apply label_position_inj; auto.
Qed.
End encoded_metrics.
