(* ===== verification/Pipeline.v ===== *)
(** * Pipeline: the object and its methods

    [HybridLSTMTransformerModel] (src/model.py): the attributes set by
    [__init__], and the methods [apply_pca], [fit], [predict], [evaluate],
    [plot_training_history] and [plot_confusion_matrix], as programs in the
    state-and-error monad over the object and the generator of [np.random].
    The blocks of [fit] separated by comments in the source are definitions
    of their own ([fit_data], [fit_features], [fit_targets], [fit_model]),
    composed in the order of the source, so that an exception leaves the
    state reached by the statements before it.

    Sequences of method calls are the relation [reachable] and the fold
    [run_calls]; the usage example at the end of the source is the program
    [usage_example].

    The label type, the eigen-solver, the seeded random source and the
    training backend are parameters of the section. *)

From Stdlib Require Import Reals QArith Lia.
From stdpp Require Import sorting sets.
From S2P Require Import Prelude Numeric SqueezeExcite Labels Keras Network.
From S2P Require Import Preprocess Sampling Backend Metrics.

#[local] Set Warnings "-clear-no-such-hyp".

Definition not_trained_error : exn :=
  ValueError "Model has not been trained yet. Call fit() first.".

(** Access to an attribute of [None]. *)
Definition none_attribute_error (attr : string) : exn :=
  AttributeError ("'NoneType' object has no attribute '" +:+ attr +:+ "'").

(** A figure made by [plt.subplots]: its size in inches, whether
    [plt.tight_layout] was called on it, and what was drawn on its axes. *)
Record figure (A : Type) : Type := Figure {
  fig_size : nat * nat;
  fig_tight_layout : bool;
  fig_content : A
}.
Arguments Figure {A} _ _ _.
Arguments fig_size {A} _.
Arguments fig_tight_layout {A} _.
Arguments fig_content {A} _.

(** One of the two axes drawn by [plot_training_history]: the curves in
    the order they are plotted, the texts, and the legend with its
    location. *)
Record axes : Type := Axes {
  ax_title : string;
  ax_ylabel : string;
  ax_xlabel : string;
  ax_lines : list (list R);
  ax_legend : list string;
  ax_legend_loc : string
}.

(** The heat map drawn by [plot_confusion_matrix]: the matrix and the
    arguments [annot], [fmt] and [cmap] given to [sns.heatmap], and the
    texts set on its axes. *)
Record heatmap : Type := Heatmap {
  hm_data : list (list nat);
  hm_annot : bool;
  hm_fmt : string;
  hm_cmap : string;
  hm_title : string;
  hm_ylabel : string;
  hm_xlabel : string
}.

Section pipeline.
Context {L : Type} `{EqDecision L}.
Context (le : relation L) `{!RelDecision le}.
Context `{PCASolver} `{RandomOracle} `{KerasBackend}.

(** ** The object *)

Record HybridLSTMTransformerModel : Type := MkSelf {
  params : hyperparams;
  model : option Model;
  history : option History;
  scaler : StandardScaler;
  pca : option PCA;
  label_encoder : LabelEncoder L
}.

Definition __init__ (n_components lstm_units num_heads ff_dim : nat)
    (dropout_rate : Q) (random_state : nat) : HybridLSTMTransformerModel :=
  MkSelf (HyperParams n_components lstm_units num_heads ff_dim dropout_rate
            random_state)
         None None StandardScaler_new None LabelEncoder_new.

(** The state a method runs in: the object and the process-wide generator
    of [np.random]. *)
Record world : Type := World {
  self : HybridLSTMTransformerModel;
  np_random : rng
}.

(** *** Attribute assignment *)

Definition set_model (v : option Model) (p : HybridLSTMTransformerModel) :=
  MkSelf (params p) v (history p) (scaler p) (pca p) (label_encoder p).

Definition set_history (v : option History) (p : HybridLSTMTransformerModel) :=
  MkSelf (params p) (model p) v (scaler p) (pca p) (label_encoder p).

Definition set_scaler (v : StandardScaler) (p : HybridLSTMTransformerModel) :=
  MkSelf (params p) (model p) (history p) v (pca p) (label_encoder p).

Definition set_pca (v : option PCA) (p : HybridLSTMTransformerModel) :=
  MkSelf (params p) (model p) (history p) (scaler p) v (label_encoder p).

Definition set_label_encoder (v : LabelEncoder L)
    (p : HybridLSTMTransformerModel) :=
  MkSelf (params p) (model p) (history p) (scaler p) (pca p) v.

(** *** Method calls on the attributes *)

Definition on_self {A} (m : stateE HybridLSTMTransformerModel A) :
    stateE world A :=
  zoom self (fun p w => World p (np_random w)) m.

Definition on_np_random {A} (m : stateE rng A) : stateE world A :=
  zoom np_random (fun g w => World (self w) g) m.

Definition on_scaler {A} (m : stateE StandardScaler A) :
    stateE HybridLSTMTransformerModel A :=
  zoom scaler set_scaler m.

Definition on_label_encoder {A} (m : stateE (LabelEncoder L) A) :
    stateE HybridLSTMTransformerModel A :=
  zoom label_encoder set_label_encoder m.

(** [self.pca.attr(...)]: [self.pca] may still be [None]. *)
Definition on_pca {A} (attr : string) (m : stateE PCA A) :
    stateE HybridLSTMTransformerModel A :=
  fun p =>
    match pca p with
    | None => (Raise (none_attribute_error attr), p)
    | Some q => let r := m q in (r.1, set_pca (Some r.2) p)
    end.

(** [self.model.attr(...)] *)
Definition on_model {A} (attr : string) (m : stateE Model A) :
    stateE HybridLSTMTransformerModel A :=
  fun p =>
    match model p with
    | None => (Raise (none_attribute_error attr), p)
    | Some q => let r := m q in (r.1, set_model (Some r.2) p)
    end.

(** ** The methods *)

Definition apply_pca (X_train X_test : ndarray2) :
    stateE HybridLSTMTransformerModel (ndarray2 * ndarray2) :=
  p ← get;
  _ ← put (set_pca (Some (PCA_new (n_components (params p))
                                  (random_state (params p)))) p);
  X_train_pca ← on_pca "fit_transform" (pca_fit_transform X_train);
  X_test_pca ← on_pca "transform" (pca_transform X_test);
  mret (X_train_pca, X_test_pca).

(** *** [fit] *)

(** The over-sampler applied to the rows and their encoded labels. *)
Definition fit_resample (seed : nat) (X : ndarray2) (y : list nat) :
    result (ndarray2 * list nat) :=
  idx ← fit_resample_indices seed (rows2 X) y;
  X_resampled ← take_rows X idx;
  Ok (X_resampled, take_labels y idx).

Definition train_test_split (X : ndarray2) (y : list nat) (test_size : Q)
    (seed : nat) : result (ndarray2 * ndarray2 * list nat * list nat) :=
  '(train, test) ← train_test_split_indices seed test_size (rows2 X) (length y);
  X_train ← take_rows X train;
  X_test ← take_rows X test;
  Ok (X_train, X_test, take_labels y train, take_labels y test).

(** Encoding, balancing and splitting. *)
Definition fit_data (X : ndarray2) (y : list L) (validation_split : Q)
    (class_balance : bool) :
    stateE HybridLSTMTransformerModel
      (list nat * (ndarray2 * ndarray2 * list nat * list nat)) :=
  y_encoded ← on_label_encoder (label_encoder_fit_transform le y);
  p ← get;
  '(X_resampled, y_resampled) ←
    lift_result (if class_balance
                 then fit_resample (random_state (params p)) X y_encoded
                 else Ok (X, y_encoded));
  parts ← lift_result (train_test_split X_resampled y_resampled
                         validation_split (random_state (params p)));
  mret (y_resampled, parts).

(** Scaling, reduction, recalibration and the new last axis. *)
Definition fit_features (X_train X_test : ndarray2) :
    stateE world (ndarray3 * ndarray3) :=
  X_train_scaled ← on_self (on_scaler (scaler_fit_transform X_train));
  X_test_scaled ← on_self (on_scaler (scaler_transform X_test));
  '(X_train_pca, X_test_pca) ← on_self (apply_pca X_train_scaled X_test_scaled);
  X_train_se ← on_np_random (squeeze_and_excitation X_train_pca default_ratio);
  X_test_se ← on_np_random (squeeze_and_excitation X_test_pca default_ratio);
  mret (newaxis_last X_train_se, newaxis_last X_test_se).

(** The one-hot targets. *)
Definition fit_targets (y_resampled y_train y_test : list nat) :
    result (nat * ndarray2 * ndarray2) :=
  let num_classes := length (np_unique Nat.le y_resampled) in
  y_train_categorical ← one_hot num_classes y_train;
  y_test_categorical ← one_hot num_classes y_test;
  Ok (num_classes, y_train_categorical, y_test_categorical).

(** Building the model if there is none, and training it. *)
Definition fit_model (X_train_lstm X_test_lstm : ndarray3) (num_classes : nat)
    (y_train_categorical y_test_categorical : ndarray2)
    (epochs batch_size : nat) : stateE HybridLSTMTransformerModel unit :=
  p ← get;
  _ ← match model p with
      | None =>
          m ← lift_result (build_model (params p)
                             [dim1 X_train_lstm; dim2 X_train_lstm]
                             num_classes);
          put (set_model (Some (Model_new m)) p)
      | Some _ => mret tt
      end;
  h ← on_model "fit" (model_fit X_train_lstm y_train_categorical epochs
                        batch_size X_test_lstm y_test_categorical);
  modify (set_history (Some h)).

Definition fit (X : ndarray2) (y : list L) (epochs batch_size : nat)
    (validation_split : Q) (class_balance : bool) : stateE world unit :=
  '(y_resampled, (X_train, X_test, y_train, y_test)) ←
    on_self (fit_data X y validation_split class_balance);
  '(X_train_lstm, X_test_lstm) ← fit_features X_train X_test;
  '(num_classes, y_train_categorical, y_test_categorical) ←
    lift_result (fit_targets y_resampled y_train y_test);
  on_self (fit_model X_train_lstm X_test_lstm num_classes
             y_train_categorical y_test_categorical epochs batch_size).

(** [fit] with the default arguments of the source. *)
Definition fit_defaults (X : ndarray2) (y : list L) : stateE world unit :=
  fit X y 50 32 0.2 true.

(** *** [predict] *)

(** Scaling, reduction, recalibration and the new last axis, with the
    fitted scaler and reducer. *)
Definition predict_features (X : ndarray2) : stateE world ndarray3 :=
  X_scaled ← on_self (on_scaler (scaler_transform X));
  X_pca ← on_self (on_pca "transform" (pca_transform X_scaled));
  X_se ← on_np_random (squeeze_and_excitation X_pca default_ratio);
  mret (newaxis_last X_se).

Definition predict (X : ndarray2) : stateE world (list L) :=
  w ← get;
  _ ← match model (self w) with
      | None => raise not_trained_error
      | Some _ => mret tt
      end;
  X_lstm ← predict_features X;
  y_pred_proba ← on_self (on_model "predict" (model_predict X_lstm));
  y_pred_indices ← lift_result (np_argmax_axis1 y_pred_proba);
  on_self (on_label_encoder
             (label_encoder_inverse_transform y_pred_indices)).

(** *** [evaluate] *)

(** The dictionary returned by [evaluate]. *)
Record metrics : Type := Metrics {
  metrics_accuracy : Q;
  metrics_confusion_matrix : list (list nat);
  metrics_classification_report : Report (L := L)
}.

Definition evaluate (X : ndarray2) (y : list L) : stateE world metrics :=
  y_pred ← predict X;
  y_encoded ← on_self (on_label_encoder (label_encoder_transform y));
  y_pred_encoded ← on_self (on_label_encoder (label_encoder_transform y_pred));
  cm ← lift_result (confusion_matrix Nat.le y_encoded y_pred_encoded);
  report ← lift_result (classification_report le y y_pred);
  mret (Metrics (report_accuracy report) cm report).

(** *** The plots *)

Definition plot_training_history : stateE world (figure (axes * axes)) :=
  w ← get;
  match history (self w) with
  | None => raise not_trained_error
  | Some h =>
      acc ← lift_result (history_item "accuracy" h);
      val_acc ← lift_result (history_item "val_accuracy" h);
      let ax1 := Axes "Model Accuracy" "Accuracy" "Epoch"
                   [acc; val_acc] ["Train"; "Validation"] "upper left" in
      los ← lift_result (history_item "loss" h);
      val_los ← lift_result (history_item "val_loss" h);
      let ax2 := Axes "Model Loss" "Loss" "Epoch"
                   [los; val_los] ["Train"; "Validation"] "upper left" in
      mret (Figure (15, 5) true (ax1, ax2))
  end.

Definition plot_confusion_matrix (X : ndarray2) (y : list L) :
    stateE world (figure heatmap) :=
  y_pred ← predict X;
  cm ← lift_result (confusion_matrix le y y_pred);
  mret (Figure (10, 8) false
          (Heatmap cm true "d" "Blues"
                   "Confusion Matrix" "True Label" "Predicted Label")).

(** *** The documented session

    The usage example at the end of the source: an object constructed with
    the arguments of the example, and the calls the example makes on it,
    in their order.  The data set, which the example reads from a file,
    and the test set are parameters. *)

Definition usage_model : HybridLSTMTransformerModel :=
  __init__ 20 64 4 128 0.2 42.

Definition usage_example (X : ndarray2) (y : list L) (X_test : ndarray2)
    (y_test : list L) :
    stateE world (list L * metrics * figure (axes * axes) * figure heatmap) :=
  _ ← fit X y 50 32 0.2 true;
  predictions ← predict X_test;
  metrics ← evaluate X_test y_test;
  fig1 ← plot_training_history;
  fig2 ← plot_confusion_matrix X_test y_test;
  mret (predictions, metrics, fig1, fig2).

(** ** Fitted states *)

(** The reducer is fitted on [f] columns and projects to [k]. *)
Definition pca_ready (f k : nat) (p : HybridLSTMTransformerModel) : Prop :=
  ∃ q, pca p = Some q ∧ pca_fitted_for f k q.

(** There is a model for sequences of length [k] and [nc] classes. *)
Definition model_ready (k nc : nat) (p : HybridLSTMTransformerModel) : Prop :=
  ∃ m, model p = Some m ∧ kt_shape (km_inputs (compiled m)) = [k; 1] ∧
       output_units (compiled m) = nc.

(** Every part is fitted, and the parts fit each other: the scaler and the
    reducer on [f] columns, the reducer and the model on [k] components,
    the model and the encoder on the classes. *)
Definition fitted_for (f k : nat) (classes : list L)
    (p : HybridLSTMTransformerModel) : Prop :=
  scaler_fitted_for f (scaler p) ∧ pca_ready f k p ∧
  model_ready k (length classes) p ∧
  classes_ (label_encoder p) = Some classes ∧ classes ≠ [].

(** What [fit] needs to reach the training of the model: an array with a
    label per row and at least one column, two classes when balancing, a
    validation fraction strictly between 0 and 1 that leaves room for
    [n_components] training rows however many rows balancing adds, and no
    more components than columns. *)
Definition data_ready (X : ndarray2) (y : list L) (q : Q) (cb : bool)
    (p : HybridLSTMTransformerModel) : Prop :=
  wf2 X ∧ rows2 X = length y ∧ 0 < cols2 X ∧
  (cb = true → 1 < length (np_unique le y)) ∧
  (0 < q)%Q ∧ (q < 1)%Q ∧
  (∀ n', length y ≤ n' →
         float_ceil_mul q n' < n' ∧
         n_components (params p) ≤ n' - float_ceil_mul q n') ∧
  n_components (params p) ≤ cols2 X.

(** What [fit] needs to run to the end: in addition, admissible
    hyper-parameters, and no model yet or one built for these components
    and classes. *)
Definition fit_ready (X : ndarray2) (y : list L) (q : Q) (cb : bool)
    (p : HybridLSTMTransformerModel) : Prop :=
  data_ready X y q cb p ∧ admissible (params p) ∧
  (model p = None ∨
   model_ready (n_components (params p)) (length (np_unique le y)) p).

(** ** Sequences of calls *)

(** A call of a public method with its arguments. *)
Inductive call : Type :=
  | CallFit (X : ndarray2) (y : list L) (epochs batch_size : nat)
            (validation_split : Q) (class_balance : bool)
  | CallPredict (X : ndarray2)
  | CallEvaluate (X : ndarray2) (y : list L)
  | CallPlotTrainingHistory
  | CallPlotConfusionMatrix (X : ndarray2) (y : list L)
  | CallApplyPca (X_train X_test : ndarray2)
  | CallSqueezeAndExcitation (features : ndarray2) (ratio : nat).

(** The state after a call, whether it returned or raised. *)
Definition after (c : call) (w : world) : world :=
  match c with
  | CallFit X y epochs batch_size validation_split class_balance =>
      (fit X y epochs batch_size validation_split class_balance w).2
  | CallPredict X => (predict X w).2
  | CallEvaluate X y => (evaluate X y w).2
  | CallPlotTrainingHistory => (plot_training_history w).2
  | CallPlotConfusionMatrix X y => (plot_confusion_matrix X y w).2
  | CallApplyPca X_train X_test => (on_self (apply_pca X_train X_test) w).2
  | CallSqueezeAndExcitation features ratio =>
      (on_np_random (squeeze_and_excitation features ratio) w).2
  end.

(** The states an object constructed with hyper-parameters [hp] can be
    in. *)
Inductive reachable (hp : hyperparams) : world → Prop :=
  | reachable_init g :
      reachable hp
        (World (__init__ (n_components hp) (lstm_units hp) (num_heads hp)
                  (ff_dim hp) (dropout_rate hp) (random_state hp)) g)
  | reachable_call w c : reachable hp w → reachable hp (after c w).

(** The state after a sequence of calls, the first call first. *)
Definition run_calls (cs : list call) (w : world) : world :=
  foldl (fun w c => after c w) w cs.

(** What holds of every reachable object: the hyper-parameters are those
    of the constructor, a history comes with a model, and a model comes
    with a reducer. *)
Definition consistent (hp : hyperparams) (p : HybridLSTMTransformerModel) : Prop :=
  params p = hp ∧ (is_Some (history p) → is_Some (model p)) ∧
  (is_Some (model p) → is_Some (pca p)).

(** The object holds a model compiled from [c]. *)
Definition holds_model (c : keras_model) (p : HybridLSTMTransformerModel) : Prop :=
  ∃ m, model p = Some m ∧ compiled m = c.

End pipeline.

(** ** Example: six samples of two features in two classes *)

Definition demo_X : ndarray2 :=
  Arr2 6 2 [[1; 2]; [2; 1]; [0; 1]; [3; 1]; [5; 7]; [6; 8]]%R.

Definition demo_y : list nat := [0; 0; 0; 0; 1; 1].

Definition demo_self : HybridLSTMTransformerModel (L := nat) :=
  __init__ 2 64 4 128 0.2 42.

Definition demo_world : world := World demo_self demo_rng.

(** The same object with three components requested, more than the data
    has columns, and with a model for two classes already built. *)
Definition demo_wide_world : world (L := nat) :=
  World (__init__ 3 64 4 128 0.2 42) demo_rng.

Definition demo_model : Model :=
  match build_model (params demo_self) [2; 1] 2 with
  | Ok m => Model_new m
  | Raise _ => Model_new (KerasModel [] (KT 0 []) (KT 0 []) (Adam 0) "" [])
  end.

Definition demo_built_world : world :=
  World (set_model (Some demo_model) demo_self) demo_rng.

(** The first feature of the six samples alone. *)
Definition demo_narrow_X : ndarray2 :=
  Arr2 6 1 [[1]; [2]; [0]; [3]; [5]; [6]]%R.

(** Labels of three classes for the six samples. *)
Definition demo_y3 : list nat := [0; 0; 1; 1; 2; 2].

(** Labels for the six samples of the example in which the smaller class
    sits at positions 2 and 3. *)
Definition leak_y : list nat := [0; 0; 1; 1; 0; 0].

(** ** Automation *)

Ltac unfold_lenses :=
  unfold on_self, on_np_random, on_scaler, on_label_encoder, on_pca,
    on_model, zoom, set_model, set_history, set_scaler, set_pca,
    set_label_encoder;
  cbn [self np_random params model history scaler pca label_encoder fst snd].

(** [run_with H] runs the first statement of the program in the goal, whose
    outcome on the current state is given by [H]. *)
Ltac run_with H :=
  erewrite stateE_bind_run by (unfold_lenses; rewrite ?H; simpl; reflexivity);
  cbv beta iota.

(** [run_calls_of] evaluates the plumbing of a method down to the calls it
    makes on the scaler, the reducer, the generator, the model and the
    encoder. *)
Ltac run_calls_of :=
  cbn -[model_predict model_fit scaler_transform scaler_fit_transform
        pca_transform pca_fit_transform squeeze_and_excitation
        np_argmax_axis1 label_encoder_inverse_transform
        label_encoder_transform label_encoder_fit_transform].

Section pipeline_lemmas.
Context {L : Type} `{EqDecision L}.
Context (le : relation L) `{!RelDecision le}.
Context `{PCASolver} `{RandomOracle} `{KerasBackend}.

#[local] Abbreviation Self := (HybridLSTMTransformerModel (L := L)).
#[local] Abbreviation W := (world (L := L)).

(** ** Methods that only read *)

Lemma on_scaler_readonly {A} (m : stateE StandardScaler A) :
  readonly m → readonly (on_scaler (L := L) m).
Proof. apply readonly_zoom. by intros []. Qed.

Lemma on_label_encoder_readonly {A} (m : stateE (LabelEncoder L) A) :
  readonly m → readonly (on_label_encoder m).
Proof. apply readonly_zoom. by intros []. Qed.

Lemma on_pca_readonly {A} attr (m : stateE PCA A) :
  readonly m → readonly (on_pca (L := L) attr m).
Proof.
  intros Hm p. unfold on_pca. destruct (pca p) as [q|] eqn:Hq; [|done].
  simpl. rewrite Hm, <- Hq. by destruct p.
Qed.

Lemma on_model_readonly {A} attr (m : stateE Model A) :
  readonly m → readonly (on_model (L := L) attr m).
Proof.
  intros Hm p. unfold on_model. destruct (model p) as [q|] eqn:Hq; [|done].
  simpl. rewrite Hm, <- Hq. by destruct p.
Qed.

Lemma on_self_readonly {A} (m : stateE Self A) :
  readonly m → readonly (on_self m).
Proof. apply readonly_zoom. by intros []. Qed.

Lemma on_self_run {A} (m : stateE Self A) (w : W) r p' :
  m (self w) = (r, p') → on_self m w = (r, World p' (np_random w)).
Proof. intros Hm. unfold on_self. by erewrite zoom_run. Qed.

Lemma on_np_random_frames {A} (m : stateE rng A) (I : Self → Prop) :
  frames (fun w => I (self w)) (on_np_random m).
Proof. by apply frames_zoom. Qed.

Lemma predict_features_frames X (I : Self → Prop) :
  frames (fun w => I (self w)) (predict_features X).
Proof.
  unfold predict_features.
  apply frames_bind; [|intros X_scaled].
  { apply frames_readonly, on_self_readonly, on_scaler_readonly,
      scaler_transform_readonly. }
  apply frames_bind; [|intros X_pca].
  { apply frames_readonly, on_self_readonly, on_pca_readonly,
      pca_transform_readonly. }
  apply frames_bind; [apply on_np_random_frames | intros X_se].
  apply frames_ret.
Qed.

Lemma predict_frames X (I : Self → Prop) :
  frames (fun w => I (self w)) (predict X).
Proof.
  unfold predict.
  apply frames_bind; [by apply frames_readonly|intros w].
  apply frames_bind; [by destruct (model (self w)); apply frames_readonly|intros _].
  apply frames_bind; [apply predict_features_frames|intros X_lstm].
  apply frames_bind; [|intros y_pred_proba].
  { apply frames_readonly, on_self_readonly, on_model_readonly,
      model_predict_readonly. }
  apply frames_bind; [apply frames_lift|intros y_pred_indices].
  apply frames_readonly, on_self_readonly, on_label_encoder_readonly,
    label_encoder_inverse_transform_readonly.
Qed.

(** [predict] reads the model through [Model.predict] alone: an object
    with another model whose [predict] returns the same scores returns the
    same labels, or raises the same exception. *)
Lemma predict_with_model X (w : W) v v' :
  model (self w) = Some v →
  (∀ x, (model_predict x v').1 = (model_predict x v).1) →
  (predict X (World (set_model (Some v') (self w)) (np_random w))).1
  = (predict X w).1.
Proof.
  intros Hv Hfw. destruct w as [[hp mdl hist sc pc enc] g].
  simpl in Hv. subst mdl.
  unfold predict, predict_features, on_self, on_scaler, on_pca, on_np_random,
    on_model, on_label_encoder, zoom, mbind, stateE_bind, get, mret,
    stateE_ret.
  run_calls_of.
  destruct (scaler_transform X sc) as [[Xs|e] sc']; [run_calls_of|done].
  destruct pc as [q|]; [|done].
  destruct (pca_transform Xs q) as [[Xp|e] q']; [run_calls_of|done].
  destruct (squeeze_and_excitation Xp default_ratio g) as [[Xse|e] g'];
    [run_calls_of|done].
  specialize (Hfw (newaxis_last Xse)).
  destruct (model_predict _ v) as [r1 v1], (model_predict _ v') as [r2 v2].
  simpl in *. subst r2. destruct r1 as [scores|e]; [|done].
  destruct (np_argmax_axis1 scores) as [idx|e]; [run_calls_of|done].
  by destruct (label_encoder_inverse_transform idx enc) as [[?|?] ?].
Qed.

End pipeline_lemmas.
