(* ===== verification/Training.v ===== *)
(** * Training: what [fit] and [predict] compute

    The run of [predict] on a fitted object and the run of [fit] block by
    block, for arguments and states described by [fitted_for],
    [data_ready] and [fit_ready]; then the theorems on the two methods:
    [fit] followed by [predict] returns labels seen in training, [predict]
    and [plot_training_history] need a fitted object, [apply_pca] replaces
    the reducer, and what balancing and splitting do to the class counts.
    The closing examples fit a small data set, for the witnesses of this
    and the later files. *)

From Stdlib Require Import Reals QArith Lia.
From stdpp Require Import sorting sets.
From S2P Require Import Prelude Numeric SqueezeExcite Labels Keras Network.
From S2P Require Import Preprocess Sampling Backend Metrics Pipeline.

#[local] Set Warnings "-clear-no-such-hyp".

Section training.
Context {L : Type} `{EqDecision L}.
Context (le : relation L) `{!RelDecision le}.
Context `{PCASolver} `{RandomOracle} `{KerasBackend}.

#[local] Abbreviation Self := (HybridLSTMTransformerModel (L := L)).
#[local] Abbreviation W := (world (L := L)).

(** ** The inference path *)

Lemma wf3_newaxis_shape X :
  wf2 X → wf3 (newaxis_last X) ∧ dim0 (newaxis_last X) = rows2 X ∧
  dim1 (newaxis_last X) = cols2 X ∧ dim2 (newaxis_last X) = 1.
Proof. intros HX. split; [by apply wf3_newaxis_last | done]. Qed.

Lemma predict_features_run f k X (w : W) :
  scaler_fitted_for f (scaler (self w)) → pca_ready f k (self w) →
  wf2 X → 0 < rows2 X → 0 < f → cols2 X = f →
  ∃ X_lstm g', predict_features X w = (Ok X_lstm, World (self w) g') ∧
    wf3 X_lstm ∧ dim0 X_lstm = rows2 X ∧ dim1 X_lstm = k ∧ dim2 X_lstm = 1 ∧
    tape g' = tape (np_random w).
Proof.
  destruct w as [[hp mdl hist sc pc enc] g]. simpl.
  intros Hsc (q & Hpc & Hq) HX Hrows Hf Hcols. simpl in Hpc. subst pc.
  destruct (scaler_transform_Ok f X sc Hsc HX Hrows Hf Hcols)
    as (Xs & Hrun1 & HXs & Hr1 & Hc1).
  destruct (pca_transform_Ok f k Xs q Hq HXs ltac:(lia) Hf Hc1)
    as (Xp & Hrun2 & HXp & Hr2 & Hc2).
  destruct (se_run_shape Xp default_ratio g HXp ltac:(done))
    as (Xe & g' & Hrun3 & HXe & Hr3 & Hc3 & Htape & _).
  exists (newaxis_last Xe), g'. unfold predict_features.
  run_with Hrun1. run_with Hrun2. run_with Hrun3.
  split; [done|]. destruct (wf3_newaxis_shape Xe HXe) as (? & ? & ? & ?).
  split_and!; congruence.
Qed.

Lemma predict_run f k classes X (w : W) :
  fitted_for f k classes (self w) →
  wf2 X → 0 < rows2 X → 0 < f → cols2 X = f →
  ∃ y_pred g', predict X w = (Ok y_pred, World (self w) g') ∧
    length y_pred = rows2 X ∧ Forall (fun x => x ∈ classes) y_pred ∧
    tape g' = tape (np_random w).
Proof.
  intros (Hsc & Hpca & (m & Hm & Hin & Hout) & Henc & Hne) HX Hrows Hf Hcols.
  destruct (predict_features_run f k X w Hsc Hpca HX Hrows Hf Hcols)
    as (X_lstm & g' & Hrun1 & HXl & Hd0 & Hd1 & Hd2 & Htape).
  destruct w as [[hp mdl hist sc pc enc] g]. simpl in *. subst mdl.
  destruct (model_predict_Ok X_lstm m HXl ltac:(congruence))
    as (proba & Hrun2 & Hp & Hpr & Hpc).
  destruct (np_argmax_axis1_Ok proba Hp) as (idx & Hrun3 & Hlen & Hidx).
  { rewrite Hpc, Hout. destruct classes; [done|simpl; lia]. }
  rewrite Hpc, Hout in Hidx.
  destruct (decode_labels_bounded classes idx Hidx) as [y_pred Hrun4].
  exists y_pred, g'. unfold predict.
  run_with Hrun1. run_with Hrun1. run_with Hrun1.
  run_with Hrun2. run_with Hrun3.
  unfold_lenses. unfold label_encoder_inverse_transform. rewrite Henc, Hrun4.
  split; [done|]. split_and!; [|by eapply decode_labels_elem_of|done].
  apply mapM_Ok_length in Hrun4. congruence.
Qed.

(** ** The rows selected by position *)

Lemma take_rows_data a idx b :
  take_rows a idx = Ok b → data2 b = take_labels (data2 a) idx.
Proof.
  unfold take_rows. destruct (mapM _ idx) as [rows|e] eqn:Hm; [|done].
  intros [= <-]. simpl. apply mapM_Ok_Forall2 in Hm.
  induction Hm as [|i r idx rows Hi _ IH]; [done|].
  rewrite take_labels_cons. destruct (data2 a !! i); [|done].
  injection Hi as ->. by rewrite IH.
Qed.

Lemma take_labels_split {A} (y : list A) n_test perm :
  perm ≡ₚ seq 0 (length y) →
  take_labels y (take n_test perm) ++ take_labels y (drop n_test perm) ≡ₚ y.
Proof.
  intros Hp. rewrite <- take_labels_app, take_drop.
  by rewrite (take_labels_Permutation y _ _ Hp), take_labels_seq.
Qed.

(** ** The training path *)

Lemma fit_resample_run seed X y :
  wf2 X → rows2 X = length y → 1 < length (np_unique Nat.le y) →
  ∃ Xr, fit_resample seed X y
        = Ok (Xr, take_labels y (oversample_indices seed y)) ∧
        wf2 Xr ∧ cols2 Xr = cols2 X ∧
        rows2 Xr = length (take_labels y (oversample_indices seed y)).
Proof.
  intros HX Hrows Hy. unfold fit_resample.
  rewrite Hrows, fit_resample_Ok by done. simpl.
  destruct (take_rows_Ok X (oversample_indices seed y) HX)
    as (Xr & -> & HXr & Hr & Hc & _).
  { rewrite Hrows. apply oversample_bounded. }
  exists Xr. split_and!; [done..|]. by rewrite (proj1 (oversample_length _ _)).
Qed.

Lemma train_test_split_run X y q seed :
  wf2 X → rows2 X = length y → (0 < q)%Q → (q < 1)%Q →
  float_ceil_mul q (rows2 X) < rows2 X →
  let n_test := float_ceil_mul q (rows2 X) in
  let train := drop n_test (permutation seed (rows2 X)) in
  let test := take n_test (permutation seed (rows2 X)) in
  ∃ X_train X_test,
    train_test_split X y q seed
    = Ok (X_train, X_test, take_labels y train, take_labels y test) ∧
    wf2 X_train ∧ wf2 X_test ∧
    cols2 X_train = cols2 X ∧ cols2 X_test = cols2 X ∧
    rows2 X_train = rows2 X - n_test ∧ rows2 X_test = n_test ∧
    length (take_labels y train) = rows2 X_train ∧
    length (take_labels y test) = rows2 X_test.
Proof.
  intros HX Hrows Hq0 Hq1 Hn n_test train test.
  pose proof (permutation_bounded seed (rows2 X)) as Hb.
  pose proof (permutation_length seed (rows2 X)) as Hl.
  assert (Forall (fun i => i < rows2 X) train) as Htr by by apply Forall_drop.
  assert (Forall (fun i => i < rows2 X) test) as Hte by by apply Forall_take.
  destruct (take_rows_Ok X train HX Htr) as (Xtr & Hrun1 & HXtr & Hr1 & Hc1 & _).
  destruct (take_rows_Ok X test HX Hte) as (Xte & Hrun2 & HXte & Hr2 & Hc2 & _).
  exists Xtr, Xte. unfold train_test_split.
  rewrite <- Hrows, train_test_split_Ok by done. simpl.
  fold n_test train test. rewrite Hrun1, Hrun2. simpl.
  assert (length train = rows2 X - n_test) by (unfold train; rewrite length_drop; lia).
  assert (length test = n_test) by (unfold test; rewrite length_take; lia).
  rewrite !take_labels_length by by rewrite <- Hrows.
  split_and!; (done || lia).
Qed.

Lemma balance_run seed (cb : bool) X y :
  wf2 X → rows2 X = length y →
  (cb = true → 1 < length (np_unique Nat.le y)) →
  ∃ Xr yr, (if cb then fit_resample seed X y else Ok (X, y)) = Ok (Xr, yr) ∧
    wf2 Xr ∧ cols2 Xr = cols2 X ∧ rows2 Xr = length yr ∧
    length y ≤ length yr ∧ (∀ c, c ∈ yr ↔ c ∈ y) ∧
    (cb = false → length yr = length y).
Proof.
  intros HX Hrows Hy. destruct cb; [|by exists X, y].
  destruct (fit_resample_run seed X y HX Hrows (Hy eq_refl))
    as (Xr & Hrun & HXr & Hc & Hr).
  destruct (oversample_length seed y) as [Hl1 Hl2].
  exists Xr, (take_labels y (oversample_indices seed y)).
  split_and!; [done..|lia|apply oversample_elem_of|done].
Qed.

Lemma fit_data_run X y q cb (p : Self) :
  wf2 X → rows2 X = length y →
  (cb = true → 1 < length (np_unique le y)) →
  (0 < q)%Q → (q < 1)%Q →
  (∀ n', length y ≤ n' → float_ceil_mul q n' < n') →
  ∃ yr Xtr Xte ytr yte n',
    fit_data le X y q cb p
    = (Ok (yr, (Xtr, Xte, ytr, yte)),
       set_label_encoder (MkLabelEncoder (Some (np_unique le y))) p) ∧
    length (np_unique Nat.le yr) = length (np_unique le y) ∧
    Forall (fun i => i < length (np_unique le y)) ytr ∧
    Forall (fun i => i < length (np_unique le y)) yte ∧
    wf2 Xtr ∧ wf2 Xte ∧ cols2 Xtr = cols2 X ∧ cols2 Xte = cols2 X ∧
    length y ≤ n' ∧ rows2 Xtr = n' - float_ceil_mul q n' ∧
    rows2 Xte = float_ceil_mul q n' ∧
    length ytr = rows2 Xtr ∧ length yte = rows2 Xte ∧
    (cb = false → n' = length y).
Proof.
  intros HX Hrows Hy Hq0 Hq1 Hroom.
  destruct (fit_transform_run le y (label_encoder p)) as (y_enc & Hrun1 & Henc).
  destruct (encode_labels_bounded _ _ _ Henc) as [Hlen Hb].
  pose proof (encode_labels_unique_length le y y_enc Henc) as Hk.
  destruct (balance_run (random_state (params p)) cb X y_enc HX)
    as (Xr & yr & Hrun2 & HXr & Hc & Hr & Hle & Hin & Hsame);
    [congruence | by rewrite Hk |].
  destruct (train_test_split_run Xr yr q (random_state (params p)) HXr Hr Hq0 Hq1)
    as (Xtr & Xte & Hrun3 & ? & ? & ? & ? & ? & ? & ? & ?);
    [apply Hroom; lia|].
  eexists yr, Xtr, Xte, _, _, (rows2 Xr). unfold fit_data.
  run_with Hrun1. run_with Hrun1. run_with Hrun2. run_with Hrun3.
  split; [done|].
  assert (∀ idx, Forall (fun i => i < length (np_unique le y))
                   (take_labels yr idx)) as Hlt.
  { intros idx. apply Forall_forall. intros i Hi%take_labels_elem_of%Hin.
    by eapply Forall_forall in Hb. }
  split_and!; try (done || congruence || lia).
  - rewrite <- Hk. apply np_unique_length_elem_of, Hin.
  - intros Hcb. rewrite Hr, (Hsame Hcb). lia.
Qed.

Lemma apply_pca_run f Xtr Xte (p : Self) :
  wf2 Xtr → wf2 Xte → 0 < rows2 Xtr → 0 < rows2 Xte →
  cols2 Xtr = f → cols2 Xte = f → 0 < f →
  n_components (params p) ≤ Nat.min (rows2 Xtr) f →
  ∃ A B q, apply_pca Xtr Xte p = (Ok (A, B), set_pca (Some q) p) ∧
    pca_fitted_for f (n_components (params p)) q ∧
    wf2 A ∧ rows2 A = rows2 Xtr ∧ cols2 A = n_components (params p) ∧
    wf2 B ∧ rows2 B = rows2 Xte ∧ cols2 B = n_components (params p) ∧
    ∀ j, j < n_components (params p) → column_mean A j = 0%R.
Proof.
  intros HXtr HXte Hr1 Hr2 Hc1 Hc2 Hf Hk. subst f.
  destruct (pca_fit_transform_Ok Xtr
              (PCA_new (n_components (params p)) (random_state (params p)))
              HXtr Hr1 Hf Hk) as (A & q & Hrun1 & Hq & _ & HA & HAr & HAc).
  destruct (pca_transform_Ok _ _ Xte q Hq HXte Hr2 Hf Hc2)
    as (B & Hrun2 & HB & HBr & HBc).
  exists A, B, q. destruct p as [hp mdl hist sc pc enc]. cbn [params] in *.
  unfold apply_pca.
  run_with Hrun1. run_with Hrun1. run_with Hrun1. run_with Hrun2.
  split_and!; try done.
  intros j Hj. by eapply (pca_fit_transform_centred Xtr).
Qed.

Lemma fit_features_run f Xtr Xte (w : W) :
  wf2 Xtr → wf2 Xte → 0 < rows2 Xtr → 0 < rows2 Xte →
  cols2 Xtr = f → cols2 Xte = f → 0 < f →
  n_components (params (self w)) ≤ Nat.min (rows2 Xtr) f →
  let k := n_components (params (self w)) in
  ∃ A B sc q g',
    fit_features Xtr Xte w
    = (Ok (A, B), World (set_pca (Some q) (set_scaler sc (self w))) g') ∧
    scaler_fitted_for f sc ∧ pca_fitted_for f k q ∧
    wf3 A ∧ dim0 A = rows2 Xtr ∧ dim1 A = k ∧ dim2 A = 1 ∧
    wf3 B ∧ dim0 B = rows2 Xte ∧ dim1 B = k ∧ dim2 B = 1 ∧
    tape g' = tape (np_random w).
Proof.
  intros HXtr HXte Hr1 Hr2 Hc1 Hc2 Hf Hk k.
  destruct w as [p g]. simpl in *. subst f.
  destruct (scaler_fit_transform_Ok Xtr (scaler p) HXtr Hr1 Hf)
    as (S1 & sc & Hrun1 & Hsc & HS1 & HS1r & HS1c).
  destruct (scaler_transform_Ok _ Xte sc Hsc HXte Hr2 Hf Hc2)
    as (S2 & Hrun2 & HS2 & HS2r & HS2c).
  destruct (apply_pca_run (cols2 Xtr) S1 S2 (set_scaler sc p))
    as (P1 & P2 & q & Hrun3 & Hq & HP1 & HP1r & HP1c & HP2 & HP2r & HP2c & _);
    [done | done | lia | lia | done | done | done | simpl; lia |].
  destruct (se_run_shape P1 default_ratio g HP1 ltac:(done))
    as (E1 & g1 & Hrun4 & HE1 & HE1r & HE1c & Ht1 & _).
  destruct (se_run_shape P2 default_ratio g1 HP2 ltac:(done))
    as (E2 & g2 & Hrun5 & HE2 & HE2r & HE2c & Ht2 & _).
  destruct (wf3_newaxis_shape E1 HE1) as (? & ? & ? & ?).
  destruct (wf3_newaxis_shape E2 HE2) as (? & ? & ? & ?).
  exists (newaxis_last E1), (newaxis_last E2), sc, q, g2.
  destruct p as [hp mdl hist sc0 pc enc]. unfold set_scaler, set_pca in *.
  cbn [params model history scaler pca label_encoder] in *.
  unfold fit_features.
  run_with Hrun1. run_with Hrun2. run_with Hrun3. run_with Hrun4.
  run_with Hrun5. subst k.
  split; [done|]. split_and!; congruence.
Qed.

Lemma fit_targets_run yr ytr yte nc :
  length (np_unique Nat.le yr) = nc →
  Forall (fun i => i < nc) ytr → Forall (fun i => i < nc) yte →
  ∃ a b, fit_targets yr ytr yte = Ok (nc, a, b) ∧
    wf2 a ∧ rows2 a = length ytr ∧ cols2 a = nc ∧
    wf2 b ∧ rows2 b = length yte ∧ cols2 b = nc.
Proof.
  intros <- Htr Hte. unfold fit_targets.
  destruct (one_hot_Ok _ ytr Htr) as (a & -> & ? & ? & ? & _).
  destruct (one_hot_Ok _ yte Hte) as (b & -> & ? & ? & ? & _).
  by exists a, b.
Qed.

Lemma fit_train_run k nc A B a b epochs bs (p : Self) mdl :
  model p = Some mdl →
  kt_shape (km_inputs (compiled mdl)) = [k; 1] →
  output_units (compiled mdl) = nc →
  dim1 A = k → dim2 A = 1 → dim1 B = k → dim2 B = 1 →
  dim0 A = rows2 a → cols2 a = nc → dim0 B = rows2 b → cols2 b = nc →
  ∃ r,
    (h ← on_model "fit" (model_fit A a epochs bs B b);
     modify (set_history (Some h))) p
    = (Ok tt, set_history (Some r.2)
                (set_model (Some (MkModel (compiled mdl) r.1)) p)) ∧
    (epochs = 0 → r = (model_weights mdl, empty_history)) ∧
    (0 < epochs → r = train (compiled mdl) (model_weights mdl) (A, a)
                        epochs (batch_size_or_default bs) (B, b)) ∧
    epochs_recorded r.2 epochs.
Proof.
  intros Hm Hin Hout HA1 HA2 HB1 HB2 HA0 Ha HB0 Hb.
  destruct (model_fit_run A a epochs bs B b mdl)
    as (r & Hrun & Hr0 & Hr & Hh); [apply check_data_Ok; congruence..|].
  exists r. destruct p as [hp m0 hist sc pc enc]. simpl in Hm. subst m0.
  run_with Hrun. done.
Qed.

(** [fit_model] trains the model the object holds, or the one it builds. *)
Lemma fit_model_train k nc A B a b epochs bs (p : Self) :
  admissible (params p) → 0 < nc →
  model p = None ∨ model_ready k nc p →
  dim1 A = k → dim2 A = 1 →
  ∃ mdl,
    fit_model A B nc a b epochs bs p
    = (h ← on_model "fit" (model_fit A a epochs bs B b);
       modify (set_history (Some h))) (set_model (Some mdl) p) ∧
    kt_shape (km_inputs (compiled mdl)) = [k; 1] ∧
    output_units (compiled mdl) = nc ∧
    (∀ m0, model p = Some m0 → mdl = m0) ∧
    (model p = None →
     ∃ km, build_model (params p) [k; 1] nc = Ok km ∧ mdl = Model_new km).
Proof.
  intros Hadm Hnc Hmodel HA1 HA2. unfold fit_model.
  run_with Hadm. destruct Hmodel as [Hnone | (mdl & Hm & Hin & Hout)].
  - rewrite Hnone.
    destruct (build_model_run (params p) k 1 nc Hadm Hnc)
      as (m & Hbuild & Hin & Hout & _).
    exists (Model_new m). rewrite HA1, HA2.
    erewrite stateE_bind_run
      by (erewrite stateE_bind_run by (unfold lift_result; by rewrite Hbuild);
          reflexivity).
    split_and!; [done | done | | congruence | by exists m].
    cbn [compiled Model_new]. unfold output_units. by rewrite Hout.
  - exists mdl. rewrite Hm. run_with Hm.
    replace (set_model (Some mdl) p) with p by (by destruct p; simplify_eq/=).
    split_and!; [done | done | done | congruence | congruence].
Qed.

(** [fit_model] on data of the shapes of the model: the stored model has
    the weights training returns, and the history is the one it returns. *)
Lemma fit_model_trained k nc A B a b epochs bs (p : Self) :
  admissible (params p) → 0 < nc →
  model p = None ∨ model_ready k nc p →
  dim1 A = k → dim2 A = 1 → dim1 B = k → dim2 B = 1 →
  dim0 A = rows2 a → cols2 a = nc → dim0 B = rows2 b → cols2 b = nc →
  ∃ mdl r,
    fit_model A B nc a b epochs bs p
    = (Ok tt, set_history (Some r.2)
                (set_model (Some (MkModel (compiled mdl) r.1)) p)) ∧
    kt_shape (km_inputs (compiled mdl)) = [k; 1] ∧
    output_units (compiled mdl) = nc ∧
    (∀ m0, model p = Some m0 → mdl = m0) ∧
    (model p = None →
     ∃ km, build_model (params p) [k; 1] nc = Ok km ∧ mdl = Model_new km) ∧
    (epochs = 0 → r = (model_weights mdl, empty_history)) ∧
    (0 < epochs → r = train (compiled mdl) (model_weights mdl) (A, a)
                        epochs (batch_size_or_default bs) (B, b)) ∧
    epochs_recorded r.2 epochs.
Proof.
  intros Hadm Hnc Hmodel HA1 HA2 HB1 HB2 HA0 Ha HB0 Hb.
  destruct (fit_model_train k nc A B a b epochs bs p)
    as (mdl & -> & Hin & Hout & Hkeep & Hnew); try done.
  destruct (fit_train_run k nc A B a b epochs bs
              (set_model (Some mdl) p) mdl)
    as (r & Hrun & Hr0 & Hr & Hh); [by destruct p | done..|].
  exists mdl, r. rewrite Hrun. split; [by destruct p|]. by split_and!.
Qed.

Lemma fit_model_run k nc A B a b epochs bs (p : Self) :
  admissible (params p) → 0 < nc →
  model p = None ∨ model_ready k nc p →
  dim1 A = k → dim2 A = 1 → dim1 B = k → dim2 B = 1 →
  dim0 A = rows2 a → cols2 a = nc → dim0 B = rows2 b → cols2 b = nc →
  ∃ m h, fit_model A B nc a b epochs bs p
         = (Ok tt, set_history (Some h) (set_model (Some m) p)) ∧
    kt_shape (km_inputs (compiled m)) = [k; 1] ∧
    output_units (compiled m) = nc ∧ epochs_recorded h epochs ∧
    (∀ m0, model p = Some m0 → compiled m = compiled m0).
Proof.
  intros Hadm Hnc Hmodel HA1 HA2 HB1 HB2 HA0 Ha HB0 Hb.
  destruct (fit_model_trained k nc A B a b epochs bs p)
    as (mdl & [w h] & Hrun & Hin & Hout & Hkeep & _ & _ & _ & Hh); try done.
  exists (MkModel (compiled mdl) w), h. split_and!; try done.
  intros m0 Hm0. by rewrite (Hkeep m0).
Qed.

Lemma np_unique_nonempty (y : list L) : 0 < length y → 0 < length (np_unique le y).
Proof.
  destruct y as [|x y]; [simpl; lia|]. intros _.
  destruct (np_unique le (x :: y)) as [|c cs] eqn:Hu; [|simpl; lia].
  assert (x ∈ np_unique le (x :: y)) as Hx by (apply np_unique_elem_of; left).
  rewrite Hu in Hx. by apply elem_of_nil in Hx.
Qed.

Lemma fit_prefix_run X y epochs bs q cb (w : W) :
  data_ready le X y q cb (self w) →
  ∃ A B a b sc pc g',
    fit le X y epochs bs q cb w
    = on_self (fit_model A B (length (np_unique le y)) a b epochs bs)
        (World (set_pca (Some pc)
                  (set_scaler sc
                     (set_label_encoder
                        (MkLabelEncoder (Some (np_unique le y))) (self w))))
               g') ∧
    scaler_fitted_for (cols2 X) sc ∧
    pca_fitted_for (cols2 X) (n_components (params (self w))) pc ∧
    dim1 A = n_components (params (self w)) ∧ dim2 A = 1 ∧
    dim1 B = n_components (params (self w)) ∧ dim2 B = 1 ∧
    dim0 A = rows2 a ∧ cols2 a = length (np_unique le y) ∧
    dim0 B = rows2 b ∧ cols2 b = length (np_unique le y) ∧
    0 < length (np_unique le y) ∧ tape g' = tape (np_random w) ∧
    wf3 A ∧ wf2 a ∧
    ∃ n', length y ≤ n' ∧ (cb = false → n' = length y) ∧
          dim0 A = n' - float_ceil_mul q n'.
Proof.
  destruct w as [p g]. cbn [self np_random].
  intros (HX & Hrows & Hf & Hy & Hq0 & Hq1 & Hroom & Hkf).
  destruct (fit_data_run X y q cb p HX Hrows Hy Hq0 Hq1)
    as (yr & Xtr & Xte & ytr & yte & n' & Hrun1 & Hnc & Hytr & Hyte & HXtr
        & HXte & Hc1 & Hc2 & Hn' & Hr1 & Hr2 & Hl1 & Hl2 & Hsame);
    [intros; by apply Hroom|].
  destruct (Hroom n' Hn') as [Hroom1 Hroom2].
  set (p1 := set_label_encoder (MkLabelEncoder (Some (np_unique le y))) p) in *.
  destruct (fit_features_run (cols2 X) Xtr Xte (World p1 g))
    as (A & B & sc & pc & g' & Hrun2 & Hsc & Hpc & HA & HA0 & HA1 & HA2
        & HB & HB0 & HB1 & HB2 & Htape);
    [done | done | lia | | done | done | done | simpl; lia |].
  { rewrite Hr2. destruct (float_ceil_mul_bounds q n' Hq0 Hq1); lia. }
  cbn [self np_random] in *.
  destruct (fit_targets_run yr ytr yte _ Hnc Hytr Hyte)
    as (a & b & Hrun3 & Ha & Har & Hac & Hb & Hbr & Hbc).
  exists A, B, a, b, sc, pc, g'. unfold fit.
  erewrite stateE_bind_run by (by apply zoom_run). cbv beta iota.
  rewrite (stateE_bind_run _ _ _ _ _ Hrun2). cbv beta iota.
  erewrite stateE_bind_run by (unfold lift_result; by rewrite Hrun3).
  cbv beta iota. split; [done|]. split_and!; try (done || congruence).
  - apply np_unique_nonempty. destruct (Hroom (length y)); lia.
  - exists n'. split_and!; [done | done | congruence].
Qed.

Lemma fit_run X y epochs bs q cb (w : W) :
  fit_ready le X y q cb (self w) →
  ∃ w', fit le X y epochs bs q cb w = (Ok tt, w') ∧
    fitted_for (cols2 X) (n_components (params (self w))) (np_unique le y)
      (self w') ∧
    params (self w') = params (self w) ∧
    (∃ h, history (self w') = Some h ∧ epochs_recorded h epochs) ∧
    (∀ m0, model (self w) = Some m0 →
           ∃ m, model (self w') = Some m ∧ compiled m = compiled m0) ∧
    tape (np_random w') = tape (np_random w).
Proof.
  intros (Hdata & Hadm & Hmodel).
  destruct (fit_prefix_run X y epochs bs q cb w Hdata)
    as (A & B & a & b & sc & pc & g' & -> & Hsc & Hpc & HA1 & HA2 & HB1 & HB2
        & HA0 & Ha & HB0 & Hb & Hpos & Htape & _).
  destruct w as [p g]. cbn [self np_random] in *.
  destruct (fit_model_run (n_components (params p)) (length (np_unique le y))
              A B a b epochs bs
              (set_pca (Some pc) (set_scaler sc
                 (set_label_encoder (MkLabelEncoder (Some (np_unique le y))) p))))
    as (m & h & Hrun & Hin & Hout & Hh & Hkeep); try done.
  eexists. split; [by apply zoom_run|]. cbn [self np_random].
  split_and!; [split_and!| | | |]; try done.
  - by exists pc.
  - by exists m.
  - intros Hnil. rewrite Hnil in Hpos. simpl in Hpos. lia.
  - by exists h.
  - intros m0 Hm0. exists m. split; [done|]. by apply Hkeep.
Qed.

(** A [fit] that its arguments allow trains the model the object holds,
    or the one [build_model] makes for the components and the classes if
    it holds none: the stored model has the weights training returns from
    those of that model on the training data, which are the rows the split
    leaves of at least as many rows as the data has. *)
Lemma fit_trained X y epochs bs q cb (w : W) :
  fit_ready le X y q cb (self w) →
  ∃ A a B b mdl r w1,
    fit le X y epochs bs q cb w = (Ok tt, w1) ∧
    model (self w1) = Some (MkModel (compiled mdl) r.1) ∧
    history (self w1) = Some r.2 ∧
    (∀ m0, model (self w) = Some m0 → mdl = m0) ∧
    (model (self w) = None →
     ∃ km, build_model (params (self w)) [n_components (params (self w)); 1]
             (length (np_unique le y)) = Ok km ∧ mdl = Model_new km) ∧
    (epochs = 0 → r = (model_weights mdl, empty_history)) ∧
    (0 < epochs → r = train (compiled mdl) (model_weights mdl) (A, a)
                        epochs (batch_size_or_default bs) (B, b)) ∧
    wf3 A ∧ wf2 a ∧ dim0 A = rows2 a ∧
    ∃ n', length y ≤ n' ∧ (cb = false → n' = length y) ∧
          dim0 A = n' - float_ceil_mul q n'.
Proof.
  intros (Hdata & Hadm & Hmodel).
  destruct (fit_prefix_run X y epochs bs q cb w Hdata)
    as (A & B & a & b & sc & pc & g' & -> & Hsc & Hpc & HA1 & HA2 & HB1 & HB2
        & HA0 & Ha & HB0 & Hb & Hpos & Htape & HA & Hwa & Hn').
  destruct w as [p g]. cbn [self np_random] in *.
  destruct (fit_model_trained (n_components (params p))
              (length (np_unique le y)) A B a b epochs bs
              (set_pca (Some pc) (set_scaler sc
                 (set_label_encoder (MkLabelEncoder (Some (np_unique le y))) p))))
    as (mdl & r & Hrun & _ & _ & Hkeep & Hnew & Hr0 & Hr & _); try done.
  exists A, a, B, b, mdl, r. eexists. split; [by apply on_self_run|].
  cbn [self]. by split_and!.
Qed.

(** A model built for another number of classes refuses the targets. *)
Lemma fit_model_mismatch k nc A B a b epochs bs (p : Self) mdl :
  model p = Some mdl →
  kt_shape (km_inputs (compiled mdl)) = [k; 1] →
  output_units (compiled mdl) ≠ nc →
  dim1 A = k → dim2 A = 1 → dim0 A = rows2 a → cols2 a = nc →
  0 < epochs →
  fit_model A B nc a b epochs bs p = (Raise target_error, p).
Proof.
  intros Hm Hin Hout HA1 HA2 HA0 Ha He. unfold fit_model.
  run_with Hm. rewrite Hm. run_with Hm.
  apply stateE_bind_fail. unfold on_model. rewrite Hm.
  rewrite model_fit_target by (congruence || done). cbn [fst snd].
  f_equal. by destruct p; simpl in *; subst.
Qed.

(** For no epoch the targets are not looked at: the model is kept and the
    history is the empty one. *)
Lemma fit_model_no_epoch nc A B a b bs (p : Self) mdl :
  model p = Some mdl → dim0 A = rows2 a →
  fit_model A B nc a b 0 bs p = (Ok tt, set_history (Some empty_history) p).
Proof.
  intros Hm HA0. unfold fit_model.
  run_with Hm. rewrite Hm. run_with Hm.
  erewrite stateE_bind_run; [reflexivity|].
  unfold on_model. rewrite Hm, model_fit_no_epoch by done. cbn [fst snd].
  f_equal. by destruct p; simplify_eq/=.
Qed.

(** The drawing of a history. *)
Lemma plot_training_history_run (w : W) h epochs :
  history (self w) = Some h → epochs_recorded h epochs → 0 < epochs →
  ∃ acc los,
    plot_training_history w = (Ok (Figure (15, 5) true (acc, los)), w) ∧
    ax_title acc = "Model Accuracy" ∧ ax_title los = "Model Loss" ∧
    ax_lines acc = [accuracy h; val_accuracy h] ∧
    ax_lines los = [loss h; val_loss h].
Proof.
  intros Hh He Hpos. eexists _, _. unfold plot_training_history.
  destruct (history_item_Ok h epochs He Hpos) as (Hl & Ha & Hvl & Hva).
  run_with Hh. rewrite Hh, Ha, Hva, Hl, Hvl. by split.
Qed.

(** The history of a [fit] of no epoch has no curves to draw. *)
Lemma plot_training_history_empty (w : W) :
  history (self w) = Some empty_history →
  plot_training_history w = (Raise (KeyError "accuracy"), w).
Proof.
  intros Hh. unfold plot_training_history. run_with Hh.
  by rewrite Hh, history_item_empty.
Qed.

(** ** Theorems *)

(** C1: after a [fit] that its arguments allow, [predict] on any
    well-formed array with the columns of the training data returns one
    label per row, each of them a label seen by [fit], and leaves the
    object as [fit] left it. *)
Theorem fit_then_predict X y epochs bs q cb X' (w : W) :
  fit_ready le X y q cb (self w) →
  wf2 X' → 0 < rows2 X' → cols2 X' = cols2 X →
  ∃ w1 y_pred w2,
    fit le X y epochs bs q cb w = (Ok tt, w1) ∧
    predict X' w1 = (Ok y_pred, w2) ∧
    length y_pred = rows2 X' ∧ Forall (fun x => x ∈ y) y_pred ∧
    self w2 = self w1.
Proof.
  intros Hready HX' Hrows Hcols.
  pose proof Hready as ((_ & _ & Hf & _) & _).
  destruct (fit_run X y epochs bs q cb w Hready)
    as (w1 & Hfit & Hfitted & _).
  destruct (predict_run _ _ _ X' w1 Hfitted HX' Hrows Hf Hcols)
    as (y_pred & g' & Hpred & Hlen & Hin & _).
  exists w1, y_pred, (World (self w1) g'). split_and!; try done.
  eapply Forall_impl; [exact Hin|]. intros x. by rewrite np_unique_elem_of.
Qed.

(** C34: a call of [apply_pca] on well-formed arrays with the same columns,
    with at most as many components as the training array has rows and
    columns, replaces whatever reducer the object held by one fitted on
    the training array and changes nothing else, and returns both arrays
    projected to [n_components] columns, with their rows kept; every
    component of the training array has mean zero, whatever axes the
    solver chose, since the rows are centred before they are projected. *)
Theorem apply_pca_fits_reducer f X_train X_test (w : W) :
  wf2 X_train → wf2 X_test → 0 < rows2 X_train → 0 < rows2 X_test →
  cols2 X_train = f → cols2 X_test = f → 0 < f →
  n_components (params (self w)) ≤ Nat.min (rows2 X_train) f →
  ∃ X_train_pca X_test_pca q,
    on_self (apply_pca X_train X_test) w
    = (Ok (X_train_pca, X_test_pca),
       World (set_pca (Some q) (self w)) (np_random w)) ∧
    pca_fitted_for f (n_components (params (self w))) q ∧
    wf2 X_train_pca ∧ rows2 X_train_pca = rows2 X_train ∧
    cols2 X_train_pca = n_components (params (self w)) ∧
    wf2 X_test_pca ∧ rows2 X_test_pca = rows2 X_test ∧
    cols2 X_test_pca = n_components (params (self w)) ∧
    ∀ j, j < n_components (params (self w)) → column_mean X_train_pca j = 0%R.
Proof.
  intros HXtr HXte Hr1 Hr2 Hc1 Hc2 Hf Hk.
  destruct (apply_pca_run f X_train X_test (self w) HXtr HXte Hr1 Hr2 Hc1 Hc2
              Hf Hk) as (A & B & q & Hrun & Hfacts).
  exists A, B, q. split; [by apply on_self_run | exact Hfacts].
Qed.

(** C10: [predict] on an object without a model raises the error of the
    source and changes nothing. *)
Theorem predict_requires_fit X (w : W) :
  model (self w) = None → predict X w = (Raise not_trained_error, w).
Proof. intros Hm. unfold predict. run_with Hm. by rewrite Hm. Qed.

(** C24: on labels of at least two classes the over-sampler returns
    normally; it keeps the given rows and labels in place, in front of those
    it adds, and in the labels it returns every class has as many samples
    as the largest class had. *)
Theorem fit_resample_balanced seed X y :
  wf2 X → rows2 X = length y → 1 < length (np_unique Nat.le y) →
  ∃ X_res y_res,
    fit_resample seed X y = Ok (X_res, y_res) ∧
    wf2 X_res ∧ rows2 X_res = length y_res ∧ cols2 X_res = cols2 X ∧
    take (length y) y_res = y ∧ take (rows2 X) (data2 X_res) = data2 X ∧
    ∀ c, c ∈ y → count_label c y_res = n_sample_majority y.
Proof.
  intros HX Hrows Hy.
  destruct (fit_resample_run seed X y HX Hrows Hy) as (Xr & Hrun & HXr & Hc & Hr).
  exists Xr, (take_labels y (oversample_indices seed y)).
  split_and!; try done.
  - by apply oversample_take_labels.
  - unfold fit_resample in Hrun. rewrite Hrows, fit_resample_Ok in Hrun by done.
    simpl in Hrun. destruct (take_rows _ _) as [Xr'|] eqn:Hrows'; [|done].
    injection Hrun as ->. rewrite (take_rows_data _ _ _ Hrows'), Hrows.
    apply oversample_take_labels. destruct HX as [HX _]. congruence.
  - intros c Hc'. by apply oversample_count.
Qed.

(** C25: when the validation fraction lies strictly between 0 and 1 and
    leaves a training row, the split returns normally and partitions the
    samples: the validation rows and the training rows together are the
    given rows, and likewise the labels, up to order; the validation part
    has the rounded-up share of the rows. *)
Theorem train_test_split_partitions X y q seed :
  wf2 X → rows2 X = length y → (0 < q)%Q → (q < 1)%Q →
  float_ceil_mul q (rows2 X) < rows2 X →
  ∃ X_train X_test y_train y_test,
    train_test_split X y q seed = Ok (X_train, X_test, y_train, y_test) ∧
    y_test ++ y_train ≡ₚ y ∧ data2 X_test ++ data2 X_train ≡ₚ data2 X ∧
    rows2 X_test = float_ceil_mul q (rows2 X) ∧
    rows2 X_train = rows2 X - float_ceil_mul q (rows2 X) ∧
    length y_train = rows2 X_train ∧ length y_test = rows2 X_test.
Proof.
  intros HX Hrows Hq0 Hq1 Hn.
  destruct (train_test_split_run X y q seed HX Hrows Hq0 Hq1 Hn)
    as (Xtr & Xte & Hrun & _ & _ & _ & _ & Hr1 & Hr2 & Hl1 & Hl2).
  eexists Xtr, Xte, _, _. split; [exact Hrun|].
  pose proof (permutation_perm seed (rows2 X)) as Hp.
  split_and!; try done.
  - apply take_labels_split. by rewrite <- Hrows.
  - unfold train_test_split in Hrun.
    rewrite <- Hrows, train_test_split_Ok in Hrun by done. simpl in Hrun.
    destruct (take_rows X (drop _ _)) as [Xtr'|] eqn:Htr; [|done].
    simpl in Hrun.
    destruct (take_rows X (take _ _)) as [Xte'|] eqn:Hte; [|done].
    simpl in Hrun. simplify_eq.
    rewrite (take_rows_data _ _ _ Htr), (take_rows_data _ _ _ Hte).
    apply take_labels_split. destruct HX as [-> _]. done.
Qed.

(** [plot_training_history] on an object without a history raises the
    error of the source and changes nothing. *)
Lemma plot_training_history_requires_fit (w : W) :
  history (self w) = None →
  plot_training_history w = (Raise not_trained_error, w).
Proof.
  intros Hh. unfold plot_training_history. run_with Hh. by rewrite Hh.
Qed.

(** C40: after a [fit] that its arguments allow, [plot_training_history]
    returns the accuracy axes and the loss axes, each with the training
    curve and the validation curve, and every curve has one point per
    epoch. *)
Theorem fit_then_plot_history X y epochs bs q cb (w : W) :
  fit_ready le X y q cb (self w) → 0 < epochs →
  ∃ w1 acc los,
    fit le X y epochs bs q cb w = (Ok tt, w1) ∧
    plot_training_history w1 = (Ok (Figure (15, 5) true (acc, los)), w1) ∧
    ax_title acc = "Model Accuracy" ∧ ax_title los = "Model Loss" ∧
    Forall (fun curve => length curve = epochs) (ax_lines acc ++ ax_lines los) ∧
    length (ax_lines acc) = 2 ∧ length (ax_lines los) = 2.
Proof.
  intros Hready Hpos.
  destruct (fit_run X y epochs bs q cb w Hready)
    as (w1 & Hfit & _ & _ & (h & Hh & He) & _).
  destruct (plot_training_history_run w1 h epochs Hh He Hpos)
    as (acc & los & Hplot & Ht1 & Ht2 & Hl1 & Hl2).
  destruct He as (He1 & He2 & He3 & He4).
  exists w1, acc, los. rewrite Hl1, Hl2. split_and!; try done.
  by repeat constructor.
Qed.

End training.

(** ** The example *)

Lemma demo_room n' :
  length demo_y ≤ n' →
  float_ceil_mul 0.2 n' < n' ∧
  n_components (params demo_self) ≤ n' - float_ceil_mul 0.2 n'.
Proof.
  intros Hn. pose proof (exact_ceil_mul_upper 0.2 n' ltac:(done)) as Hc.
  simpl in *. lia.
Defined.

Lemma demo_data_ready : data_ready Nat.le demo_X demo_y 0.2 true demo_self.
Proof.
  split_and!; [by apply (bool_decide_unpack (wf2 demo_X)) | done | simpl; lia
              | intros _; vm_compute; lia | done | done | exact demo_room
              | simpl; lia].
Defined.

Lemma demo_fit_ready : fit_ready Nat.le demo_X demo_y 0.2 true demo_self.
Proof.
  split_and!; [exact demo_data_ready | exact default_hyperparams_admissible
              | by left].
Defined.

(** The object after [fit] on the example. *)
Lemma demo_fitted :
  ∃ w1, fit Nat.le demo_X demo_y 50 32 0.2 true demo_world = (Ok tt, w1) ∧
        fitted_for 2 2 (np_unique Nat.le demo_y) (self w1) ∧
        params (self w1) = params demo_self.
Proof.
  destruct (fit_run Nat.le demo_X demo_y 50 32 0.2 true demo_world
              demo_fit_ready) as (w1 & Hfit & Hfitted & Hparams & _).
  exists w1. split; [exact Hfit|]. split; [exact Hfitted | exact Hparams].
Defined.

Lemma fit_then_predict_witness :
  ∃ w1 y_pred w2,
    fit Nat.le demo_X demo_y 50 32 0.2 true demo_world = (Ok tt, w1) ∧
    predict demo_X w1 = (Ok y_pred, w2) ∧
    length y_pred = 6 ∧ Forall (fun x => x ∈ demo_y) y_pred ∧
    self w2 = self w1.
Proof.
  apply (fit_then_predict Nat.le demo_X demo_y 50 32 0.2 true demo_X demo_world);
    [exact demo_fit_ready | by apply (bool_decide_unpack (wf2 demo_X))
    | simpl; lia | done].
Defined.

Lemma predict_requires_fit_witness :
  predict demo_X demo_world = (Raise not_trained_error, demo_world).
Proof. by apply predict_requires_fit. Defined.


Lemma demo_X_wf : wf2 demo_X.
Proof. by apply (bool_decide_unpack (wf2 demo_X)). Defined.

Lemma fit_resample_balanced_witness :
  ∃ X_res y_res,
    fit_resample 42 demo_X demo_y = Ok (X_res, y_res) ∧
    wf2 X_res ∧ rows2 X_res = length y_res ∧ cols2 X_res = 2 ∧
    take 6 y_res = demo_y ∧ take 6 (data2 X_res) = data2 demo_X ∧
    ∀ c, c ∈ demo_y → count_label c y_res = n_sample_majority demo_y.
Proof.
  refine (fit_resample_balanced 42 demo_X demo_y _ _ _);
    [exact demo_X_wf | done | vm_compute; lia].
Defined.

Lemma train_test_split_partitions_witness :
  ∃ X_train X_test y_train y_test,
    train_test_split demo_X demo_y 0.2 42
    = Ok (X_train, X_test, y_train, y_test) ∧
    y_test ++ y_train ≡ₚ demo_y ∧
    data2 X_test ++ data2 X_train ≡ₚ data2 demo_X ∧
    rows2 X_test = 2 ∧ rows2 X_train = 4 ∧
    length y_train = rows2 X_train ∧ length y_test = rows2 X_test.
Proof.
  refine (train_test_split_partitions demo_X demo_y 0.2 42 _ _ _ _ _);
    [exact demo_X_wf | done | done | done | vm_compute; lia].
Defined.

Lemma plot_training_history_requires_fit_witness :
  plot_training_history demo_world = (Raise not_trained_error, demo_world).
Proof. by apply plot_training_history_requires_fit. Defined.

Lemma fit_then_plot_history_witness :
  ∃ w1 acc los,
    fit Nat.le demo_X demo_y 50 32 0.2 true demo_world = (Ok tt, w1) ∧
    plot_training_history w1 = (Ok (Figure (15, 5) true (acc, los)), w1) ∧
    ax_title acc = "Model Accuracy" ∧ ax_title los = "Model Loss" ∧
    Forall (fun curve => length curve = 50) (ax_lines acc ++ ax_lines los) ∧
    length (ax_lines acc) = 2 ∧ length (ax_lines los) = 2.
Proof.
  apply (fit_then_plot_history Nat.le demo_X demo_y 50 32 0.2 true demo_world
           demo_fit_ready); lia.
Defined.

Lemma apply_pca_fits_reducer_witness :
  ∃ X_train_pca X_test_pca q,
    on_self (apply_pca demo_X demo_X) demo_world
    = (Ok (X_train_pca, X_test_pca),
       World (set_pca (Some q) demo_self) demo_rng) ∧
    pca_fitted_for 2 2 q ∧
    wf2 X_train_pca ∧ rows2 X_train_pca = 6 ∧ cols2 X_train_pca = 2 ∧
    wf2 X_test_pca ∧ rows2 X_test_pca = 6 ∧ cols2 X_test_pca = 2 ∧
    ∀ j, j < 2 → column_mean X_train_pca j = 0%R.
Proof.
  refine (apply_pca_fits_reducer 2 demo_X demo_X demo_world demo_X_wf demo_X_wf
            _ _ eq_refl eq_refl _ _); simpl; lia.
Defined.
