(* ===== verification/Evaluation.v ===== *)
(** * Evaluation: what [evaluate] and [plot_confusion_matrix] report

    The run of [evaluate] (src/model.py, lines 349-382) and of
    [plot_confusion_matrix] (lines 417-446) after a [predict] that
    returned, and the theorems on the reported numbers: every sample is
    counted, the matrix computed on class indices is the matrix of the
    labels, perfect predictions give accuracy one and a diagonal matrix,
    and a label the encoder has not seen makes [evaluate] raise where
    [plot_confusion_matrix] returns. *)

From Stdlib Require Import Reals QArith Lia.
From stdpp Require Import sorting sets.
From S2P Require Import Prelude Numeric SqueezeExcite Labels Keras Network.
From S2P Require Import Preprocess Sampling Backend Metrics Pipeline Training.

#[local] Set Warnings "-clear-no-such-hyp".

Section evaluation.
Context {L : Type} `{EqDecision L}.
Context (le : relation L) `{!RelDecision le}.
Context `{PCASolver} `{RandomOracle} `{KerasBackend}.

#[local] Abbreviation Self := (HybridLSTMTransformerModel (L := L)).
#[local] Abbreviation W := (world (L := L)).

(** ** The runs *)

Lemma transform_run y (w : W) classes :
  classes_ (label_encoder (self w)) = Some classes →
  on_self (on_label_encoder (label_encoder_transform y)) w
  = (encode_labels classes y, w).
Proof.
  destruct w as [[hp mdl hist sc pc enc] g]. cbn [self label_encoder].
  intros Henc. unfold_lenses. unfold label_encoder_transform.
  by rewrite Henc.
Qed.

Lemma evaluate_run X y (w w' : W) y_pred classes y_enc p_enc :
  predict X w = (Ok y_pred, w') →
  classes_ (label_encoder (self w')) = Some classes →
  encode_labels classes y = Ok y_enc →
  encode_labels classes y_pred = Ok p_enc →
  length y = length y_pred →
  ∃ cm report,
    confusion_matrix Nat.le y_enc p_enc = Ok cm ∧
    classification_report le y y_pred = Ok report ∧
    report_accuracy report = accuracy_score y y_pred ∧
    evaluate le X y w = (Ok (Metrics (report_accuracy report) cm report), w').
Proof.
  intros Hrun1 Henc Hrun2 Hrun3 Hlen.
  pose proof (mapM_Ok_length _ _ _ Hrun2) as Hl2.
  pose proof (mapM_Ok_length _ _ _ Hrun3) as Hl3.
  pose proof (confusion_matrix_Ok Nat.le y_enc p_enc ltac:(congruence)) as Hcm.
  destruct (classification_report_Ok le y y_pred Hlen)
    as (report & Hrep & Hacc & _).
  eexists _, report. split; [exact Hcm|]. split; [exact Hrep|]. split; [done|].
  unfold evaluate. rewrite (stateE_bind_run _ _ _ _ _ Hrun1).
  pose proof (transform_run y w' classes Henc) as Ht2. rewrite Hrun2 in Ht2.
  pose proof (transform_run y_pred w' classes Henc) as Ht3.
  rewrite Hrun3 in Ht3.
  rewrite (stateE_bind_run _ _ _ _ _ Ht2), (stateE_bind_run _ _ _ _ _ Ht3).
  run_with Hcm. by run_with Hrep.
Qed.

Lemma evaluate_unseen X y (w w' : W) y_pred classes x :
  predict X w = (Ok y_pred, w') →
  classes_ (label_encoder (self w')) = Some classes →
  x ∈ y → x ∉ classes →
  evaluate le X y w = (Raise unseen_labels_error, w').
Proof.
  intros Hrun1 Henc Hx Hn. unfold evaluate.
  rewrite (stateE_bind_run _ _ _ _ _ Hrun1). apply stateE_bind_fail.
  by rewrite (transform_run y w' classes Henc), (encode_labels_unseen _ _ x).
Qed.

Lemma plot_confusion_matrix_run X y (w w' : W) y_pred :
  predict X w = (Ok y_pred, w') → length y = length y_pred →
  ∃ cm, confusion_matrix le y y_pred = Ok cm ∧
    plot_confusion_matrix le X y w
    = (Ok (Figure (10, 8) false
           (Heatmap cm true "d" "Blues"
                    "Confusion Matrix" "True Label" "Predicted Label")), w').
Proof.
  intros Hrun1 Hlen.
  pose proof (confusion_matrix_Ok le y y_pred Hlen) as Hcm.
  eexists. split; [exact Hcm|]. unfold plot_confusion_matrix.
  rewrite (stateE_bind_run _ _ _ _ _ Hrun1). by run_with Hcm.
Qed.

Lemma evaluate_fitted_run f k classes X y (w : W) :
  fitted_for f k classes (self w) →
  wf2 X → 0 < rows2 X → 0 < f → cols2 X = f →
  length y = rows2 X → y ⊆ classes →
  ∃ y_pred g' y_enc p_enc cm report,
    predict X w = (Ok y_pred, World (self w) g') ∧
    length y_pred = rows2 X ∧
    encode_labels classes y = Ok y_enc ∧
    encode_labels classes y_pred = Ok p_enc ∧
    confusion_matrix Nat.le y_enc p_enc = Ok cm ∧
    classification_report le y y_pred = Ok report ∧
    report_accuracy report = accuracy_score y y_pred ∧
    evaluate le X y w
    = (Ok (Metrics (report_accuracy report) cm report), World (self w) g').
Proof.
  intros Hfit HX Hrows Hf Hcols Hlen Hy.
  destruct (predict_run f k classes X w Hfit HX Hrows Hf Hcols)
    as (y_pred & g' & Hrun1 & Hlen' & Hin & _).
  destruct Hfit as (_ & _ & _ & Henc & _).
  destruct (encode_labels_seen classes y Hy) as [y_enc Hrun2].
  destruct (encode_labels_seen classes y_pred) as [p_enc Hrun3];
    [intros x Hx; by eapply Forall_forall in Hin|].
  destruct (evaluate_run X y w _ y_pred classes y_enc p_enc Hrun1 Henc Hrun2
              Hrun3 ltac:(congruence)) as (cm & report & Hcm & Hrep & Hacc & Hev).
  by exists y_pred, g', y_enc, p_enc, cm, report.
Qed.

(** ** The theorems *)

(** C29: on a fitted object, [evaluate] on a well-formed array with the
    fitted number of columns and one known label per row returns normally
    and leaves the object as it was; the entries of the confusion matrix add
    up to the number of rows, and the accuracy is that of the labels
    [predict] returns on the same state, which is the sum of the diagonal
    of the matrix divided by the number of rows and also the
    weighted-average recall of the report, whose support is the number of
    rows: the three entries of the returned dictionary agree. *)
Theorem evaluate_counts_every_sample f k classes X y (w : W) :
  fitted_for f k classes (self w) →
  wf2 X → 0 < rows2 X → 0 < f → cols2 X = f →
  length y = rows2 X → y ⊆ classes →
  ∃ m y_pred g',
    evaluate le X y w = (Ok m, World (self w) g') ∧
    predict X w = (Ok y_pred, World (self w) g') ∧
    sum_list (sum_list <$> metrics_confusion_matrix m) = rows2 X ∧
    metrics_accuracy m = accuracy_score y y_pred ∧
    metrics_accuracy m = ratio (trace (metrics_confusion_matrix m)) (rows2 X) ∧
    (recall (report_weighted_avg (metrics_classification_report m))
     == metrics_accuracy m)%Q ∧
    support (report_weighted_avg (metrics_classification_report m)) = rows2 X.
Proof.
  intros Hfit HX Hrows Hf Hcols Hlen Hy.
  destruct (evaluate_fitted_run f k classes X y w)
    as (y_pred & g' & y_enc & p_enc & cm & report & Hpred & Hlen' & Hrun2
        & Hrun3 & Hcm & Hrep & Hacc & Hev); try done.
  pose proof (mapM_Ok_length _ _ _ Hrun2) as Hl2.
  destruct (classification_report_averages le y y_pred report Hrep)
    as (Hrecall & Hsupport & _).
  eexists _, y_pred, g'. split; [exact Hev|]. split; [done|]. simpl.
  rewrite (confusion_matrix_total Nat.le _ _ _ Hcm), Hacc.
  rewrite (confusion_matrix_trace Nat.le _ _ _ Hcm).
  rewrite (n_correct_encoded classes y y_pred y_enc p_enc) by done.
  split_and!; [congruence | done | | by rewrite Hrecall, Hacc | congruence].
  unfold accuracy_score. congruence.
Qed.


(** C31: on a fitted object, a label that the encoder has not seen makes
    [evaluate] raise the error of the encoder, after the prediction has
    been made, whereas [plot_confusion_matrix] with the same arguments
    returns a matrix: it counts the labels as they are given. *)
Theorem evaluate_unseen_label_raises f k classes X y x (w : W) :
  fitted_for f k classes (self w) →
  wf2 X → 0 < rows2 X → 0 < f → cols2 X = f →
  length y = rows2 X → x ∈ y → x ∉ classes →
  ∃ g' hm,
    evaluate le X y w = (Raise unseen_labels_error, World (self w) g') ∧
    plot_confusion_matrix le X y w = (Ok (Figure (10, 8) false hm), World (self w) g') ∧
    sum_list (sum_list <$> hm_data hm) = rows2 X.
Proof.
  intros Hfit HX Hrows Hf Hcols Hlen Hx Hn.
  destruct (predict_run f k classes X w Hfit HX Hrows Hf Hcols)
    as (y_pred & g' & Hrun1 & Hlen' & _).
  destruct Hfit as (_ & _ & _ & Henc & _).
  destruct (plot_confusion_matrix_run X y w _ y_pred Hrun1 ltac:(congruence))
    as (cm & Hcm & Hplot).
  eexists g', _. split; [by eapply evaluate_unseen|]. split; [exact Hplot|].
  simpl. rewrite (confusion_matrix_total le _ _ _ Hcm). done.
Qed.

Section ordered.
Context `{!PartialOrder le, !Total le}.

(** C18: when the labels are totally ordered, the confusion matrix that
    [evaluate] computes on the class indices is the matrix that
    [plot_confusion_matrix] computes on the labels themselves: the encoder
    numbers the classes in increasing order, so rows and columns
    correspond. *)
Theorem evaluate_matrix_of_labels f k y0 X y (w : W) :
  fitted_for f k (np_unique le y0) (self w) →
  wf2 X → 0 < rows2 X → 0 < f → cols2 X = f →
  length y = rows2 X → y ⊆ y0 →
  ∃ m hm w',
    evaluate le X y w = (Ok m, w') ∧
    plot_confusion_matrix le X y w = (Ok (Figure (10, 8) false hm), w') ∧
    metrics_confusion_matrix m = hm_data hm.
Proof.
  intros Hfit HX Hrows Hf Hcols Hlen Hy.
  destruct (evaluate_fitted_run f k (np_unique le y0) X y w)
    as (y_pred & g' & y_enc & p_enc & cm & report & Hpred & Hlen' & Hrun2
        & Hrun3 & Hcm & _ & Hacc & Hev); try done.
  { intros x Hx. by apply np_unique_elem_of, Hy. }
  destruct (plot_confusion_matrix_run X y w _ y_pred Hpred ltac:(congruence))
    as (cm' & Hcm' & Hplot).
  eexists _, _, _. split; [exact Hev|]. split; [exact Hplot|]. simpl.
  pose proof (np_unique_sorted le y0) as Hsorted.
  rewrite (confusion_matrix_encoded le (np_unique le y0) y y_pred y_enc p_enc)
    in Hcm by done.
  congruence.
Qed.

End ordered.

End evaluation.

(** ** The example *)

Lemma evaluate_counts_every_sample_witness :
  ∃ w1 m y_pred g',
    fit Nat.le demo_X demo_y 50 32 0.2 true demo_world = (Ok tt, w1) ∧
    evaluate Nat.le demo_X demo_y w1 = (Ok m, World (self w1) g') ∧
    predict demo_X w1 = (Ok y_pred, World (self w1) g') ∧
    sum_list (sum_list <$> metrics_confusion_matrix m) = 6 ∧
    metrics_accuracy m = accuracy_score demo_y y_pred ∧
    metrics_accuracy m = ratio (trace (metrics_confusion_matrix m)) 6.
Proof.
  destruct demo_fitted as (w1 & Hfit & Hfitted & _). exists w1.
  destruct (evaluate_counts_every_sample Nat.le 2 2 (np_unique Nat.le demo_y)
              demo_X demo_y w1 Hfitted demo_X_wf ltac:(simpl; lia)
              ltac:(lia) eq_refl eq_refl)
    as (m & y_pred & g' & Hev & Hpred & Hsum & Hacc & Htr & _).
  { intros x Hx. by apply np_unique_elem_of. }
  exists m, y_pred, g'. split; [exact Hfit|]. split; [exact Hev|].
  split; [exact Hpred|]. split; [exact Hsum|]. split; [exact Hacc | exact Htr].
Defined.


Lemma evaluate_unseen_label_raises_witness :
  ∃ w1 g' hm,
    fit Nat.le demo_X demo_y 50 32 0.2 true demo_world = (Ok tt, w1) ∧
    evaluate Nat.le demo_X [0; 0; 0; 0; 1; 9] w1
    = (Raise unseen_labels_error, World (self w1) g') ∧
    plot_confusion_matrix Nat.le demo_X [0; 0; 0; 0; 1; 9] w1
    = (Ok (Figure (10, 8) false hm), World (self w1) g') ∧
    sum_list (sum_list <$> hm_data hm) = 6.
Proof.
  destruct demo_fitted as (w1 & Hfit & Hfitted & _). exists w1.
  destruct (evaluate_unseen_label_raises Nat.le 2 2 (np_unique Nat.le demo_y)
              demo_X [0; 0; 0; 0; 1; 9] 9 w1 Hfitted demo_X_wf
              ltac:(simpl; lia) ltac:(lia) eq_refl eq_refl)
    as (g' & hm & Hev & Hplot & Hsum).
  { by apply (bool_decide_unpack (9 ∈ [0; 0; 0; 0; 1; 9])). }
  { by apply (bool_decide_unpack (9 ∉ np_unique Nat.le demo_y)). }
  exists g', hm. split; [exact Hfit|]. split; [exact Hev|].
  split; [exact Hplot | exact Hsum].
Defined.

Lemma evaluate_matrix_of_labels_witness :
  ∃ w1 m hm w',
    fit Nat.le demo_X demo_y 50 32 0.2 true demo_world = (Ok tt, w1) ∧
    evaluate Nat.le demo_X demo_y w1 = (Ok m, w') ∧
    plot_confusion_matrix Nat.le demo_X demo_y w1 = (Ok (Figure (10, 8) false hm), w') ∧
    metrics_confusion_matrix m = hm_data hm.
Proof.
  destruct demo_fitted as (w1 & Hfit & Hfitted & _). exists w1.
  destruct (evaluate_matrix_of_labels Nat.le 2 2 demo_y demo_X demo_y w1
              Hfitted demo_X_wf ltac:(simpl; lia) ltac:(lia) eq_refl eq_refl
              (fun x Hx => Hx))
    as (m & hm & w' & Hev & Hplot & Heq).
  exists m, hm, w'. split; [exact Hfit|]. split; [exact Hev|].
  split; [exact Hplot | exact Heq].
Defined.
