(* ===== verification/Failures.v ===== *)
(** * Failures: the states a failing [fit] leaves behind

    [fit] (src/model.py, lines 230-307) updates the encoder, the scaler, the
    reducer and the model one after the other, and nothing is undone when a
    later statement raises.  The theorems give, for each way in which [fit]
    can fail on well-formed data, the exception and the state of the object
    afterwards: labels of a single class, a validation fraction outside
    (0, 1), more components than columns, and a model built for another
    number of classes.  A failed [fit] can leave an object on which
    [predict], which worked before, raises.  Two boundary cases of the
    training arguments do not fail: a batch size of zero is replaced by
    the default, and a [fit] of no epoch returns, with a history that
    [plot_training_history] cannot draw. *)

From Stdlib Require Import Reals QArith Lia.
From stdpp Require Import sorting sets.
From S2P Require Import Prelude Numeric SqueezeExcite Labels Keras Network.
From S2P Require Import Preprocess Sampling Backend Metrics Pipeline Training.

#[local] Set Warnings "-clear-no-such-hyp".

Section failures.
Context {L : Type} `{EqDecision L}.
Context (le : relation L) `{!RelDecision le}.
Context `{PCASolver} `{RandomOracle} `{KerasBackend}.

#[local] Abbreviation Self := (HybridLSTMTransformerModel (L := L)).
#[local] Abbreviation W := (world (L := L)).

(** ** The runs *)

Lemma train_test_split_bad_fraction X (y : list nat) q seed :
  rows2 X = length y → ¬ ((0 < q)%Q ∧ (q < 1)%Q) →
  train_test_split X y q seed = Raise test_size_error.
Proof.
  intros Hrows Hq. unfold train_test_split, train_test_split_indices.
  rewrite (guard_decide_pass _ (rows2 X = length y)) by done.
  rewrite (guard_or_fail _ (_ && _)); [done|].
  apply not_true_is_false. by rewrite andb_true_iff, !Qlt_b_spec.
Qed.

Lemma fit_too_many_run X y epochs bs q cb (w : W) :
  wf2 X → rows2 X = length y → 0 < cols2 X →
  (cb = true → 1 < length (np_unique le y)) →
  (0 < q)%Q → (q < 1)%Q →
  (∀ n', length y ≤ n' → float_ceil_mul q n' < n') →
  cols2 X < n_components (params (self w)) →
  ∃ sc,
    fit le X y epochs bs q cb w
    = (Raise n_components_error,
       World (set_pca (Some (PCA_new (n_components (params (self w)))
                                     (random_state (params (self w)))))
                (set_scaler sc
                   (set_label_encoder
                      (MkLabelEncoder (Some (np_unique le y))) (self w))))
             (np_random w)) ∧
    scaler_fitted_for (cols2 X) sc.
Proof.
  destruct w as [p g]. cbn [self np_random].
  intros HX Hrows Hf Hy Hq0 Hq1 Hroom Hk.
  destruct (fit_data_run le X y q cb p HX Hrows Hy Hq0 Hq1 Hroom)
    as (yr & Xtr & Xte & ytr & yte & n' & Hrun1 & _ & _ & _ & HXtr
        & HXte & Hc1 & Hc2 & Hn' & Hr1 & Hr2 & _).
  pose proof (Hroom n' Hn') as Hroom1.
  destruct (float_ceil_mul_bounds q n' Hq0 Hq1 ltac:(lia)) as [Hpos _].
  destruct (scaler_fit_transform_Ok Xtr (scaler p) HXtr ltac:(lia) ltac:(lia))
    as (S1 & sc & Hrun2 & Hsc & HS1 & HS1r & HS1c).
  destruct (scaler_transform_Ok _ Xte sc Hsc HXte ltac:(lia) ltac:(lia)
              ltac:(lia)) as (S2 & Hrun3 & _).
  rewrite Hc1 in Hsc. exists sc. split; [|done]. unfold fit.
  erewrite stateE_bind_run by (by apply on_self_run). cbv beta iota.
  apply stateE_bind_fail. unfold fit_features.
  destruct p as [hp mdl hist sc0 pc enc]. cbn [params scaler] in *.
  run_with Hrun2. run_with Hrun3.
  apply stateE_bind_fail, on_self_run. unfold apply_pca.
  run_with Hrun2. run_with Hrun2. apply stateE_bind_fail.
  unfold on_pca. cbn [pca]. rewrite pca_fit_transform_too_many; [done|lia..|].
  simpl. lia.
Qed.
(** ** The theorems *)

(** C21: with balancing, [fit] on labels of a single class raises the
    error of the over-sampler, after the label encoder has been refitted
    on these labels: the object is left changed. *)
Theorem fit_single_class_refits_encoder X y epochs bs q (w : W) :
  wf2 X → rows2 X = length y → length (np_unique le y) ≤ 1 →
  fit le X y epochs bs q true w
  = (Raise single_class_error,
     World (set_label_encoder (MkLabelEncoder (Some (np_unique le y))) (self w))
           (np_random w)).
Proof.
  intros HX Hrows Hy. unfold fit. apply stateE_bind_fail, on_self_run.
  destruct (fit_transform_run le y (label_encoder (self w)))
    as (y_enc & Hrun1 & Henc).
  destruct (encode_labels_bounded _ _ _ Henc) as [Hlen _].
  unfold fit_data. run_with Hrun1. run_with Hrun1.
  apply stateE_bind_fail. unfold lift_result, fit_resample.
  rewrite Hrows, <- Hlen, fit_resample_single_class; [done|].
  by rewrite (encode_labels_unique_length le y).
Qed.

(** C23: a validation fraction that is not strictly between 0 and 1 makes
    the split raise, after the label encoder has been refitted: with
    [validation_split=0] the object cannot be trained on all the data. *)
Theorem fit_rejects_validation_split X y epochs bs q cb (w : W) :
  wf2 X → rows2 X = length y →
  (cb = true → 1 < length (np_unique le y)) →
  ¬ ((0 < q)%Q ∧ (q < 1)%Q) →
  fit le X y epochs bs q cb w
  = (Raise test_size_error,
     World (set_label_encoder (MkLabelEncoder (Some (np_unique le y))) (self w))
           (np_random w)).
Proof.
  intros HX Hrows Hy Hq. unfold fit. apply stateE_bind_fail, on_self_run.
  destruct (fit_transform_run le y (label_encoder (self w)))
    as (y_enc & Hrun1 & Henc).
  destruct (encode_labels_bounded _ _ _ Henc) as [Hlen _].
  destruct (balance_run (random_state (params (self w))) cb X y_enc HX)
    as (Xr & yr & Hrun2 & _ & _ & Hr & _);
    [congruence | by rewrite (encode_labels_unique_length le y) |].
  unfold fit_data. run_with Hrun1. run_with Hrun1. run_with Hrun2.
  apply stateE_bind_fail. unfold lift_result.
  by rewrite train_test_split_bad_fraction.
Qed.

(** C22: when more components are requested than the data has columns,
    [fit] raises the error of the reducer, after it has refitted the
    encoder and the scaler and has replaced the reducer by a new, unfitted
    one; the model, the history and the generator are as before. *)
Theorem fit_too_many_components X y epochs bs q cb (w : W) :
  wf2 X → rows2 X = length y → 0 < cols2 X →
  (cb = true → 1 < length (np_unique le y)) →
  (0 < q)%Q → (q < 1)%Q →
  (∀ n', length y ≤ n' → float_ceil_mul q n' < n') →
  cols2 X < n_components (params (self w)) →
  ∃ w',
    fit le X y epochs bs q cb w = (Raise n_components_error, w') ∧
    classes_ (label_encoder (self w')) = Some (np_unique le y) ∧
    scaler_fitted_for (cols2 X) (scaler (self w')) ∧
    pca (self w') = Some (PCA_new (n_components (params (self w)))
                                  (random_state (params (self w)))) ∧
    model (self w') = model (self w) ∧ history (self w') = history (self w) ∧
    np_random w' = np_random w.
Proof.
  intros HX Hrows Hf Hy Hq0 Hq1 Hroom Hk.
  destruct (fit_too_many_run X y epochs bs q cb w) as (sc & Hrun & Hsc);
    try done.
  eexists. split; [exact Hrun|]. by split_and!.
Qed.

(** C19: when the object already holds a model and [fit] is called for at
    least one epoch with labels of another number of classes, the model is
    kept, training refuses the targets, and [fit] raises after it has refitted the
    encoder, the scaler and the reducer: the encoder and the model no
    longer agree on the classes. *)
Theorem refit_other_classes_raises X y epochs bs q cb (w : W) mdl :
  data_ready le X y q cb (self w) →
  model (self w) = Some mdl →
  kt_shape (km_inputs (compiled mdl)) = [n_components (params (self w)); 1] →
  output_units (compiled mdl) ≠ length (np_unique le y) →
  0 < epochs →
  ∃ w', fit le X y epochs bs q cb w = (Raise target_error, w') ∧
        model (self w') = Some mdl ∧
        classes_ (label_encoder (self w')) = Some (np_unique le y) ∧
        scaler_fitted_for (cols2 X) (scaler (self w')) ∧
        pca_ready (cols2 X) (n_components (params (self w))) (self w').
Proof.
  intros Hdata Hm Hin Hout Hpos.
  destruct (fit_prefix_run le X y epochs bs q cb w Hdata)
    as (A & B & a & b & sc & pc & g' & -> & Hsc & Hpc & HA1 & HA2 & _ & _
        & HA0 & Ha & _).
  eexists. split.
  - apply on_self_run. cbn [self]. by eapply fit_model_mismatch.
  - cbn [self]. split_and!; try done. by exists pc.
Qed.

(** C14: a failed [fit] can break an object that worked: on an object fitted
    for [f] columns, a [fit] on data with fewer columns than components
    raises the error of the reducer and keeps the model, but afterwards
    [predict] on data with [f] columns, which returned labels before,
    raises the feature-count error of the scaler, which the failed [fit]
    has refitted. *)
Theorem failed_fit_breaks_predict f k classes X' y' epochs bs q cb X (w : W) :
  fitted_for f k classes (self w) →
  wf2 X' → rows2 X' = length y' → 0 < cols2 X' →
  (cb = true → 1 < length (np_unique le y')) →
  (0 < q)%Q → (q < 1)%Q →
  (∀ n', length y' ≤ n' → float_ceil_mul q n' < n') →
  cols2 X' < n_components (params (self w)) →
  wf2 X → 0 < rows2 X → 0 < f → cols2 X = f → cols2 X' ≠ f →
  ∃ y_pred g' w',
    predict X w = (Ok y_pred, World (self w) g') ∧
    fit le X' y' epochs bs q cb w = (Raise n_components_error, w') ∧
    model (self w') = model (self w) ∧
    predict X w' = (Raise feature_mismatch_error, w').
Proof.
  intros Hfit HX' Hrows' Hf' Hy' Hq0 Hq1 Hroom Hk HX Hrows Hf Hcols Hne.
  destruct (predict_run f k classes X w Hfit HX Hrows Hf Hcols)
    as (y_pred & g' & Hpred & _).
  destruct (fit_too_many_run X' y' epochs bs q cb w) as (sc & Hrun & Hsc);
    try done.
  destruct Hfit as (_ & _ & (m & Hm & _) & _).
  eexists y_pred, g', _. split; [exact Hpred|]. split; [exact Hrun|].
  split; [done|]. unfold predict. cbn [self model set_pca set_scaler].
  destruct w as [[hp mdl hist sc0 pc enc] g]. cbn [self model] in *.
  run_with Hm. rewrite Hm. run_with Hm. apply stateE_bind_fail.
  unfold predict_features. apply stateE_bind_fail. unfold_lenses.
  rewrite (scaler_transform_mismatch (cols2 X') X sc) by (done || lia).
  by rewrite Hm.
Qed.

(** With no epoch the same call returns: the targets are never compared
    with the model, which is kept with a history without curves. *)
Lemma refit_other_classes_no_epoch X y bs q cb (w : W) mdl :
  data_ready le X y q cb (self w) →
  model (self w) = Some mdl →
  ∃ w', fit le X y 0 bs q cb w = (Ok tt, w') ∧
        model (self w') = Some mdl ∧
        history (self w') = Some empty_history.
Proof.
  intros Hdata Hm.
  destruct (fit_prefix_run le X y 0 bs q cb w Hdata)
    as (A & B & a & b & sc & pc & g' & -> & _ & _ & _ & _ & _ & _ & HA0 & _).
  eexists. split.
  - apply on_self_run. cbn [self]. by eapply fit_model_no_epoch.
  - by cbn [self].
Qed.

(** A batch size of zero is not an error: the training call replaces
    it by its default, so [fit] with [batch_size=0] does, on every object
    and all data, what [fit] does with the batch size 32 that the method
    itself has as default. *)
Lemma fit_batch_size_zero_is_default X y epochs q cb (w : W) :
  fit le X y epochs 0 q cb w = fit le X y epochs 32 q cb w.
Proof. done. Qed.


End failures.

(** ** The example *)

Lemma fit_single_class_refits_encoder_witness :
  fit Nat.le demo_X [7; 7; 7; 7; 7; 7] 50 32 0.2 true demo_world
  = (Raise single_class_error,
     World (set_label_encoder (MkLabelEncoder (Some [7])) demo_self) demo_rng).
Proof.
  refine (fit_single_class_refits_encoder Nat.le demo_X [7; 7; 7; 7; 7; 7]
            50 32 0.2 demo_world _ _ _);
    [by apply (bool_decide_unpack (wf2 demo_X)) | done | vm_compute; lia].
Defined.

Lemma fit_rejects_validation_split_witness :
  fit Nat.le demo_X demo_y 50 32 0 false demo_world
  = (Raise test_size_error,
     World (set_label_encoder (MkLabelEncoder (Some (np_unique Nat.le demo_y)))
              demo_self) demo_rng).
Proof.
  refine (fit_rejects_validation_split Nat.le demo_X demo_y 50 32 0 false
            demo_world _ _ _ _);
    [exact demo_X_wf | done | done | by intros [? _]].
Defined.

Lemma fit_too_many_components_witness :
  ∃ w',
    fit Nat.le demo_X demo_y 50 32 0.2 true demo_wide_world
    = (Raise n_components_error, w') ∧
    classes_ (label_encoder (self w')) = Some (np_unique Nat.le demo_y) ∧
    scaler_fitted_for 2 (scaler (self w')) ∧
    pca (self w') = Some (PCA_new 3 42) ∧
    model (self w') = None ∧ history (self w') = None ∧
    np_random w' = demo_rng.
Proof.
  refine (fit_too_many_components Nat.le demo_X demo_y 50 32 0.2 true
            demo_wide_world _ _ _ _ _ _ _ _);
    [exact demo_X_wf | done | simpl; lia | intros _; vm_compute; lia
    | done | done | intros n' Hn'; apply (demo_room n' Hn') | simpl; lia].
Defined.

Lemma demo_data_ready3 :
  data_ready Nat.le demo_X demo_y3 0.2 true (self demo_built_world).
Proof.
  split_and!; [exact demo_X_wf | done | simpl; lia
              | intros _; vm_compute; lia | done | done | exact demo_room
              | simpl; lia].
Defined.

Lemma refit_other_classes_raises_witness :
  ∃ w', fit Nat.le demo_X demo_y3 50 32 0.2 true demo_built_world
        = (Raise target_error, w') ∧
        model (self w') = Some demo_model ∧
        classes_ (label_encoder (self w')) = Some (np_unique Nat.le demo_y3) ∧
        scaler_fitted_for 2 (scaler (self w')) ∧
        pca_ready 2 2 (self w').
Proof.
  refine (refit_other_classes_raises Nat.le demo_X demo_y3 50 32 0.2 true
            demo_built_world demo_model _ _ _ _ _);
    [exact demo_data_ready3 | done | by vm_compute | by vm_compute | lia].
Defined.

Lemma demo_narrow_X_wf : wf2 demo_narrow_X.
Proof. by apply (bool_decide_unpack (wf2 demo_narrow_X)). Defined.

Lemma failed_fit_breaks_predict_witness :
  ∃ w1 y_pred g' w',
    fit Nat.le demo_X demo_y 50 32 0.2 true demo_world = (Ok tt, w1) ∧
    predict demo_X w1 = (Ok y_pred, World (self w1) g') ∧
    fit Nat.le demo_narrow_X demo_y 50 32 0.2 true w1
    = (Raise n_components_error, w') ∧
    model (self w') = model (self w1) ∧
    predict demo_X w' = (Raise feature_mismatch_error, w').
Proof.
  destruct demo_fitted as (w1 & Hfit & Hfitted & Hparams). exists w1.
  destruct (failed_fit_breaks_predict Nat.le 2 2 (np_unique Nat.le demo_y)
              demo_narrow_X demo_y 50 32 0.2 true demo_X w1 Hfitted
              demo_narrow_X_wf eq_refl
              ltac:(simpl; lia) ltac:(intros _; vm_compute; lia)
              eq_refl eq_refl (fun n' Hn' => proj1 (demo_room n' Hn')))
    as (y_pred & g' & w' & Hpred & Hfail & Hmodel & Hbroken).
  { rewrite Hparams. simpl. lia. }
  { exact demo_X_wf. }
  { simpl. lia. }
  { lia. }
  { reflexivity. }
  { simpl. lia. }
  exists y_pred, g', w'. split; [exact Hfit|]. split; [exact Hpred|].
  split; [exact Hfail|]. split; [exact Hmodel | exact Hbroken].
Defined.

