(* ===== verification/Invariants.v ===== *)
(** * Invariants: what every call preserves

    Properties of the object that hold after a method whether it returns
    or raises: [predict], [evaluate] and the plots leave the object
    untouched, [fit] never replaces a model, every state reachable by
    calls of the methods is [consistent], and the generator of [np.random]
    only ever advances along its stream. *)

From Stdlib Require Import Reals QArith Lia.
From stdpp Require Import sorting sets.
From S2P Require Import Prelude Numeric SqueezeExcite Labels Keras Network.
From S2P Require Import Preprocess Sampling Backend Metrics Pipeline.

#[local] Set Warnings "-clear-no-such-hyp".

Section invariant.
Context {L : Type} `{EqDecision L}.
Context (le : relation L) `{!RelDecision le}.
Context `{PCASolver} `{RandomOracle} `{KerasBackend}.

#[local] Abbreviation Self := (HybridLSTMTransformerModel (L := L)).
#[local] Abbreviation W := (world (L := L)).

Lemma frames_on_self {A} (I : Self → Prop) (m : stateE Self A) :
  frames I m → frames (fun w => I (self w)) (on_self m).
Proof.
  rewrite !frames_state. intros Hm w Hw. unfold on_self. rewrite zoom_state.
  by apply Hm.
Qed.

(** Properties of the object that survive every assignment the methods
    make to the scaler, the reducer and the encoder. *)
Section closed.
Context (I : Self → Prop).
Context (I_scaler : ∀ v p, I p → I (set_scaler v p)).
Context (I_pca : ∀ q p, I p → I (set_pca (Some q) p)).
Context (I_encoder : ∀ v p, I p → I (set_label_encoder v p)).

Lemma on_scaler_frames {A} (m : stateE StandardScaler A) :
  frames I (on_scaler m).
Proof. apply frames_zoom. intros p v. apply I_scaler. Qed.

Lemma on_label_encoder_frames {A} (m : stateE (LabelEncoder L) A) :
  frames I (on_label_encoder m).
Proof. apply frames_zoom. intros p v. apply I_encoder. Qed.

Lemma on_pca_frames {A} attr (m : stateE PCA A) : frames I (on_pca attr m).
Proof.
  apply frames_state. intros p Hp. unfold on_pca.
  destruct (pca p); [by apply I_pca | done].
Qed.

Lemma on_pca_keeps {A} attr (m : stateE PCA A) :
  frames (fun p => I p ∧ is_Some (pca p)) (on_pca attr m).
Proof.
  apply frames_state. intros p [Hp Hq]. unfold on_pca.
  destruct (pca p); [|done]. split; [by apply I_pca | by eexists].
Qed.

Lemma apply_pca_hoare X_train X_test :
  hoare I (apply_pca X_train X_test) (fun _ p => I p ∧ is_Some (pca p)) I.
Proof.
  unfold apply_pca.
  eapply hoare_bind; [apply hoare_get|]. intros p.
  eapply hoare_bind with (Q := fun _ p' => I p' ∧ is_Some (pca p')).
  { apply hoare_put. intros s [<- Hs]. split; [by apply I_pca | by eexists]. }
  intros _. eapply hoare_weaken.
  - apply frames_bind; [apply on_pca_keeps | intros ?].
    apply frames_bind; [apply on_pca_keeps | intros ?]. apply frames_ret.
  - by intros ? [].
Qed.

Lemma fit_data_frames X y q cb : frames I (fit_data le X y q cb).
Proof.
  unfold fit_data.
  apply frames_bind; [apply on_label_encoder_frames | intros ?].
  apply frames_bind; [by apply frames_readonly | intros ?].
  apply frames_bind; [apply frames_lift | intros [??]].
  apply frames_bind; [apply frames_lift | intros ?]. apply frames_ret.
Qed.

Lemma hoare_on_self {A} (P : Self → Prop) (m : stateE Self A) Q E :
  hoare P m Q E →
  hoare (fun w : W => P (self w)) (on_self m)
    (fun a w => Q a (self w)) (fun w => E (self w)).
Proof.
  intros Hm w Hw. specialize (Hm (self w) Hw). unfold on_self, zoom.
  by destruct (m (self w)) as [[a|e] p].
Qed.

Lemma fit_features_hoare X_train X_test :
  hoare (fun w : W => I (self w)) (fit_features X_train X_test)
    (fun _ w => I (self w) ∧ is_Some (pca (self w))) (fun w => I (self w)).
Proof.
  unfold fit_features.
  eapply hoare_bind; [apply frames_on_self, on_scaler_frames | intros ?].
  eapply hoare_bind; [apply frames_on_self, on_scaler_frames | intros ?].
  eapply hoare_bind; [apply hoare_on_self, apply_pca_hoare | intros [??]].
  eapply hoare_weaken.
  - apply frames_bind;
      [apply (on_np_random_frames _ (fun p => I p ∧ is_Some (pca p)))|intros ?].
    apply frames_bind;
      [apply (on_np_random_frames _ (fun p => I p ∧ is_Some (pca p)))|intros ?].
    apply frames_ret.
  - by intros ? [].
Qed.

(** [fit] keeps a property of the object that its last block keeps once
    there is a reducer. *)
Lemma fit_frames X y epochs bs q cb :
  (∀ A B nc a b,
     hoare (fun p => I p ∧ is_Some (pca p)) (fit_model A B nc a b epochs bs)
       (fun _ => I) I) →
  frames (fun w : W => I (self w)) (fit le X y epochs bs q cb).
Proof.
  intros Hmodel. unfold fit.
  eapply hoare_bind; [apply frames_on_self, fit_data_frames | ].
  intros [yr [[[Xtr Xte] ytr] yte]].
  eapply hoare_bind; [apply fit_features_hoare | intros [A B]].
  eapply hoare_bind with (Q := fun _ w => I (self w) ∧ is_Some (pca (self w))).
  { eapply hoare_weaken;
      [apply (frames_lift (fun w : W => I (self w) ∧ is_Some (pca (self w))))
      |by intros ? []]. }
  intros [[nc a] b].
  apply (hoare_on_self (fun p => I p ∧ is_Some (pca p))), Hmodel.
Qed.

End closed.

Lemma on_model_fit_compiled A a epochs bs B b (p : Self) m0 :
  model p = Some m0 →
  ∃ r m, on_model "fit" (model_fit A a epochs bs B b) p
         = (r, set_model (Some m) p) ∧ compiled m = compiled m0.
Proof.
  intros Hm. unfold on_model. rewrite Hm. eexists _, _. split; [done|].
  apply model_fit_compiled.
Qed.

Lemma fit_model_holds c A B nc a b epochs bs :
  hoare (fun p : Self => holds_model c p ∧ is_Some (pca p))
    (fit_model A B nc a b epochs bs) (fun _ => holds_model c)
    (holds_model c).
Proof.
  intros p [(m & Hm & Hc) _].
  destruct (on_model_fit_compiled A a epochs bs B b p m Hm)
    as (r & m' & Hrun & Hc').
  unfold fit_model, mbind, stateE_bind, get. rewrite Hm. simpl. rewrite Hrun.
  destruct r; simpl; exists m'; by rewrite Hc'.
Qed.

Lemma fit_model_consistent hp A B nc a b epochs bs :
  hoare (fun p : Self => consistent hp p ∧ is_Some (pca p))
    (fit_model A B nc a b epochs bs)
    (fun _ => consistent hp) (consistent hp).
Proof.
  intros p [(Hhp & Hhist & Hpca) Hq].
  unfold fit_model, mbind, stateE_bind, get, on_model, lift_result. simpl.
  destruct (model p) as [m|] eqn:Hm; simpl.
  - rewrite Hm. destruct (model_fit _ _ _ _ _ _ _) as [[h|e] m'];
      unfold consistent; simpl; split_and!; eauto.
  - destruct (build_model _ _ _) as [m|e]; simpl;
      [|unfold consistent; by rewrite Hm].
    destruct (model_fit _ _ _ _ _ _ _) as [[h|e] m'];
      unfold consistent; simpl; split_and!; eauto.
Qed.

Lemma evaluate_frames X y (I : Self → Prop) :
  frames (fun w : W => I (self w)) (evaluate le X y).
Proof.
  unfold evaluate.
  apply frames_bind; [apply predict_frames | intros ?].
  apply frames_bind; [|intros ?].
  { apply frames_readonly, on_self_readonly, on_label_encoder_readonly,
      label_encoder_transform_readonly. }
  apply frames_bind; [|intros ?].
  { apply frames_readonly, on_self_readonly, on_label_encoder_readonly,
      label_encoder_transform_readonly. }
  apply frames_bind; [apply frames_lift | intros ?].
  apply frames_bind; [apply frames_lift | intros ?]. apply frames_ret.
Qed.

Lemma plot_confusion_matrix_frames X y (I : Self → Prop) :
  frames (fun w : W => I (self w)) (plot_confusion_matrix le X y).
Proof.
  unfold plot_confusion_matrix.
  apply frames_bind; [apply predict_frames | intros ?].
  apply frames_bind; [apply frames_lift | intros ?]. apply frames_ret.
Qed.

Lemma plot_training_history_readonly :
  readonly (plot_training_history : stateE W _).
Proof.
  unfold plot_training_history.
  apply readonly_bind; [apply readonly_get | intros w].
  destruct (history (self w)); [|apply readonly_raise].
  repeat (apply readonly_bind; [apply readonly_lift | intros ?]).
  apply readonly_ret.
Qed.

Lemma consistent_init hp :
  consistent hp (__init__ (n_components hp) (lstm_units hp) (num_heads hp)
                   (ff_dim hp) (dropout_rate hp) (random_state hp) : Self).
Proof.
  destruct hp. unfold consistent. simpl. split_and!; [done|by intros []..].
Qed.

Lemma consistent_set_scaler hp v (p : Self) :
  consistent hp p → consistent hp (set_scaler v p).
Proof. by intros (? & ? & ?). Qed.

Lemma consistent_set_pca hp q (p : Self) :
  consistent hp p → consistent hp (set_pca (Some q) p).
Proof. intros (? & ? & ?). split_and!; simpl; eauto. Qed.

Lemma consistent_set_label_encoder hp v (p : Self) :
  consistent hp p → consistent hp (set_label_encoder v p).
Proof. by intros (? & ? & ?). Qed.

Lemma after_fit X y epochs bs q cb (w : W) :
  after le (CallFit X y epochs bs q cb) w = (fit le X y epochs bs q cb w).2.
Proof. done. Qed.

(** A property of the object that the assignments to the scaler, the
    reducer and the encoder keep, and that the last block of [fit] keeps
    once there is a reducer, holds after every call, returning or
    raising. *)
Lemma after_frames (I : Self → Prop) c (w : W) :
  (∀ v p, I p → I (set_scaler v p)) →
  (∀ q p, I p → I (set_pca (Some q) p)) →
  (∀ v p, I p → I (set_label_encoder v p)) →
  (∀ A B nc a b epochs bs,
     hoare (fun p => I p ∧ is_Some (pca p)) (fit_model A B nc a b epochs bs)
       (fun _ => I) I) →
  I (self w) → I (self (after le c w)).
Proof.
  intros Hsc Hpca Henc Hfit Hw. destruct c; simpl;
    apply (frames_after (fun w : W => I (self w))); try done.
  - by apply (fit_frames I).
  - apply predict_frames.
  - apply evaluate_frames.
  - apply frames_readonly, plot_training_history_readonly.
  - apply plot_confusion_matrix_frames.
  - eapply hoare_conseq;
      [apply hoare_on_self, (apply_pca_hoare I Hpca)
      | done | by intros ?? [] | done].
  - apply on_np_random_frames.
Qed.

Lemma after_consistent hp c (w : W) :
  consistent hp (self w) → consistent hp (self (after le c w)).
Proof.
  apply after_frames;
    auto using consistent_set_scaler, consistent_set_pca,
      consistent_set_label_encoder, fit_model_consistent.
Qed.

(** ** The generator

    The methods reach the generator of [np.random] only through
    [squeeze_and_excitation], which reads it further and never rewinds or
    reseeds it. *)

Lemma on_self_frames_rng {A} (R : rng → Prop) (m : stateE Self A) :
  frames (fun w : W => R (np_random w)) (on_self m).
Proof. by apply frames_zoom. Qed.

Lemma on_np_random_frames_rng {A} (R : rng → Prop) (m : stateE rng A) :
  frames R m → frames (fun w : W => R (np_random w)) (on_np_random m).
Proof. by apply frames_zoom_in. Qed.

(** [frames_rng] proves that a method frames a property of the generator
    that [squeeze_and_excitation] frames. *)
Ltac frames_rng :=
  repeat first
    [ apply frames_ret | apply frames_lift | apply on_self_frames_rng
    | apply on_np_random_frames_rng, se_advanced
    | by apply frames_readonly
    | apply frames_bind; [|intros ?]
    | match goal with
      | |- frames _ (let '(_, _) := ?x in _) => destruct x
      | |- frames _ (match ?x with _ => _ end) => destruct x
      end ].

Lemma fit_advanced g0 X y epochs bs q cb :
  frames (fun w : W => advanced g0 (np_random w)) (fit le X y epochs bs q cb).
Proof. unfold fit, fit_features. frames_rng. Qed.

Lemma predict_advanced g0 X :
  frames (fun w : W => advanced g0 (np_random w)) (predict X).
Proof. unfold predict, predict_features. frames_rng. Qed.

Lemma after_advanced c (w : W) :
  advanced (np_random w) (np_random (after le c w)).
Proof.
  destruct c; simpl;
    apply (frames_after (fun w' : W => advanced (np_random w) (np_random w')));
    try reflexivity.
  - apply fit_advanced.
  - apply predict_advanced.
  - unfold evaluate. apply frames_bind; [apply predict_advanced|intros ?].
    frames_rng.
  - apply frames_readonly, plot_training_history_readonly.
  - unfold plot_confusion_matrix.
    apply frames_bind; [apply predict_advanced|intros ?]. frames_rng.
  - frames_rng.
  - frames_rng.
Qed.

Lemma reachable_run_calls hp (w : W) :
  reachable le hp w ↔
  ∃ g cs, w = run_calls le cs
                (World (__init__ (n_components hp) (lstm_units hp)
                          (num_heads hp) (ff_dim hp) (dropout_rate hp)
                          (random_state hp)) g).
Proof.
  split.
  - induction 1 as [g|w c _ (g & cs & ->)]; [by exists g, []|].
    exists g, (cs ++ [c]). unfold run_calls. by rewrite foldl_app.
  - intros (g & cs & ->). induction cs as [|c cs IH] using rev_ind.
    + apply reachable_init.
    + unfold run_calls. rewrite foldl_app. by apply reachable_call.
Qed.

(** C3: every state the object can reach through calls of its methods,
    whether they return or raise, is consistent: the hyper-parameters are
    those given to the constructor, a training history is present only
    together with a model, and a model only together with a reducer, so
    that [predict] never finds [self.pca] to be [None] behind its guard. *)
Theorem reachable_consistent hp (w : W) :
  reachable le hp w → consistent hp (self w).
Proof.
  induction 1 as [g|w c _ IH]; [apply consistent_init|].
  by apply after_consistent.
Qed.

(** C13: a model that the object holds is never rebuilt: after [fit], with
    any arguments and whether it returns or raises, the object holds a
    model compiled from the same graph, so repeated calls continue training
    the same model. *)
Theorem fit_keeps_model X y epochs bs q cb (w : W) m0 :
  model (self w) = Some m0 →
  ∃ m, model (self (fit le X y epochs bs q cb w).2) = Some m ∧
       compiled m = compiled m0.
Proof.
  intros Hm.
  apply (frames_after (fun w : W => holds_model (compiled m0) (self w)));
    [|by exists m0].
  apply (fit_frames (holds_model (compiled m0))); try done.
  intros. apply fit_model_holds.
Qed.

(** C12: whatever its outcome, [predict] leaves every attribute of the
    object as it was; only the position of the random generator moves. *)
Theorem predict_frames_self X (w : W) :
  self (predict X w).2 = self w.
Proof.
  pose proof (predict_frames X (fun p => p = self w) w eq_refl) as Hf.
  by destruct (predict X w) as [[?|?] ?].
Qed.

(** C27: the methods only read the generator of [np.random] further:
    after any sequence of calls, whatever they return or raise, the stream
    is the one the sequence started with and the position has not moved
    back, so no call reseeds or rewinds the generator and the seed
    [random_state] never reaches it. *)
Theorem generator_only_advances cs (w : W) :
  advanced (np_random w) (np_random (run_calls le cs w)).
Proof.
  revert w. induction cs as [|c cs IH]; intros w; [reflexivity|].
  simpl. etrans; [apply (after_advanced c)|apply IH].
Qed.

End invariant.

(** ** The example *)

Lemma fit_keeps_model_witness :
  ∃ m, model (self (fit Nat.le demo_X demo_y3 50 32 0.2 true
                      demo_built_world).2) = Some m ∧
       compiled m = compiled demo_model.
Proof.
  exact (fit_keeps_model Nat.le demo_X demo_y3 50 32 0.2 true demo_built_world
           demo_model eq_refl).
Defined.

Lemma reachable_consistent_witness :
  consistent (params demo_self)
    (self (after Nat.le (CallPredict demo_X)
             (after Nat.le (CallFit demo_X demo_y 50 32 0.2 true) demo_world))).
Proof.
  apply (reachable_consistent Nat.le). do 2 apply reachable_call.
  exact (reachable_init Nat.le (params demo_self) demo_rng).
Defined.
