(* ===== verification/Session.v ===== *)
(** * Session: the usage example

    The session documented at the end of src/model.py (lines 453-480): an
    object is constructed, fitted, asked for predictions, evaluated, and
    its two plots are drawn.  The theorem shows that on data that [fit]
    accepts the whole session runs to its end without an exception, and
    what the calls return. *)

From Stdlib Require Import Reals QArith Lia.
From stdpp Require Import sorting sets.
From S2P Require Import Prelude Numeric SqueezeExcite Labels Keras Network.
From S2P Require Import Preprocess Sampling Backend Metrics Pipeline Training.
From S2P Require Import Evaluation Invariants.

#[local] Set Warnings "-clear-no-such-hyp".

(** ** Example data: thirty samples of twenty features in two classes *)

Definition usage_X : ndarray2 :=
  Arr2 30 20 ((fun i => (fun j => INR (i * j)) <$> seq 0 20) <$> seq 0 30).

Definition usage_y : list nat := replicate 15 0 ++ replicate 15 1.

Section session.
Context {L : Type} `{EqDecision L}.
Context (le : relation L) `{!RelDecision le}.
Context `{PCASolver} `{RandomOracle} `{KerasBackend}.

#[local] Abbreviation W := (world (L := L)).

(** The generator after the calls of the session that read it. *)
Lemma session_advanced X y X_test y_test (w0 w1 : W) g2 g3 g4 ps m hm :
  fit le X y 50 32 0.2 true w0 = (Ok tt, w1) →
  predict X_test w1 = (Ok ps, World (self w1) g2) →
  evaluate le X_test y_test (World (self w1) g2)
  = (Ok m, World (self w1) g3) →
  plot_confusion_matrix le X_test y_test (World (self w1) g3)
  = (Ok hm, World (self w1) g4) →
  advanced (np_random w0) g4.
Proof.
  intros Hfit Hpred Hev Hplot.
  pose proof (after_advanced le (CallFit X y 50 32 0.2 true) w0) as Ha1.
  pose proof (after_advanced le (CallPredict X_test) w1) as Ha2.
  pose proof (after_advanced le (CallEvaluate X_test y_test)
                (World (self w1) g2)) as Ha3.
  pose proof (after_advanced le (CallPlotConfusionMatrix X_test y_test)
                (World (self w1) g3)) as Ha4.
  cbn [after] in *. rewrite Hfit in Ha1. rewrite Hpred in Ha2.
  rewrite Hev in Ha3. rewrite Hplot in Ha4.
  by repeat (etrans; [eassumption|]).
Qed.

(** C17: the documented session runs to its end: on data that [fit]
    accepts with the arguments of the example, and a test set with the
    columns of the data and labels that occur in it, no call raises; the
    predictions are one seen label per test row, the two confusion
    matrices count every test row, the history curves have 50 points, and
    the generator has only been read further. *)
Theorem usage_example_runs X y X_test y_test g :
  data_ready le X y 0.2 true (usage_model (L := L)) →
  wf2 X_test → 0 < rows2 X_test → cols2 X_test = cols2 X →
  length y_test = rows2 X_test → y_test ⊆ y →
  ∃ predictions m acc los hm w',
    usage_example le X y X_test y_test (World usage_model g)
    = (Ok (predictions, m, Figure (15, 5) true (acc, los),
           Figure (10, 8) false hm), w') ∧
    length predictions = rows2 X_test ∧
    Forall (fun x => x ∈ y) predictions ∧
    sum_list (sum_list <$> metrics_confusion_matrix m) = rows2 X_test ∧
    sum_list (sum_list <$> hm_data hm) = rows2 X_test ∧
    Forall (fun curve => length curve = 50) (ax_lines acc ++ ax_lines los) ∧
    advanced g (np_random w').
Proof.
  intros Hdata HX Hrows Hcols Hlen Hy.
  assert (0 < cols2 X) as Hf by (by destruct Hdata as (_ & _ & ? & _)).
  assert (y_test ⊆ np_unique le y) as Hy'
    by (intros z Hz; by apply np_unique_elem_of, Hy).
  destruct (fit_run le X y 50 32 0.2 true (World usage_model g))
    as (w1 & Hfit & Hfitted & _ & (h & Hh & He) & _).
  { split_and!; [done | exact default_hyperparams_admissible | by left]. }
  destruct (predict_run _ _ _ X_test w1 Hfitted HX Hrows Hf Hcols)
    as (predictions & g2 & Hpred & Hlen2 & Hin & _).
  destruct (evaluate_fitted_run le _ _ _ X_test y_test (World (self w1) g2)
              Hfitted HX Hrows Hf Hcols Hlen Hy')
    as (y_pred & g3 & ? & ? & cm & report & Hpred3 & Hlen3 & Henc1 & _ & Hcm
        & _ & _ & Hev).
  cbn [self] in Hev, Hpred3.
  destruct (plot_training_history_run (World (self w1) g3) h 50 Hh He
              ltac:(lia)) as (acc & los & Hplot & _ & _ & Hl1 & Hl2).
  destruct He as (He1 & He2 & He3 & He4).
  destruct (predict_run _ _ _ X_test (World (self w1) g3) Hfitted HX Hrows Hf
              Hcols) as (y_pred4 & g4 & Hpred4 & Hlen4 & _).
  cbn [self] in Hpred4.
  destruct (plot_confusion_matrix_run le X_test y_test _ _ y_pred4 Hpred4
              ltac:(congruence)) as (cm4 & Hcm4 & Hplot4).
  eexists predictions, _, acc, los, _, _. unfold usage_example.
  rewrite (stateE_bind_run _ _ _ _ _ Hfit), (stateE_bind_run _ _ _ _ _ Hpred),
    (stateE_bind_run _ _ _ _ _ Hev), (stateE_bind_run _ _ _ _ _ Hplot),
    (stateE_bind_run _ _ _ _ _ Hplot4).
  split; [reflexivity|]. cbn [metrics_confusion_matrix hm_data np_random].
  rewrite (confusion_matrix_total Nat.le _ _ _ Hcm),
    (confusion_matrix_total le _ _ _ Hcm4), Hl1, Hl2.
  split_and!; try done.
  - eapply Forall_impl; [exact Hin|]. intros z. apply np_unique_elem_of.
  - apply mapM_Ok_length in Henc1. congruence.
  - by repeat constructor.
  - exact (session_advanced _ _ _ _ _ _ _ _ _ _ _ _ Hfit Hpred Hev Hplot4).
Qed.

End session.

(** ** The example *)

Lemma usage_X_wf : wf2 usage_X.
Proof. by apply (bool_decide_unpack (wf2 usage_X)). Defined.

Lemma usage_room n' :
  length usage_y ≤ n' →
  float_ceil_mul 0.2 n' < n' ∧
  n_components (params (usage_model (L := nat))) ≤ n' - float_ceil_mul 0.2 n'.
Proof.
  intros Hn. pose proof (exact_ceil_mul_upper 0.2 n' ltac:(done)) as Hc.
  simpl in *. lia.
Defined.

Lemma usage_data_ready :
  data_ready Nat.le usage_X usage_y 0.2 true usage_model.
Proof.
  split_and!; [exact usage_X_wf | done | simpl; lia
              | intros _; vm_compute; lia | done | done | exact usage_room
              | simpl; lia].
Defined.

Lemma usage_example_runs_witness :
  ∃ predictions m acc los hm w',
    usage_example Nat.le usage_X usage_y usage_X usage_y
      (World usage_model demo_rng)
    = (Ok (predictions, m, Figure (15, 5) true (acc, los),
           Figure (10, 8) false hm), w') ∧
    length predictions = 30 ∧
    Forall (fun x => x ∈ usage_y) predictions ∧
    sum_list (sum_list <$> metrics_confusion_matrix m) = 30 ∧
    sum_list (sum_list <$> hm_data hm) = 30 ∧
    Forall (fun curve => length curve = 50) (ax_lines acc ++ ax_lines los) ∧
    advanced demo_rng (np_random w').
Proof.
  exact (usage_example_runs Nat.le usage_X usage_y usage_X usage_y demo_rng
           usage_data_ready usage_X_wf ltac:(simpl; lia) eq_refl eq_refl
           (fun x Hx => Hx)).
Defined.
