(* ===== verification/GraphBackend.v ===== *)
(** * GraphBackend: inference by the graph of the model

    An implementation of the interface [KerasBackend] whose forward pass
    is the interpreter of [Inference]: [Model.predict] gives every sample
    the value of the output tensor of the compiled graph under the current
    weights.  The weights of the backend are the [variables] of the model:
    the weights of the layers and the step counter of the optimiser.  The
    initial weights and the optimiser are parameters, of which only the
    promise of the interface is assumed: training records one history
    entry per epoch.

    With this backend, the result on the additive attention reaches the
    pipeline: the labels [predict] returns (src/model.py, lines 309-347)
    do not depend on the weights of the attention layers of the stored
    model. *)

From Stdlib Require Import Reals QArith Lia.
From stdpp Require Import sorting sets.
From S2P Require Import Prelude Numeric SqueezeExcite Labels Keras Network.
From S2P Require Import Forward Inference Preprocess Sampling Backend Metrics.
From S2P Require Import Pipeline.

#[local] Set Warnings "-clear-no-such-hyp".

(** The variables of a compiled model: the weights of its layers, in the
    order of the graph, and the counter [optimizer.iterations] of the
    optimisation steps taken so far. *)
Record variables : Type := Variables {
  layers : list layer_weights;
  iterations : nat
}.

Section graph_backend.
Context {L : Type} `{EqDecision L}.
Context (le : relation L) `{!RelDecision le}.
Context `{PCASolver} `{RandomOracle} `{LayerValues}.
Context (init : keras_model → list layer_weights).
Context (optimize : keras_model → variables → ndarray3 * ndarray2 →
                    nat → nat → ndarray3 * ndarray2 → variables * History).
Context (optimize_history : ∀ m w d epochs batch_size v,
           epochs_recorded (optimize m w d epochs batch_size v).2 epochs).

(** The scores of one sample: the value of the output tensor, which has no
    time axis, as a vector of [output_units] entries. *)
Definition sample_scores (m : keras_model) (ws : list layer_weights)
    (s : tensor) : list R :=
  resize (output_units m) 0%R
    (match model_values m ws s with Some [scores] => scores | _ => [] end).

(** [model.predict(x)] on a batch: one row of scores per sample. *)
Definition graph_forward (m : keras_model) (ws : list layer_weights)
    (x : ndarray3) : ndarray2 :=
  Arr2 (dim0 x) (output_units m) (sample_scores m ws <$> data3 x).

Lemma graph_forward_wf m ws x :
  wf3 x →
  wf2 (graph_forward m ws x) ∧ rows2 (graph_forward m ws x) = dim0 x ∧
  cols2 (graph_forward m ws x) = output_units m.
Proof.
  intros [Hlen _]. split; [|done]. split; simpl.
  - by rewrite length_fmap.
  - apply Forall_fmap, Forall_forall. intros s _. apply length_resize.
Qed.

#[local] Instance graph_backend : KerasBackend := {|
  weights := variables;
  initial_weights m := Variables (init m) 0;
  train := optimize;
  train_history := optimize_history;
  forward m v := graph_forward m (layers v);
  forward_wf m v := graph_forward_wf m (layers v)
|}.

(** ** The scores of a model built by [build_model] *)

Section built.
Context (hp : hyperparams) (t f nc : nat) (m : keras_model).
Context (Hadm : admissible hp) (Hnc : 0 < nc).
Context (Hm : build_model hp [t; f] nc = Ok m).

Lemma built_model : m = KerasModel (model_graph hp t f nc) (KT 0 [t; f])
                          (KT 20 [nc]) (Adam 0.001) "categorical_crossentropy"
                          ["accuracy"].
Proof. rewrite build_model_graph in Hm by done. by injection Hm. Qed.

(** For weights that fit the layers the scores of a sample are the value
    the graph computes. *)
Lemma sample_scores_values ws s :
  weights_ok (km_graph m) ws → model_values m ws s = Some [sample_scores m ws s].
Proof.
  rewrite built_model. intros Hws. unfold sample_scores, model_values.
  cbn [km_graph km_outputs kt_id] in *.
  destruct (network_values_scores hp t f nc ws s Hnc Hws)
    as (scores & Hscores & Hlen & _).
  rewrite model_graph_values, (model_forward_plain _ t f nc), Hscores by done.
  cbn [mbind option_bind]. by rewrite resize_all_alt.
Qed.

Lemma graph_forward_attention ws ws' x :
  weights_ok (km_graph m) ws → weights_ok (km_graph m) ws' →
  same_off_attention ws ws' →
  graph_forward m ws' x = graph_forward m ws x.
Proof.
  rewrite built_model. intros Hws Hws' Hagree. unfold graph_forward.
  f_equal. apply list_fmap_ext. intros _ s _.
  unfold sample_scores, model_values. cbn [km_graph km_outputs kt_id] in *.
  by rewrite (model_graph_values_ext hp t f nc ws ws').
Qed.

(** With inference by the graph, the labels [predict] returns do not
    depend on the additive attention: on an object that holds a model built
    by [build_model], replacing the weights of the query, key, score and
    weight layers by any others that fit makes [predict] return the same
    labels, or raise the same exception, on every input, whatever the
    number of optimisation steps either set of weights has seen. *)
Lemma predict_ignores_attention (v v' : variables) (X : ndarray2)
    (w : world (L := L)) :
  model (self w) = Some (MkModel m v) →
  weights_ok (km_graph m) (layers v) → weights_ok (km_graph m) (layers v') →
  same_off_attention (layers v) (layers v') →
  (predict X (World (set_model (Some (MkModel m v')) (self w))
                (np_random w))).1
  = (predict X w).1.
Proof.
  intros Hmodel Hws Hws' Hagree.
  apply (predict_with_model X w (@MkModel graph_backend m v)); [done|].
  intros x. unfold model_predict. cbn [compiled model_weights fst].
  change (@forward graph_backend m v' x) with (graph_forward m (layers v') x).
  change (@forward graph_backend m v x) with (graph_forward m (layers v) x).
  by rewrite (graph_forward_attention (layers v) (layers v')).
Qed.

End built.
End graph_backend.

(** ** The example: the default network with two sets of weights *)

(** An optimiser that leaves the weights as they are. *)
Definition idle_optimize (m : keras_model) (ws : variables)
    (d : ndarray3 * ndarray2) (epochs batch_size : nat)
    (v : ndarray3 * ndarray2) : variables * History :=
  let flat := replicate epochs 0%R in (ws, MkHistory flat flat flat flat).

Lemma idle_optimize_history m ws d epochs batch_size v :
  epochs_recorded (idle_optimize m ws d epochs batch_size v).2 epochs.
Proof. unfold epochs_recorded. simpl. by rewrite length_replicate. Qed.

Definition idle_backend : KerasBackend :=
  graph_backend (fun _ => demo_weights) idle_optimize idle_optimize_history.

Definition ones_dense (inputs units : nat) : layer_weights :=
  DenseWeightsOf (DenseWeights
                    (Arr2 inputs units (replicate inputs (replicate units 1%R)))
                    (replicate units 1%R)).

(** [demo_weights] with other weights in the four attention layers. *)
Definition other_weights : list layer_weights :=
  <[11 := ones_dense 64 64]> (<[12 := ones_dense 64 64]>
    (<[14 := ones_dense 128 32]> (<[15 := ones_dense 32 1]> demo_weights))).

Lemma other_weights_ok :
  weights_ok (model_graph default_hyperparams 20 1 2) other_weights.
Proof. repeat constructor. Qed.

Lemma other_weights_agree : same_off_attention demo_weights other_weights.
Proof.
  intros i Hi. unfold other_weights.
  rewrite !list_lookup_insert_ne; [done|..]; intros <-; apply Hi;
    unfold attention_layers; set_solver.
Qed.

(** The object of the usage example holding the model [m] with the
    weights [ws]. *)
Definition holding (m : keras_model) (ws : list layer_weights) :
    @world nat idle_backend :=
  @World nat idle_backend
    (@set_model nat idle_backend
       (Some (@MkModel idle_backend m (Variables ws 0)))
       (@usage_model nat idle_backend))
    demo_rng.

Lemma predict_ignores_attention_witness :
  ∃ m,
    build_model default_hyperparams [20; 1] 2 = Ok m ∧
    (predict demo_X (holding m other_weights)).1
    = (predict demo_X (holding m demo_weights)).1.
Proof.
  pose proof (build_model_graph default_hyperparams 20 1 2
                default_hyperparams_admissible (Nat.lt_0_succ 1)) as Hm.
  eexists. split; [exact Hm|].
  exact (predict_ignores_attention (fun _ => demo_weights) idle_optimize
           idle_optimize_history default_hyperparams 20 1 2 _
           default_hyperparams_admissible (Nat.lt_0_succ 1) Hm
           (Variables demo_weights 0) (Variables other_weights 0) demo_X
           (holding _ demo_weights)
           eq_refl demo_weights_ok other_weights_ok other_weights_agree).
Defined.
