(* ===== verification/TrainingLoop.v ===== *)
(** * TrainingLoop: the epochs and the batches of [Model.fit]

    The training call of [fit] (src/model.py, lines 300-305) as the loop
    Keras runs: [epochs] passes over the training samples, each in a new
    order and cut into batches of [batch_size]; one step of the optimiser
    per batch, which updates the weights and counts in
    [optimizer.iterations]; after each pass the loss and the accuracy of
    the pass and those of the validation data, computed by the graph of
    the model, are appended to the history.

    The update of the weights by a gradient step and the order of the
    samples are supplied by an implementation of the interface
    [Optimizer], which promises that the order is a permutation and that
    the updated weights still fit the layers.  [batches] recurses on a
    list that gets shorter by [batch_size], and is defined by well-founded
    recursion on its length.

    [loop_backend] is the implementation of [KerasBackend] with this loop
    and the forward pass of [GraphBackend]; with it the theorems give the
    number of steps [fit] takes before it returns. *)

From Stdlib Require Import Reals QArith Lra Lia.
From Equations Require Import Equations.
From stdpp Require Import sorting sets.
From S2P Require Import Prelude Numeric SqueezeExcite Labels Keras Network.
From S2P Require Import Forward Inference Preprocess Sampling Backend Metrics.
From S2P Require Import Pipeline Training GraphBackend.

#[local] Set Warnings "-clear-no-such-hyp".
#[local] Open Scope R_scope.
#[local] Open Scope nat_scope.

(** ** Batches *)

(** The slices [l[0:b]], [l[b:2b]], ... of a list; the last one may be
    shorter. *)
Equations batches {A : Type} (batch_size : nat) (l : list A) : list (list A)
  by wf (length l) lt :=
  batches 0 _ := [];
  batches _ [] := [];
  batches (S n) (x :: l) :=
    take (S n) (x :: l) :: batches (S n) (drop (S n) (x :: l)).
Next Obligation. intros. simpl. rewrite length_drop. lia. Qed.

(** A sample with its target. *)
Abbreviation sample := (tensor * list R)%type.

Definition samples (d : ndarray3 * ndarray2) : list sample :=
  zip (data3 d.1) (data2 d.2).

(** ** The interface of the optimiser *)

Class Optimizer : Type := {
  (** the order of the samples in the pass that starts after [seed]
      steps: [fit] shuffles the training data before every epoch *)
  shuffle : nat → list sample → list sample;
  shuffle_perm seed l : shuffle seed l ≡ₚ l;
  (** one step on a batch: the weights after the update, and the loss and
      the accuracy of the batch *)
  train_step : keras_model → list layer_weights → list sample →
               list layer_weights * (R * R);
  train_step_ok m ws b :
    weights_ok (km_graph m) ws → weights_ok (km_graph m) (train_step m ws b).1
}.

(** ** Metrics *)

Definition mean (l : list R) : R := (Rsum l / INR (length l))%R.

(** The mean of the values of the batches, each weighted by the number of
    its samples. *)
Definition weighted_mean (l : list (nat * R)) : R :=
  (Rsum ((fun p => INR p.1 * p.2) <$> l) / INR (sum_list l.*1))%R.

(** [categorical_crossentropy] on the scores of a sample: the scores are
    scaled to sum 1 and kept away from 0 and 1 by [epsilon = 1e-7]. *)
Definition categorical_crossentropy (target scores : list R) : R :=
  let eps := (/ 10 ^ 7)%R in
  let p := (fun x => Rmax eps (Rmin (1 - eps) (x / Rsum scores))) <$> scores in
  (- Rsum (zip_with (fun t q => t * ln q) target p))%R.

(** The metric ['accuracy'] for one-hot targets: whether the largest score
    is at the position of the target. *)
Definition categorical_accuracy (target scores : list R) : R :=
  match argmax target, argmax scores with
  | Ok i, Ok j => if decide (i = j) then 1%R else 0%R
  | _, _ => 0%R
  end.

Section loop.
Context `{LayerValues} `{Optimizer}.

(** The loss and the accuracy on the validation data, in inference mode. *)
Definition test_metrics (m : keras_model) (ws : list layer_weights)
    (val : ndarray3 * ndarray2) : R * R :=
  let scores := data2 (graph_forward m ws val.1) in
  (mean (zip_with categorical_crossentropy (data2 val.2) scores),
   mean (zip_with categorical_accuracy (data2 val.2) scores)).

(** ** The loop *)

(** The step on one batch: the weights are updated, the counter of the
    optimiser advances, and the size and the metrics of the batch are
    logged. *)
Definition train_batch (m : keras_model)
    (st : variables * list (nat * (R * R))) (b : list sample) :
    variables * list (nat * (R * R)) :=
  let r := train_step m (layers st.1) b in
  (Variables r.1 (S (iterations st.1)), st.2 ++ [(length b, r.2)]).

(** One pass over the batches, in their order. *)
Definition train_epoch (m : keras_model) (v : variables)
    (bl : list (list sample)) : variables * list (nat * (R * R)) :=
  foldl (train_batch m) (v, []) bl.

(** The history with the entries of one more epoch. *)
Definition record_epoch (h : History) (logs : list (nat * (R * R)))
    (val_logs : R * R) : History :=
  MkHistory (loss h ++ [weighted_mean ((fun p => (p.1, p.2.1)) <$> logs)])
            (accuracy h ++ [weighted_mean ((fun p => (p.1, p.2.2)) <$> logs)])
            (val_loss h ++ [val_logs.1])
            (val_accuracy h ++ [val_logs.2]).

(** [for epoch in range(epochs)]: the remaining epochs, from the variables
    and the history so far. *)
Fixpoint epochs_loop (m : keras_model) (d : list sample) (batch_size : nat)
    (val : ndarray3 * ndarray2) (epochs : nat) (st : variables * History) :
    variables * History :=
  match epochs with
  | 0 => st
  | S n =>
      let r := train_epoch m st.1
                 (batches batch_size (shuffle (iterations st.1) d)) in
      epochs_loop m d batch_size val n
        (r.1, record_epoch st.2 r.2 (test_metrics m (layers r.1) val))
  end.

Definition training_loop (m : keras_model) (v : variables)
    (d : ndarray3 * ndarray2) (epochs batch_size : nat)
    (val : ndarray3 * ndarray2) : variables * History :=
  epochs_loop m (samples d) batch_size val epochs (v, empty_history).

End loop.

(** ** The batches of a list *)

Lemma ceil_div_step n b :
  0 < n → 0 < b → (n + b - 1) / b = S ((n - b + b - 1) / b).
Proof.
  intros Hn Hb. destruct (le_lt_dec b n).
  - replace (n + b - 1) with (n - b + b - 1 + 1 * b) by lia.
    rewrite Nat.div_add by lia. lia.
  - replace (n - b + b - 1) with (b - 1) by lia.
    replace (n + b - 1) with (n - 1 + 1 * b) by lia.
    rewrite Nat.div_add, !Nat.div_small by lia. lia.
Qed.

(** There are [ceil(n / batch_size)] batches. *)
Lemma batches_length {A} batch_size (l : list A) :
  0 < batch_size →
  length (batches batch_size l) = steps_per_epoch (length l) batch_size.
Proof.
  unfold steps_per_epoch.
  funelim (batches batch_size l); intros Hb; simp batches.
  - lia.
  - cbn [length]. symmetry. apply Nat.div_small. lia.
  - cbn [length]. rewrite H by done.
    rewrite length_drop. by rewrite (ceil_div_step (length (x :: l))) by (simpl; lia).
Qed.

(** The batches are the list, cut. *)
Lemma batches_concat {A} batch_size (l : list A) :
  0 < batch_size → concat (batches batch_size l) = l.
Proof.
  funelim (batches batch_size l); intros Hb; simp batches; [lia|done|].
  cbn [concat]. rewrite H by done. apply take_drop.
Qed.

(** No batch is empty, and none has more than [batch_size] samples. *)
Lemma batches_sizes {A} batch_size (l : list A) :
  Forall (fun b => 0 < length b ≤ batch_size) (batches batch_size l).
Proof.
  funelim (batches batch_size l); simp batches; [done..|].
  constructor; [|done]. rewrite length_take. simpl. lia.
Qed.

(** ** The metrics of the validation data *)

Lemma Rsum_unit_bounds (l : list R) :
  Forall (fun x => 0 <= x <= 1)%R l → (0 <= Rsum l <= INR (length l))%R.
Proof.
  induction 1 as [|x l [Hx0 Hx1] _ [IH0 IH1]]; [simpl; lra|].
  cbn [length]. rewrite S_INR. simpl. lra.
Qed.

(** A mean of values between 0 and 1 lies between 0 and 1. *)
Lemma mean_unit_bounds (l : list R) :
  Forall (fun x => 0 <= x <= 1)%R l → (0 <= mean l <= 1)%R.
Proof.
  intros [Hs0 Hs1]%Rsum_unit_bounds. unfold mean.
  destruct l as [|x l]; [simpl; unfold Rdiv; rewrite Rmult_0_l; lra|].
  assert (0 < INR (length (x :: l)))%R as Hn by (apply lt_0_INR; simpl; lia).
  pose proof (Rinv_0_lt_compat _ Hn) as Hi. unfold Rdiv. split.
  - apply Rmult_le_pos; lra.
  - apply (Rmult_le_reg_r (INR (length (x :: l)))); [done|].
    rewrite Rmult_assoc, Rinv_l by lra. lra.
Qed.

Lemma categorical_accuracy_bounds target scores :
  (0 <= categorical_accuracy target scores <= 1)%R.
Proof.
  unfold categorical_accuracy.
  destruct (argmax target), (argmax scores); try case_decide; lra.
Qed.

Lemma accuracy_mean_bounds targets scores :
  (0 <= mean (zip_with categorical_accuracy targets scores) <= 1)%R.
Proof.
  apply mean_unit_bounds, Forall_forall. intros x Hx.
  apply elem_of_lookup_zip_with in Hx as (? & ? & ? & -> & _).
  apply categorical_accuracy_bounds.
Qed.

(** The prediction is right on a sample whose largest score is strictly
    the largest and is at the position of its one-hot target. *)
Lemma categorical_accuracy_hit n k scores m :
  k < n → scores !! k = Some m →
  (∀ j x, scores !! j = Some x → j ≠ k → (x < m)%R) →
  categorical_accuracy (unit_vector n k) scores = 1%R.
Proof.
  intros Hk Hm Hmax. unfold categorical_accuracy.
  rewrite argmax_unit_vector, (argmax_unique scores k m) by done.
  by rewrite decide_True.
Qed.

Section loop_lemmas.
Context `{LayerValues} `{Optimizer}.

(** ** A pass *)

Lemma train_epoch_fold m bl : ∀ st,
  let r := foldl (train_batch m) st bl in
  iterations r.1 = iterations st.1 + length bl ∧
  r.2.*1 = st.2.*1 ++ (length <$> bl) ∧
  (weights_ok (km_graph m) (layers st.1) →
   weights_ok (km_graph m) (layers r.1)).
Proof.
  induction bl as [|b bl IH]; intros st; cbn [foldl length fmap list_fmap].
  - by rewrite Nat.add_0_r, app_nil_r.
  - destruct (IH (train_batch m st b)) as (Hit & Hlog & Hok).
    rewrite Hit, Hlog. cbn [train_batch fst snd iterations layers].
    split_and!; [lia | by rewrite fmap_app, <- app_assoc |].
    intros Hws. by apply Hok, train_step_ok.
Qed.

(** A pass takes one step per batch. *)
Lemma train_epoch_iterations m v bl :
  iterations (train_epoch m v bl).1 = iterations v + length bl.
Proof. apply (train_epoch_fold m bl (v, [])). Qed.

(** The log of a pass has the sizes of the batches, in their order. *)
Lemma train_epoch_sizes m v bl :
  (train_epoch m v bl).2.*1 = length <$> bl.
Proof. apply (train_epoch_fold m bl (v, [])). Qed.

Lemma train_epoch_ok m v bl :
  weights_ok (km_graph m) (layers v) →
  weights_ok (km_graph m) (layers (train_epoch m v bl).1).
Proof. apply (train_epoch_fold m bl (v, [])). Qed.

(** Every sample is in one batch of the pass. *)
Lemma epoch_sees_every_sample seed batch_size (d : list sample) :
  0 < batch_size → concat (batches batch_size (shuffle seed d)) ≡ₚ d.
Proof. intros. rewrite batches_concat by done. apply shuffle_perm. Qed.

Lemma epoch_steps seed batch_size (d : list sample) :
  0 < batch_size →
  length (batches batch_size (shuffle seed d))
  = steps_per_epoch (length d) batch_size.
Proof.
  intros. by rewrite batches_length, (Permutation_length (shuffle_perm _ _)).
Qed.

(** ** The epochs *)

(** The loop keeps what [I] says of the variables and the history if a
    pass with its validation keeps it. *)
Lemma epochs_loop_ind (I : nat → variables * History → Prop) m d batch_size
    val :
  (∀ n st bl r,
     I n st →
     bl = batches batch_size (shuffle (iterations st.1) d) →
     r = train_epoch m st.1 bl →
     I (S n) (r.1, record_epoch st.2 r.2 (test_metrics m (layers r.1) val))) →
  ∀ epochs n st,
    I n st → I (epochs + n) (epochs_loop m d batch_size val epochs st).
Proof.
  intros Hstep. induction epochs as [|e IH]; intros n st Hst; [done|].
  cbn [epochs_loop]. replace (S e + n) with (e + S n) by lia.
  by eapply IH, Hstep.
Qed.

Lemma epochs_loop_iterations m d batch_size val epochs st :
  0 < batch_size →
  iterations (epochs_loop m d batch_size val epochs st).1
  = iterations st.1 + epochs * steps_per_epoch (length d) batch_size.
Proof.
  intros Hb.
  pose proof (epochs_loop_ind
    (fun n st' => iterations st'.1
                  = iterations st.1
                    + n * steps_per_epoch (length d) batch_size)
    m d batch_size val) as Hind.
  rewrite <- (Nat.add_0_r epochs) at 2. apply Hind; [|simpl; lia].
  intros n st' bl r Hst -> ->. cbn [fst].
  rewrite train_epoch_iterations, epoch_steps, Hst by done. lia.
Qed.

Lemma epochs_loop_history m d batch_size val epochs st n :
  epochs_recorded st.2 n →
  epochs_recorded (epochs_loop m d batch_size val epochs st).2 (epochs + n).
Proof.
  apply (epochs_loop_ind (fun n st' => epochs_recorded st'.2 n)).
  intros k st' bl r (? & ? & ? & ?) _ _. unfold epochs_recorded. simpl.
  rewrite !length_app. simpl. lia.
Qed.

Lemma epochs_loop_ok m d batch_size val epochs st :
  weights_ok (km_graph m) (layers st.1) →
  weights_ok (km_graph m)
    (layers (epochs_loop m d batch_size val epochs st).1).
Proof.
  intros Hst.
  apply (epochs_loop_ind
           (fun _ st' => weights_ok (km_graph m) (layers st'.1))
           m d batch_size val) with (n := 0); [|done].
  intros _ st' bl r Hok _ ->. by apply train_epoch_ok.
Qed.

(** Every validation accuracy the loop records is a fraction. *)
Lemma epochs_loop_val_accuracy m d batch_size val epochs st :
  Forall (fun x => 0 <= x <= 1)%R (val_accuracy st.2) →
  Forall (fun x => 0 <= x <= 1)%R
    (val_accuracy (epochs_loop m d batch_size val epochs st).2).
Proof.
  intros Hst.
  apply (epochs_loop_ind
           (fun _ st' => Forall (fun x => 0 <= x <= 1)%R (val_accuracy st'.2))
           m d batch_size val) with (n := 0); [|done].
  intros _ st' bl r Hacc _ _. cbn [snd record_epoch val_accuracy].
  apply Forall_app. split; [done|].
  apply Forall_singleton, accuracy_mean_bounds.
Qed.

(** ** The training call *)

Lemma training_loop_history m v d epochs batch_size val :
  epochs_recorded (training_loop m v d epochs batch_size val).2 epochs.
Proof.
  rewrite <- (Nat.add_0_r epochs) at 2. by apply epochs_loop_history.
Qed.

Lemma training_loop_iterations m v d epochs batch_size val :
  0 < batch_size →
  iterations (training_loop m v d epochs batch_size val).1
  = iterations v
    + epochs * steps_per_epoch (length (samples d)) batch_size.
Proof. intros. by apply epochs_loop_iterations. Qed.

Lemma training_loop_val_accuracy m v d epochs batch_size val :
  Forall (fun x => 0 <= x <= 1)%R
    (val_accuracy (training_loop m v d epochs batch_size val).2).
Proof. by apply epochs_loop_val_accuracy. Qed.

Lemma training_loop_ok m v d epochs batch_size val :
  weights_ok (km_graph m) (layers v) →
  weights_ok (km_graph m)
    (layers (training_loop m v d epochs batch_size val).1).
Proof. intros. by apply epochs_loop_ok. Qed.

Lemma samples_length x y :
  wf3 x → wf2 y → dim0 x = rows2 y → length (samples (x, y)) = dim0 x.
Proof.
  intros [Hx _] [Hy _] Hxy. unfold samples. cbn [fst snd].
  rewrite length_zip. lia.
Qed.

End loop_lemmas.

(** ** The backend that trains by the loop *)

Section loop_backend.
Context {L : Type} `{EqDecision L}.
Context (le : relation L) `{!RelDecision le}.
Context `{PCASolver} `{RandomOracle} `{LayerValues} `{Optimizer}.
Context (init : keras_model → list layer_weights).

Definition loop_backend : KerasBackend :=
  graph_backend init training_loop training_loop_history.

#[local] Existing Instance loop_backend.

(** What [Model.fit] returns and leaves with this backend is what the loop
    returns, also for no epoch. *)
Lemma loop_outcome (r : variables * History) km v d epochs batch_size val :
  (epochs = 0 → r = (v, empty_history)) →
  (0 < epochs → r = train km v d epochs batch_size val) →
  r = training_loop km v d epochs batch_size val.
Proof.
  destruct epochs; [intros -> _; [done|lia] | intros _ ->; [done|lia]].
Qed.

(** The steps the optimiser of the model has taken; none without a
    model. *)
Definition steps_taken (p : HybridLSTMTransformerModel (L := L)) : nat :=
  from_option (fun m => iterations (model_weights m)) 0 (model p).

(** The weights of the model the object holds, if any, fit its layers. *)
Definition weights_fit (p : HybridLSTMTransformerModel (L := L)) : Prop :=
  ∀ m, model p = Some m →
       weights_ok (km_graph (compiled m)) (layers (model_weights m)).

(** A [fit] with this backend, on a new object or a fitted one. *)
Lemma fit_loop_run X y epochs bs q cb (w : world (L := L)) :
  fit_ready le X y q cb (self w) →
  ∃ A a B b mdl w1,
    let r := training_loop (compiled mdl) (model_weights mdl) (A, a) epochs
               (batch_size_or_default bs) (B, b) in
    fit le X y epochs bs q cb w = (Ok tt, w1) ∧
    model (self w1) = Some (MkModel (compiled mdl) r.1) ∧
    history (self w1) = Some r.2 ∧
    iterations (model_weights mdl) = steps_taken (self w) ∧
    ((∀ km, weights_ok (km_graph km) (init km)) → weights_fit (self w) →
     weights_ok (km_graph (compiled mdl)) (layers (model_weights mdl))) ∧
    ∃ n', length y ≤ n' ∧ (cb = false → n' = length y) ∧
          length (samples (A, a)) = n' - float_ceil_mul q n'.
Proof.
  intros Hready.
  destruct (fit_trained le X y epochs bs q cb w Hready)
    as (A & a & B & b & mdl & r & w1 & Hfit & Hm & Hh & Hkeep & Hnew & Hr0
        & Hr & HA & Ha & HAa & n' & Hn' & Hsame & Hrows).
  rewrite (loop_outcome r _ _ (A, a) epochs _ (B, b) Hr0 Hr) in Hm, Hh.
  exists A, a, B, b, mdl, w1. unfold steps_taken, weights_fit.
  split_and!; [done..| | |].
  - destruct (model (self w)) as [m0|]; [by rewrite (Hkeep m0)|].
    by destruct Hnew as (km & _ & ->).
  - intros Hinit Hfits. destruct (model (self w)) as [m0|] eqn:Hm0.
    + rewrite (Hkeep m0) by done. by apply Hfits.
    + destruct Hnew as (km & _ & ->); [done|]. apply Hinit.
  - exists n'. by rewrite samples_length, Hrows.
Qed.

(** C11: the training of [fit] terminates after a number of steps known in
    advance: [fit] returns with a model whose optimiser has taken [epochs]
    times [ceil(n / batch_size)] steps more than before the call, none
    having been taken on a new object; [batch_size] is the argument, or 32
    if the argument is zero, and [n] is the number of training rows the
    split leaves of the rows after balancing, which are the rows of the
    data without balancing and at least as many with it.  Weights that fit
    the layers still fit them, and the history has one entry per epoch. *)
Theorem fit_runs_every_step X y epochs bs q cb (w : world (L := L)) :
  fit_ready le X y q cb (self w) →
  (∀ km, weights_ok (km_graph km) (init km)) → weights_fit (self w) →
  ∃ w1 km v h n',
    fit le X y epochs bs q cb w = (Ok tt, w1) ∧
    model (self w1) = Some (MkModel km v) ∧
    history (self w1) = Some h ∧
    length y ≤ n' ∧ (cb = false → n' = length y) ∧
    iterations v
    = steps_taken (self w)
      + epochs * steps_per_epoch (n' - float_ceil_mul q n')
                   (batch_size_or_default bs) ∧
    weights_ok (km_graph km) (layers v) ∧
    epochs_recorded h epochs.
Proof.
  intros Hready Hinit Hfits.
  destruct (fit_loop_run X y epochs bs q cb w Hready)
    as (A & a & B & b & mdl & w1 & Hfit & Hm & Hh & Hsteps & Hok & n' & Hn'
        & Hsame & Hrows).
  eexists w1, _, _, _, n'. split_and!; [done..| | |].
  - rewrite training_loop_iterations by apply batch_size_or_default_pos.
    by rewrite Hrows, Hsteps.
  - by apply training_loop_ok, Hok.
  - apply training_loop_history.
Qed.

(** C37: the validation accuracies that [fit] records, and that
    [plot_training_history] draws as the second curve of the accuracy
    axes, are fractions: after a [fit] of at least one epoch the plot
    succeeds and every point of that curve lies between 0 and 1. *)
Theorem fit_validation_accuracy_bounds X y epochs bs q cb
    (w : world (L := L)) :
  fit_ready le X y q cb (self w) → 0 < epochs →
  ∃ w1 acc los train_curve val_curve,
    fit le X y epochs bs q cb w = (Ok tt, w1) ∧
    plot_training_history w1 = (Ok (Figure (15, 5) true (acc, los)), w1) ∧
    ax_lines acc = [train_curve; val_curve] ∧
    length val_curve = epochs ∧
    Forall (fun x => 0 <= x <= 1)%R val_curve.
Proof.
  intros Hready Hpos.
  destruct (fit_loop_run X y epochs bs q cb w Hready)
    as (A & a & B & b & mdl & w1 & Hfit & _ & Hh & _).
  pose proof (training_loop_history (compiled mdl) (model_weights mdl) (A, a)
                epochs (batch_size_or_default bs) (B, b)) as He.
  destruct (plot_training_history_run w1 _ epochs Hh He Hpos)
    as (acc & los & Hplot & _ & _ & Hl & _).
  eexists w1, acc, los, _, _. split_and!; [done | done | exact Hl | |].
  - by destruct He as (_ & _ & _ & ?).
  - apply training_loop_val_accuracy.
Qed.

(** Whatever its outcome, the training call keeps the graph of the model
    and leaves weights that fit its layers. *)
Lemma model_fit_fits x y epochs batch_size vx vy (mdl : Model) :
  weights_ok (km_graph (compiled mdl)) (layers (model_weights mdl)) →
  let m' := (model_fit x y epochs batch_size vx vy mdl).2 in
  compiled m' = compiled mdl ∧
  weights_ok (km_graph (compiled m')) (layers (model_weights m')).
Proof.
  intros Hok. unfold model_fit. destruct (check_cardinality x y); [|done].
  case_decide; [done|]. destruct (_ ≫= _); [|done].
  split; [done|]. by apply training_loop_ok.
Qed.

End loop_backend.

(** ** The example *)

Lemma rotate_perm {A} n (l : list A) : rotate n l ≡ₚ l.
Proof. unfold rotate. by rewrite Permutation_app_comm, take_drop. Qed.

(** A reference optimiser: every pass starts at the sample numbered by the
    steps taken so far, and a step leaves the weights as they are. *)
#[export] Instance rotating_optimizer : Optimizer := {|
  shuffle := rotate;
  shuffle_perm := rotate_perm;
  train_step _ ws _ := (ws, (0%R, 0%R));
  train_step_ok _ _ _ Hws := Hws
|}.

Lemma batches_witness :
  batches 2 [1; 2; 3; 4; 5] = [[1; 2]; [3; 4]; [5]] ∧
  batches 5 [1; 2; 3; 4; 5] = [[1; 2; 3; 4; 5]] ∧
  batches 0 [1; 2; 3] = [] ∧ batches 2 ([] : list nat) = [].
Proof. by simp batches. Qed.

(** Reference initial weights, for any graph: zeros in the kernels, which
    have a row per feature of the input of their layer, and in the biases;
    scale one and offset zero in the normalisations. *)
Definition default_layer_weights (g : graph) (n : node) : layer_weights :=
  match node_layer n with
  | Dense units _ =>
      zeros_dense
        (from_option (fun src => width (node_shape src)) 0
           (head (node_inputs n) ≫= (g !!.)))
        units
  | LayerNormalization _ => unit_norm (width (node_shape n))
  | LSTM _ _ | MultiHeadAttention _ _ => CellWeights []
  | _ => NoWeights
  end.

Definition default_weights (m : keras_model) : list layer_weights :=
  default_layer_weights (km_graph m) <$> km_graph m.

Lemma default_weights_ok m : weights_ok (km_graph m) (default_weights m).
Proof.
  unfold weights_ok, default_weights. apply Forall2_fmap_r, Forall_Forall2_diag.
  apply Forall_forall. intros [l ins s] _. unfold default_layer_weights.
  destruct l; simpl; by rewrite ?length_replicate.
Qed.

(** The object of the example with the loop as its backend. *)
Definition loop_demo_backend : KerasBackend := loop_backend default_weights.

Definition loop_demo_world : @world nat loop_demo_backend :=
  @World nat loop_demo_backend
    (@__init__ nat loop_demo_backend 2 64 4 128 0.2 42) demo_rng.

Lemma loop_demo_fit_ready cb :
  @fit_ready nat _ Nat.le _ _ loop_demo_backend demo_X demo_y 0.2 cb
    (self loop_demo_world).
Proof.
  unfold fit_ready, data_ready.
  split_and!; [exact demo_X_wf | done | simpl; lia | intros _; vm_compute; lia
              | done | done | exact demo_room | simpl; lia
              | exact default_hyperparams_admissible | by left].
Defined.

Lemma fit_runs_every_step_witness :
  ∃ w1 km v h,
    @fit nat _ Nat.le _ _ _ loop_demo_backend demo_X demo_y 50 3 0.2 false
      loop_demo_world = (Ok tt, w1) ∧
    model (self w1) = Some (@MkModel loop_demo_backend km v) ∧
    history (self w1) = Some h ∧
    iterations v = 100 ∧
    weights_ok (km_graph km) (layers v) ∧ epochs_recorded h 50.
Proof.
  destruct (fit_runs_every_step Nat.le default_weights demo_X demo_y
              50 3 0.2 false loop_demo_world (loop_demo_fit_ready false)
              default_weights_ok ltac:(by intros m))
    as (w1 & km & v & h & n' & Hfit & Hm & Hh & _ & Hn' & Hit & Hok & He).
  exists w1, km, v, h. rewrite (Hn' eq_refl) in Hit.
  split_and!; [exact Hfit | exact Hm | exact Hh | exact Hit | exact Hok
              | exact He].
Defined.

Lemma fit_validation_accuracy_bounds_witness :
  ∃ w1 acc los train_curve val_curve,
    @fit nat _ Nat.le _ _ _ loop_demo_backend demo_X demo_y 50 3 0.2 true
      loop_demo_world = (Ok tt, w1) ∧
    plot_training_history w1 = (Ok (Figure (15, 5) true (acc, los)), w1) ∧
    ax_lines acc = [train_curve; val_curve] ∧
    length val_curve = 50 ∧
    Forall (fun x => 0 <= x <= 1)%R val_curve.
Proof.
  apply (fit_validation_accuracy_bounds Nat.le default_weights demo_X
           demo_y 50 3 0.2 true loop_demo_world (loop_demo_fit_ready true));
    lia.
Defined.
