(* ===== verification/TrainedModel.v ===== *)
(** * TrainedModel: the model in every state the object reaches

    With the training loop of [TrainingLoop] and inference by the graph,
    the model the object holds is, after any sequence of calls of its
    methods, one that [build_model] (src/model.py, lines 183-228) returns
    for the hyper-parameters of the object, with weights that fit its
    layers: [fit] (lines 292-305) builds it once and every later training
    call, finished or failed, keeps its graph and the kinds and widths of
    its weights.  The result on the additive attention therefore holds of
    every model the pipeline can come to hold: [predict] (lines 309-347)
    returns the same labels whatever the attention layers have learned. *)

From Stdlib Require Import Reals QArith Lia.
From stdpp Require Import sorting sets.
From S2P Require Import Prelude Numeric SqueezeExcite Labels Keras Network.
From S2P Require Import Forward Inference Preprocess Sampling Backend Metrics.
From S2P Require Import Pipeline Training Invariants GraphBackend TrainingLoop.

#[local] Set Warnings "-clear-no-such-hyp".

Section trained_model.
Context {L : Type} `{EqDecision L}.
Context (le : relation L) `{!RelDecision le}.
Context `{PCASolver} `{RandomOracle} `{LayerValues} `{Optimizer}.
Context (init : keras_model → list layer_weights).
Context (init_ok : ∀ km, weights_ok (km_graph km) (init km)).

#[local] Existing Instance loop_backend.
#[local] Abbreviation Self :=
  (HybridLSTMTransformerModel (L := L) (H1 := loop_backend init)).
#[local] Abbreviation W := (world (L := L) (H1 := loop_backend init)).
#[local] Abbreviation Mdl := (@Model (loop_backend init)).

(** The model the object holds, if any, is one [build_model] returns for
    the hyper-parameters of the object, and its weights fit its layers. *)
Definition built (p : Self) : Prop :=
  ∀ m : Mdl, model p = Some m →
       (∃ t f nc, build_model (params p) [t; f] nc = Ok (compiled m)) ∧
       weights_ok (km_graph (compiled m)) (layers (model_weights m)).

Lemma built_init n_components lstm_units num_heads ff_dim dropout_rate
    random_state :
  built (__init__ n_components lstm_units num_heads ff_dim dropout_rate
           random_state).
Proof. by intros m. Qed.

Lemma built_set_model (p : Self) (m : Mdl) :
  (∃ t f nc, build_model (params p) [t; f] nc = Ok (compiled m)) →
  weights_ok (km_graph (compiled m)) (layers (model_weights m)) →
  built (set_model (Some m) p).
Proof. intros Hm Hok m' [= <-]. by destruct p. Qed.

(** The training call keeps [built], whether it returns or raises. *)
Lemma on_model_fit_built A a epochs bs B b (p : Self) :
  built p →
  built (on_model "fit" (model_fit A a epochs bs B b) p).2.
Proof.
  intros Hp. unfold on_model. destruct (model p) as [m|] eqn:Hm; [|done].
  destruct (Hp m Hm) as [Hb Hok]. cbn [snd].
  destruct (model_fit_fits init A a epochs bs B b m Hok) as [Hc Hok'].
  apply built_set_model; [by rewrite Hc | done].
Qed.

Lemma fit_model_built A B nc a b epochs bs :
  hoare (fun p : Self => built p ∧ is_Some (pca p))
    (fit_model A B nc a b epochs bs) (fun _ => built) built.
Proof.
  intros p [Hp _].
  assert (∀ p' : Self, built p' →
            match (h ← on_model "fit" (model_fit A a epochs bs B b);
                   modify (set_history (Some h))) p' with
            | (_, p'') => built p''
            end) as Htrain.
  { intros p' Hp'.
    pose proof (on_model_fit_built A a epochs bs B b p' Hp') as Hb.
    unfold mbind, stateE_bind.
    destruct (on_model _ _ p') as [[h|e] p'']; [|done].
    intros m Hm. apply Hb. by destruct p''. }
  unfold fit_model, mbind at 1 2, stateE_bind at 1 2, get. cbn beta iota.
  destruct (model p) as [m|] eqn:Hm.
  - specialize (Htrain p Hp). cbn [mret stateE_ret].
    by destruct ((on_model _ _ ≫= _) p) as [[?|?] ?].
  - unfold lift_result, mbind at 1, stateE_bind at 1.
    destruct (build_model _ _ _) as [km|e] eqn:Hkm; [|done]. cbn [put].
    assert (built (set_model (Some (Model_new km)) p)) as Hnew.
    { apply built_set_model; [by eexists _, _, _ | apply init_ok]. }
    specialize (Htrain _ Hnew).
    by destruct ((on_model _ _ ≫= _) (set_model _ p)) as [[?|?] ?].
Qed.

Lemma after_built c (w : W) : built (self w) → built (self (after le c w)).
Proof.
  apply after_frames; try (by intros ? [] ?).
  intros. apply fit_model_built.
Qed.

Lemma reachable_built hp (w : W) : reachable le hp w → built (self w).
Proof.
  induction 1 as [g|w c _ IH]; [apply built_init | by apply after_built].
Qed.

Lemma reachable_params hp (w : W) : reachable le hp w → params (self w) = hp.
Proof.
  intros Hr. enough (consistent hp (self w)) as [? _] by done.
  induction Hr; [apply consistent_init | by apply after_consistent].
Qed.

(** C4: whatever calls were made on the object, finished or failed, a
    model it holds is one that [build_model] returns for the
    hyper-parameters given to the constructor, which are therefore
    admissible, for some input shape and some positive number of classes;
    and its weights fit its layers, so that its forward pass is defined.
    No training call, and no exception in one, leaves a model of another
    architecture or weights of other kinds or widths. *)
Theorem reachable_model_built hp (w : W) (m : Mdl) :
  reachable le hp w → model (self w) = Some m →
  admissible hp ∧
  (∃ t f nc, 0 < nc ∧ build_model hp [t; f] nc = Ok (compiled m)) ∧
  weights_ok (km_graph (compiled m)) (layers (model_weights m)).
Proof.
  intros Hr Hm. destruct (reachable_built hp w Hr m Hm) as [(t & f & nc & Hb) Hok].
  rewrite (reachable_params hp w Hr) in Hb.
  destruct (build_model_requires _ _ _ _ Hb) as [Hadm Hnc].
  split_and!; [done | by exists t, f, nc | done].
Qed.

(** C7: no model the pipeline comes to hold uses what its attention
    layers have learned: in every state the object reaches, replacing the
    weights of the query, key, score and weight layers of the stored
    model by any others that fit leaves the labels [predict] returns, or
    the exception it raises, as they are, on every input. *)
Theorem reachable_predict_ignores_attention hp (w : W) km
    (v v' : variables) X :
  reachable le hp w →
  model (self w) = Some (@MkModel (loop_backend init) km v) →
  weights_ok (km_graph km) (layers v') →
  same_off_attention (layers v) (layers v') →
  (predict X (World (set_model (Some (@MkModel (loop_backend init) km v'))
                       (self w)) (np_random w))).1
  = (predict X w).1.
Proof.
  intros Hr Hm Hv' Hagree.
  destruct (reachable_built hp w Hr _ Hm) as [(t & f & nc & Hb) Hok].
  destruct (build_model_requires _ _ _ _ Hb) as [Hadm Hnc].
  by apply (predict_ignores_attention init training_loop training_loop_history
              _ t f nc km Hadm Hnc Hb v v').
Qed.

End trained_model.

(** ** The example *)

Lemma loop_demo_reachable epochs bs q cb (w1 : @world nat loop_demo_backend) :
  fit Nat.le demo_X demo_y epochs bs q cb loop_demo_world = (Ok tt, w1) →
  reachable Nat.le (params (self loop_demo_world)) w1.
Proof.
  intros Hfit.
  assert (reachable Nat.le (params (self loop_demo_world)) loop_demo_world)
    as Hr by exact (reachable_init Nat.le (params (self loop_demo_world))
                      demo_rng).
  apply (reachable_call _ _ _ (CallFit demo_X demo_y epochs bs q cb)) in Hr.
  by rewrite after_fit, Hfit in Hr.
Defined.

Lemma reachable_model_built_witness :
  ∃ (w1 : @world nat loop_demo_backend) m,
    model (self w1) = Some m ∧
    admissible (params (self loop_demo_world)) ∧
    (∃ t f nc, 0 < nc ∧
       build_model (params (self loop_demo_world)) [t; f] nc
       = Ok (compiled m)) ∧
    weights_ok (km_graph (compiled m)) (layers (model_weights m)).
Proof.
  destruct (fit_loop_run Nat.le default_weights demo_X demo_y 50 3 0.2 true
              loop_demo_world (loop_demo_fit_ready true))
    as (A & a & B & b & mdl & w1 & Hfit & Hm & _).
  exists w1. eexists. split; [exact Hm|].
  apply (reachable_model_built Nat.le default_weights default_weights_ok
           (params (self loop_demo_world)) w1 _);
    [exact (loop_demo_reachable _ _ _ _ _ Hfit) | exact Hm].
Defined.

Lemma reachable_predict_ignores_attention_witness :
  ∃ (w1 : @world nat loop_demo_backend) km v,
    model (self w1) = Some (@MkModel loop_demo_backend km v) ∧
    ∀ v' X,
      weights_ok (km_graph km) (layers v') →
      same_off_attention (layers v) (layers v') →
      (predict X (World (set_model (Some (@MkModel loop_demo_backend km v'))
                           (self w1)) (np_random w1))).1
      = (predict X w1).1.
Proof.
  destruct (fit_loop_run Nat.le default_weights demo_X demo_y 50 3 0.2 true
              loop_demo_world (loop_demo_fit_ready true))
    as (A & a & B & b & mdl & w1 & Hfit & Hm & _).
  exists w1. eexists _, _. split; [exact Hm|]. intros v' X.
  apply (reachable_predict_ignores_attention Nat.le default_weights
           default_weights_ok (params (self loop_demo_world)) w1);
    [exact (loop_demo_reachable _ _ _ _ _ Hfit) | exact Hm].
Defined.
